(** * Automated sales-bill generator: tax calculator, fractional-sale policy,
      bill composer and day scheduler.

    The development embeds the JavaScript sources of the repository:
    [src/unnamed/part_001] (the composer that commits the stock itself and
    the scheduler that stops the run after a day without progress) and
    [src/unnamed/part_002] (the strict fractional-sale policy, the composer
    that reports a [tempUsedMap], and the day loop of the scheduler that
    commits it).  [calculateItemTotal], the validation, the safe-landing
    test and [formatResult] are the same code in every variant.  Further
    on come [buildStockMap], the purchaser names, the UPI run and the rows
    of the bill sheet of part_002, the composer with the sniper fill of
    [src/unnamed/part_000], and the first composer of [src/index.js] with
    its two runs.

    Numbers.  A JavaScript number is modelled by an exact rational [Q]; the
    binary rounding of IEEE doubles, overflow and the sign of zero are not
    modelled there.  [NaN] and [undefined] are modelled in
    [calculateItemTotal], where the code guards against them with [x || 0].
    The rows of a stock map carry finite numbers, as [buildStockMap] produces
    them from rows whose numeric columns are all present.  On exact
    rationals [toFixed(2)] rounds a value that ends in half a cent away from
    zero and a sum of line totals is a number of cents; the code rounds the
    double it holds.  Module [Double] embeds the tax calculator and the
    composer of part_001 a second time, on binary64 numbers, and the
    statements that turn on that difference are made there.

    Randomness.  [Math.random()] is an oracle [random : nat -> Q]; the n-th
    call returns [random n] and the call counter is threaded through the
    code.

    Control.  [await waitFrame()] and the updates of the page only pace the
    computation and are left out; [console] messages and the list of
    skipped days are one log.  A [while] loop is a function of the number of
    iterations it may run, its fuel; that the loops of a day end, and within
    how many iterations, is proved further down. *)

From Stdlib Require Import ZArith QArith Qround Qabs Qminmax Lqa Lia Sorted.
From Stdlib Require SpecFloat.
From stdpp Require Import base list strings.

Local Open Scope Q_scope.

(* ------------------------------------------------------------------ *)
(** ** JavaScript number helpers *)
(* ------------------------------------------------------------------ *)

Definition Qlt_bool (x y : Q) : bool := negb (Qle_bool y x).

(** The multiple of [1/s] nearest to [x]; of two equally near ones the one
    larger in magnitude. *)
Definition roundTo (s : positive) (x : Q) : Q :=
  let n := Qfloor (Qabs x * inject_Z (Zpos s) + (1 # 2)) in
  if Qlt_bool x 0 then - (n # s) else n # s.

(** [x.toFixed(d)] read back as a number ([+s] or [parseFloat(s)]). *)
Definition toFixed (d : nat) (x : Q) : Q :=
  roundTo (Z.to_pos (10 ^ Z.of_nat d)) x.

(** [x % 1 !== 0] *)
Definition hasFraction (x : Q) : bool := negb (Qeq_bool (inject_Z (Qfloor x)) x).

(** A number that may be [NaN], and an argument that may be absent. *)
Inductive number : Type :=
| NaN
| Num (q : Q).

Inductive value : Type :=
| Undefined
| Val (n : number).

Definition number_eq (a b : number) : Prop :=
  match a, b with
  | NaN, NaN => True
  | Num x, Num y => x == y
  | _, _ => False
  end.

Infix "=n=" := number_eq (at level 70, no associativity).

(** [ToNumber]: [undefined] becomes [NaN]. *)
Definition toNumber (v : value) : number :=
  match v with
  | Undefined => NaN
  | Val n => n
  end.

(** [v || 0]: [undefined], [NaN] and [0] are falsy. *)
Definition orZero (v : value) : number :=
  match v with
  | Undefined => Num 0
  | Val NaN => Num 0
  | Val (Num q) => if Qeq_bool q 0 then Num 0 else Num q
  end.

Definition nmul (a b : number) : number :=
  match a, b with
  | Num x, Num y => Num (x * y)
  | _, _ => NaN
  end.

Definition nadd (a b : number) : number :=
  match a, b with
  | Num x, Num y => Num (x + y)
  | _, _ => NaN
  end.

Definition ndiv100 (a : number) : number :=
  match a with
  | Num x => Num (x / 100)
  | NaN => NaN
  end.

(** [+(n).toFixed(2)]; ["NaN"] reads back as [NaN]. *)
Definition ntoFixed2 (a : number) : number :=
  match a with
  | Num x => Num (toFixed 2 x)
  | NaN => NaN
  end.

(* ------------------------------------------------------------------ *)
(** ** Tax calculator *)
(* ------------------------------------------------------------------ *)

(** [calculateItemTotal(price, qty, gstPercent, cessPercent, mrp)] with
    arguments that may be absent or [NaN]. *)
Definition calculateItemTotal (price qty gstPercent cessPercent mrp : value) : number :=
  let base := nmul (toNumber price) (toNumber qty) in
  let gstTax := ndiv100 (nmul base (toNumber gstPercent)) in
  let cessTax := ndiv100 (nmul (nmul (orZero mrp) (toNumber qty)) (orZero cessPercent)) in
  ntoFixed2 (nadd (nadd base gstTax) cessTax).

(** The same body on finite numbers, as the composer calls it. *)
Definition lineTotal (price qty gstPercent cessPercent mrp : Q) : Q :=
  let base := price * qty in
  let gstTax := (base * gstPercent) / 100 in
  let cessTax := (mrp * qty * cessPercent) / 100 in
  toFixed 2 (base + gstTax + cessTax).

Definition fin (q : Q) : value := Val (Num q).

(* ------------------------------------------------------------------ *)
(** ** Data model *)
(* ------------------------------------------------------------------ *)

(** A row of the stock map.  [originalIsFloat] is stored by the
    [buildStockMap] of part_002 only. *)
Record Item : Type := mkItem {
  ItemDetails : string;
  Price : Q;
  GST_PERCENT : Q;
  CESS : Q;
  MRP : Q;
  remainingQty : Q;
  singleUnitCost : Q;
  originalIsFloat : bool
}.

(** The stock map: a JavaScript [Map] from item name to row, kept in
    insertion order; its keys are pairwise distinct. *)
Definition StockMap : Type := list Item.

Definition keys (m : StockMap) : list string := map ItemDetails m.

Definition stockGet (m : StockMap) (key : string) : option Item :=
  List.find (fun it => String.eqb (ItemDetails it) key) m.

Definition setRemainingQty (it : Item) (q : Q) : Item :=
  mkItem (ItemDetails it) (Price it) (GST_PERCENT it) (CESS it) (MRP it) q
         (singleUnitCost it) (originalIsFloat it).

(** [stockMap.get(key).remainingQty = f(stockMap.get(key).remainingQty)] *)
Definition updateRemaining (key : string) (f : Q -> Q) (m : StockMap) : StockMap :=
  map (fun it => if String.eqb (ItemDetails it) key
                 then setRemainingQty it (f (remainingQty it)) else it) m.

(** The scratch map [tempUsed] of one attempt, in insertion order. *)
Definition UsedMap : Type := list (string * Q).

Fixpoint usedGet (m : UsedMap) (key : string) : option Q :=
  match m with
  | [] => None
  | (k, v) :: m' => if String.eqb k key then Some v else usedGet m' key
  end.

Fixpoint usedSet (m : UsedMap) (key : string) (v : Q) : UsedMap :=
  match m with
  | [] => [(key, v)]
  | (k, w) :: m' => if String.eqb k key then (k, v) :: m' else (k, w) :: usedSet m' key v
  end.

(** One pushed element of [currentBill]. *)
Record Entry : Type := mkEntry {
  item : Item;
  qty : Q;
  cost : Q
}.

(** The local variables of one attempt. *)
Record Attempt : Type := mkAttempt {
  currentBill : list Entry;
  currentTotal : Q;
  pickedCount : nat;
  tempUsed : UsedMap
}.

Definition emptyAttempt : Attempt := mkAttempt [] 0 0%nat [].

(** A line of a formatted bill. *)
Record BillLine : Type := mkBillLine {
  name : string;
  lineQty : Q;
  unitPrice : Q;
  gstPercent : Q;
  cessPercent : Q;
  mrp : Q;
  cessTaxAmount : Q;
  itemTotal : Q;
  date : string
}.

(** The object returned by [generateBillFromMap]. *)
Record Bill : Type := mkBill {
  items : list BillLine;
  total : Q;
  targetAmount : option Q;
  success : bool;
  reason : option string;
  tempUsedMap : option UsedMap
}.

Record Tier : Type := mkTier {
  count : nat;
  attempts : Z
}.

Definition baseAttempts : list Tier :=
  [mkTier 4 50; mkTier 3 50; mkTier 2 100; mkTier 1 20].

(* ------------------------------------------------------------------ *)
(** ** Shared utility functions *)
(* ------------------------------------------------------------------ *)

Definition getItemBillTotal (it : Item) (q : Q) : Q :=
  lineTotal (Price it) q (GST_PERCENT it) (CESS it) (MRP it).

(** [array.sort(cmp)] is stable: an insertion sort that puts [x] in front
    of the first later element [y] with [before x y]. *)
Fixpoint insertSorted (before : Item -> Item -> bool) (x : Item) (l : list Item) : list Item :=
  match l with
  | [] => [x]
  | y :: l' => if before x y then x :: y :: l' else y :: insertSorted before x l'
  end.

Definition sortItems (before : Item -> Item -> bool) (l : list Item) : list Item :=
  foldr (insertSorted before) [] l.

(** [(a, b) => a.singleUnitCost - b.singleUnitCost] *)
Definition cheapFirst (a b : Item) : bool := Qle_bool (singleUnitCost a) (singleUnitCost b).
(** [(a, b) => b.singleUnitCost - a.singleUnitCost] *)
Definition expensiveFirst (a b : Item) : bool := Qle_bool (singleUnitCost b) (singleUnitCost a).

(** [[array[i], array[j]] = [array[j], array[i]]].  [shuffleArray] calls it
    with [j = Math.floor(Math.random() * (i + 1))], which lies inside the
    array because [Math.random() < 1]; for an index outside the array, which
    the code never produces, the model leaves the array as it is. *)
Definition swap (a : list Item) (i j : nat) : list Item :=
  match a !! i, a !! j with
  | Some x, Some y => <[i := y]> (<[j := x]> a)
  | _, _ => a
  end.

Definition formatLine (d : string) (e : Entry) : BillLine :=
  let it := item e in
  mkBillLine (ItemDetails it) (qty e) (Price it) (GST_PERCENT it) (CESS it) (MRP it)
             ((MRP it * qty e * CESS it) / 100) (cost e) d.

Definition formatResult (billArray : list Entry) (tot target : Q) (d : string) : Bill :=
  mkBill (map (formatLine d) billArray) (toFixed 2 tot) (Some target) true None None.

Definition failure (why : option string) : Bill :=
  mkBill [] 0 None false why None.

(** The commit of part_001: for every entry, in order,
    [realItem.remainingQty = parseFloat((realItem.remainingQty - entry.qty).toFixed(3))]. *)
Definition commitBill (bill : list Entry) (m : StockMap) : StockMap :=
  fold_left (fun m e => updateRemaining (ItemDetails (item e))
                                        (fun r => toFixed 3 (r - qty e)) m) bill m.

(** [effortMultiplier], from the three thresholds and factors of a variant. *)
Definition effortMultiplier (t1 t2 t3 : nat) (f1 f2 f3 : Q) (currentFailures : nat) : Q :=
  let e := 1 in
  let e := if (t1 <? currentFailures)%nat then f1 else e in
  let e := if (t2 <? currentFailures)%nat then f2 else e in
  let e := if (t3 <? currentFailures)%nat then f3 else e in
  e.

(** [Math.max(1, Math.floor(tier.attempts * effortMultiplier))] *)
Definition maxAttemptsOf (t : Tier) (effort : Q) : nat :=
  Z.to_nat (Z.max 1 (Qfloor (inject_Z (attempts t) * effort))).

(** Validation: the acceptance rule of the mode and the tier's minimum. *)
Definition isValid (mode : string) (targetMin targetMax margin : Q) (minItems : nat)
           (a : Attempt) : bool :=
  let tolerance := if String.eqb mode "EXACT" then margin else 0 in
  if String.eqb mode "RANGE" then
    Qle_bool targetMin (currentTotal a) && Qle_bool (currentTotal a) targetMax
    && (minItems <=? pickedCount a)%nat
  else
    Qle_bool (Qabs (targetMax - currentTotal a)) tolerance
    && (minItems <=? pickedCount a)%nat.

(** Safe landing. *)
Definition safeLanding (dayTotalRemaining margin : Q) (a : Attempt) : bool :=
  let futureDayRemaining := dayTotalRemaining - currentTotal a in
  Qle_bool futureDayRemaining margin || Qlt_bool 50 futureDayRemaining.

(* ------------------------------------------------------------------ *)
(** ** The item picker of one attempt *)
(* ------------------------------------------------------------------ *)

(** The item picker is the same loop in part_001 and part_002 up to three
    places, which are the parameters of this section:
    - [bigFirst attempt]: the attempts that walk the expensive-first list
      ([attempt === 0] in part_001, [attempt === 0 || attempt === 2] in
      part_002);
    - [canFloat item roomLeft]: the fractional-sale policy of the variant;
    - [strictFit]: whether the loop has the line
      [if (!allowFloat && item.singleUnitCost > roomLeft) continue;]
      (part_002 only). *)
Section Picker.

Variable random : nat -> Q.
Variable bigFirst : nat -> bool.
Variable canFloat : Item -> Q -> bool.
Variable strictFit : bool.

(** [shuffleArray]: [for (let i = array.length - 1; i > 0; i--)]. *)
Fixpoint shuffleFrom (i : nat) (a : list Item) (k : nat) : list Item * nat :=
  match i with
  | O => (a, k)
  | S i' =>
      let j := Z.to_nat (Qfloor (random k * inject_Z (Z.of_nat i + 1))) in
      shuffleFrom i' (swap a i j) (S k)
  end.

Definition shuffleArray (a : list Item) (k : nat) : list Item * nat :=
  shuffleFrom (length a - 1) a k.

Definition getRem (used : UsedMap) (i : Item) : Q :=
  let u := default 0 (usedGet used (ItemDetails i)) in
  Qmax 0 (remainingQty i - u).

(** [Math.min(actualRemaining, roomLeft / item.singleUnitCost)]; the
    picker only gets here with [roomLeft >= 1], so a zero unit cost makes
    the quotient [Infinity] and the minimum [actualRemaining]. *)
Definition absMaxOf (it : Item) (actualRemaining roomLeft : Q) : Q :=
  if Qeq_bool (singleUnitCost it) 0 then actualRemaining
  else Qmin actualRemaining (roomLeft / singleUnitCost it).

(** The quantity chosen for one item; [None] stands for [continue]. *)
Definition chooseQty (attempt minItems : nat) (it : Item)
           (actualRemaining roomLeft : Q) (picked k : nat) : option Q * nat :=
  let allowFloat := canFloat it roomLeft in
  if strictFit && negb allowFloat && Qlt_bool roomLeft (singleUnitCost it) then (None, k)
  else
    let absMax := absMaxOf it actualRemaining roomLeft in
    if allowFloat then
      if Qlt_bool absMax (1 # 100) then (None, k)
      else
        let '(factor, k1) :=
          if bigFirst attempt then (9 # 10, k)
          else (random k * (8 # 10) + (2 # 10), S k) in
        let q := toFixed 2 (absMax * factor) in
        let q := if (picked <? minItems)%nat && Qlt_bool (absMax / 2) q
                 then toFixed 2 (absMax / 2) else q in
        (Some q, k1)
    else
      let intMax := Qfloor absMax in
      if (intMax <? 1)%Z then (None, k)
      else
        let intMax := if (picked <? minItems)%nat then Z.min intMax 2 else intMax in
        (Some (inject_Z (Qfloor (random k * inject_Z intMax) + 1)), S k).

Definition pushEntry (a : Attempt) (it : Item) (q : Q) : Attempt :=
  let c := getItemBillTotal it q in
  mkAttempt (currentBill a ++ [mkEntry it q c])
            (currentTotal a + c)
            (S (pickedCount a))
            (usedSet (tempUsed a) (ItemDetails it)
                     (default 0 (usedGet (tempUsed a) (ItemDetails it)) + q)).

(** [for (const item of selectionPool) { ... }] *)
Fixpoint pickItems (attempt minItems : nat) (targetMin targetMax : Q)
         (pool : list Item) (a : Attempt) (k : nat) : Attempt * nat :=
  match pool with
  | [] => (a, k)
  | it :: rest =>
      let done := Qle_bool targetMin (currentTotal a)
                  && (minItems <=? pickedCount a)%nat in
      let '(stop, k0) :=
        if done then
          if bigFirst attempt then (true, k)
          else (Qlt_bool (1 # 2) (random k), S k)
        else (false, k) in
      if stop then (a, k0)
      else
        let actualRemaining := getRem (tempUsed a) it in
        if Qle_bool actualRemaining (1 # 1000)
        then pickItems attempt minItems targetMin targetMax rest a k0
        else
          let roomLeft := targetMax - currentTotal a in
          if Qlt_bool roomLeft 1
          then pickItems attempt minItems targetMin targetMax rest a k0
          else
            match chooseQty attempt minItems it actualRemaining roomLeft
                            (pickedCount a) k0 with
            | (None, k1) => pickItems attempt minItems targetMin targetMax rest a k1
            | (Some q, k1) =>
                if Qle_bool q 0
                then pickItems attempt minItems targetMin targetMax rest a k1
                else pickItems attempt minItems targetMin targetMax rest
                               (pushEntry a it q) k1
            end
  end.

(** The attempt loop of one tier.  [selectPool attempt k] builds the
    selection pool of the attempt; [left] counts the attempts still to
    run.  The result is the first attempt that is valid and lands
    safely. *)
Variable selectPool : nat -> nat -> nat -> list Item * nat.

Fixpoint attemptLoop (left attempt minItems : nat) (mode : string)
         (targetMin targetMax dayTotalRemaining margin : Q) (k : nat)
  : option Attempt * nat :=
  match left with
  | O => (None, k)
  | S left' =>
      let '(pool, k1) := selectPool minItems attempt k in
      let '(a, k2) := pickItems attempt minItems targetMin targetMax pool emptyAttempt k1 in
      if isValid mode targetMin targetMax margin minItems a
         && safeLanding dayTotalRemaining margin a
      then (Some a, k2)
      else attemptLoop left' (S attempt) minItems mode
                       targetMin targetMax dayTotalRemaining margin k2
  end.

(** [for (const tier of baseAttempts)]: run the tier if the stock has
    enough distinct items, return on the first accepted attempt. *)
Definition runTier (effort : Q) (itemCount : nat) (mode : string)
           (targetMin targetMax dayTotalRemaining margin : Q) (t : Tier) (k : nat)
  : option Attempt * nat :=
  if (itemCount <? count t)%nat then (None, k)
  else attemptLoop (maxAttemptsOf t effort) 0 (count t) mode
                   targetMin targetMax dayTotalRemaining margin k.

Fixpoint tierLoop (tiers : list Tier) (effort : Q) (itemCount : nat) (mode : string)
         (targetMin targetMax dayTotalRemaining margin : Q) (k : nat)
  : option Attempt * nat :=
  match tiers with
  | [] => (None, k)
  | t :: tiers' =>
      match runTier effort itemCount mode targetMin targetMax dayTotalRemaining margin t k with
      | (Some a, k1) => (Some a, k1)
      | (None, k1) =>
          tierLoop tiers' effort itemCount mode targetMin targetMax
                   dayTotalRemaining margin k1
      end
  end.

End Picker.

(* ------------------------------------------------------------------ *)
(** ** part_001: fractional-sale policy and composer *)
(* ------------------------------------------------------------------ *)

Module Part001.

(** [canSellInFloat(item, roomLeft)] *)
Definition canSellInFloat (it : Item) (roomLeft : Q) : bool :=
  if Qlt_bool 10000 (MRP it) then true
  else if hasFraction (remainingQty it) then true
  else if Qlt_bool roomLeft (singleUnitCost it) then true
  else false.

Definition bigFirst (attempt : nat) : bool := (attempt =? 0)%nat.

Section Composer.

Variable random : nat -> Q.

(** Attempt 0 walks [expensiveItemsFirst]; the later attempts shuffle
    a copy of [availableItems]. *)
Definition selectPool (availableItems expensiveItemsFirst : list Item)
           (minItems attempt k : nat) : list Item * nat :=
  if (attempt =? 0)%nat then (expensiveItemsFirst, k)
  else shuffleArray random availableItems k.

(** [generateBillFromMap]; the result is the returned object, the
    stock map after the call and the number of [Math.random()] calls
    made so far. *)
Definition generateBillFromMap (stockMap : StockMap)
           (targetMin targetMax dayTotalRemaining : Q) (d : string)
           (margin : Q) (mode : string) (currentFailures : nat) (k : nat)
  : Bill * StockMap * nat :=
  let availableItems :=
    List.filter (fun it => Qlt_bool (1 # 1000) (remainingQty it)) stockMap in
  let availableItems := sortItems cheapFirst availableItems in
  let itemCount := length availableItems in
  if (itemCount =? 0)%nat then (failure (Some "No items"), stockMap, k)
  else
    let expensiveItemsFirst := sortItems expensiveFirst availableItems in
    let effort :=
      effortMultiplier 50 500 2000 (5 # 10) (1 # 10) (2 # 100) currentFailures in
    match tierLoop random bigFirst canSellInFloat false
                   (selectPool availableItems expensiveItemsFirst)
                   baseAttempts effort itemCount mode
                   targetMin targetMax dayTotalRemaining margin k with
    | (Some a, k1) =>
        (formatResult (currentBill a) (currentTotal a) targetMax d,
         commitBill (currentBill a) stockMap, k1)
    | (None, k1) => (failure None, stockMap, k1)
    end.

End Composer.

End Part001.

(* ------------------------------------------------------------------ *)
(** ** part_002: strict policy and composer without commit *)
(* ------------------------------------------------------------------ *)

Module Part002.

(** [canSellInFloat(item)] *)
Definition canSellInFloat (it : Item) : bool :=
  if Qlt_bool 10000 (MRP it) then true
  else if originalIsFloat it then true
  else false.

Definition bigFirst (attempt : nat) : bool := (attempt =? 0)%nat || (attempt =? 2)%nat.

Section Composer.

Variable random : nat -> Q.

Definition selectPool (availableItems freshItems expensiveAll expensiveFresh : list Item)
           (minItems attempt k : nat) : list Item * nat :=
  let useFreshPool := (attempt <? 2)%nat && (minItems <=? length freshItems)%nat in
  if useFreshPool then
    if (attempt =? 0)%nat then (expensiveFresh, k)
    else shuffleArray random freshItems k
  else
    if (attempt =? 2)%nat then (expensiveAll, k)
    else shuffleArray random availableItems k.

(** [generateBillFromMap]; [dailyUsedItemIds] is the set of names used
    earlier on the day.  The stock map is returned as the call leaves
    it. *)
Definition generateBillFromMap (stockMap : StockMap)
           (targetMin targetMax dayTotalRemaining : Q) (d : string)
           (margin : Q) (mode : string) (currentFailures : nat)
           (dailyUsedItemIds : list string) (k : nat)
  : Bill * StockMap * nat :=
  let availableItems :=
    List.filter (fun it => Qlt_bool (1 # 1000) (remainingQty it)) stockMap in
  let freshItems :=
    List.filter (fun it => negb (existsb (String.eqb (ItemDetails it)) dailyUsedItemIds))
                availableItems in
  let availableItems := sortItems cheapFirst availableItems in
  let freshItems := sortItems cheapFirst freshItems in
  let expensiveAll := sortItems expensiveFirst availableItems in
  let expensiveFresh := sortItems expensiveFirst freshItems in
  let itemCount := length availableItems in
  if (itemCount =? 0)%nat then (failure (Some "No items"), stockMap, k)
  else
    let effort :=
      effortMultiplier 50 200 400 (5 # 10) (1 # 10) (2 # 100) currentFailures in
    match tierLoop random bigFirst (fun it _ => canSellInFloat it) true
                   (selectPool availableItems freshItems expensiveAll expensiveFresh)
                   baseAttempts effort itemCount mode
                   targetMin targetMax dayTotalRemaining margin k with
    | (Some a, k1) =>
        let billData := formatResult (currentBill a) (currentTotal a) targetMax d in
        (mkBill (items billData) (total billData) (targetAmount billData)
                (success billData) (reason billData) (Some (tempUsed a)),
         stockMap, k1)
    | (None, k1) => (failure None, stockMap, k1)
    end.

End Composer.

(** The commit made by the scheduler of part_002:
    [for (let [name, qty] of bill.tempUsedMap.entries())]. *)
Definition commitUsed (used : UsedMap) (m : StockMap) : StockMap :=
  fold_left (fun m e => updateRemaining (fst e) (fun r => toFixed 3 (r - snd e)) m)
            used m.

End Part002.

(* ------------------------------------------------------------------ *)
(** ** part_001: the day scheduler *)
(* ------------------------------------------------------------------ *)

(** An entry of the log of skipped days ([console.error] / [console.warn]
    and the [skippedDaysLog] list): the "CRITICAL ERROR ... Stopping all
    future days" message of part_001, the "Skipped p% (r remaining)" message
    of both variants, and the "FAILURE ... Moving to next day" message of
    part_002. *)
Inductive LogEntry : Type :=
| CriticalError (d : string)
| PartialSkip (d : string) (percentSkipped remaining : Q)
| NoValidBills (d : string).

Module Scheduler001.

(** The variables of [tryGenerateCashBills] that outlive one day;
    [calls] counts the [Math.random()] calls made so far. *)
Record State : Type := mkState {
  stockMap : StockMap;
  allGeneratedBills : list Bill;
  logList : list LogEntry;
  hasSkipped : bool;
  abortAll : bool;
  calls : nat
}.

Definition ceiling : nat := 5000.

Section Run.

Variable random : nat -> Q.
Variables minBill maxBill : Q.

(** The composer call of one iteration of the [while] loop, with the
    mode, range and margin the loop computes for it. *)
Definition nextBill (d : string) (targetAmount dateAccumulated : Q)
           (consecutiveFailures : nat) (s : State) : Bill * StockMap * nat :=
  let remaining := targetAmount - dateAccumulated in
  let targetMin := if (20 <? consecutiveFailures)%nat then 10 else minBill in
  let targetMax := maxBill in
  if Qle_bool remaining maxBill then
    Part001.generateBillFromMap random (stockMap s) remaining remaining remaining d
                                50 "EXACT" consecutiveFailures (calls s)
  else
    let targetMax := if Qlt_bool remaining targetMax then remaining else targetMax in
    Part001.generateBillFromMap random (stockMap s) targetMin targetMax remaining d
                                5 "RANGE" consecutiveFailures (calls s).

(** The state after [consecutiveFailures] went over the ceiling. *)
Definition skipDay (d : string) (targetAmount dateAccumulated : Q)
           (stock' : StockMap) (k' : nat) (s : State) : State :=
  let remaining := targetAmount - dateAccumulated in
  if Qeq_bool dateAccumulated 0 then
    mkState stock' (allGeneratedBills s) (logList s ++ [CriticalError d]) true true k'
  else
    mkState stock' (allGeneratedBills s)
            (logList s ++ [PartialSkip d (toFixed 1 (remaining / targetAmount * 100))
                                        (toFixed 2 remaining)])
            true (abortAll s) k'.

(** [while (dateAccumulated < targetAmount) { ... }]; [None] when the
    fuel runs out. *)
Fixpoint dayLoop (fuel : nat) (d : string) (targetAmount dateAccumulated : Q)
         (consecutiveFailures : nat) (s : State) : option State :=
  match fuel with
  | O => None
  | S fuel' =>
      if Qlt_bool dateAccumulated targetAmount then
        let '(bill, stock', k') :=
          nextBill d targetAmount dateAccumulated consecutiveFailures s in
        if success bill then
          dayLoop fuel' d targetAmount (dateAccumulated + total bill) 0
                  (mkState stock' (allGeneratedBills s ++ [bill]) (logList s)
                           (hasSkipped s) (abortAll s) k')
        else
          let consecutiveFailures := S consecutiveFailures in
          if (ceiling <? consecutiveFailures)%nat then
            Some (skipDay d targetAmount dateAccumulated stock' k' s)
          else
            dayLoop fuel' d targetAmount dateAccumulated consecutiveFailures
                    (mkState stock' (allGeneratedBills s) (logList s)
                             (hasSkipped s) (abortAll s) k')
      else Some s
  end.

(** [for (const { date, targetAmount } of dateAmountTargets)] *)
Fixpoint daysLoop (fuel : nat) (targets : list (string * Q)) (s : State)
  : option State :=
  match targets with
  | [] => Some s
  | (d, targetAmount) :: rest =>
      if abortAll s then Some s
      else if Qle_bool targetAmount 0 then daysLoop fuel rest s
      else
        match dayLoop fuel d targetAmount 0 0 s with
        | None => None
        | Some s' => daysLoop fuel rest s'
        end
  end.

End Run.

(** [tryGenerateCashBills] from the clamping of the bill sizes to the end
    of the loop over the days; [fuel] bounds the iterations of one day. *)
Definition tryGenerateCashBills (random : nat -> Q) (minBill maxBill : Q)
           (stock : StockMap) (dateAmountTargets : list (string * Q)) (fuel : nat)
  : option State :=
  let minBill := Qmax minBill 10 in
  let maxBill := if Qlt_bool 10000 maxBill then 10000 else maxBill in
  daysLoop random minBill maxBill fuel dateAmountTargets
           (mkState stock [] [] false false 0).

End Scheduler001.


(* ------------------------------------------------------------------ *)
(** ** part_002: the day loop of the scheduler *)
(* ------------------------------------------------------------------ *)

Module Scheduler002.

(** The variables the [while] loop of one day reads and writes;
    [allGeneratedBills] is only read inside the loop. *)
Record State : Type := mkState {
  stockMap : StockMap;
  allGeneratedBills : list Bill;
  todaysBills : list Bill;
  dailyUsedItemIds : list string;
  logList : list LogEntry;
  hasSkipped : bool;
  calls : nat
}.

Definition ceiling : nat := 500.

(** [array.slice(-n)] *)
Definition lastN {A : Type} (n : nat) (l : list A) : list A :=
  skipn (length l - n) l.

(** [set.add(x)] *)
Definition setAdd (x : string) (s : list string) : list string :=
  if existsb (String.eqb x) s then s else s ++ [x].

Section Run.

Variable random : nat -> Q.
Variables minBill maxBill : Q.

(** The composer call of one iteration, after the draw of the random
    target. *)
Definition nextBill (d : string) (targetAmount dateAccumulated : Q)
           (consecutiveFailures : nat) (s : State) : string * (Bill * StockMap * nat) :=
  let remaining := targetAmount - dateAccumulated in
  let randomTarget := minBill + random (calls s) * (maxBill - minBill) in
  let randomMin := Qmax minBill (randomTarget * (95 # 100)) in
  let randomMax := Qmin maxBill (randomTarget * (105 # 100)) in
  let targetMin := if (20 <? consecutiveFailures)%nat then 10 else randomMin in
  let targetMax := randomMax in
  if Qle_bool remaining maxBill then
    ("EXACT"%string,
     Part002.generateBillFromMap random (stockMap s) remaining remaining remaining d
                                 50 "EXACT" consecutiveFailures (dailyUsedItemIds s)
                                 (S (calls s)))
  else
    let targetMax := if Qlt_bool remaining targetMax then remaining else targetMax in
    ("RANGE"%string,
     Part002.generateBillFromMap random (stockMap s) targetMin targetMax remaining d
                                 5 "RANGE" consecutiveFailures (dailyUsedItemIds s)
                                 (S (calls s))).

(** The state after [consecutiveFailures] went over the ceiling. *)
Definition skipDay (d : string) (targetAmount dateAccumulated : Q)
           (stock' : StockMap) (k' : nat) (s : State) : State :=
  let remaining := targetAmount - dateAccumulated in
  let entry :=
    if Qeq_bool dateAccumulated 0 then NoValidBills d
    else PartialSkip d (toFixed 1 (remaining / targetAmount * 100)) (toFixed 2 remaining) in
  mkState stock' (allGeneratedBills s) (todaysBills s) (dailyUsedItemIds s)
          (logList s ++ [entry]) true k'.

(** The commit of an accepted bill. *)
Definition commit (bill : Bill) (stock' : StockMap) (k' : nat) (s : State) : State :=
  let used := default [] (tempUsedMap bill) in
  mkState (Part002.commitUsed used stock')
          (allGeneratedBills s) (todaysBills s ++ [bill])
          (fold_left (fun ids e => setAdd (fst e) ids) used (dailyUsedItemIds s))
          (logList s) (hasSkipped s) k'.

(** [while (dateAccumulated < targetAmount) { ... }]; [None] when the fuel
    runs out. *)
Fixpoint dayLoop (fuel : nat) (d : string) (targetAmount dateAccumulated : Q)
         (consecutiveFailures : nat) (s : State) : option State :=
  match fuel with
  | O => None
  | S fuel' =>
      if Qlt_bool dateAccumulated targetAmount then
        let remaining := targetAmount - dateAccumulated in
        if Qle_bool remaining 5 then Some s
        else
          let '(mode, (bill, stock', k')) :=
            nextBill d targetAmount dateAccumulated consecutiveFailures s in
          let untouched :=
            mkState stock' (allGeneratedBills s) (todaysBills s) (dailyUsedItemIds s)
                    (logList s) (hasSkipped s) k' in
          if success bill then
            let recentBills := lastN 3 (allGeneratedBills s) ++ lastN 3 (todaysBills s) in
            let last3Totals := map total (lastN 3 recentBills) in
            if existsb (Qeq_bool (total bill)) last3Totals
               && (consecutiveFailures <? 50)%nat
               && negb (String.eqb mode "EXACT")
            then dayLoop fuel' d targetAmount dateAccumulated (S consecutiveFailures)
                         untouched
            else dayLoop fuel' d targetAmount (dateAccumulated + total bill) 0
                         (commit bill stock' k' s)
          else
            let consecutiveFailures := S consecutiveFailures in
            if (ceiling <? consecutiveFailures)%nat then
              Some (skipDay d targetAmount dateAccumulated stock' k' s)
            else
              dayLoop fuel' d targetAmount dateAccumulated consecutiveFailures untouched
      else Some s
  end.

End Run.

End Scheduler002.

(* ------------------------------------------------------------------ *)
(** ** Notions used in the statements *)
(* ------------------------------------------------------------------ *)

(** [x] is a whole multiple of [1/s]. *)
Definition isMultiple (s : positive) (x : Q) : Prop := exists z : Z, x == z # s.

Definition isWhole (x : Q) : Prop := exists z : Z, x == inject_Z z.

(** The attempt after pushing the picks [qs] in order. *)
Definition pushAll (a : Attempt) (qs : list (Item * Q)) : Attempt :=
  fold_left (fun a p => pushEntry a (fst p) (snd p)) qs a.

Definition entryOf (p : Item * Q) : Entry :=
  mkEntry (fst p) (snd p) (getItemBillTotal (fst p) (snd p)).

Definition usedOf (p : Item * Q) : string * Q := (ItemDetails (fst p), 0 + snd p).

Section Accepted.

Variable selectPool : nat -> nat -> nat -> list Item * nat.

(** An attempt accepted on a tier with minimum [minItems]: it pushed
    positive quantities of items met in order in the selection pool of
    some attempt, it is valid and it lands safely. *)
Definition acceptedBy (minItems : nat) (mode : string)
           (targetMin targetMax dayTotalRemaining margin : Q) (a : Attempt) : Prop :=
  (exists attempt k0 qs,
      a = pushAll emptyAttempt qs
      /\ sublist (map fst qs) (fst (selectPool minItems attempt k0))
      /\ Forall (fun p => 0 < snd p) qs)
  /\ isValid mode targetMin targetMax margin minItems a = true
  /\ safeLanding dayTotalRemaining margin a = true.

End Accepted.

(** The stock the composer works on: rows above the dust threshold,
    cheapest first. *)
Definition available (stockMap : StockMap) : list Item :=
  sortItems cheapFirst (List.filter (fun it => Qlt_bool (1 # 1000) (remainingQty it)) stockMap).

(** The selection pools of part_001 for a stock map. *)
Definition pools001 (random : nat -> Q) (stockMap : StockMap)
  : nat -> nat -> nat -> list Item * nat :=
  Part001.selectPool random (available stockMap)
                     (sortItems expensiveFirst (available stockMap)).

(** One tier of a call of the composer of part_001. *)
Definition tryTier001 (random : nat -> Q) (stockMap : StockMap)
           (targetMin targetMax dayTotalRemaining margin : Q) (mode : string)
           (currentFailures : nat) (t : Tier) (k : nat) : option Attempt * nat :=
  runTier random Part001.bigFirst Part001.canSellInFloat false (pools001 random stockMap)
          (effortMultiplier 50 500 2000 (5 # 10) (1 # 10) (2 # 100) currentFailures)
          (length (available stockMap)) mode
          targetMin targetMax dayTotalRemaining margin t k.

(** The quantity left of [n] after the entries of [used], in order. *)
Definition remainingAfter (n : string) (used : UsedMap) (r : Q) : Q :=
  fold_left (fun r e => if String.eqb n (fst e) then toFixed 3 (r - snd e) else r) used r.

(** The rows of [pool] are rows of the stock map, under distinct names. *)
Definition fromStock (stockMap : StockMap) (pool : list Item) : Prop :=
  NoDup (keys pool) /\ forall it, In it pool -> In it stockMap.

Definition fresh (stockMap : StockMap) (dailyUsedItemIds : list string) : list Item :=
  sortItems cheapFirst
    (List.filter (fun it => negb (existsb (String.eqb (ItemDetails it)) dailyUsedItemIds))
       (List.filter (fun it => Qlt_bool (1 # 1000) (remainingQty it)) stockMap)).

Definition pools002 (random : nat -> Q) (stockMap : StockMap) (dailyUsedItemIds : list string)
  : nat -> nat -> nat -> list Item * nat :=
  Part002.selectPool random (available stockMap) (fresh stockMap dailyUsedItemIds)
                     (sortItems expensiveFirst (available stockMap))
                     (sortItems expensiveFirst (fresh stockMap dailyUsedItemIds)).

Definition tryTier002 (random : nat -> Q) (stockMap : StockMap)
           (targetMin targetMax dayTotalRemaining margin : Q) (mode : string)
           (currentFailures : nat) (dailyUsedItemIds : list string)
           (t : Tier) (k : nat) : option Attempt * nat :=
  runTier random Part002.bigFirst (fun it _ => Part002.canSellInFloat it) true
          (pools002 random stockMap dailyUsedItemIds)
          (effortMultiplier 50 200 400 (5 # 10) (1 # 10) (2 # 100) currentFailures)
          (length (available stockMap)) mode
          targetMin targetMax dayTotalRemaining margin t k.

(* ------------------------------------------------------------------ *)
(** ** Example inputs *)
(* ------------------------------------------------------------------ *)

(** Ten whole units at 100 each, and a broken unit of 0.017 at 10 each;
    neither carries tax. *)
Definition itemA : Item := mkItem "A" 100 0 0 0 10 100 false.
Definition itemB : Item := mkItem "B" 10 0 0 0 (17 # 1000) 10 true.
Definition demoStock : StockMap := [itemA; itemB].
Definition demoDate : string := "2024-01-01".

(** A [Math.random()] that returns 0 at every call. *)
Definition zeroRandom : nat -> Q := fun _ => 0.

(** A room of 50 does not fit one unit of item A. *)
Definition roomLeftDemo : Q := 50.

(** A call of the composer of part_001 that succeeds, one that fails, and
    a call of the composer of part_002 that succeeds. *)
Definition demoSuccess : Bill * StockMap * nat :=
  Eval vm_compute in
    Part001.generateBillFromMap zeroRandom demoStock 50 1000 1000 demoDate 5 "RANGE" 2001 0.

Definition demoFailure : Bill * StockMap * nat :=
  Eval vm_compute in
    Part001.generateBillFromMap zeroRandom demoStock 5000 6000 10000 demoDate 5 "RANGE" 2001 0.

Definition demoSuccess002 : Bill * StockMap * nat :=
  Eval vm_compute in
    Part002.generateBillFromMap zeroRandom demoStock 50 1000 1000 demoDate 5 "RANGE" 2001 [] 0.

(** The second line of the bill of [demoSuccess]. *)
Definition demoLine : BillLine :=
  mkBillLine "B" (1 # 100) 10 0 0 0 (0 # 10000) (10 # 100) demoDate.

Definition emptyState : Scheduler001.State :=
  Scheduler001.mkState [] [] [] false false 0.

(* ------------------------------------------------------------------ *)
(** ** Further notions: random draws and picks *)
(* ------------------------------------------------------------------ *)

(** The draws of [Math.random()] lie in [[0, 1)]. *)
Definition inUnit (random : nat -> Q) : Prop := forall n, 0 <= random n /\ random n < 1.

(** A pick that respects the stock up to the rounding of the quantity. *)
Definition pickOK (p : Item * Q) : Prop :=
  0 < snd p /\ 1 # 1000 < remainingQty (fst p)
  /\ snd p <= remainingQty (fst p) + (1 # 200).

(* ------------------------------------------------------------------ *)
(** ** Further notions: rows, sums *)
(* ------------------------------------------------------------------ *)

(** Two rows that differ at most in [remainingQty]. *)
Definition sameRow (a b : Item) : Prop :=
  ItemDetails a = ItemDetails b /\ Price a = Price b /\ GST_PERCENT a = GST_PERCENT b
  /\ CESS a = CESS b /\ MRP a = MRP b /\ singleUnitCost a = singleUnitCost b
  /\ originalIsFloat a = originalIsFloat b.

(** A row after the commit of the entries of [used]. *)
Definition rowAfter (used : UsedMap) (it : Item) : Item :=
  fold_left (fun it e => if String.eqb (ItemDetails it) (fst e)
                         then setRemainingQty it (toFixed 3 (remainingQty it - snd e))
                         else it) used it.

Definition sumQ (l : list Q) : Q := fold_right Qplus 0 l.

(* ------------------------------------------------------------------ *)
(** ** [buildStockMap] *)
(* ------------------------------------------------------------------ *)

(** A row of the stock sheet as [XLSX.utils.sheet_to_json] delivers it: a
    name and numeric cells, any of which may be absent. *)
Record SheetRow : Type := mkSheetRow {
  cellName : string;
  cellQty : value;
  cellPrice : value;
  cellGst : value;
  cellCess : value;
  cellMrp : value
}.

(** A value of the map [buildStockMap] builds.  The five normalised
    numbers are finite; [builtCost], the [singleUnitCost], is computed from
    the cells before they are normalised and may be [NaN]. *)
Record BuiltItem : Type := mkBuiltItem {
  builtName : string;
  builtPrice : Q;
  builtGst : Q;
  builtCess : Q;
  builtMrp : Q;
  builtQty : Q;
  builtCost : number;
  builtIsFloat : bool
}.

(** [Number(v) || 0] *)
Definition numberOrZero (v : value) : Q :=
  match toNumber v with
  | NaN => 0
  | Num q => if Qeq_bool q 0 then 0 else q
  end.

(** [Math.abs(qty % 1) > 0.0001] *)
Definition isInputFloat (q : Q) : bool :=
  Qlt_bool (1 # 10000) (Qabs q - inject_Z (Qfloor (Qabs q))).

(** The object stored for one row; [strict] selects part_002, which also
    stores [originalIsFloat]. *)
Definition buildItem (strict : bool) (row : SheetRow) : BuiltItem :=
  let q := numberOrZero (cellQty row) in
  mkBuiltItem (cellName row)
              (numberOrZero (cellPrice row)) (numberOrZero (cellGst row))
              (numberOrZero (cellCess row)) (numberOrZero (cellMrp row))
              q
              (calculateItemTotal (Val (toNumber (cellPrice row))) (fin 1)
                                  (Val (toNumber (cellGst row)))
                                  (Val (toNumber (cellCess row)))
                                  (Val (toNumber (cellMrp row))))
              (strict && isInputFloat q).

(** [map.set(key, v)]: an existing key keeps its place and gets the new
    value, a new key goes to the end. *)
Fixpoint builtSet (m : list BuiltItem) (v : BuiltItem) : list BuiltItem :=
  match m with
  | [] => [v]
  | x :: m' => if String.eqb (builtName x) (builtName v) then v :: m'
               else x :: builtSet m' v
  end.

(** [buildStockMap(data)] *)
Definition buildStockMap (strict : bool) (data : list SheetRow) : list BuiltItem :=
  fold_left (fun m row => builtSet m (buildItem strict row)) data [].

Definition builtGet (m : list BuiltItem) (key : string) : option BuiltItem :=
  List.find (fun x => String.eqb (builtName x) key) m.

(** The row the composer works with, when the unit cost is a number. *)
Definition toItem (b : BuiltItem) : option Item :=
  match builtCost b with
  | NaN => None
  | Num c => Some (mkItem (builtName b) (builtPrice b) (builtGst b) (builtCess b)
                          (builtMrp b) (builtQty b) c (builtIsFloat b))
  end.

(** A cell that holds a number. *)
Definition isNumeric (v : value) : Prop := exists q, v = Val (Num q).

(* ------------------------------------------------------------------ *)
(** ** Further notions: states of the scheduler of part_001 *)
(* ------------------------------------------------------------------ *)

(** The state after a composer call that failed, and after one whose bill
    was pushed. *)
Definition afterCall (stock' : StockMap) (k' : nat) (s : Scheduler001.State)
  : Scheduler001.State :=
  Scheduler001.mkState stock' (Scheduler001.allGeneratedBills s) (Scheduler001.logList s)
                       (Scheduler001.hasSkipped s) (Scheduler001.abortAll s) k'.

Definition afterBill (bill : Bill) (stock' : StockMap) (k' : nat) (s : Scheduler001.State)
  : Scheduler001.State :=
  Scheduler001.mkState stock' (Scheduler001.allGeneratedBills s ++ [bill])
                       (Scheduler001.logList s)
                       (Scheduler001.hasSkipped s) (Scheduler001.abortAll s) k'.

(** A stock map with distinct keys and no row below -0.005. *)
Definition ledgerOK (m : StockMap) : Prop :=
  NoDup (keys m) /\ forall it, In it m -> - (1 # 200) <= remainingQty it.

(** A successful bill with at least one line, all lines dated [d]. *)
Definition billOf (d : string) (b : Bill) : Prop :=
  success b = true /\ (1 <= length (items b))%nat /\ Forall (fun l => date l = d) (items b).

Definition entryDate (e : LogEntry) : string :=
  match e with
  | CriticalError d => d
  | PartialSkip d _ _ => d
  | NoValidBills d => d
  end.

Definition isCritical (e : LogEntry) : bool :=
  match e with
  | CriticalError _ => true
  | _ => false
  end.

(** The flags agree with the log: [hasSkipped] is set exactly when the log
    has an entry, [abortAll] exactly when its last entry is a critical one,
    and only the last entry can be critical. *)
Definition logOK (s : Scheduler001.State) : Prop :=
  (Scheduler001.hasSkipped s = true <-> Scheduler001.logList s <> [])
  /\ (Scheduler001.abortAll s = true
      <-> exists l e, Scheduler001.logList s = l ++ [e] /\ isCritical e = true)
  /\ (forall l e, Scheduler001.logList s = l ++ [e] -> Forall (fun x => isCritical x = false) l).

(* ------------------------------------------------------------------ *)
(** ** Further notions: states of the day loop of part_002 *)
(* ------------------------------------------------------------------ *)

(** The state after a composer call whose bill was not committed. *)
Definition untouched002 (stock' : StockMap) (k' : nat) (s : Scheduler002.State)
  : Scheduler002.State :=
  Scheduler002.mkState stock' (Scheduler002.allGeneratedBills s) (Scheduler002.todaysBills s)
                       (Scheduler002.dailyUsedItemIds s) (Scheduler002.logList s)
                       (Scheduler002.hasSkipped s) k'.

(** The names on the lines of a list of bills. *)
Definition billedNames (bills : list Bill) : list string :=
  concat (map (fun b => map name (items b)) bills).

(* ------------------------------------------------------------------ *)
(** ** part_002: purchaser names and the loop over the days *)
(* ------------------------------------------------------------------ *)

Module Purchasers.

(** [purchaserHistory], a JS object used as a map from a name to the total
    of the last bill given to that name; the newest entry comes first.
    Names are taken not to be property names of [Object.prototype]. *)
Definition History : Type := list (string * Q).

Definition historyGet (h : History) (c : string) : option Q :=
  match List.find (fun e => String.eqb c (fst e)) h with
  | Some e => Some (snd e)
  | None => None
  end.

(** [purchaserHistory[candidate] || 0] *)
Definition lastTotalOf (h : History) (c : string) : Q := default 0 (historyGet h c).

(** [dailyNamePool[nameIdx % dailyNamePool.length]]; the pool is never
    empty in the code. *)
Definition poolAt (pool : list string) (nameIdx : nat) : string :=
  nth (nameIdx mod length pool) pool ""%string.

Section Shuffle.

Variable random : nat -> Q.

(** [shuffleArray] on the pool of names. *)
Definition swapNames (a : list string) (i j : nat) : list string :=
  match a !! i, a !! j with
  | Some x, Some y => <[i := y]> (<[j := x]> a)
  | _, _ => a
  end.

Fixpoint shuffleNamesFrom (i : nat) (a : list string) (k : nat) : list string * nat :=
  match i with
  | O => (a, k)
  | S i' =>
      let j := Z.to_nat (Qfloor (random k * inject_Z (Z.of_nat i + 1))) in
      shuffleNamesFrom i' (swapNames a i j) (S k)
  end.

Definition shuffleNames (a : list string) (k : nat) : list string * nat :=
  shuffleNamesFrom (length a - 1) a k.

End Shuffle.

(** [while (attempts < dailyNamePool.length)]; [left] is
    [dailyNamePool.length - attempts]. *)
Fixpoint scan (pool : list string) (h : History) (billTotal : Q) (left nameIdx : nat)
  : option string * nat :=
  match left with
  | O => (None, nameIdx)
  | S left' =>
      let candidate := poolAt pool nameIdx in
      let lastTotal := lastTotalOf h candidate in
      if Qlt_bool 1 (Qabs (lastTotal - billTotal)) then (Some candidate, S nameIdx)
      else scan pool h billTotal left' (S nameIdx)
  end.

(** The body of [for (let b of todaysBills)]: the name given to a bill with
    total [billTotal], the history and the index after it. *)
Definition assignName (availablePurchasers pool : list string) (h : History)
           (nameIdx : nat) (billTotal : Q) : string * History * nat :=
  match availablePurchasers with
  | first :: _ =>
      if String.eqb first "N/A" then ("N/A"%string, h, nameIdx)
      else
        let '(bestCandidate, nameIdx) := scan pool h billTotal (length pool) nameIdx in
        let '(bestCandidate, nameIdx) :=
          match bestCandidate with
          | Some c => if String.eqb c "" then (poolAt pool nameIdx, S nameIdx)
                      else (c, nameIdx)
          | None => (poolAt pool nameIdx, S nameIdx)
          end in
        (bestCandidate, (bestCandidate, billTotal) :: h, nameIdx)
  | [] => ("N/A"%string, h, nameIdx)
  end.

Fixpoint assignAll (availablePurchasers pool : list string) (h : History)
         (nameIdx : nat) (bills : list Bill) : list string * History :=
  match bills with
  | [] => ([], h)
  | b :: rest =>
      let '(n, h, nameIdx) := assignName availablePurchasers pool h nameIdx (total b) in
      let '(ns, h) := assignAll availablePurchasers pool h nameIdx rest in
      (n :: ns, h)
  end.

(** [if (todaysBills.length > 0) { ... }]: the names of the day's bills, in
    order. *)
Definition nameDay (random : nat -> Q) (availablePurchasers : list string) (h : History)
           (k : nat) (todaysBills : list Bill) : list string * History * nat :=
  match todaysBills with
  | [] => ([], h, k)
  | _ :: _ =>
      let '(dailyNamePool, k) :=
        if (1 <? length availablePurchasers)%nat
        then shuffleNames random availablePurchasers k
        else (availablePurchasers, k) in
      let '(ns, h) := assignAll availablePurchasers dailyNamePool h 0 todaysBills in
      (ns, h, k)
  end.

End Purchasers.

Module Run002.

(** The variables of [tryGenerateCashBills] of part_002 that outlive one
    day; [purchaserOf] holds [b.purchaserName] for the bills of
    [allGeneratedBills], in order. *)
Record Run : Type := mkRun {
  state : Scheduler002.State;
  purchaserHistory : Purchasers.History;
  purchaserOf : list string
}.

Section Days.

Variable random : nat -> Q.
Variables minBill maxBill : Q.
Variable availablePurchasers : list string.

(** [for (const { date, targetAmount } of dateAmountTargets)] *)
Fixpoint daysLoop (fuel : nat) (targets : list (string * Q)) (r : Run) : option Run :=
  match targets with
  | [] => Some r
  | (d, targetAmount) :: rest =>
      if Qle_bool targetAmount 0 then daysLoop fuel rest r
      else
        let s := state r in
        let start :=
          Scheduler002.mkState (Scheduler002.stockMap s) (Scheduler002.allGeneratedBills s)
                               [] [] (Scheduler002.logList s) (Scheduler002.hasSkipped s)
                               (Scheduler002.calls s) in
        match Scheduler002.dayLoop random minBill maxBill fuel d targetAmount 0 0 start with
        | None => None
        | Some s' =>
            let '(ns, h, k) :=
              Purchasers.nameDay random availablePurchasers (purchaserHistory r)
                                 (Scheduler002.calls s') (Scheduler002.todaysBills s') in
            daysLoop fuel rest
              (mkRun (Scheduler002.mkState
                        (Scheduler002.stockMap s')
                        (Scheduler002.allGeneratedBills s' ++ Scheduler002.todaysBills s')
                        (Scheduler002.todaysBills s') (Scheduler002.dailyUsedItemIds s')
                        (Scheduler002.logList s') (Scheduler002.hasSkipped s') k)
                     h (purchaserOf r ++ ns))
        end
  end.

End Days.

(** [tryGenerateCashBills] of part_002 from the clamping of the bill sizes
    to the end of the loop over the days. *)
Definition tryGenerateCashBills (random : nat -> Q) (minBill maxBill : Q)
           (stock : StockMap) (purchaserNames : list string)
           (dateAmountTargets : list (string * Q)) (fuel : nat) : option Run :=
  let minBill := Qmax minBill 10 in
  let maxBill := if Qlt_bool 10000 maxBill then 10000 else maxBill in
  let availablePurchasers :=
    match purchaserNames with [] => ["N/A"%string] | _ :: _ => purchaserNames end in
  daysLoop random minBill maxBill availablePurchasers fuel dateAmountTargets
           (mkRun (Scheduler002.mkState stock [] [] [] [] false 0) [] []).

End Run002.

(** The days the loop works on: those with a positive target. *)
Definition positiveDays (targets : list (string * Q)) : list (string * Q) :=
  List.filter (fun p => negb (Qle_bool (snd p) 0)) targets.

(** A bill of one of the days of [targets]. *)
Definition billOfDays (targets : list (string * Q)) (b : Bill) : Prop :=
  exists p, In p (positiveDays targets) /\ billOf (fst p) b.

(** A log entry of part_002 for one of the days of [targets]. *)
Definition entryOfDays (targets : list (string * Q)) (e : LogEntry) : Prop :=
  isCritical e = false /\ exists p, In p (positiveDays targets) /\ entryDate e = fst p.

(* ------------------------------------------------------------------ *)
(** ** [exportBillsToExcel]: the rows of the bill sheet *)
(* ------------------------------------------------------------------ *)

(** [Math.round(x)] as a number: the nearest integer, halves upwards. *)
Definition mathRound (x : Q) : Q := inject_Z (Qfloor (x + (1 # 2))).

(** A row of the sheet of part_002.  [rowBillIndex] is the index given to
    [generateBillNumber] and [rowDate] the date given to
    [formatDisplayDate]; the payment method is the same on all rows. *)
Record ExportRow : Type := mkExportRow {
  rowBillIndex : nat;
  rowPurchaser : string;
  rowItemName : string;
  rowQuantity : Q;
  rowUnitPrice : Q;
  rowItemPrice : Q;
  rowGstRate : Q;
  rowCgstRate : Q;
  rowCgstAmount : Q;
  rowSgstRate : Q;
  rowSgstAmount : Q;
  rowTotalTax : Q;
  rowCessTax : Q;
  rowDate : string;
  rowItemTotal : Q;
  rowBillTotal : Q;
  rowRoundOff : Q;
  rowFinalTotal : Q
}.

(** The body of [bill.items.forEach(item => ...)] for a bill whose purchaser
    name is known; [cash] is [paymentMethod === "Cash"]. *)
Definition exportLine (cash : bool) (billIndex : nat) (purchaser : string) (b : Bill)
           (l : BillLine) : ExportRow :=
  let roundedTotal := mathRound (total b) in
  let roundOff := if cash then toFixed 2 (roundedTotal - total b) else 0 in
  let finalBillTotal := if cash then roundedTotal else total b in
  let taxAmount := itemTotal l - unitPrice l * lineQty l - cessTaxAmount l in
  let gstRate := gstPercent l in
  let cgstRate := gstRate / 2 in
  let sgstRate := gstRate / 2 in
  let cgstAmount := taxAmount / 2 in
  let sgstAmount := taxAmount / 2 in
  mkExportRow billIndex purchaser (name l) (lineQty l) (unitPrice l)
              (toFixed 2 (unitPrice l * lineQty l))
              gstRate cgstRate (toFixed 2 cgstAmount) sgstRate (toFixed 2 sgstAmount)
              (toFixed 2 taxAmount) (toFixed 2 (cessTaxAmount l))
              (date l) (itemTotal l) (total b) roundOff finalBillTotal.

Definition exportBill (cash : bool) (billIndex : nat) (purchaser : string) (b : Bill)
  : list ExportRow :=
  map (exportLine cash billIndex purchaser b) (items b).

(** [bills.forEach((bill, index) => ...)] for bills that carry their
    purchaser name. *)
Definition exportBills (cash : bool) (startIndex : nat) (bills : list (string * Bill))
  : list ExportRow :=
  concat (imap (fun index pb => exportBill cash (index + startIndex) (fst pb) (snd pb)) bills).

(** A line as the composers format it: the line total and the cess amount
    are those of the price, quantity and rates on the line. *)
Definition lineOK (l : BillLine) : Prop :=
  itemTotal l = lineTotal (unitPrice l) (lineQty l) (gstPercent l) (cessPercent l) (mrp l)
  /\ cessTaxAmount l = mrp l * lineQty l * cessPercent l / 100.

(* ------------------------------------------------------------------ *)
(** ** index.js: the first composer *)
(* ------------------------------------------------------------------ *)

Module IndexJs.

(** A row of the stock map of index.js with the fields the composer reads
    and writes; the numeric cells are taken to hold numbers. *)
Record Item : Type := mkItem {
  ItemDetails : string;
  Price : Q;
  GST_PERCENT : Q;
  CESS : Q;
  MRP : Q;
  remainingQty : Q;
  Amount : Q
}.

(** The globals [lastStartIndex] and [billCounter]. *)
Record Globals : Type := mkGlobals {
  lastStartIndex : nat;
  billCounter : nat
}.

(** The object returned by [generateBillFromMap]; [success] is only set
    on the early return. *)
Record Result : Type := mkResult {
  items : list BillLine;
  total : Q;
  targetAmount : option Q;
  success : option bool
}.

(** [stockMap.get(key)] and the write through the reference held in
    [allItems]; keys are distinct in a [Map]. *)
Definition get (stock : list Item) (key : string) : option Item :=
  List.find (fun it => String.eqb (ItemDetails it) key) stock.

Definition set (stock : list Item) (key : string) (item : Item) : list Item :=
  map (fun it => if String.eqb (ItemDetails it) key then item else it) stock.

Definition getMinMaxItemsByTarget (targetAmount : Q) : nat * nat :=
  if Qlt_bool targetAmount 1000 then (2, 3)%nat
  else if Qlt_bool targetAmount 5000 then (3, 5)%nat
  else (5, 7)%nat.

(** [.sort((a, b) => b[1]["Amount"] - a[1]["Amount"])], stable. *)
Fixpoint insertByAmount (x : Item) (l : list Item) : list Item :=
  match l with
  | [] => [x]
  | y :: l' => if Qle_bool (Amount y) (Amount x) then x :: y :: l'
               else y :: insertByAmount x l'
  end.

Definition sortByAmount (l : list Item) : list Item := foldr insertByAmount [] l.

Section Compose.

Variable random : nat -> Q.
Variable targetAmount : Q.
Variable date : string.
Variable margin : Q.

Section OneItem.

Variables unitPrice gstPercent cessPercent mrp maxQty : Q.
Variables total idealContribution : Q.
Variable first : bool.

(** [while (qty <= maxQty) { ... qty++; }]; [n] counts the quantities not
    above [maxQty] still to try.  [first] is [result.length === 0]. *)
Fixpoint selectQty (n : nat) (qty selectedQty : Z) : Z :=
  match n with
  | O => selectedQty
  | S n' =>
      if Qle_bool (inject_Z qty) maxQty then
        let itemTotal := lineTotal unitPrice (inject_Z qty) gstPercent cessPercent mrp in
        if Qlt_bool (targetAmount + margin) (total + itemTotal) then selectedQty
        else if Qle_bool itemTotal (idealContribution * (15 # 10)) || first
             then selectQty n' (qty + 1) qty
             else selectedQty
      else selectedQty
  end.

(** The quantity pushed for the item and its line total; quantity 0 stands
    for no push.  [notLast] is [result.length < expectedItems - 1]. *)
Definition chooseFinal (minContributionForThisItem : Q) (notLast : bool) : Z * Q :=
  let minQtyToMeetContribution := Qceiling (minContributionForThisItem / unitPrice) in
  let qty := Z.max 1 minQtyToMeetContribution in
  let selectedQty := selectQty (Z.to_nat (Qfloor maxQty - qty + 1)) qty 0 in
  let finalQty := selectedQty in
  if (0 <? finalQty)%Z then
    let finalItemTotal :=
      lineTotal unitPrice (inject_Z finalQty) gstPercent cessPercent mrp in
    let finalQty :=
      if Qlt_bool finalItemTotal minContributionForThisItem && notLast
      then 0%Z else finalQty in
    let over := Qlt_bool (targetAmount + margin) (total + finalItemTotal) in
    if (finalQty =? 1)%Z && over then (0%Z, finalItemTotal)
    else if over then
      if (1 <? finalQty)%Z
      then ((finalQty - 1)%Z,
            lineTotal unitPrice (inject_Z (finalQty - 1)) gstPercent cessPercent mrp)
      else (0%Z, finalItemTotal)
    else (finalQty, finalItemTotal)
  else (0%Z, 0).

End OneItem.

Variable allItems : list string.
Variables minItems expectedItems : nat.

(** The [while] loop over the items; [n] is
    [maxLoopIterations - iterationCount].  The loop returns the stock, the
    lines and the running total. *)
Fixpoint loop (n : nat) (stock : list Item) (result : list BillLine)
         (total remainingTarget : Q) (looped : bool) (pickedCount startIndex : nat)
  : list Item * list BillLine * Q :=
  match n with
  | O => (stock, result, total)
  | S n' =>
      if (pickedCount <? expectedItems)%nat && negb looped then
        match allItems !! startIndex with
        | None => (stock, result, total)
        | Some productName =>
            match get stock productName with
            | None => (stock, result, total)
            | Some item =>
                let itemCount := length allItems in
                if Qle_bool (remainingQty item) 0 then
                  let startIndex := (S startIndex mod itemCount)%nat in
                  loop n' stock result total remainingTarget (startIndex =? 0)%nat
                       pickedCount startIndex
                else
                  let unitPrice := Price item in
                  let gstPercent := GST_PERCENT item in
                  let cessPercent := CESS item in
                  let mrp := MRP item in
                  let maxQty := remainingQty item in
                  let idealContribution :=
                    remainingTarget
                    / inject_Z (Z.of_nat expectedItems - Z.of_nat (length result)) in
                  let minContributionForThisItem := Qmin 200 remainingTarget in
                  let '(finalQty, finalItemTotal) :=
                    chooseFinal unitPrice gstPercent cessPercent mrp maxQty total
                                idealContribution (length result =? 0)%nat
                                minContributionForThisItem
                                (length result <? expectedItems - 1)%nat in
                  let '(stock, result, total, remainingTarget, pickedCount) :=
                    if (0 <? finalQty)%Z then
                      let cessTaxAmount := (mrp * inject_Z finalQty * cessPercent) / 100 in
                      let line :=
                        mkBillLine productName (inject_Z finalQty) unitPrice gstPercent
                                   cessPercent mrp cessTaxAmount finalItemTotal date in
                      let rem := remainingQty item - inject_Z finalQty in
                      let item :=
                        mkItem (ItemDetails item) (Price item) (GST_PERCENT item) (CESS item)
                               (MRP item) rem (toFixed 2 (rem * unitPrice)) in
                      (set stock productName item, result ++ [line],
                       total + finalItemTotal, remainingTarget - finalItemTotal,
                       S pickedCount)
                    else (stock, result, total, remainingTarget, pickedCount) in
                  let startIndex := (S startIndex mod itemCount)%nat in
                  let looped :=
                    if (startIndex =? 0)%nat then
                      if (length result <? minItems)%nat
                         && Qlt_bool (targetAmount * (1 # 10)) (Qabs (total - targetAmount))
                      then false else true
                    else looped in
                  loop n' stock result total remainingTarget looped pickedCount startIndex
            end
        end
      else (stock, result, total)
  end.

End Compose.

(** [generateBillFromMap(stockMap, targetAmount, date, margin)]; the
    globals, the stock map and the count of [Math.random()] calls are
    passed in and returned. *)
Definition generateBillFromMap (random : nat -> Q) (g : Globals) (stockMap : list Item)
           (targetAmount : Q) (date : string) (margin : Q) (k : nat)
  : Result * list Item * Globals * nat :=
  let billCounter := S (billCounter g) in
  let allItems :=
    sortByAmount
      (List.filter (fun it => Qlt_bool 0 (remainingQty it) && Qle_bool 50 (Price it))
                   stockMap) in
  let itemCount := length allItems in
  let '(lastStartIndex, k) :=
    if ((billCounter mod 5 =? 0) && (0 <? lastStartIndex g))%nat
    then (Z.to_nat (Qfloor (random k * inject_Z (Z.of_nat (lastStartIndex g)))), S k)
    else (lastStartIndex g, k) in
  if (itemCount =? 0)%nat then
    (mkResult [] 0 None (Some false), stockMap, mkGlobals lastStartIndex billCounter, k)
  else
    let startIndex := (lastStartIndex mod itemCount)%nat in
    let '(minItemsOriginal, maxItems) := getMinMaxItemsByTarget targetAmount in
    let minItems := Nat.max 3 minItemsOriginal in
    let finalMaxItems := Nat.max minItems maxItems in
    let expectedItems :=
      (Z.to_nat (Qfloor (random k * inject_Z (Z.of_nat (finalMaxItems - minItems + 1))))
       + minItems)%nat in
    let lastStartIndex := (lastStartIndex + expectedItems)%nat in
    let '(stock, result, total) :=
      loop targetAmount date margin (map ItemDetails allItems) minItems expectedItems
           (itemCount * 2) stockMap [] 0 targetAmount false 0 startIndex in
    (mkResult result (toFixed 2 total) (Some targetAmount) None, stock,
     mkGlobals lastStartIndex billCounter, S k).

End IndexJs.

(** Two rows of the stock of index.js that differ at most in [remainingQty]
    and [Amount]. *)
Definition sameCells (a b : IndexJs.Item) : Prop :=
  IndexJs.ItemDetails b = IndexJs.ItemDetails a /\ IndexJs.Price b = IndexJs.Price a
  /\ IndexJs.GST_PERCENT b = IndexJs.GST_PERCENT a /\ IndexJs.CESS b = IndexJs.CESS a
  /\ IndexJs.MRP b = IndexJs.MRP a.

(** The quantity on the lines of [result] that name [n]. *)
Definition billedQty (n : string) (result : list BillLine) : Q :=
  sumQ (map lineQty (List.filter (fun l => String.eqb (name l) n) result)).

(** A line pushed by the composer of index.js for a row of [stock]: a whole
    quantity of at least 1 of a row priced at 50 or more, with the row's
    price and rates. *)
Definition lineFrom (stock : list IndexJs.Item) (d : string) (l : BillLine) : Prop :=
  lineOK l /\ date l = d
  /\ (exists z : Z, lineQty l = inject_Z z /\ (1 <= z)%Z)
  /\ exists a, In a stock /\ IndexJs.ItemDetails a = name l
                /\ IndexJs.Price a = unitPrice l /\ 50 <= unitPrice l
                /\ IndexJs.GST_PERCENT a = gstPercent l /\ IndexJs.CESS a = cessPercent l
                /\ IndexJs.MRP a = mrp l.

(** The stock [stock'] is [stock] after the lines of [result]: the same
    rows in the same order, each with [remainingQty] lowered by exactly the
    quantity billed under its name, and not below zero unless it was. *)
Definition stockAfter (result : list BillLine) (stock stock' : list IndexJs.Item) : Prop :=
  Forall2 (fun a b => sameCells a b
                      /\ IndexJs.remainingQty b
                         == IndexJs.remainingQty a - billedQty (IndexJs.ItemDetails a) result
                      /\ (0 <= IndexJs.remainingQty a -> 0 <= IndexJs.remainingQty b))
          stock stock'.

(** What the loop of the composer of index.js keeps true of the stock, the
    lines pushed so far, the running total and [pickedCount]. *)
Definition loopState (targetAmount : Q) (d : string) (margin : Q) (expectedItems : nat)
           (stock0 stock : list IndexJs.Item) (result : list BillLine) (total : Q)
           (pickedCount : nat) : Prop :=
  stockAfter result stock0 stock
  /\ total == sumQ (map itemTotal result)
  /\ (result = [] \/ total <= targetAmount + margin)
  /\ Forall (lineFrom stock0 d) result
  /\ pickedCount = length result
  /\ (length result <= expectedItems)%nat.

(* ------------------------------------------------------------------ *)
(** ** part_002: [tryGenerateAllBills], the UPI run *)
(* ------------------------------------------------------------------ *)

Module Upi002.

(** The variables of the loop over [billTargets]. *)
Record State : Type := mkState {
  stockMap : StockMap;
  bills : list Bill;
  upiUsedItemIds : list string;
  calls : nat
}.

(** A row of [billTargets]: [parseFloat(values[0])] and [values[1]]; an
    absent date is the empty string. *)
Definition Target : Type := (number * string)%type.

(** The body of the loop for a row that is not skipped. *)
Definition step (random : nat -> Q) (s : State) (target : Q) (d : string) : State :=
  let '(bill, stock', k') :=
    Part002.generateBillFromMap random (stockMap s) target target target d 5 "EXACT" 0
                                (upiUsedItemIds s) (calls s) in
  if success bill then
    let used := default [] (tempUsedMap bill) in
    mkState (Part002.commitUsed used stock') (bills s ++ [bill])
            (fold_left (fun ids e => Scheduler002.setAdd (fst e) ids) used (upiUsedItemIds s))
            k'
  else mkState stock' (bills s) (upiUsedItemIds s) k'.

(** [for (const amountObj of billTargets)] with
    [if (isNaN(target) || !date) continue;]. *)
Definition tryGenerateAllBills (random : nat -> Q) (stock : StockMap)
           (billTargets : list Target) : State :=
  fold_left (fun s t =>
               match fst t with
               | NaN => s
               | Num target => if String.eqb (snd t) "" then s else step random s target (snd t)
               end)
            billTargets (mkState stock [] [] 0).

End Upi002.

(** The rows of [billTargets] the UPI run works on, as amounts and dates. *)
Definition validTargets (billTargets : list Upi002.Target) : list (Q * string) :=
  omap (fun t => match fst t with
                 | NaN => None
                 | Num target => if String.eqb (snd t) "" then None else Some (target, snd t)
                 end) billTargets.

(* ------------------------------------------------------------------ *)
(** ** index.js: the UPI run and the cash run *)
(* ------------------------------------------------------------------ *)

Module IndexJsRun.

(** The stock map, the globals of the composer, the bills pushed so far and
    the count of [Math.random()] calls. *)
Record State : Type := mkState {
  stockMap : list IndexJs.Item;
  globals : IndexJs.Globals;
  bills : list IndexJs.Result;
  calls : nat
}.

(** A composer call followed by [if (bill?.items?.length > 0)]: the state
    after it and whether the bill was pushed. *)
Definition callComposer (random : nat -> Q) (s : State) (target : Q) (d : string)
           (margin : Q) : State * option IndexJs.Result :=
  let '(bill, stock', g', k') :=
    IndexJs.generateBillFromMap random (globals s) (stockMap s) target d margin (calls s) in
  if (0 <? length (IndexJs.items bill))%nat
  then (mkState stock' g' (bills s ++ [bill]) k', Some bill)
  else (mkState stock' g' (bills s) k', None).

(** [tryGenerateAllBills]: [for (const amountObj of billTargets)] with the
    default margin of 5. *)
Definition tryGenerateAllBills (random : nat -> Q) (g : IndexJs.Globals)
           (stock : list IndexJs.Item) (billTargets : list Upi002.Target) : State :=
  fold_left (fun s t =>
               match fst t with
               | NaN => s
               | Num target =>
                   if String.eqb (snd t) "" then s
                   else fst (callComposer random s target (snd t) 5)
               end)
            billTargets (mkState stock g [] 0).

Section Cash.

Variable random : nat -> Q.
Variables minBill maxBill : Q.

(** The size of the next bill of the day, or [None] for [break]. *)
Definition nextSize (remaining : Q) (k : nat) : option Q :=
  let targetBillSize :=
    inject_Z (Qfloor (random k * (maxBill - minBill + 1))) + minBill in
  if Qlt_bool remaining targetBillSize then
    if Qle_bool minBill remaining then Some (Qmax minBill remaining)
    else if Qlt_bool remaining minBill && Qlt_bool 100 remaining then Some remaining
    else None
  else Some targetBillSize.

(** [while (dateAccumulated < targetAmount) { ... }]; [None] when the fuel
    runs out. *)
Fixpoint dayLoop (fuel : nat) (d : string) (targetAmount dateAccumulated : Q) (s : State)
  : option State :=
  match fuel with
  | O => None
  | S fuel' =>
      if Qlt_bool dateAccumulated targetAmount then
        let remaining := targetAmount - dateAccumulated in
        let s1 := mkState (stockMap s) (globals s) (bills s) (S (calls s)) in
        match nextSize remaining (calls s) with
        | None => Some s1
        | Some targetBillSize =>
            match callComposer random s1 targetBillSize d 15 with
            | (s2, Some bill) =>
                dayLoop fuel' d targetAmount (dateAccumulated + IndexJs.total bill) s2
            | (s2, None) => Some s2
            end
        end
      else Some s
  end.

(** [for (const { date, targetAmount } of dateAmountTargets)] *)
Fixpoint daysLoop (fuel : nat) (targets : list (string * Q)) (s : State) : option State :=
  match targets with
  | [] => Some s
  | (d, targetAmount) :: rest =>
      if Qle_bool targetAmount 0 then daysLoop fuel rest s
      else
        match dayLoop fuel d targetAmount 0 s with
        | None => None
        | Some s' => daysLoop fuel rest s'
        end
  end.

End Cash.

(** What a call of [tryGenerateCashBills] comes to: it returns early on
    input it rejects, or runs the loop over the days. *)
Inductive Outcome : Type :=
| Rejected
| Ran (s : State).

(** [tryGenerateCashBills] with numeric bill sizes; [None] when the fuel of
    a day runs out. *)
Definition tryGenerateCashBills (random : nat -> Q) (g : IndexJs.Globals)
           (minBill maxBill : Q) (stock : list IndexJs.Item) (purchaserNames : list string)
           (dateAmountTargets : list (string * Q)) (fuel : nat) : option Outcome :=
  if Qle_bool minBill 0 || Qle_bool maxBill 0 then Some Rejected
  else if forallb (fun t => Qle_bool (snd t) 0) dateAmountTargets then Some Rejected
  else if (length purchaserNames =? 0)%nat then Some Rejected
  else
    let minBill := Qmax minBill 100 in
    let maxBill := Qmin maxBill 99000 in
    if Qlt_bool maxBill minBill then Some Rejected
    else
      match daysLoop random minBill maxBill fuel dateAmountTargets (mkState stock g [] 0) with
      | Some s => Some (Ran s)
      | None => None
      end.

End IndexJsRun.

(** The lines of a list of bills of index.js, in order. *)
Definition linesOf (bills : list IndexJs.Result) : list BillLine :=
  concat (map IndexJs.items bills).

(** A bill of index.js pushed for the target [t] on the date [d] with the
    margin [m]: it has a line, its lines come from the stock, its total is
    the sum of its line totals and at most [t + m]. *)
Definition pushedFor (stock : list IndexJs.Item) (m : Q) (t : Q) (d : string)
           (b : IndexJs.Result) : Prop :=
  IndexJs.items b <> []
  /\ Forall (lineFrom stock d) (IndexJs.items b)
  /\ IndexJs.total b == sumQ (map itemTotal (IndexJs.items b))
  /\ IndexJs.total b <= t + m.

(** The bills of one day of the cash run of index.js: pushed for that date
    with the margin 15, and adding up to at most the day's target plus 15. *)
Definition dayGroup (stock : list IndexJs.Item) (grp : list IndexJs.Result)
           (day : string * Q) : Prop :=
  Forall (fun b => exists t, pushedFor stock 15 t (fst day) b) grp
  /\ sumQ (map IndexJs.total grp) <= snd day + 15.

(* ------------------------------------------------------------------ *)
(** ** part_000: the composer with the sniper fill *)
(* ------------------------------------------------------------------ *)

Module Part000.

Section Composer.

Variable random : nat -> Q.

(** MODE A is the item walk of the picker without the expensive-first
    attempts and without the strict fit; [canSellInFloat] is that of
    part_001. *)
Definition rangeWalk (attempt minItems : nat) (targetMin targetMax : Q)
           (randomItems : list Item) (k : nat) : Attempt * nat :=
  pickItems random (fun _ => false) Part001.canSellInFloat false attempt minItems
            targetMin targetMax randomItems emptyAttempt k.

(** MODE B, [for (let i = 0; i < minItems - 1; i++)]; [n] counts the rounds
    left.  The index [Math.floor(Math.random() * randomItems.length)] lies
    inside the array because [Math.random() < 1]; for an index outside,
    which the code never produces, the model ends the loop. *)
Fixpoint exactBase (n : nat) (targetMax : Q) (randomItems : list Item)
         (a : Attempt) (k : nat) : Attempt * nat :=
  match n with
  | O => (a, k)
  | S n' =>
      let remaining := targetMax - currentTotal a in
      if Qle_bool remaining 5 then (a, k)
      else
        let idx :=
          Z.to_nat (Qfloor (random k * inject_Z (Z.of_nat (length randomItems)))) in
        match randomItems !! idx with
        | None => (a, S k)
        | Some r =>
            let k := S k in
            let actualRemaining := getRem (tempUsed a) r in
            if Qle_bool actualRemaining (1 # 1000)
            then exactBase n' targetMax randomItems a k
            else
              let safeMax := remaining * (8 # 10) in
              let absMax := absMaxOf r actualRemaining safeMax in
              if Part001.canSellInFloat r safeMax then
                if Qlt_bool absMax (1 # 100)
                then exactBase n' targetMax randomItems a k
                else
                  let qty := toFixed 2 (random k * absMax) in
                  exactBase n' targetMax randomItems
                            (if Qlt_bool 0 qty then pushEntry a r qty else a) (S k)
              else
                let intMax := Qfloor absMax in
                if (intMax <? 1)%Z
                then exactBase n' targetMax randomItems a k
                else
                  let qty := inject_Z (Qfloor (random k * inject_Z intMax) + 1) in
                  exactBase n' targetMax randomItems
                            (if Qlt_bool 0 qty then pushEntry a r qty else a) (S k)
        end
  end.

(** The sniper fill: one more entry that closes the gap to [targetMax];
    it is pushed without an update of [tempUsed]. *)
Definition sniperFill (minItems : nat) (targetMax : Q) (availableItems : list Item)
           (a : Attempt) : Attempt :=
  if (minItems - 1 <=? pickedCount a)%nat then
    let gap := targetMax - currentTotal a in
    if Qlt_bool (1 # 10) gap then
      match List.find (fun i => let rem := getRem (tempUsed a) i in
                                let costOfRem := getItemBillTotal i rem in
                                Qlt_bool 0 rem && Qle_bool gap costOfRem)
                      availableItems with
      | Some candidate =>
          let exactQty := toFixed 2 (gap / singleUnitCost candidate) in
          if Qle_bool exactQty (getRem (tempUsed a) candidate) && Qlt_bool 0 exactQty then
            if Part001.canSellInFloat candidate gap || negb (hasFraction exactQty) then
              let cost := getItemBillTotal candidate exactQty in
              if Qlt_bool (Qabs (cost - gap)) 5 then
                mkAttempt (currentBill a ++ [mkEntry candidate exactQty cost])
                          (currentTotal a + cost) (S (pickedCount a)) (tempUsed a)
              else a
            else a
          else a
      | None => a
      end
    else a
  else a.

(** The picks of one attempt. *)
Definition fillAttempt (mode : string) (attempt minItems : nat) (targetMin targetMax : Q)
           (availableItems randomItems : list Item) (k : nat) : Attempt * nat :=
  if String.eqb mode "RANGE" then
    rangeWalk attempt minItems targetMin targetMax randomItems k
  else if String.eqb mode "EXACT" then
    let '(a, k1) := exactBase (minItems - 1) targetMax randomItems emptyAttempt k in
    (sniperFill minItems targetMax availableItems a, k1)
  else (emptyAttempt, k).

(** [for (let attempt = 0; attempt < maxAttempts; attempt++)]; the array
    [randomItems] is shuffled again after an attempt that is not accepted. *)
Fixpoint attemptLoop (left attempt minItems : nat) (mode : string)
         (targetMin targetMax dayTotalRemaining margin : Q)
         (availableItems randomItems : list Item) (k : nat) : option Attempt * nat :=
  match left with
  | O => (None, k)
  | S left' =>
      let '(a, k1) :=
        fillAttempt mode attempt minItems targetMin targetMax availableItems randomItems k in
      if isValid mode targetMin targetMax margin minItems a
         && safeLanding dayTotalRemaining margin a
      then (Some a, k1)
      else
        let '(randomItems, k2) := shuffleArray random randomItems k1 in
        attemptLoop left' (S attempt) minItems mode targetMin targetMax dayTotalRemaining
                    margin availableItems randomItems k2
  end.

Definition runTier (effort : Q) (mode : string)
           (targetMin targetMax dayTotalRemaining margin : Q) (availableItems : list Item)
           (t : Tier) (k : nat) : option Attempt * nat :=
  if (length availableItems <? count t)%nat then (None, k)
  else
    let '(randomItems, k1) := shuffleArray random availableItems k in
    attemptLoop (maxAttemptsOf t effort) 0 (count t) mode targetMin targetMax
                dayTotalRemaining margin availableItems randomItems k1.

Fixpoint tierLoop (tiers : list Tier) (effort : Q) (mode : string)
         (targetMin targetMax dayTotalRemaining margin : Q) (availableItems : list Item)
         (k : nat) : option Attempt * nat :=
  match tiers with
  | [] => (None, k)
  | t :: tiers' =>
      match runTier effort mode targetMin targetMax dayTotalRemaining margin
                    availableItems t k with
      | (Some a, k1) => (Some a, k1)
      | (None, k1) =>
          tierLoop tiers' effort mode targetMin targetMax dayTotalRemaining margin
                   availableItems k1
      end
  end.

(** [generateBillFromMap] of part_000; the global [billCounter] it counts
    up is read nowhere. *)
Definition generateBillFromMap (stockMap : StockMap)
           (targetMin targetMax dayTotalRemaining : Q) (d : string)
           (margin : Q) (mode : string) (currentFailures : nat) (k : nat)
  : Bill * StockMap * nat :=
  let availableItems :=
    List.filter (fun it => Qlt_bool (1 # 1000) (remainingQty it)) stockMap in
  let availableItems := sortItems cheapFirst availableItems in
  let itemCount := length availableItems in
  if (itemCount =? 0)%nat then (failure (Some "No items available"), stockMap, k)
  else
    let effort :=
      effortMultiplier 50 500 2000 (2 # 10) (5 # 100) (1 # 100) currentFailures in
    match tierLoop baseAttempts effort mode targetMin targetMax dayTotalRemaining margin
                   availableItems k with
    | (Some a, k1) =>
        (formatResult (currentBill a) (currentTotal a) targetMax d,
         commitBill (currentBill a) stockMap, k1)
    | (None, k1) => (failure None, stockMap, k1)
    end.

End Composer.

End Part000.

(** The quantity of the entries of [es] that name [n]. *)
Definition usedTot (n : string) (es : list Entry) : Q :=
  sumQ (map qty (List.filter (fun e => String.eqb n (ItemDetails (item e))) es)).

(** The running total of an attempt is a sum of cents and [pickedCount]
    counts its entries. *)
Definition shapeOK (a : Attempt) : Prop :=
  isMultiple 100 (currentTotal a) /\ pickedCount a = length (currentBill a).

(** The entries of an attempt of part_000 in EXACT mode on the stock [m],
    where an item can be drawn more than once: each entry is a positive
    multiple of 1/1000 of a row of [m], and what the entries take of a row
    stays within the row's quantity plus 0.005. *)
Definition drawOK (m : StockMap) (es : list Entry) : Prop :=
  Forall (fun e => In (item e) m /\ 0 < qty e /\ isMultiple 1000 (qty e)) es
  /\ forall it, In it m -> usedTot (ItemDetails it) es <= remainingQty it + (1 # 200).

(** [tempUsed] holds, for every name, the quantity of the entries that
    name it. *)
Definition usedInSync (a : Attempt) : Prop :=
  forall n, default 0 (usedGet (tempUsed a) n) == usedTot n (currentBill a).

(** What an accepted attempt of part_000 is: valid, landing safely, in
    shape, and its commit keeps every row at -0.005 or above. *)
Definition accepted000 (m : StockMap) (minItems : nat) (mode : string)
           (targetMin targetMax dayTotalRemaining margin : Q) (a : Attempt) : Prop :=
  isValid mode targetMin targetMax margin minItems a = true
  /\ safeLanding dayTotalRemaining margin a = true
  /\ shapeOK a
  /\ forall it', In it' (commitBill (currentBill a) m) -> - (1 # 200) <= remainingQty it'.

(* ------------------------------------------------------------------ *)
(** ** Further example inputs *)
(* ------------------------------------------------------------------ *)

(** A stock of item A alone, two days of which the second has no target,
    and two purchasers. *)
Definition stockA : StockMap := [itemA].
Definition demoTargets : list (string * Q) := [(demoDate, 100); ("2024-01-02"%string, 0)].
Definition demoNames : list string := ["Asha"%string; "Ravi"%string].


Definition demoRun001 : Scheduler001.State :=
  Eval vm_compute in
    default emptyState
            (Scheduler001.tryGenerateCashBills zeroRandom 100 500 stockA demoTargets 10).

(** One day and one run of the scheduler of part_002. *)
Definition startDay002 : Scheduler002.State :=
  Scheduler002.mkState stockA [] [] [] [] false 0.


Definition demoRun002 : Run002.Run :=
  Eval vm_compute in
    default (Run002.mkRun startDay002 [] [])
            (Run002.tryGenerateCashBills zeroRandom 100 500 stockA demoNames demoTargets 10).

(** Rows of [billTargets]: one with an amount and a date, one without an
    amount. *)
Definition demoBillTargets : list Upi002.Target :=
  [(Num 100, demoDate); (NaN, "x"%string)].

(** A stock sheet with one row that has no cess and no MRP cell. *)
Definition demoSheet : list SheetRow :=
  [mkSheetRow "A" (fin 10) (fin 100) (fin 0) Undefined Undefined].

(** A stock of index.js and a call of its composer. *)
Definition legacyStock : list IndexJs.Item := [IndexJs.mkItem "A" 100 0 0 0 10 1000].
Definition legacyGlobals : IndexJs.Globals := IndexJs.mkGlobals 0 0.

Definition demoLegacy : IndexJs.Result * list IndexJs.Item * IndexJs.Globals * nat :=
  Eval vm_compute in
    IndexJs.generateBillFromMap zeroRandom legacyGlobals legacyStock 300 demoDate 5 0.

Definition demoLegacyCash : IndexJsRun.Outcome :=
  Eval vm_compute in
    default IndexJsRun.Rejected
            (IndexJsRun.tryGenerateCashBills zeroRandom legacyGlobals 100 500 legacyStock
                                             ["Asha"%string] [(demoDate, 300)] 10).

(** A call of the composer of part_000 in EXACT mode. *)
Definition demoExact000 : Bill * StockMap * nat :=
  Eval vm_compute in
    Part000.generateBillFromMap zeroRandom demoStock 100 100 100 demoDate 50 "EXACT" 2001 0.

(* ------------------------------------------------------------------ *)
(** ** Further notions: how many bills a stock can carry *)
(* ------------------------------------------------------------------ *)

(** What the rows hold above their floor of -0.005, summed over the stock
    map. *)
Definition slack (m : StockMap) : Q :=
  sumQ (map (fun it => remainingQty it + (1 # 200)) m).

(** A bound on the number of bills the stock can still carry: every
    committed bill takes at least 0.0095 off the slack. *)
Definition billsLeft (m : StockMap) : nat :=
  Z.to_nat (Qfloor (slack m * (2000 # 19))).

(** Iterations that suffice for the [while] loop of one day when the
    failure ceiling is [c]: at most [c + 1] failed calls before each bill and
    after the last, and one more pass for each bill and for the exit. *)
Definition fuelFor (c : nat) (m : StockMap) : nat := ((billsLeft m + 1) * (c + 2))%nat.

Definition dayFuel001 (m : StockMap) : nat := fuelFor Scheduler001.ceiling m.
Definition dayFuel002 (m : StockMap) : nat := fuelFor Scheduler002.ceiling m.

(* ------------------------------------------------------------------ *)
(** ** IEEE doubles: the tax calculator and the composer of part_001 *)
(* ------------------------------------------------------------------ *)

(** The same code on binary64 numbers, for the places where the rounding
    of the double arithmetic shows.  A double is a [spec_float] of the
    library, whose operations round to nearest, ties to even, as the
    JavaScript operators do.  The sign of a zero result of [toFixed] and of
    [Math.floor] is not modelled; no comparison of the code tells the zeros
    apart. *)
Module Double.

Definition double : Type := SpecFloat.spec_float.

Definition prec : Z := 53.
Definition emax : Z := 1024.

Definition add : double -> double -> double := SpecFloat.SFadd prec emax.
Definition sub : double -> double -> double := SpecFloat.SFsub prec emax.
Definition mul : double -> double -> double := SpecFloat.SFmul prec emax.
Definition div : double -> double -> double := SpecFloat.SFdiv prec emax.
Definition ltb : double -> double -> bool := SpecFloat.SFltb.
Definition leb : double -> double -> bool := SpecFloat.SFleb.
Definition abs : double -> double := SpecFloat.SFabs.

Definition nan : double := SpecFloat.S754_nan.

(** The double of an integer; exact below 2^53. *)
Definition ofZ (z : Z) : double := SpecFloat.binary_normalize prec emax z 0 false.

(** The double a decimal literal or a decimal string denotes: the one
    nearest to [n / d].  The division is correctly rounded and [n], [d] are
    doubles themselves when below 2^53; [1.5] is [dec 15 10]. *)
Definition dec (n : Z) (d : positive) : double := div (ofZ n) (ofZ (Zpos d)).

(** The exact value of a finite double. *)
Definition valueOf (x : double) : option Q :=
  match x with
  | SpecFloat.S754_zero _ => Some 0
  | SpecFloat.S754_finite s m e =>
      let v := inject_Z (Zpos m) * Qpower 2 e in
      Some (if s then - v else v)
  | _ => None
  end.

Definition isNaN (x : double) : bool :=
  match x with
  | SpecFloat.S754_nan => true
  | _ => false
  end.

(** [+x.toFixed(d)] and [parseFloat(x.toFixed(d))]: [toFixed] takes the
    integer [n] with [n / 10^d] nearest to the exact value of [x], the
    larger one of two, and writes it as a decimal; reading the decimal
    gives the nearest double.  From 1e21 on, and for [NaN] and the
    infinities, the string is that of [x] itself. *)
Definition toFixed (d : nat) (x : double) : double :=
  match valueOf x with
  | Some v =>
      if Qle_bool (inject_Z (10 ^ 21)) (Qabs v) then x
      else
        let q := roundTo (Z.to_pos (10 ^ Z.of_nat d)) v in
        dec (Qnum q) (Qden q)
  | None => x
  end.

(** [Math.floor(x)] *)
Definition floor (x : double) : double :=
  match valueOf x with
  | Some v => ofZ (Qfloor v)
  | None => x
  end.

(** [Math.min(x, y)] and [Math.max(x, y)] *)
Definition min (x y : double) : double :=
  if isNaN x || isNaN y then nan else if ltb y x then y else x.

Definition max (x y : double) : double :=
  if isNaN x || isNaN y then nan else if ltb x y then y else x.

(** [x || 0] *)
Definition orZero (x : double) : double :=
  match x with
  | SpecFloat.S754_zero _ => ofZ 0
  | SpecFloat.S754_nan => ofZ 0
  | _ => x
  end.

(** [x % 1 !== 0]; the remainder of an infinity or of [NaN] is [NaN]. *)
Definition hasFraction (x : double) : bool :=
  match valueOf x with
  | Some v => negb (Qeq_bool (inject_Z (Qfloor v)) v)
  | None => true
  end.

(** An array index or a loop bound held in a double. *)
Definition toNat (x : double) : nat :=
  match valueOf x with
  | Some v => Z.to_nat (Qfloor v)
  | None => O
  end.

(** [calculateItemTotal(price, qty, gstPercent, cessPercent, mrp)] *)
Definition calculateItemTotal (price qty gstPercent cessPercent mrp : double) : double :=
  let base := mul price qty in
  let gstTax := div (mul base gstPercent) (ofZ 100) in
  let cessTax := div (mul (mul (orZero mrp) qty) (orZero cessPercent)) (ofZ 100) in
  toFixed 2 (add (add base gstTax) cessTax).

(** A row of the stock map of part_001. *)
Record Item : Type := mkItem {
  ItemDetails : string;
  Price : double;
  GST_PERCENT : double;
  CESS : double;
  MRP : double;
  remainingQty : double;
  singleUnitCost : double
}.

Definition StockMap : Type := list Item.

(** The object [buildStockMap] stores for a row whose cells are numbers:
    the unit cost is computed from the cells as they are, the stored
    numbers go through [|| 0]. *)
Definition buildItem (key : string) (qty price gst cess mrp : double) : Item :=
  mkItem key (orZero price) (orZero gst) (orZero cess) (orZero mrp) (orZero qty)
         (calculateItemTotal price (ofZ 1) gst cess mrp).

(** [stockMap.get(key).remainingQty = f(stockMap.get(key).remainingQty)] *)
Definition setRemainingQty (it : Item) (q : double) : Item :=
  mkItem (ItemDetails it) (Price it) (GST_PERCENT it) (CESS it) (MRP it) q
         (singleUnitCost it).

Definition updateRemaining (key : string) (f : double -> double) (m : StockMap) : StockMap :=
  map (fun it => if String.eqb (ItemDetails it) key
                 then setRemainingQty it (f (remainingQty it)) else it) m.

(** The scratch map [tempUsed], in insertion order. *)
Definition UsedMap : Type := list (string * double).

Fixpoint usedGet (m : UsedMap) (key : string) : option double :=
  match m with
  | [] => None
  | (k, v) :: m' => if String.eqb k key then Some v else usedGet m' key
  end.

Fixpoint usedSet (m : UsedMap) (key : string) (v : double) : UsedMap :=
  match m with
  | [] => [(key, v)]
  | (k, w) :: m' => if String.eqb k key then (k, v) :: m' else (k, w) :: usedSet m' key v
  end.

(** An element of [currentBill] and the local variables of one attempt. *)
Record Entry : Type := mkEntry {
  item : Item;
  qty : double;
  cost : double
}.

Record Attempt : Type := mkAttempt {
  currentBill : list Entry;
  currentTotal : double;
  pickedCount : nat;
  tempUsed : UsedMap
}.

Definition emptyAttempt : Attempt := mkAttempt [] (ofZ 0) 0%nat [].

(** A line of the formatted bill and the returned object. *)
Record BillLine : Type := mkBillLine {
  name : string;
  lineQty : double;
  unitPrice : double;
  gstPercent : double;
  cessPercent : double;
  mrp : double;
  cessTaxAmount : double;
  itemTotal : double;
  date : string
}.

Record Bill : Type := mkBill {
  items : list BillLine;
  total : double;
  targetAmount : option double;
  success : bool;
  reason : option string
}.

(** [getItemBillTotal(item, qty)] *)
Definition getItemBillTotal (it : Item) (q : double) : double :=
  calculateItemTotal (Price it) q (orZero (GST_PERCENT it)) (orZero (CESS it))
                     (orZero (MRP it)).

(** [canSellInFloat(item, roomLeft)] *)
Definition canSellInFloat (it : Item) (roomLeft : double) : bool :=
  if ltb (ofZ 10000) (MRP it) then true
  else if hasFraction (remainingQty it) then true
  else if ltb roomLeft (singleUnitCost it) then true
  else false.

(** The stable [array.sort(cmp)], as an insertion sort: [x] goes in front
    of the first later [y] unless the comparator is positive on them. *)
Fixpoint insertSorted (after : Item -> Item -> bool) (x : Item) (l : list Item) : list Item :=
  match l with
  | [] => [x]
  | y :: l' => if after x y then y :: insertSorted after x l' else x :: y :: l'
  end.

Definition sortItems (after : Item -> Item -> bool) (l : list Item) : list Item :=
  foldr (insertSorted after) [] l.

(** [(a, b) => a.singleUnitCost - b.singleUnitCost] is positive *)
Definition cheapFirst (a b : Item) : bool := ltb (singleUnitCost b) (singleUnitCost a).
(** [(a, b) => b.singleUnitCost - a.singleUnitCost] is positive *)
Definition expensiveFirst (a b : Item) : bool := ltb (singleUnitCost a) (singleUnitCost b).

(** [[array[i], array[j]] = [array[j], array[i]]] *)
Definition swap (a : list Item) (i j : nat) : list Item :=
  match a !! i, a !! j with
  | Some x, Some y => <[i := y]> (<[j := x]> a)
  | _, _ => a
  end.

(** [formatResult(billArray, total, target, date)]; the total is
    [+total.toFixed(2)]. *)
Definition formatLine (d : string) (e : Entry) : BillLine :=
  let it := item e in
  mkBillLine (ItemDetails it) (qty e) (Price it) (GST_PERCENT it) (CESS it) (MRP it)
             (div (mul (mul (orZero (MRP it)) (qty e)) (orZero (CESS it))) (ofZ 100))
             (cost e) d.

Definition formatResult (billArray : list Entry) (tot target : double) (d : string) : Bill :=
  mkBill (map (formatLine d) billArray) (toFixed 2 tot) (Some target) true None.

(** [{ items: [], total: 0, success: false, reason }] *)
Definition failure (why : option string) : Bill :=
  mkBill [] (ofZ 0) None false why.

(** The commit: for every entry, in order,
    [realItem.remainingQty = parseFloat((realItem.remainingQty - entry.qty).toFixed(3))]. *)
Definition commitBill (bill : list Entry) (m : StockMap) : StockMap :=
  fold_left (fun m e => updateRemaining (ItemDetails (item e))
                                        (fun r => toFixed 3 (sub r (qty e))) m) bill m.

(** [effortMultiplier]: 1.0, then 0.5, 0.1 and 0.02 above 50, 500 and 2000
    failures. *)
Definition effortMultiplier (currentFailures : nat) : double :=
  let e := ofZ 1 in
  let e := if (50 <? currentFailures)%nat then dec 5 10 else e in
  let e := if (500 <? currentFailures)%nat then dec 1 10 else e in
  let e := if (2000 <? currentFailures)%nat then dec 2 100 else e in
  e.

(** [Math.max(1, Math.floor(tier.attempts * effortMultiplier))] *)
Definition maxAttemptsOf (t : Tier) (effort : double) : nat :=
  toNat (max (ofZ 1) (floor (mul (ofZ (attempts t)) effort))).

(** Validation: [currentTotal >= targetMin && currentTotal <= targetMax &&
    pickedCount >= minItems] in RANGE mode,
    [Math.abs(targetMax - currentTotal) <= tolerance && pickedCount >= minItems]
    otherwise.  The total tested is the running sum, not yet rounded. *)
Definition isValid (mode : string) (targetMin targetMax margin : double) (minItems : nat)
           (a : Attempt) : bool :=
  let tolerance := if String.eqb mode "EXACT" then margin else ofZ 0 in
  if String.eqb mode "RANGE" then
    leb targetMin (currentTotal a) && leb (currentTotal a) targetMax
    && (minItems <=? pickedCount a)%nat
  else
    leb (abs (sub targetMax (currentTotal a))) tolerance
    && (minItems <=? pickedCount a)%nat.

(** Safe landing: [futureDayRemaining <= margin || futureDayRemaining > 50]
    with [futureDayRemaining = dayTotalRemaining - currentTotal]. *)
Definition safeLanding (dayTotalRemaining margin : double) (a : Attempt) : bool :=
  let futureDayRemaining := sub dayTotalRemaining (currentTotal a) in
  leb futureDayRemaining margin || ltb (ofZ 50) futureDayRemaining.

Section Composer.

Variable random : nat -> double.

(** [shuffleArray]: [for (let i = array.length - 1; i > 0; i--)] with
    [j = Math.floor(Math.random() * (i + 1))]. *)
Fixpoint shuffleFrom (i : nat) (a : list Item) (k : nat) : list Item * nat :=
  match i with
  | O => (a, k)
  | S i' =>
      let j := toNat (floor (mul (random k) (ofZ (Z.of_nat i + 1)))) in
      shuffleFrom i' (swap a i j) (S k)
  end.

Definition shuffleArray (a : list Item) (k : nat) : list Item * nat :=
  shuffleFrom (length a - 1) a k.

(** [getRem]: [Math.max(0, i.remainingQty - (tempUsed.get(name) || 0))] *)
Definition getRem (used : UsedMap) (i : Item) : double :=
  let u := orZero (default (ofZ 0) (usedGet used (ItemDetails i))) in
  max (ofZ 0) (sub (remainingQty i) u).

(** The quantity chosen for one item; [None] stands for [continue]. *)
Definition chooseQty (attempt minItems : nat) (it : Item)
           (actualRemaining roomLeft : double) (picked k : nat) : option double * nat :=
  let allowFloat := canSellInFloat it roomLeft in
  let maxQtyBudget := div roomLeft (singleUnitCost it) in
  let absMax := min actualRemaining maxQtyBudget in
  if allowFloat then
    if ltb absMax (dec 1 100) then (None, k)
    else
      let '(factor, k1) :=
        if (attempt =? 0)%nat then (dec 9 10, k)
        else (add (mul (random k) (dec 8 10)) (dec 2 10), S k) in
      let q := toFixed 2 (mul absMax factor) in
      let q := if (picked <? minItems)%nat && ltb (div absMax (ofZ 2)) q
               then toFixed 2 (div absMax (ofZ 2)) else q in
      (Some q, k1)
  else
    let intMax := floor absMax in
    if ltb intMax (ofZ 1) then (None, k)
    else
      let intMax := if (picked <? minItems)%nat then min intMax (ofZ 2) else intMax in
      (Some (add (floor (mul (random k) intMax)) (ofZ 1)), S k).

(** [currentBill.push({ item, qty, cost }); currentTotal += cost;
    pickedCount++; tempUsed.set(name, (tempUsed.get(name) || 0) + qty)] *)
Definition pushEntry (a : Attempt) (it : Item) (q : double) : Attempt :=
  let c := getItemBillTotal it q in
  mkAttempt (currentBill a ++ [mkEntry it q c])
            (add (currentTotal a) c)
            (S (pickedCount a))
            (usedSet (tempUsed a) (ItemDetails it)
                     (add (orZero (default (ofZ 0) (usedGet (tempUsed a) (ItemDetails it)))) q)).

(** [for (const item of selectionPool) { ... }] *)
Fixpoint pickItems (attempt minItems : nat) (targetMin targetMax : double)
         (pool : list Item) (a : Attempt) (k : nat) : Attempt * nat :=
  match pool with
  | [] => (a, k)
  | it :: rest =>
      let done := leb targetMin (currentTotal a) && (minItems <=? pickedCount a)%nat in
      let '(stop, k0) :=
        if done then
          if (attempt =? 0)%nat then (true, k)
          else (ltb (dec 5 10) (random k), S k)
        else (false, k) in
      if stop then (a, k0)
      else
        let actualRemaining := getRem (tempUsed a) it in
        if leb actualRemaining (dec 1 1000)
        then pickItems attempt minItems targetMin targetMax rest a k0
        else
          let roomLeft := sub targetMax (currentTotal a) in
          if ltb roomLeft (ofZ 1)
          then pickItems attempt minItems targetMin targetMax rest a k0
          else
            match chooseQty attempt minItems it actualRemaining roomLeft
                            (pickedCount a) k0 with
            | (None, k1) => pickItems attempt minItems targetMin targetMax rest a k1
            | (Some q, k1) =>
                if leb q (ofZ 0)
                then pickItems attempt minItems targetMin targetMax rest a k1
                else pickItems attempt minItems targetMin targetMax rest
                               (pushEntry a it q) k1
            end
  end.

(** [for (let attempt = 0; attempt < maxAttempts; attempt++)]: attempt 0
    walks [expensiveItemsFirst], the later ones a shuffled copy of
    [availableItems]. *)
Fixpoint attemptLoop (left attempt minItems : nat) (mode : string)
         (targetMin targetMax dayTotalRemaining margin : double)
         (availableItems expensiveItemsFirst : list Item) (k : nat)
  : option Attempt * nat :=
  match left with
  | O => (None, k)
  | S left' =>
      let '(pool, k1) :=
        if (attempt =? 0)%nat then (expensiveItemsFirst, k)
        else shuffleArray availableItems k in
      let '(a, k2) := pickItems attempt minItems targetMin targetMax pool emptyAttempt k1 in
      if isValid mode targetMin targetMax margin minItems a
         && safeLanding dayTotalRemaining margin a
      then (Some a, k2)
      else attemptLoop left' (S attempt) minItems mode
                       targetMin targetMax dayTotalRemaining margin
                       availableItems expensiveItemsFirst k2
  end.

(** [for (const tier of baseAttempts)], with
    [if (itemCount < minItems) continue]. *)
Fixpoint tierLoop (tiers : list Tier) (effort : double) (mode : string)
         (targetMin targetMax dayTotalRemaining margin : double)
         (availableItems expensiveItemsFirst : list Item) (k : nat)
  : option Attempt * nat :=
  match tiers with
  | [] => (None, k)
  | t :: tiers' =>
      if (length availableItems <? count t)%nat
      then tierLoop tiers' effort mode targetMin targetMax dayTotalRemaining margin
                    availableItems expensiveItemsFirst k
      else
        match attemptLoop (maxAttemptsOf t effort) 0 (count t) mode
                          targetMin targetMax dayTotalRemaining margin
                          availableItems expensiveItemsFirst k with
        | (Some a, k1) => (Some a, k1)
        | (None, k1) =>
            tierLoop tiers' effort mode targetMin targetMax dayTotalRemaining margin
                     availableItems expensiveItemsFirst k1
        end
  end.

(** [generateBillFromMap] of part_001: the returned object, the stock map
    after the call and the number of [Math.random()] calls so far. *)
Definition generateBillFromMap (stockMap : StockMap)
           (targetMin targetMax dayTotalRemaining : double) (d : string)
           (margin : double) (mode : string) (currentFailures : nat) (k : nat)
  : Bill * StockMap * nat :=
  let availableItems :=
    List.filter (fun it => ltb (dec 1 1000) (remainingQty it)) stockMap in
  let availableItems := sortItems cheapFirst availableItems in
  if (length availableItems =? 0)%nat then (failure (Some "No items"), stockMap, k)
  else
    let expensiveItemsFirst := sortItems expensiveFirst availableItems in
    match tierLoop baseAttempts (effortMultiplier currentFailures) mode
                   targetMin targetMax dayTotalRemaining margin
                   availableItems expensiveItemsFirst k with
    | (Some a, k1) =>
        (formatResult (currentBill a) (currentTotal a) targetMax d,
         commitBill (currentBill a) stockMap, k1)
    | (None, k1) => (failure None, stockMap, k1)
    end.

End Composer.

End Double.

(** Two rows without tax, as [buildStockMap] stores them: five units at
    200.20 and five at 100.10. *)
Definition floatStock : Double.StockMap :=
  Eval vm_compute in
    [Double.buildItem "P" (Double.ofZ 5) (Double.dec 2002 10) (Double.ofZ 0) (Double.ofZ 0)
                      (Double.ofZ 0);
     Double.buildItem "Q" (Double.ofZ 5) (Double.dec 1001 10) (Double.ofZ 0) (Double.ofZ 0)
                      (Double.ofZ 0)].

(** A [Math.random()] that returns 0 at every call, as a double. *)
Definition zeroDouble : nat -> Double.double := fun _ => Double.ofZ 0.

(** [availableItems] and [expensiveItemsFirst] of a call on that stock. *)
Definition floatAvailable : list Double.Item :=
  Eval vm_compute in
    Double.sortItems Double.cheapFirst
      (List.filter (fun it => Double.ltb (Double.dec 1 1000) (Double.remainingQty it))
                   floatStock).

Definition floatExpensive : list Double.Item :=
  Eval vm_compute in Double.sortItems Double.expensiveFirst floatAvailable.

(** The same stock on exact rationals. *)
Definition exactStock : StockMap :=
  [mkItem "P" (2002 # 10) 0 0 0 5 (2002 # 10) false;
   mkItem "Q" (1001 # 10) 0 0 0 5 (1001 # 10) false].

(* ================================================================== *)
(** * Properties *)
(* ================================================================== *)

(* ------------------------------------------------------------------ *)
(** ** Comparisons and rounding *)
(* ------------------------------------------------------------------ *)

Lemma Qlt_bool_iff x y : Qlt_bool x y = true <-> x < y.
Proof.
  unfold Qlt_bool. rewrite negb_true_iff. split; intros H.
  - apply Qnot_le_lt. intros Hle. apply Qle_bool_iff in Hle. congruence.
  - destruct (Qle_bool y x) eqn:E; [|reflexivity].
    apply Qle_bool_iff in E. lra.
Qed.

Lemma Qlt_bool_false x y : Qlt_bool x y = false <-> y <= x.
Proof. unfold Qlt_bool. rewrite negb_false_iff. apply Qle_bool_iff. Qed.

Lemma Qlt_bool_compat x x' y y' : x == x' -> y == y' -> Qlt_bool x y = Qlt_bool x' y'.
Proof.
  intros Hx Hy. destruct (Qlt_bool x' y') eqn:E.
  - apply Qlt_bool_iff. apply Qlt_bool_iff in E. lra.
  - apply Qlt_bool_false. apply Qlt_bool_false in E. lra.
Qed.

Lemma Qmake_scale (z : Z) (s : positive) : (z # s) * inject_Z (Zpos s) == inject_Z z.
Proof. unfold Qeq, Qmult, inject_Z. simpl. lia. Qed.

Lemma roundTo_compat s x y : x == y -> roundTo s x == roundTo s y.
Proof.
  intros H. unfold roundTo.
  rewrite (Qlt_bool_compat x y 0 0 H (Qeq_refl 0)).
  assert (Hn : Qfloor (Qabs x * inject_Z (Z.pos s) + (1 # 2))
               = Qfloor (Qabs y * inject_Z (Z.pos s) + (1 # 2))).
  { apply Qfloor_comp. rewrite H. reflexivity. }
  rewrite Hn. reflexivity.
Qed.

Lemma roundTo_multiple s x : isMultiple s (roundTo s x).
Proof.
  unfold roundTo. destruct (Qlt_bool x 0).
  - eexists (- _)%Z. reflexivity.
  - eexists. reflexivity.
Qed.

Lemma roundTo_fix s x : isMultiple s x -> roundTo s x == x.
Proof.
  intros [z Hz]. unfold roundTo.
  assert (Habs : Qabs x * inject_Z (Z.pos s) == inject_Z (Z.abs z)).
  { rewrite Hz. unfold Qabs. simpl. apply Qmake_scale. }
  assert (Hn : Qfloor (Qabs x * inject_Z (Z.pos s) + (1 # 2)) = Z.abs z).
  { rewrite Habs. unfold Qfloor, Qplus, inject_Z. simpl.
    symmetry. apply (Z.div_unique _ 2 _ 1); lia. }
  rewrite Hn. destruct (Qlt_bool x 0) eqn:E.
  - apply Qlt_bool_iff in E. rewrite Hz in E |- *.
    unfold Qlt in E; simpl in E. unfold Qeq, Qopp; simpl. lia.
  - apply Qlt_bool_false in E. rewrite Hz in E |- *.
    unfold Qle in E; simpl in E. unfold Qeq; simpl. lia.
Qed.

Lemma isMultiple_zero s : isMultiple s 0.
Proof. exists 0%Z. reflexivity. Qed.

Lemma isMultiple_plus s x y : isMultiple s x -> isMultiple s y -> isMultiple s (x + y).
Proof.
  intros [a Ha] [b Hb]. exists (a + b)%Z. rewrite Ha, Hb.
  unfold Qeq, Qplus; simpl. nia.
Qed.

(** Rounding moves a number by at most half a unit of the last digit. *)
Lemma roundTo_error s x : Qabs (roundTo s x - x) <= 1 # (2 * s).
Proof.
  unfold roundTo.
  set (S := inject_Z (Z.pos s)).
  assert (HS : 0 < S) by (unfold S, Qlt; simpl; lia).
  pose proof (Qfloor_le (Qabs x * S + (1 # 2))) as H1.
  pose proof (Qlt_floor (Qabs x * S + (1 # 2))) as H2.
  set (n := Qfloor _) in *.
  rewrite inject_Z_plus in H2. change (inject_Z 1) with 1 in H2.
  pose proof (Qmake_scale n s) as Hu. fold S in Hu.
  assert (He : (1 # (2 * s)) * S == 1 # 2).
  { unfold S, Qeq, Qmult, inject_Z. simpl. lia. }
  set (u := n # s) in *. set (e := 1 # (2 * s)) in *.
  apply Qabs_Qle_condition.
  destruct (Qlt_bool x 0) eqn:E.
  - apply Qlt_bool_iff in E.
    assert (Hy : Qabs x == - x) by (apply Qabs_neg; lra).
    rewrite Hy in H1, H2.
    split; apply (Qmult_le_r _ _ S HS); nra.
  - apply Qlt_bool_false in E.
    assert (Hy : Qabs x == x) by (apply Qabs_pos; lra).
    rewrite Hy in H1, H2.
    split; apply (Qmult_le_r _ _ S HS); nra.
Qed.

Lemma toFixed2_cents x : isMultiple 100 (toFixed 2 x).
Proof. apply (roundTo_multiple 100). Qed.

Lemma toFixed2_fix x : isMultiple 100 x -> toFixed 2 x == x.
Proof. apply (roundTo_fix 100). Qed.

Lemma toFixed3_error x : Qabs (toFixed 3 x - x) <= 1 # 2000.
Proof. apply (roundTo_error 1000). Qed.

Lemma hasFraction_false x : hasFraction x = false <-> exists z : Z, x == inject_Z z.
Proof.
  unfold hasFraction. rewrite negb_false_iff, Qeq_bool_iff. split.
  - intros H. exists (Qfloor x). symmetry. exact H.
  - intros [z Hz]. rewrite Hz at 1. rewrite Qfloor_Z. symmetry. exact Hz.
Qed.

(* ------------------------------------------------------------------ *)
(** ** Tax calculator *)
(* ------------------------------------------------------------------ *)

Lemma orZero_fin q : orZero (fin q) =n= Num q.
Proof.
  unfold orZero, fin. destruct (Qeq_bool q 0) eqn:E; simpl.
  - apply Qeq_bool_iff in E. symmetry. exact E.
  - reflexivity.
Qed.

(** On finite arguments [calculateItemTotal] is [lineTotal]. *)
Lemma calculateItemTotal_fin p q g c m :
  calculateItemTotal (fin p) (fin q) (fin g) (fin c) (fin m) =n= Num (lineTotal p q g c m).
Proof.
  unfold calculateItemTotal, lineTotal.
  pose proof (orZero_fin c) as Hc. pose proof (orZero_fin m) as Hm.
  destruct (orZero (fin c)) as [|c'], (orZero (fin m)) as [|m']; simpl in Hc, Hm; try contradiction.
  simpl. apply (roundTo_compat 100). rewrite Hc, Hm. reflexivity.
Qed.

(** C5.  The calculator rounds the binary double, not the value of the
    formula.  At [calculateItemTotal(1.5, 1, 5, 0, 0)] the formula gives
    1.575, which rounds to 1.58; the sum the code holds is the double just
    below 1.575, and [toFixed(2)] makes it 1.57.  Likewise
    [calculateItemTotal(4.5, 1, 5, 0, 0)] is 4.72 where 4.725 rounds to 4.73.
    [calculateItemTotal(100, 2, 18, 0, 0)] and
    [calculateItemTotal(50, 1, 5, 2, 200)] need no rounding and come out as
    236 and 56.5. *)
Theorem calculateItemTotal_tie_in_doubles :
  Double.calculateItemTotal (Double.dec 15 10) (Double.ofZ 1) (Double.ofZ 5)
                            (Double.ofZ 0) (Double.ofZ 0)
  = Double.dec 157 100
  /\ (15 # 10) * 1 * (1 + 5 / 100) + 0 * 1 * (0 / 100) == 1575 # 1000
  /\ toFixed 2 (1575 # 1000) == 158 # 100
  /\ (exists v, Double.valueOf
                  (Double.add (Double.mul (Double.dec 15 10) (Double.ofZ 1))
                              (Double.div (Double.mul (Double.mul (Double.dec 15 10)
                                                                  (Double.ofZ 1))
                                                      (Double.ofZ 5))
                                          (Double.ofZ 100)))
                = Some v
                /\ v < 1575 # 1000)
  /\ Double.calculateItemTotal (Double.dec 45 10) (Double.ofZ 1) (Double.ofZ 5)
                               (Double.ofZ 0) (Double.ofZ 0)
     = Double.dec 472 100
  /\ toFixed 2 ((45 # 10) * 1 * (1 + 5 / 100) + 0 * 1 * (0 / 100)) == 473 # 100
  /\ Double.calculateItemTotal (Double.ofZ 100) (Double.ofZ 2) (Double.ofZ 18)
                               (Double.ofZ 0) (Double.ofZ 0)
     = Double.ofZ 236
  /\ Double.calculateItemTotal (Double.ofZ 50) (Double.ofZ 1) (Double.ofZ 5)
                               (Double.ofZ 2) (Double.ofZ 200)
     = Double.dec 565 10.
Proof.
  split; [vm_compute; reflexivity|].
  split; [vm_compute; reflexivity|].
  split; [vm_compute; reflexivity|].
  split.
  { eexists. split; [vm_compute; reflexivity|]. vm_compute. reflexivity. }
  split; [vm_compute; reflexivity|].
  split; [vm_compute; reflexivity|].
  split; vm_compute; reflexivity.
Qed.

(** Absent [cessPercent] or [mrp] count as zero. *)
Lemma calculateItemTotal_missing_cess_mrp price q gst cess m :
  calculateItemTotal price q gst Undefined m = calculateItemTotal price q gst (fin 0) m
  /\ calculateItemTotal price q gst cess Undefined = calculateItemTotal price q gst cess (fin 0).
Proof. split; reflexivity. Qed.

(** C8.  An absent [gstPercent] is not treated as zero: the result is
    [NaN], whereas with [gstPercent = 0] it is the taxed total; at
    [calculateItemTotal(100, 2, undefined, 0, 0)] the code returns [NaN]
    instead of 200. *)
Theorem calculateItemTotal_missing_gst :
  (forall price q cess m, calculateItemTotal price q Undefined cess m = NaN)
  /\ (forall unitPrice q cess m : Q,
         exists t, calculateItemTotal (fin unitPrice) (fin q) (fin 0) (fin cess) (fin m) = Num t)
  /\ calculateItemTotal (fin 100) (fin 2) Undefined (fin 0) (fin 0) = NaN
  /\ calculateItemTotal (fin 100) (fin 2) (fin 0) (fin 0) (fin 0) =n= Num 200.
Proof.
  split; [|split; [|split]].
  - intros price q cess m. unfold calculateItemTotal. simpl.
    destruct (nmul (toNumber price) (toNumber q)); reflexivity.
  - intros p q c m.
    pose proof (calculateItemTotal_fin p q 0 c m) as H.
    destruct (calculateItemTotal _ _ _ _ _) as [|t]; [contradiction|].
    exists t. reflexivity.
  - reflexivity.
  - vm_compute. reflexivity.
Qed.

(* ------------------------------------------------------------------ *)
(** ** Fractional-sale policy *)
(* ------------------------------------------------------------------ *)

(** The policy of part_001 allows a fractional quantity exactly when the MRP
    is above 10000, or the remaining quantity is not a whole number, or one
    unit costs more than the room left. *)
Lemma policy001_iff (it : Item) (roomLeft : Q) :
  Part001.canSellInFloat it roomLeft = true
  <-> (10000 < MRP it \/ ~ isWhole (remainingQty it) \/ roomLeft < singleUnitCost it).
Proof.
  unfold Part001.canSellInFloat.
  destruct (Qlt_bool 10000 (MRP it)) eqn:Ea.
  { apply Qlt_bool_iff in Ea. tauto. }
  apply Qlt_bool_false in Ea.
  destruct (hasFraction (remainingQty it)) eqn:Eb.
  { split; [intros _|reflexivity]. right; left. intros Hw.
    apply hasFraction_false in Hw. congruence. }
  apply hasFraction_false in Eb.
  destruct (Qlt_bool roomLeft (singleUnitCost it)) eqn:Ec.
  { apply Qlt_bool_iff in Ec. tauto. }
  apply Qlt_bool_false in Ec.
  split; [discriminate|]. intros [H|[H|H]]; [lra|contradiction|lra].
Qed.

(** The strict policy of part_002 looks at the MRP and at the quantity the
    item was loaded with, not at the room left. *)
Lemma canSellInFloat_strict_iff (it : Item) :
  Part002.canSellInFloat it = true <-> (10000 < MRP it \/ originalIsFloat it = true).
Proof.
  unfold Part002.canSellInFloat.
  destruct (Qlt_bool 10000 (MRP it)) eqn:Ea.
  - apply Qlt_bool_iff in Ea. tauto.
  - apply Qlt_bool_false in Ea. destruct (originalIsFloat it).
    + tauto.
    + split; [discriminate|]. intros [H|H]; [lra|discriminate].
Qed.

(** C6.  The fractional-sale policy, variant by variant.  In part_001, and
    in part_000, which has the same body, a fractional quantity is allowed
    exactly when the MRP is above 10000, or the remaining quantity is not a
    whole number, or one unit costs more than the room left.  In part_002
    the policy does not see the room left: a fractional quantity is allowed
    exactly when the MRP is above 10000 or the quantity was fractional when
    the stock was loaded.  In both, when the policy says no, a quantity the
    picker chooses is a whole number. *)
Theorem canSellInFloat_by_variant (it : Item) (roomLeft : Q) :
  (Part001.canSellInFloat it roomLeft = true
   <-> (10000 < MRP it \/ ~ isWhole (remainingQty it) \/ roomLeft < singleUnitCost it))
  /\ (Part002.canSellInFloat it = true
      <-> (10000 < MRP it \/ originalIsFloat it = true))
  /\ (forall random attempt minItems actualRemaining picked k q k',
        (Part001.canSellInFloat it roomLeft = false
         /\ chooseQty random Part001.bigFirst Part001.canSellInFloat false
                      attempt minItems it actualRemaining roomLeft picked k = (Some q, k'))
        \/ (Part002.canSellInFloat it = false
            /\ chooseQty random Part002.bigFirst (fun i _ => Part002.canSellInFloat i) true
                         attempt minItems it actualRemaining roomLeft picked k
               = (Some q, k')) ->
        isWhole q).
Proof.
  split; [apply policy001_iff|]. split; [apply canSellInFloat_strict_iff|].
  intros random attempt minItems actualRemaining picked k q k' [[Hno H]|[Hno H]];
    unfold chooseQty in H; rewrite Hno in H.
  - simpl in H. destruct (Qfloor _ <? 1)%Z; [discriminate|].
    inversion H; subst. eexists. reflexivity.
  - cbn [negb andb] in H. destruct (Qlt_bool roomLeft (singleUnitCost it)); [discriminate|].
    destruct (Qfloor _ <? 1)%Z; [discriminate|].
    inversion H; subst. eexists. reflexivity.
Qed.

(** C6, an input on which part_002 goes against rule (c).  Item A has ten
    whole units at 100 each, no MRP, and was loaded with a whole quantity;
    the room left is 50.  One unit costs more than the room, so rule (c)
    holds and part_001 allows the fraction; part_002 does not, and its
    picker passes the item over.  So for part_002 it is not so that a
    fraction is allowed exactly when one of the rules (a), (b), (c)
    holds. *)
Lemma strict_policy_ignores_room :
  ~ (Part002.canSellInFloat itemA = true
     <-> (10000 < MRP itemA \/ ~ isWhole (remainingQty itemA)
          \/ roomLeftDemo < singleUnitCost itemA))
  /\ roomLeftDemo < singleUnitCost itemA
  /\ Part001.canSellInFloat itemA roomLeftDemo = true
  /\ Part002.canSellInFloat itemA = false
  /\ chooseQty zeroRandom Part002.bigFirst (fun i _ => Part002.canSellInFloat i) true
               0 1 itemA 10 roomLeftDemo 0 0 = (None, 0%nat).
Proof.
  assert (Hc : roomLeftDemo < singleUnitCost itemA) by reflexivity.
  assert (Hno : Part002.canSellInFloat itemA = false) by reflexivity.
  split.
  - intros [_ H]. rewrite Hno in H. discriminate H. right; right. exact Hc.
  - split; [exact Hc|]. split; [reflexivity|]. split; [exact Hno|reflexivity].
Qed.

(* ------------------------------------------------------------------ *)
(** ** The item picker *)
(* ------------------------------------------------------------------ *)

Lemma pushAll_app a qs p : pushAll a (qs ++ [p]) = pushEntry (pushAll a qs) (fst p) (snd p).
Proof. unfold pushAll. rewrite fold_left_app. reflexivity. Qed.

Lemma pushAll_cons a p qs :
  pushAll a (p :: qs) = pushAll (pushEntry a (fst p) (snd p)) qs.
Proof. reflexivity. Qed.

Lemma pushAll_currentBill qs : forall a,
  currentBill (pushAll a qs) = currentBill a ++ map entryOf qs.
Proof.
  induction qs as [|p qs IH]; intros a.
  - simpl. rewrite app_nil_r. reflexivity.
  - rewrite pushAll_cons, IH. simpl. rewrite <- app_assoc. reflexivity.
Qed.

Lemma pushAll_pickedCount qs : forall a,
  pickedCount (pushAll a qs) = (pickedCount a + length qs)%nat.
Proof.
  induction qs as [|p qs IH]; intros a.
  - simpl. lia.
  - rewrite pushAll_cons, IH. simpl. lia.
Qed.

Lemma pushAll_cents qs : forall a,
  isMultiple 100 (currentTotal a) -> isMultiple 100 (currentTotal (pushAll a qs)).
Proof.
  induction qs as [|p qs IH]; intros a Ha.
  - exact Ha.
  - rewrite pushAll_cons. apply IH. simpl. apply isMultiple_plus; [exact Ha|].
    unfold getItemBillTotal, lineTotal. apply toFixed2_cents.
Qed.

Lemma usedSet_fresh m key v : usedGet m key = None -> usedSet m key v = m ++ [(key, v)].
Proof.
  induction m as [|[k w] m IH]; simpl; intros H.
  - reflexivity.
  - destruct (String.eqb k key); [discriminate|]. rewrite IH by exact H. reflexivity.
Qed.

Lemma usedGet_None m key : usedGet m key = None <-> ~ In key (map fst m).
Proof.
  induction m as [|[k w] m IH]; simpl.
  - tauto.
  - destruct (String.eqb k key) eqn:E.
    + apply String.eqb_eq in E. split; [discriminate|]. tauto.
    + apply String.eqb_neq in E. rewrite IH. tauto.
Qed.

Lemma pushAll_tempUsed qs : forall a,
  NoDup (map fst (tempUsed a) ++ map (fun p => ItemDetails (fst p)) qs) ->
  tempUsed (pushAll a qs) = tempUsed a ++ map usedOf qs.
Proof.
  induction qs as [|p qs IH]; intros a Hnd.
  - simpl. rewrite app_nil_r. reflexivity.
  - assert (Hfresh : usedGet (tempUsed a) (ItemDetails (fst p)) = None).
    { apply usedGet_None. intros Hin.
      apply NoDup_app in Hnd as (_ & Hd & _). apply list_elem_of_In in Hin.
      apply (Hd _ Hin). left. }
    assert (Hused : tempUsed (pushEntry a (fst p) (snd p)) = tempUsed a ++ [usedOf p]).
    { simpl. rewrite Hfresh. simpl. apply usedSet_fresh. exact Hfresh. }
    rewrite pushAll_cons, IH.
    + rewrite Hused, <- app_assoc. reflexivity.
    + rewrite Hused, map_app, <- app_assoc. exact Hnd.
Qed.

Section PickerFacts.

Variable random : nat -> Q.
Variable bigFirst : nat -> bool.
Variable canFloat : Item -> Q -> bool.
Variable strictFit : bool.

Lemma pickItems_pushes attempt minItems targetMin targetMax pool :
  forall a k, exists qs,
    fst (pickItems random bigFirst canFloat strictFit attempt minItems
                   targetMin targetMax pool a k) = pushAll a qs
    /\ sublist (map fst qs) pool
    /\ Forall (fun p => 0 < snd p) qs.
Proof.
  induction pool as [|it rest IH]; intros a k.
  - exists []. simpl. split; [reflexivity|]. split; constructor.
  - assert (Hrest : forall k', exists qs,
               fst (pickItems random bigFirst canFloat strictFit attempt minItems
                              targetMin targetMax rest a k') = pushAll a qs
               /\ sublist (map fst qs) (it :: rest)
               /\ Forall (fun p => 0 < snd p) qs).
    { intros k'. destruct (IH a k') as (qs & H1 & H2 & H3).
      exists qs. split; [exact H1|]. split; [|exact H3].
      apply sublist_cons. exact H2. }
    simpl.
    destruct (if Qle_bool targetMin (currentTotal a) && (minItems <=? pickedCount a)%nat
              then if bigFirst attempt then (true, k)
                   else (Qlt_bool (1 # 2) (random k), S k)
              else (false, k)) as [stop k0].
    destruct stop.
    { exists []. simpl. split; [reflexivity|]. split; [apply sublist_nil_l|constructor]. }
    destruct (Qle_bool (getRem (tempUsed a) it) (1 # 1000)); [apply Hrest|].
    destruct (Qlt_bool (targetMax - currentTotal a) 1); [apply Hrest|].
    destruct (chooseQty _ _ _ _ _ _ _ _ _ _ _) as [[q|] k1]; [|apply Hrest].
    destruct (Qle_bool q 0) eqn:Eq; [apply Hrest|].
    destruct (IH (pushEntry a it q) k1) as (qs & H1 & H2 & H3).
    exists ((it, q) :: qs). split; [exact H1|]. split.
    + simpl. apply sublist_skip. exact H2.
    + constructor; [|exact H3]. simpl.
      apply Qnot_le_lt. intros Hle. apply Qle_bool_iff in Hle. congruence.
Qed.

Variable selectPool : nat -> nat -> nat -> list Item * nat.

Lemma attemptLoop_Some minItems mode targetMin targetMax dayTotalRemaining margin left :
  forall attempt k a k',
    attemptLoop random bigFirst canFloat strictFit selectPool left attempt minItems mode
                targetMin targetMax dayTotalRemaining margin k = (Some a, k') ->
    acceptedBy selectPool minItems mode targetMin targetMax dayTotalRemaining margin a.
Proof.
  induction left as [|left IH]; intros attempt k a k' H; simpl in H.
  - discriminate.
  - destruct (selectPool minItems attempt k) as [pool k1] eqn:Epool.
    destruct (pickItems _ _ _ _ _ _ _ _ _ _ _) as [a1 k2] eqn:Epick.
    destruct (isValid mode targetMin targetMax margin minItems a1
              && safeLanding dayTotalRemaining margin a1) eqn:Eok.
    + inversion H; subst. apply andb_true_iff in Eok as [Hv Hs].
      split; [|split; assumption].
      destruct (pickItems_pushes attempt minItems targetMin targetMax pool emptyAttempt k1)
        as (qs & H1 & H2 & H3).
      rewrite Epick in H1. simpl in H1.
      exists attempt, k, qs. rewrite Epool. simpl. auto.
    + eapply IH. exact H.
Qed.

Lemma tierLoop_Some effort itemCount mode targetMin targetMax dayTotalRemaining margin tiers :
  forall k a k',
    tierLoop random bigFirst canFloat strictFit selectPool tiers effort itemCount mode
             targetMin targetMax dayTotalRemaining margin k = (Some a, k') ->
    exists t k0,
      In t tiers
      /\ runTier random bigFirst canFloat strictFit selectPool effort itemCount mode
                 targetMin targetMax dayTotalRemaining margin t k0 = (Some a, k')
      /\ (count t <= itemCount)%nat
      /\ acceptedBy selectPool (count t) mode targetMin targetMax dayTotalRemaining margin a.
Proof.
  induction tiers as [|t tiers IH]; intros k a k' H; simpl in H.
  - discriminate.
  - destruct (runTier _ _ _ _ _ _ _ _ _ _ _ _ _ _) as [[a1|] k1] eqn:Et.
    + inversion H; subst. exists t, k. split; [left; reflexivity|].
      split; [exact Et|].
      unfold runTier in Et. destruct (itemCount <? count t)%nat eqn:El; [discriminate|].
      apply Nat.ltb_ge in El. split; [exact El|].
      eapply attemptLoop_Some. exact Et.
    + destruct (IH _ _ _ H) as (t' & k0 & Hin & Hrun & Hacc).
      exists t', k0. split; [right; exact Hin|]. auto.
Qed.

End PickerFacts.

(* ------------------------------------------------------------------ *)
(** ** Selection pools *)
(* ------------------------------------------------------------------ *)

Lemma insertSorted_perm before x l : Permutation (insertSorted before x l) (x :: l).
Proof.
  induction l as [|y l IH]; simpl.
  - reflexivity.
  - destruct (before x y); [reflexivity|].
    rewrite IH. apply perm_swap.
Qed.

Lemma sortItems_perm before l : Permutation (sortItems before l) l.
Proof.
  induction l as [|x l IH]; simpl.
  - reflexivity.
  - rewrite insertSorted_perm, IH. reflexivity.
Qed.

Lemma swap_perm a i j : Permutation (swap a i j) a.
Proof.
  unfold swap. destruct (a !! i) as [x|] eqn:Ei; [|reflexivity].
  destruct (a !! j) as [y|] eqn:Ej; [|reflexivity].
  apply Permutation_insert_swap; assumption.
Qed.

Lemma shuffleArray_perm random a k : Permutation (fst (shuffleArray random a k)) a.
Proof.
  unfold shuffleArray. generalize (length a - 1)%nat as i. intros i. revert a k.
  induction i as [|i IH]; intros a k; simpl.
  - reflexivity.
  - rewrite IH. apply swap_perm.
Qed.

Lemma filter_sublist (f : Item -> bool) l : sublist (List.filter f l) l.
Proof.
  induction l as [|x l IH]; simpl.
  - constructor.
  - destruct (f x); [apply sublist_skip|apply sublist_cons]; exact IH.
Qed.

(* ------------------------------------------------------------------ *)
(** ** Validation and safe landing *)
(* ------------------------------------------------------------------ *)

Lemma formatResult_total b t x dd : total (formatResult b t x dd) = toFixed 2 t.
Proof. reflexivity. Qed.

Lemma formatResult_items b t x dd : length (items (formatResult b t x dd)) = length b.
Proof. unfold formatResult. cbn [items]. apply length_map. Qed.

(** The validation, the safe-landing test and [formatResult] are the same
    code in part_000, part_001 and part_002.  For an attempt whose total is
    a sum of line totals and whose [pickedCount] counts its entries, passing
    both tests gives a bill that meets the acceptance rule of the mode, has
    [minItems] lines or more and lands safely. *)
Lemma validated_attempt_bill mode targetMin targetMax dayTotalRemaining margin minItems a d :
  isMultiple 100 (currentTotal a) ->
  pickedCount a = length (currentBill a) ->
  isValid mode targetMin targetMax margin minItems a = true ->
  safeLanding dayTotalRemaining margin a = true ->
  let bill := formatResult (currentBill a) (currentTotal a) targetMax d in
  (minItems <= length (items bill))%nat
  /\ (mode = "RANGE"%string -> targetMin <= total bill /\ total bill <= targetMax)
  /\ (mode = "EXACT"%string -> Qabs (targetMax - total bill) <= margin)
  /\ (dayTotalRemaining - total bill <= margin \/ 50 < dayTotalRemaining - total bill).
Proof.
  intros Hcents Hlen Hvalid Hsafe bill. subst bill.
  pose proof (toFixed2_fix _ Hcents) as Hfix.
  rewrite formatResult_total, formatResult_items, <- Hlen.
  assert (Hland : dayTotalRemaining - toFixed 2 (currentTotal a) <= margin
                  \/ 50 < dayTotalRemaining - toFixed 2 (currentTotal a)).
  { unfold safeLanding in Hsafe. rewrite Hfix.
    apply orb_true_iff in Hsafe as [H|H].
    - left. apply Qle_bool_iff in H. exact H.
    - right. apply Qlt_bool_iff in H. exact H. }
  unfold isValid in Hvalid.
  destruct (String.eqb mode "RANGE") eqn:Er.
  - apply String.eqb_eq in Er. subst mode.
    apply andb_true_iff in Hvalid as [Hv Hc].
    apply andb_true_iff in Hv as [Hlo Hhi].
    apply Qle_bool_iff in Hlo, Hhi. apply Nat.leb_le in Hc.
    split; [exact Hc|]. split; [|split; [discriminate|exact Hland]].
    intros _. rewrite Hfix. split; assumption.
  - apply String.eqb_neq in Er.
    apply andb_true_iff in Hvalid as [Hv Hc].
    apply Qle_bool_iff in Hv. apply Nat.leb_le in Hc.
    split; [exact Hc|]. split; [|split; [|exact Hland]].
    + intros ->. contradiction.
    + intros ->. rewrite String.eqb_refl in Hv. rewrite Hfix. exact Hv.
Qed.

(** An accepted attempt has that shape. *)
Lemma accepted_shape selectPool minItems mode targetMin targetMax dayTotalRemaining margin a :
  acceptedBy selectPool minItems mode targetMin targetMax dayTotalRemaining margin a ->
  isMultiple 100 (currentTotal a) /\ pickedCount a = length (currentBill a).
Proof.
  intros ((attempt & k0 & qs & -> & _ & _) & _ & _). split.
  - apply pushAll_cents. apply isMultiple_zero.
  - rewrite pushAll_pickedCount, pushAll_currentBill. simpl.
    rewrite length_map. reflexivity.
Qed.

Lemma accepted_bill selectPool minItems mode targetMin targetMax dayTotalRemaining margin a d :
  acceptedBy selectPool minItems mode targetMin targetMax dayTotalRemaining margin a ->
  let bill := formatResult (currentBill a) (currentTotal a) targetMax d in
  (minItems <= length (items bill))%nat
  /\ (mode = "RANGE"%string -> targetMin <= total bill /\ total bill <= targetMax)
  /\ (mode = "EXACT"%string -> Qabs (targetMax - total bill) <= margin)
  /\ (dayTotalRemaining - total bill <= margin \/ 50 < dayTotalRemaining - total bill).
Proof.
  intros Hacc. destruct (accepted_shape _ _ _ _ _ _ _ _ Hacc) as [Hc Hl].
  destruct Hacc as (_ & Hv & Hs). apply validated_attempt_bill; assumption.
Qed.

(* ------------------------------------------------------------------ *)
(** ** The composer of part_001 *)
(* ------------------------------------------------------------------ *)

Section Composer001.

Variable random : nat -> Q.
Variable stockMap : StockMap.
Variables targetMin targetMax dayTotalRemaining margin : Q.
Variable d : string.
Variable mode : string.
Variable currentFailures : nat.

(** A call either fails and returns the stock map it was given, or returns
    the formatted bill of an attempt accepted on some tier together with
    the committed stock map. *)
Lemma generate001_cases k bill stock' k' :
  Part001.generateBillFromMap random stockMap targetMin targetMax dayTotalRemaining d
                              margin mode currentFailures k = (bill, stock', k') ->
  (success bill = false /\ stock' = stockMap)
  \/ (exists t k0 a,
         In t baseAttempts
         /\ tryTier001 random stockMap targetMin targetMax dayTotalRemaining margin mode
                       currentFailures t k0 = (Some a, k')
         /\ acceptedBy (pools001 random stockMap) (count t) mode
                       targetMin targetMax dayTotalRemaining margin a
         /\ bill = formatResult (currentBill a) (currentTotal a) targetMax d
         /\ stock' = commitBill (currentBill a) stockMap).
Proof.
  unfold Part001.generateBillFromMap. fold (available stockMap).
  destruct (length (available stockMap) =? 0)%nat.
  { intros H. inversion H; subst. left. split; reflexivity. }
  fold (pools001 random stockMap).
  destruct (tierLoop _ _ _ _ _ _ _ _ _ _ _ _ _ _) as [[a|] k1] eqn:Et; intros H;
    inversion H; subst; clear H.
  - right. apply tierLoop_Some in Et as (t & k0 & Hin & Hrun & _ & Hacc).
    exists t, k0, a. auto.
  - left. split; reflexivity.
Qed.

(** C1.  A successful bill was accepted on one of the tiers: it has at
    least that tier's minimum number of lines; in RANGE mode its total lies
    in [[targetMin, targetMax]], in EXACT mode within [margin] of
    [targetMax]. *)
Theorem composed_bill_acceptance k bill stock' k' :
  Part001.generateBillFromMap random stockMap targetMin targetMax dayTotalRemaining d
                              margin mode currentFailures k = (bill, stock', k') ->
  success bill = true ->
  exists t k0 a,
    In t baseAttempts
    /\ tryTier001 random stockMap targetMin targetMax dayTotalRemaining margin mode
                  currentFailures t k0 = (Some a, k')
    /\ bill = formatResult (currentBill a) (currentTotal a) targetMax d
    /\ (count t <= length (items bill))%nat
    /\ (mode = "RANGE" -> targetMin <= total bill /\ total bill <= targetMax)
    /\ (mode = "EXACT" -> Qabs (targetMax - total bill) <= margin).
Proof.
  intros Hgen Hok.
  destruct (generate001_cases _ _ _ _ Hgen)
    as [[Hf _]|(t & k0 & a & Hin & Hrun & Hacc & -> & _)].
  { congruence. }
  exists t, k0, a. split; [exact Hin|]. split; [exact Hrun|]. split; [reflexivity|].
  destruct (accepted_bill _ _ _ _ _ _ _ _ d Hacc) as (Hc & Hr & He & _). auto.
Qed.

(** C2.  A call that returns a failure returns the stock map unchanged. *)
Theorem failure_leaves_stock k bill stock' k' :
  Part001.generateBillFromMap random stockMap targetMin targetMax dayTotalRemaining d
                              margin mode currentFailures k = (bill, stock', k') ->
  success bill = false ->
  stock' = stockMap.
Proof.
  intros Hgen Hfail.
  destruct (generate001_cases _ _ _ _ Hgen) as [[_ H]|(t & k0 & a & _ & _ & _ & -> & _)].
  - exact H.
  - discriminate.
Qed.

End Composer001.

(** C4.  An accepted bill that misses the safe landing.  The stock holds
    five units at 200.20 and five at 100.10; the call asks for a bill
    between 10 and 320 on a day with 350.30 left, margin 5, RANGE mode, and
    [Math.random()] returns 0.  The first attempt of the tier of two takes
    one unit of each.  Its running total is a double below 300.3, so the
    test sees a remainder above 50 and accepts.  The returned total is
    300.3, and the day is left with exactly 50: not within the margin and
    not above 50.  On exact numbers the test sees exactly 50 and turns that
    attempt down; the call returns a bill of one line. *)
Theorem accepted_bill_leaves_fifty :
  exists a v r t,
    Double.tierLoop zeroDouble baseAttempts (Double.effortMultiplier 0) "RANGE"
                    (Double.ofZ 10) (Double.ofZ 320) (Double.dec 3503 10) (Double.ofZ 5)
                    floatAvailable floatExpensive 0
    = (Some a, 2%nat)
    /\ map (fun e => (Double.ItemDetails (Double.item e), Double.qty e, Double.cost e))
           (Double.currentBill a)
       = [("P"%string, Double.ofZ 1, Double.dec 2002 10);
          ("Q"%string, Double.ofZ 1, Double.dec 1001 10)]
    /\ Double.valueOf (Double.currentTotal a) = Some v /\ v < 3003 # 10
    /\ Double.isValid "RANGE" (Double.ofZ 10) (Double.ofZ 320) (Double.ofZ 5) 2 a = true
    /\ Double.safeLanding (Double.dec 3503 10) (Double.ofZ 5) a = true
    /\ Double.generateBillFromMap zeroDouble floatStock (Double.ofZ 10) (Double.ofZ 320)
                                  (Double.dec 3503 10) demoDate (Double.ofZ 5) "RANGE" 0 0
       = (Double.formatResult (Double.currentBill a) (Double.currentTotal a)
                              (Double.ofZ 320) demoDate,
          Double.commitBill (Double.currentBill a) floatStock, 2%nat)
    /\ Double.toFixed 2 (Double.currentTotal a) = Double.dec 3003 10
    /\ Double.sub (Double.dec 3503 10) (Double.dec 3003 10) = Double.ofZ 50
    /\ Double.leb (Double.ofZ 50) (Double.ofZ 5) = false
    /\ Double.ltb (Double.ofZ 50) (Double.ofZ 50) = false
    /\ Double.valueOf (Double.dec 3503 10) = Some r
    /\ Double.valueOf (Double.dec 3003 10) = Some t
    /\ r - t == 50
    /\ safeLanding (3503 # 10) 5 (mkAttempt [] (3003 # 10) 2 []) = false
    /\ map (fun l => (name l, lineQty l))
           (items (fst (fst (Part001.generateBillFromMap zeroRandom exactStock 10 320
                                                         (3503 # 10) demoDate 5 "RANGE" 0 0))))
       = [("P"%string, 1)].
Proof.
  eexists _, _, _, _.
  split; [vm_compute; reflexivity|].
  split; [vm_compute; reflexivity|].
  split; [vm_compute; reflexivity|].
  split; [vm_compute; reflexivity|].
  split; [vm_compute; reflexivity|].
  split; [vm_compute; reflexivity|].
  split; [vm_compute; reflexivity|].
  split; [vm_compute; reflexivity|].
  split; [vm_compute; reflexivity|].
  split; [vm_compute; reflexivity|].
  split; [vm_compute; reflexivity|].
  split; [vm_compute; reflexivity|].
  split; [vm_compute; reflexivity|].
  split; [vm_compute; reflexivity|].
  split; vm_compute; reflexivity.
Qed.

(* ------------------------------------------------------------------ *)
(** ** Committing quantities to the stock map *)
(* ------------------------------------------------------------------ *)

Lemma commitBill_commitUsed bill : forall m,
  commitBill bill m
  = Part002.commitUsed (map (fun e => (ItemDetails (item e), qty e)) bill) m.
Proof.
  induction bill as [|e bill IH]; intros m.
  - reflexivity.
  - simpl. unfold commitBill in IH. rewrite IH. reflexivity.
Qed.

Lemma stockGet_name m n it : stockGet m n = Some it -> ItemDetails it = n.
Proof.
  unfold stockGet. intros H. apply List.find_some in H as [_ H].
  apply String.eqb_eq. exact H.
Qed.

Lemma stockGet_In m it : In it m -> exists pre, stockGet m (ItemDetails it) = Some pre.
Proof.
  intros Hin. unfold stockGet.
  destruct (List.find _ m) as [pre|] eqn:E.
  - exists pre. reflexivity.
  - exfalso. apply (List.find_none _ _ E) in Hin.
    rewrite String.eqb_refl in Hin. discriminate.
Qed.

Lemma stockGet_updateRemaining key f m n :
  stockGet (updateRemaining key f m) n
  = match stockGet m n with
    | Some it => Some (if String.eqb n key
                       then setRemainingQty it (f (remainingQty it)) else it)
    | None => None
    end.
Proof.
  unfold stockGet, updateRemaining.
  induction m as [|x m IH]; simpl.
  - reflexivity.
  - destruct (String.eqb (ItemDetails x) key) eqn:Ek; simpl.
    + destruct (String.eqb (ItemDetails x) n) eqn:En.
      * apply String.eqb_eq in Ek, En. subst. rewrite String.eqb_refl. reflexivity.
      * exact IH.
    + destruct (String.eqb (ItemDetails x) n) eqn:En.
      * apply String.eqb_eq in En. subst. rewrite Ek. reflexivity.
      * exact IH.
Qed.

Lemma commitUsed_get used : forall m n pre,
  stockGet m n = Some pre ->
  exists post,
    stockGet (Part002.commitUsed used m) n = Some post
    /\ remainingQty post = remainingAfter n used (remainingQty pre).
Proof.
  induction used as [|[key q] used IH]; intros m n pre Hget.
  - exists pre. split; [exact Hget|reflexivity].
  - simpl.
    pose proof (stockGet_updateRemaining key (fun r => toFixed 3 (r - q)) m n) as Hstep.
    rewrite Hget in Hstep.
    destruct (IH _ _ _ Hstep) as (post & Hpost & Hrem).
    exists post. split; [exact Hpost|].
    rewrite Hrem. unfold remainingAfter. simpl.
    destruct (String.eqb n key); reflexivity.
Qed.

Lemma remainingAfter_absent n used : forall r,
  ~ In n (map fst used) -> remainingAfter n used r = r.
Proof.
  induction used as [|[key q] used IH]; intros r Hn.
  - reflexivity.
  - unfold remainingAfter. simpl.
    destruct (String.eqb n key) eqn:E.
    + apply String.eqb_eq in E. subst. exfalso. apply Hn. left. reflexivity.
    + apply IH. intros H. apply Hn. right. exact H.
Qed.

Lemma remainingAfter_once n q used : forall r,
  NoDup (map fst used) -> In (n, q) used ->
  remainingAfter n used r = toFixed 3 (r - q).
Proof.
  induction used as [|[key q'] used IH]; intros r Hnd Hin.
  - destruct Hin.
  - simpl in Hnd. apply NoDup_cons in Hnd as [Hfresh Hnd].
    unfold remainingAfter. simpl. destruct Hin as [Heq|Hin].
    + inversion Heq; subst. rewrite String.eqb_refl.
      apply remainingAfter_absent. intros H. apply Hfresh.
      apply list_elem_of_In. exact H.
    + destruct (String.eqb n key) eqn:E.
      * apply String.eqb_eq in E. subst. exfalso. apply Hfresh.
        apply list_elem_of_In. change key with (fst (key, q)).
        apply in_map. exact Hin.
      * apply IH; assumption.
Qed.

(** Committing entries with pairwise distinct names takes each entry's
    quantity off its row, rounded to 3 decimals: at most 0.0005 away from
    the exact difference. *)
Lemma commitUsed_conserves used m n q pre :
  NoDup (map fst used) -> In (n, q) used -> stockGet m n = Some pre ->
  exists post,
    stockGet (Part002.commitUsed used m) n = Some post
    /\ remainingQty post = toFixed 3 (remainingQty pre - q)
    /\ Qabs (remainingQty post - (remainingQty pre - q)) <= 1 # 1000.
Proof.
  intros Hnd Hin Hget.
  destruct (commitUsed_get used _ _ _ Hget) as (post & Hpost & Hrem).
  exists post. split; [exact Hpost|].
  rewrite (remainingAfter_once _ _ _ _ Hnd Hin) in Hrem.
  split; [exact Hrem|].
  rewrite Hrem. pose proof (toFixed3_error (remainingQty pre - q)) as He.
  eapply Qle_trans; [exact He|]. unfold Qle; simpl; lia.
Qed.

(* ------------------------------------------------------------------ *)
(** ** Picks come from the stock map; conservation *)
(* ------------------------------------------------------------------ *)

Lemma fromStock_self m : NoDup (keys m) -> fromStock m m.
Proof. intros H. split; [exact H|auto]. Qed.

Lemma fromStock_filter m f l : fromStock m l -> fromStock m (List.filter f l).
Proof.
  intros [Hnd Hin]. split.
  - eapply sublist_NoDup; [exact Hnd|]. apply fmap_sublist, filter_sublist.
  - intros it H. apply List.filter_In in H as [H _]. auto.
Qed.

Lemma fromStock_perm m l l' : Permutation l' l -> fromStock m l -> fromStock m l'.
Proof.
  intros Hp [Hnd Hin]. split.
  - unfold keys. rewrite Hp. exact Hnd.
  - intros it H. apply Hin. apply list_elem_of_In. rewrite <- Hp.
    apply list_elem_of_In. exact H.
Qed.

Lemma fromStock_sort m before l : fromStock m l -> fromStock m (sortItems before l).
Proof. apply fromStock_perm, sortItems_perm. Qed.

Lemma fromStock_shuffle m random l k :
  fromStock m l -> fromStock m (fst (shuffleArray random l k)).
Proof. apply fromStock_perm, shuffleArray_perm. Qed.

Lemma available_fromStock m : NoDup (keys m) -> fromStock m (available m).
Proof.
  intros H. unfold available. apply fromStock_sort, fromStock_filter, fromStock_self, H.
Qed.

Lemma fresh_fromStock m used : NoDup (keys m) -> fromStock m (fresh m used).
Proof.
  intros H. unfold fresh.
  apply fromStock_sort, fromStock_filter, fromStock_filter, fromStock_self, H.
Qed.

Lemma pools001_fromStock random m minItems attempt k :
  NoDup (keys m) -> fromStock m (fst (pools001 random m minItems attempt k)).
Proof.
  intros H. unfold pools001, Part001.selectPool. destruct (attempt =? 0)%nat.
  - apply fromStock_sort, available_fromStock, H.
  - apply fromStock_shuffle, available_fromStock, H.
Qed.

Lemma pools002_fromStock random m used minItems attempt k :
  NoDup (keys m) -> fromStock m (fst (pools002 random m used minItems attempt k)).
Proof.
  intros H. unfold pools002, Part002.selectPool.
  destruct ((attempt <? 2)%nat && (minItems <=? length (fresh m used))%nat).
  - destruct (attempt =? 0)%nat.
    + apply fromStock_sort, fresh_fromStock, H.
    + apply fromStock_shuffle, fresh_fromStock, H.
  - destruct (attempt =? 2)%nat.
    + apply fromStock_sort, available_fromStock, H.
    + apply fromStock_shuffle, available_fromStock, H.
Qed.

(** The picks of an attempt are rows of the stock map, each at most once. *)
Lemma picks_fromStock m (pool : list Item) (qs : list (Item * Q)) :
  fromStock m pool ->
  sublist (map fst qs) pool ->
  NoDup (map (fun p => ItemDetails (fst p)) qs)
  /\ forall p, In p qs -> In (fst p) m.
Proof.
  intros [Hk Hin] Hsub. split.
  - replace (map (fun p => ItemDetails (fst p)) qs) with (map ItemDetails (map fst qs))
      by (rewrite map_map; reflexivity).
    eapply sublist_NoDup; [exact Hk|]. apply fmap_sublist. exact Hsub.
  - intros p Hp. apply Hin. apply list_elem_of_In.
    eapply elem_of_sublist; [|exact Hsub].
    apply list_elem_of_In. apply in_map. exact Hp.
Qed.

(** The lines of the formatted bill are the picks. *)
Lemma formatResult_lines qs tot target d line :
  In line (items (formatResult (map entryOf qs) tot target d)) ->
  exists p, In p qs /\ name line = ItemDetails (fst p) /\ lineQty line = snd p.
Proof.
  unfold formatResult. cbn [items]. rewrite map_map. intros H.
  apply in_map_iff in H as (p & <- & Hp). exists p. split; [exact Hp|].
  split; reflexivity.
Qed.

(** Conservation for an accepted attempt whose quantities are committed
    entry by entry. *)
Lemma picks_committed m pool qs p :
  NoDup (keys m) -> fromStock m pool -> sublist (map fst qs) pool -> In p qs ->
  exists pre post,
    stockGet m (ItemDetails (fst p)) = Some pre
    /\ stockGet (Part002.commitUsed (map (fun p => (ItemDetails (fst p), snd p)) qs) m)
                (ItemDetails (fst p)) = Some post
    /\ remainingQty post = toFixed 3 (remainingQty pre - snd p)
    /\ Qabs (remainingQty post - (remainingQty pre - snd p)) <= 1 # 1000.
Proof.
  intros Hm Hpool Hsub Hp.
  destruct (picks_fromStock _ _ _ Hpool Hsub) as [Hnd Hin].
  destruct (stockGet_In m (fst p) (Hin _ Hp)) as [pre Hpre].
  exists pre.
  destruct (commitUsed_conserves (map (fun p => (ItemDetails (fst p), snd p)) qs)
                                 m (ItemDetails (fst p)) (snd p) pre) as (post & H1 & H2 & H3).
  - rewrite map_map. exact Hnd.
  - apply (in_map (fun p => (ItemDetails (fst p), snd p))). exact Hp.
  - exact Hpre.
  - exists post. auto.
Qed.

Section Conservation001.

Variable random : nat -> Q.
Variable stockMap : StockMap.
Variables targetMin targetMax dayTotalRemaining margin : Q.
Variable d : string.
Variable mode : string.
Variable currentFailures : nat.

Lemma conservation001 k bill stock' k' line :
  NoDup (keys stockMap) ->
  Part001.generateBillFromMap random stockMap targetMin targetMax dayTotalRemaining d
                              margin mode currentFailures k = (bill, stock', k') ->
  success bill = true ->
  In line (items bill) ->
  exists pre post,
    stockGet stockMap (name line) = Some pre
    /\ stockGet stock' (name line) = Some post
    /\ remainingQty post = toFixed 3 (remainingQty pre - lineQty line)
    /\ Qabs (remainingQty post - (remainingQty pre - lineQty line)) <= 1 # 1000.
Proof.
  intros Hm Hgen Hok Hline.
  destruct (generate001_cases _ _ _ _ _ _ _ _ _ _ _ _ _ Hgen)
    as [[Hf _]|(t & k0 & a & _ & _ & Hacc & -> & ->)].
  { congruence. }
  destruct Hacc as ((attempt & k1 & qs & -> & Hsub & _) & _ & _).
  rewrite pushAll_currentBill in Hline |- *.
  cbn [emptyAttempt currentBill app] in Hline |- *.
  apply formatResult_lines in Hline as (p & Hp & -> & ->).
  rewrite commitBill_commitUsed, map_map. cbn [entryOf item qty].
  eapply picks_committed; eauto using pools001_fromStock.
Qed.

End Conservation001.

Section Composer002.

Variable random : nat -> Q.
Variable stockMap : StockMap.
Variables targetMin targetMax dayTotalRemaining margin : Q.
Variable d : string.
Variable mode : string.
Variable currentFailures : nat.
Variable dailyUsedItemIds : list string.

(** A call of the composer of part_002 returns the stock map it was given;
    a successful one returns the formatted bill of an accepted attempt and
    that attempt's [tempUsed]. *)
Lemma generate002_cases k bill stock' k' :
  Part002.generateBillFromMap random stockMap targetMin targetMax dayTotalRemaining d
                              margin mode currentFailures dailyUsedItemIds k
  = (bill, stock', k') ->
  stock' = stockMap
  /\ (success bill = false
      \/ exists t k0 a,
          In t baseAttempts
          /\ tryTier002 random stockMap targetMin targetMax dayTotalRemaining margin mode
                        currentFailures dailyUsedItemIds t k0 = (Some a, k')
          /\ acceptedBy (pools002 random stockMap dailyUsedItemIds) (count t) mode
                        targetMin targetMax dayTotalRemaining margin a
          /\ items bill = items (formatResult (currentBill a) (currentTotal a) targetMax d)
          /\ total bill = toFixed 2 (currentTotal a)
          /\ tempUsedMap bill = Some (tempUsed a)).
Proof.
  unfold Part002.generateBillFromMap.
  fold (available stockMap). fold (fresh stockMap dailyUsedItemIds).
  destruct (length (available stockMap) =? 0)%nat.
  { intros H. inversion H; subst. split; [reflexivity|]. left. reflexivity. }
  fold (pools002 random stockMap dailyUsedItemIds).
  destruct (tierLoop _ _ _ _ _ _ _ _ _ _ _ _ _ _) as [[a|] k1] eqn:Et; intros H;
    inversion H; subst; clear H; (split; [reflexivity|]).
  - right. apply tierLoop_Some in Et as (t & k0 & Hin & Hrun & _ & Hacc).
    exists t, k0, a. cbn [items total tempUsedMap formatResult]. auto 10.
  - left. reflexivity.
Qed.

Lemma conservation002 k bill stock' k' :
  NoDup (keys stockMap) ->
  Part002.generateBillFromMap random stockMap targetMin targetMax dayTotalRemaining d
                              margin mode currentFailures dailyUsedItemIds k
  = (bill, stock', k') ->
  success bill = true ->
  exists used,
    tempUsedMap bill = Some used
    /\ Forall2 (fun u line => fst u = name line /\ snd u == lineQty line) used (items bill)
    /\ forall line, In line (items bill) ->
       exists pre post,
         stockGet stockMap (name line) = Some pre
         /\ stockGet (Part002.commitUsed used stockMap) (name line) = Some post
         /\ remainingQty post == toFixed 3 (remainingQty pre - lineQty line)
         /\ Qabs (remainingQty post - (remainingQty pre - lineQty line)) <= 1 # 1000.
Proof.
  intros Hm Hgen Hok.
  destruct (generate002_cases _ _ _ _ Hgen)
    as [_ [Hf|(t & k0 & a & _ & _ & Hacc & Hitems & _ & Hused)]].
  { congruence. }
  destruct Hacc as ((attempt & k1 & qs & -> & Hsub & _) & _ & _).
  pose proof (pools002_fromStock random stockMap dailyUsedItemIds (count t) attempt k1 Hm)
    as Hpool.
  destruct (picks_fromStock _ _ _ Hpool Hsub) as [Hnd Hin].
  assert (Hu : tempUsed (pushAll emptyAttempt qs) = map usedOf qs).
  { rewrite pushAll_tempUsed; [reflexivity|]. exact Hnd. }
  rewrite pushAll_currentBill in Hitems. cbn [emptyAttempt currentBill app] in Hitems.
  exists (map usedOf qs). rewrite Hused, Hu, Hitems. split; [reflexivity|]. split.
  - unfold formatResult. cbn [items]. clear.
    induction qs as [|p qs IH]; simpl; constructor.
    + split; [reflexivity|]. simpl. ring.
    + exact IH.
  - intros line Hline.
    apply formatResult_lines in Hline as (p & Hp & -> & ->).
    destruct (stockGet_In stockMap (fst p) (Hin _ Hp)) as [pre Hpre].
    destruct (commitUsed_conserves (map usedOf qs) stockMap
                                   (ItemDetails (fst p)) (0 + snd p) pre)
      as (post & H1 & H2 & H3).
    + rewrite map_map. exact Hnd.
    + apply (in_map usedOf). exact Hp.
    + exact Hpre.
    + exists pre, post. split; [exact Hpre|]. split; [exact H1|].
      assert (Heq : remainingQty pre - (0 + snd p) == remainingQty pre - snd p) by ring.
      split.
      * rewrite H2. apply (roundTo_compat 1000). exact Heq.
      * rewrite <- Heq. exact H3.
Qed.

(** The bills of part_002 meet the same acceptance rules. *)
Lemma composed_bill_acceptance002 k bill stock' k' :
  Part002.generateBillFromMap random stockMap targetMin targetMax dayTotalRemaining d
                              margin mode currentFailures dailyUsedItemIds k
  = (bill, stock', k') ->
  success bill = true ->
  exists t,
    In t baseAttempts
    /\ (count t <= length (items bill))%nat
    /\ (mode = "RANGE"%string -> targetMin <= total bill /\ total bill <= targetMax)
    /\ (mode = "EXACT"%string -> Qabs (targetMax - total bill) <= margin)
    /\ (dayTotalRemaining - total bill <= margin \/ 50 < dayTotalRemaining - total bill).
Proof.
  intros Hgen Hok.
  destruct (generate002_cases _ _ _ _ Hgen)
    as [_ [Hf|(t & k0 & a & Hin & _ & Hacc & Hitems & Htotal & _)]].
  { congruence. }
  exists t. split; [exact Hin|].
  pose proof (accepted_bill _ _ _ _ _ _ _ _ d Hacc) as H. cbv zeta in H.
  rewrite <- Hitems, formatResult_total, <- Htotal in H. exact H.
Qed.

End Composer002.

(** C7.  For every line of a committed bill the row of its item holds,
    after the commit, the quantity it held before minus the line's
    quantity, rounded to 3 decimals, hence within 0.001 of the exact
    difference.  The first part is the commit inside the composer of
    part_001, the second the commit of the scheduler of part_002 from the
    [tempUsedMap] of the bill. *)
Theorem commit_conserves_quantity :
  (forall random stockMap targetMin targetMax dayTotalRemaining margin d mode
          currentFailures k bill stock' k' line,
      NoDup (keys stockMap) ->
      Part001.generateBillFromMap random stockMap targetMin targetMax dayTotalRemaining d
                                  margin mode currentFailures k = (bill, stock', k') ->
      success bill = true ->
      In line (items bill) ->
      exists pre post,
        stockGet stockMap (name line) = Some pre
        /\ stockGet stock' (name line) = Some post
        /\ Qabs (remainingQty post - (remainingQty pre - lineQty line)) <= 1 # 1000)
  /\ (forall random stockMap targetMin targetMax dayTotalRemaining margin d mode
             currentFailures dailyUsedItemIds k bill stock' k' line,
         NoDup (keys stockMap) ->
         Part002.generateBillFromMap random stockMap targetMin targetMax dayTotalRemaining d
                                     margin mode currentFailures dailyUsedItemIds k
         = (bill, stock', k') ->
         success bill = true ->
         In line (items bill) ->
         exists used pre post,
           tempUsedMap bill = Some used
           /\ stockGet stock' (name line) = Some pre
           /\ stockGet (Part002.commitUsed used stock') (name line) = Some post
           /\ Qabs (remainingQty post - (remainingQty pre - lineQty line)) <= 1 # 1000).
Proof.
  split.
  - intros random stockMap targetMin targetMax dayTotalRemaining margin d mode
           currentFailures k bill stock' k' line Hm Hgen Hok Hline.
    destruct (conservation001 _ _ _ _ _ _ _ _ _ _ _ _ _ _ Hm Hgen Hok Hline)
      as (pre & post & H1 & H2 & _ & H3).
    exists pre, post. auto.
  - intros random stockMap targetMin targetMax dayTotalRemaining margin d mode
           currentFailures dailyUsedItemIds k bill stock' k' line Hm Hgen Hok Hline.
    destruct (conservation002 _ _ _ _ _ _ _ _ _ _ _ _ _ _ Hm Hgen Hok)
      as (used & Hused & _ & Hall).
    destruct (Hall _ Hline) as (pre & post & H1 & H2 & _ & H3).
    destruct (generate002_cases _ _ _ _ _ _ _ _ _ _ _ _ _ _ Hgen) as [-> _].
    exists used, pre, post. auto.
Qed.

(** C10.  The composer of part_002 returns the stock map as it was given,
    also on success; a successful bill carries a [tempUsedMap] with one
    entry per line, the line's item and quantity, and subtracting these
    entries from the stock map is the commit of the bill. *)
Theorem composer002_leaves_stock_to_caller
        random stockMap targetMin targetMax dayTotalRemaining margin d mode
        currentFailures dailyUsedItemIds k bill stock' k' :
  Part002.generateBillFromMap random stockMap targetMin targetMax dayTotalRemaining d
                              margin mode currentFailures dailyUsedItemIds k
  = (bill, stock', k') ->
  stock' = stockMap
  /\ (success bill = true -> NoDup (keys stockMap) ->
      exists used,
        tempUsedMap bill = Some used
        /\ Forall2 (fun u line => fst u = name line /\ snd u == lineQty line)
                   used (items bill)
        /\ forall line, In line (items bill) ->
           exists pre post,
             stockGet stockMap (name line) = Some pre
             /\ stockGet (Part002.commitUsed used stockMap) (name line) = Some post
             /\ remainingQty post == toFixed 3 (remainingQty pre - lineQty line)).
Proof.
  intros Hgen. split.
  - destruct (generate002_cases _ _ _ _ _ _ _ _ _ _ _ _ _ _ Hgen) as [H _]. exact H.
  - intros Hok Hm.
    destruct (conservation002 _ _ _ _ _ _ _ _ _ _ _ _ _ _ Hm Hgen Hok)
      as (used & Hused & Hlines & Hall).
    exists used. split; [exact Hused|]. split; [exact Hlines|].
    intros line Hline. destruct (Hall _ Hline) as (pre & post & H1 & H2 & H3 & _).
    exists pre, post. auto.
Qed.

(* ------------------------------------------------------------------ *)
(** ** Stock can go negative *)
(* ------------------------------------------------------------------ *)

(** C3.  The fractional pick rounds [absMax * factor] to 2 decimals after
    bounding it by the stock, and the rounding can go up past the stock.
    With 0.017 left of item B, the expensive-first attempt of the tier of
    one item picks [(0.017 * 0.9).toFixed(2) = 0.02] of it; the bill is
    accepted and the commit leaves B at -0.003. *)
Theorem stock_goes_negative :
  exists bill stock' k' line pre post,
    Part001.generateBillFromMap zeroRandom demoStock (10015 # 100) 1000 1000 demoDate
                                5 "RANGE" 2001 0 = (bill, stock', k')
    /\ success bill = true
    /\ In line (items bill)
    /\ stockGet demoStock (name line) = Some pre
    /\ 0 <= remainingQty pre
    /\ remainingQty pre < lineQty line
    /\ stockGet stock' (name line) = Some post
    /\ remainingQty post < 0.
Proof.
  eexists _, _, _, (mkBillLine "B" (2 # 100) 10 0 0 0 _ _ demoDate), itemB, _.
  split; [vm_compute; reflexivity|].
  split; [reflexivity|].
  split; [right; left; reflexivity|].
  split; [reflexivity|].
  split; [vm_compute; discriminate|].
  split; [vm_compute; reflexivity|].
  split; [vm_compute; reflexivity|].
  vm_compute; reflexivity.
Qed.

(* ------------------------------------------------------------------ *)
(** ** The scheduler of part_001 *)
(* ------------------------------------------------------------------ *)

Section Scheduler001Facts.

Import Scheduler001.

Variable random : nat -> Q.
Variables minBill maxBill : Q.

(** Once [abortAll] is set the loop over the days stops: the days that are
    left change nothing. *)
Lemma daysLoop_aborted fuel targets s :
  abortAll s = true -> daysLoop random minBill maxBill fuel targets s = Some s.
Proof.
  intros H. destruct targets as [|[d t] rest]; simpl.
  - reflexivity.
  - rewrite H. reflexivity.
Qed.

(** A day whose loop ends with [abortAll] set is the last day processed. *)
Lemma daysLoop_critical_day fuel d targetAmount rest s s' :
  abortAll s = false -> 0 < targetAmount ->
  dayLoop random minBill maxBill fuel d targetAmount 0 0 s = Some s' ->
  abortAll s' = true ->
  daysLoop random minBill maxBill fuel ((d, targetAmount) :: rest) s = Some s'.
Proof.
  intros Hs Ht Hday Hs'. simpl. rewrite Hs.
  destruct (Qle_bool targetAmount 0) eqn:E.
  { apply Qle_bool_iff in E. lra. }
  rewrite Hday. apply daysLoop_aborted. exact Hs'.
Qed.

(** C9.  When a composer failure takes [consecutiveFailures] over the
    ceiling while [dateAccumulated] is zero, the day ends with a critical
    entry appended to the log and [abortAll] set, no bill is added, and the
    loop over the days leaves every later day untouched. *)
Theorem critical_failure_aborts_run fuel d targetAmount dateAccumulated
        consecutiveFailures s :
  dateAccumulated < targetAmount ->
  success (fst (fst (nextBill random minBill maxBill d targetAmount dateAccumulated
                              consecutiveFailures s))) = false ->
  (ceiling <= consecutiveFailures)%nat ->
  dateAccumulated == 0 ->
  exists s',
    dayLoop random minBill maxBill (S fuel) d targetAmount dateAccumulated
            consecutiveFailures s = Some s'
    /\ logList s' = logList s ++ [CriticalError d]
    /\ abortAll s' = true
    /\ hasSkipped s' = true
    /\ allGeneratedBills s' = allGeneratedBills s
    /\ forall fuel' rest, daysLoop random minBill maxBill fuel' rest s' = Some s'.
Proof.
  intros Hlt Hfail Hcf Hzero.
  cbn [dayLoop].
  apply Qlt_bool_iff in Hlt. rewrite Hlt.
  destruct (nextBill random minBill maxBill d targetAmount dateAccumulated
                     consecutiveFailures s) as [[bill stock'] k'].
  cbn [fst] in Hfail. rewrite Hfail.
  assert (Hc : (ceiling <? S consecutiveFailures)%nat = true) by (apply Nat.ltb_lt; lia).
  rewrite Hc. unfold skipDay.
  apply Qeq_bool_iff in Hzero. rewrite Hzero.
  eexists. split; [reflexivity|]. cbn [logList abortAll hasSkipped allGeneratedBills].
  repeat split. intros fuel' rest. apply daysLoop_aborted. reflexivity.
Qed.

End Scheduler001Facts.

(** With an empty stock every call fails: the first day is a critical
    failure and the second day is never started. *)
Example empty_stock_run :
  Scheduler001.tryGenerateCashBills (fun _ => 0) 100 500 []
                                    [("2024-01-01", 1000); ("2024-01-02", 1000)]%string (60 * 100)%nat
  = Some (Scheduler001.mkState [] [] [CriticalError "2024-01-01"] true true 0).
Proof. vm_compute. reflexivity. Qed.

(* ------------------------------------------------------------------ *)
(** ** The day loop of part_002 *)
(* ------------------------------------------------------------------ *)

(** In part_002 the failure that takes [consecutiveFailures] over the
    ceiling with nothing accumulated logs the "no valid bills" entry and
    ends the day; the state has no abort flag, the stock map and the bills
    of the day are as before, and the scheduler goes on to the next day. *)
Lemma scheduler002_failed_day random minBill maxBill fuel d targetAmount dateAccumulated
      consecutiveFailures s :
  dateAccumulated < targetAmount ->
  5 < targetAmount - dateAccumulated ->
  success (fst (fst (snd (Scheduler002.nextBill random minBill maxBill d targetAmount
                                                dateAccumulated consecutiveFailures s))))
  = false ->
  (Scheduler002.ceiling <= consecutiveFailures)%nat ->
  dateAccumulated == 0 ->
  exists s',
    Scheduler002.dayLoop random minBill maxBill (S fuel) d targetAmount dateAccumulated
                         consecutiveFailures s = Some s'
    /\ Scheduler002.logList s' = Scheduler002.logList s ++ [NoValidBills d]
    /\ Scheduler002.hasSkipped s' = true
    /\ Scheduler002.todaysBills s' = Scheduler002.todaysBills s
    /\ Scheduler002.stockMap s' = Scheduler002.stockMap s.
Proof.
  intros Hlt Hrem Hfail Hcf Hzero.
  cbn [Scheduler002.dayLoop].
  apply Qlt_bool_iff in Hlt. rewrite Hlt.
  destruct (Qle_bool (targetAmount - dateAccumulated) 5) eqn:E5.
  { apply Qle_bool_iff in E5. lra. }
  assert (Hstock : snd (fst (snd (Scheduler002.nextBill random minBill maxBill d targetAmount
                                    dateAccumulated consecutiveFailures s)))
                   = Scheduler002.stockMap s).
  { unfold Scheduler002.nextBill.
    destruct (Qle_bool (targetAmount - dateAccumulated) maxBill); cbn [snd];
      match goal with
      | |- snd (fst ?g) = _ =>
          destruct g as [[b st] k] eqn:Eg;
          apply generate002_cases in Eg as [-> _]; reflexivity
      end. }
  destruct (Scheduler002.nextBill random minBill maxBill d targetAmount dateAccumulated
                                  consecutiveFailures s) as [mode [[bill stock'] k']].
  cbn [fst snd] in Hfail, Hstock. rewrite Hfail.
  assert (Hc : (Scheduler002.ceiling <? S consecutiveFailures)%nat = true)
    by (apply Nat.ltb_lt; lia).
  rewrite Hc. unfold Scheduler002.skipDay.
  apply Qeq_bool_iff in Hzero. rewrite Hzero.
  eexists. split; [reflexivity|].
  cbn [Scheduler002.logList Scheduler002.hasSkipped Scheduler002.todaysBills
       Scheduler002.stockMap].
  auto.
Qed.

(* ------------------------------------------------------------------ *)
(** ** The statements at the example inputs *)
(* ------------------------------------------------------------------ *)

Lemma demoStock_keys : NoDup (keys demoStock).
Proof. apply (bool_decide_unpack _). vm_compute. reflexivity. Defined.

Lemma composed_bill_acceptance_witness :
  success (fst (fst demoSuccess)) = true
  /\ exists t k0 a,
      In t baseAttempts
      /\ tryTier001 zeroRandom demoStock 50 1000 1000 5 "RANGE" 2001 t k0
         = (Some a, snd demoSuccess)
      /\ fst (fst demoSuccess) = formatResult (currentBill a) (currentTotal a) 1000 demoDate
      /\ (count t <= length (items (fst (fst demoSuccess))))%nat
      /\ ("RANGE"%string = "RANGE"%string ->
          50 <= total (fst (fst demoSuccess)) /\ total (fst (fst demoSuccess)) <= 1000)
      /\ ("RANGE"%string = "EXACT"%string ->
          Qabs (1000 - total (fst (fst demoSuccess))) <= 5).
Proof.
  split; [reflexivity|].
  apply (composed_bill_acceptance zeroRandom demoStock 50 1000 1000 5 demoDate "RANGE" 2001
                                  0 (fst (fst demoSuccess)) (snd (fst demoSuccess))
                                  (snd demoSuccess)).
  - vm_compute. reflexivity.
  - reflexivity.
Defined.

Lemma failure_leaves_stock_witness :
  success (fst (fst demoFailure)) = false /\ snd (fst demoFailure) = demoStock.
Proof.
  split; [reflexivity|].
  apply (failure_leaves_stock zeroRandom demoStock 5000 6000 10000 5 demoDate "RANGE" 2001
                              0 (fst (fst demoFailure)) (snd (fst demoFailure))
                              (snd demoFailure)).
  - vm_compute. reflexivity.
  - reflexivity.
Defined.

Lemma commit_conserves_quantity_witness :
  In demoLine (items (fst (fst demoSuccess)))
  /\ exists pre post,
      stockGet demoStock (name demoLine) = Some pre
      /\ stockGet (snd (fst demoSuccess)) (name demoLine) = Some post
      /\ Qabs (remainingQty post - (remainingQty pre - lineQty demoLine)) <= 1 # 1000.
Proof.
  split; [right; left; reflexivity|].
  apply (proj1 commit_conserves_quantity zeroRandom demoStock 50 1000 1000 5 demoDate
               "RANGE" 2001%nat 0%nat (fst (fst demoSuccess)) (snd (fst demoSuccess))
               (snd demoSuccess) demoLine).
  - exact demoStock_keys.
  - vm_compute. reflexivity.
  - reflexivity.
  - right; left; reflexivity.
Defined.

Lemma composer002_leaves_stock_to_caller_witness :
  snd (fst demoSuccess002) = demoStock
  /\ (success (fst (fst demoSuccess002)) = true -> NoDup (keys demoStock) ->
      exists used,
        tempUsedMap (fst (fst demoSuccess002)) = Some used
        /\ Forall2 (fun u line => fst u = name line /\ snd u == lineQty line)
                   used (items (fst (fst demoSuccess002)))
        /\ forall line, In line (items (fst (fst demoSuccess002))) ->
           exists pre post,
             stockGet demoStock (name line) = Some pre
             /\ stockGet (Part002.commitUsed used demoStock) (name line) = Some post
             /\ remainingQty post == toFixed 3 (remainingQty pre - lineQty line)).
Proof.
  apply (composer002_leaves_stock_to_caller
           zeroRandom demoStock 50 1000 1000 5 demoDate "RANGE" 2001 [] 0
           (fst (fst demoSuccess002)) (snd (fst demoSuccess002)) (snd demoSuccess002)).
  vm_compute. reflexivity.
Defined.

Lemma critical_failure_aborts_run_witness :
  exists s',
    Scheduler001.dayLoop zeroRandom 100 500 1 demoDate 1000 0 5000 emptyState = Some s'
    /\ Scheduler001.logList s' = [CriticalError demoDate]
    /\ Scheduler001.abortAll s' = true
    /\ Scheduler001.hasSkipped s' = true
    /\ Scheduler001.allGeneratedBills s' = []
    /\ forall fuel' rest,
        Scheduler001.daysLoop zeroRandom 100 500 fuel' rest s' = Some s'.
Proof.
  apply (critical_failure_aborts_run zeroRandom 100 500 0 demoDate 1000 0 5000 emptyState).
  - reflexivity.
  - reflexivity.
  - unfold Scheduler001.ceiling. lia.
  - reflexivity.
Defined.

(* ------------------------------------------------------------------ *)
(** ** Bounds on the picked quantities *)
(* ------------------------------------------------------------------ *)

Lemma Qfloor_nonneg x : 0 <= x -> (0 <= Qfloor x)%Z.
Proof.
  intros H. change 0%Z with (Qfloor 0). apply Qfloor_resp_le. exact H.
Qed.

Lemma Qfloor_lt_int x (z : Z) : x < inject_Z z -> (Qfloor x < z)%Z.
Proof.
  intros H. pose proof (Qfloor_le x) as Hf.
  rewrite Zlt_Qlt. lra.
Qed.

Lemma absMaxOf_le it actualRemaining roomLeft :
  absMaxOf it actualRemaining roomLeft <= actualRemaining.
Proof.
  unfold absMaxOf. destruct (Qeq_bool (singleUnitCost it) 0).
  - lra.
  - apply Q.le_min_l.
Qed.

Lemma absMaxOf_budget it actualRemaining roomLeft :
  0 < singleUnitCost it ->
  absMaxOf it actualRemaining roomLeft * singleUnitCost it <= roomLeft.
Proof.
  intros Hc. unfold absMaxOf.
  destruct (Qeq_bool (singleUnitCost it) 0) eqn:E.
  - apply Qeq_bool_iff in E. lra.
  - pose proof (Q.le_min_r actualRemaining (roomLeft / singleUnitCost it)) as Hm.
    apply (Qmult_le_r _ _ _ Hc) in Hm.
    eapply Qle_trans; [exact Hm|].
    unfold Qdiv. rewrite <- Qmult_assoc, (Qmult_comm (/ _)), Qmult_inv_r by lra. lra.
Qed.

Section PickBounds.

Variable random : nat -> Q.
Variable bigFirst : nat -> bool.
Variable canFloat : Item -> Q -> bool.
Variable strictFit : bool.
Hypothesis Hrandom : inUnit random.

Lemma chooseQty_integer attempt minItems it actualRemaining roomLeft picked k q k' :
  canFloat it roomLeft = false ->
  chooseQty random bigFirst canFloat strictFit attempt minItems it
            actualRemaining roomLeft picked k = (Some q, k') ->
  exists z : Z,
    q = inject_Z z /\ (1 <= z)%Z
    /\ q <= absMaxOf it actualRemaining roomLeft
    /\ ((picked < minItems)%nat -> (z <= 2)%Z).
Proof.
  intros Hno H. unfold chooseQty in H. rewrite Hno in H.
  destruct (strictFit && negb false && Qlt_bool roomLeft (singleUnitCost it)); [discriminate|].
  set (absMax := absMaxOf it actualRemaining roomLeft) in *.
  destruct (Qfloor absMax <? 1)%Z eqn:E1; [discriminate|].
  apply Z.ltb_ge in E1.
  set (intMax := if (picked <? minItems)%nat then Z.min (Qfloor absMax) 2 else Qfloor absMax) in *.
  assert (Hi1 : (1 <= intMax)%Z) by (unfold intMax; destruct (picked <? minItems)%nat; lia).
  assert (Hi2 : (intMax <= Qfloor absMax)%Z) by (unfold intMax; destruct (picked <? minItems)%nat; lia).
  assert (Hi3 : (picked < minItems)%nat -> (intMax <= 2)%Z).
  { intros Hp. apply Nat.ltb_lt in Hp. unfold intMax. rewrite Hp. lia. }
  clearbody intMax absMax.
  destruct (Hrandom k) as [Hr0 Hr1].
  assert (Hq : 0 < inject_Z intMax) by (change 0 with (inject_Z 0); rewrite <- Zlt_Qlt; lia).
  assert (Hlo : (0 <= Qfloor (random k * inject_Z intMax))%Z).
  { apply Qfloor_nonneg. apply Qmult_le_0_compat; [exact Hr0|apply Qlt_le_weak; exact Hq]. }
  assert (Hhi : (Qfloor (random k * inject_Z intMax) < intMax)%Z).
  { apply Qfloor_lt_int. nra. }
  assert (Hqeq : q = inject_Z (Qfloor (random k * inject_Z intMax) + 1)) by congruence.
  clear H. rewrite Hqeq. exists (Qfloor (random k * inject_Z intMax) + 1)%Z. split; [reflexivity|]. split; [lia|]. split.
  - pose proof (Qfloor_le absMax) as Hf.
    assert (inject_Z (Qfloor (random k * inject_Z intMax) + 1) <= inject_Z (Qfloor absMax)).
    { rewrite <- Zle_Qle. lia. }
    lra.
  - intros Hp. specialize (Hi3 Hp). lia.
Qed.

Lemma chooseQty_float attempt minItems it actualRemaining roomLeft picked k q k' :
  canFloat it roomLeft = true ->
  chooseQty random bigFirst canFloat strictFit attempt minItems it
            actualRemaining roomLeft picked k = (Some q, k') ->
  isMultiple 100 q
  /\ q <= absMaxOf it actualRemaining roomLeft + (1 # 200)
  /\ ((picked < minItems)%nat -> q <= absMaxOf it actualRemaining roomLeft).
Proof.
  intros Hyes H. unfold chooseQty in H. rewrite Hyes in H.
  rewrite andb_false_r in H. cbn [andb] in H.
  set (absMax := absMaxOf it actualRemaining roomLeft) in *.
  destruct (Qlt_bool absMax (1 # 100)) eqn:E1; [discriminate|].
  apply Qlt_bool_false in E1.
  destruct (Hrandom k) as [Hr0 Hr1].
  set (fk := if bigFirst attempt then (9 # 10, k) else (random k * (8 # 10) + (2 # 10), S k)) in *.
  assert (Hf : 0 <= fst fk /\ fst fk <= 1).
  { unfold fk. destruct (bigFirst attempt); simpl; lra. }
  destruct fk as [factor k1]. simpl in Hf.
  pose proof (roundTo_error 100 (absMax * factor)) as He1.
  pose proof (roundTo_error 100 (absMax / 2)) as He2.
  apply Qabs_Qle_condition in He1, He2.
  change (roundTo 100) with (toFixed 2) in He1, He2.
  assert (Hprod : absMax * factor <= absMax) by nra.
  change (1 # 2 * 100) with (1 # 200) in He1, He2.
  clearbody absMax.
  set (q1 := toFixed 2 (absMax * factor)) in *.
  set (q2 := toFixed 2 (absMax / 2)) in *.
  destruct He1 as [He1 He1'], He2 as [He2 He2'].
  unfold Qdiv in *. change (/ 2) with (1 # 2) in *.
  assert (Hm1 : isMultiple 100 q1) by apply toFixed2_cents.
  assert (Hm2 : isMultiple 100 q2) by apply toFixed2_cents.
  clearbody q1 q2.
  destruct ((picked <? minItems)%nat && Qlt_bool _ q1) eqn:Ecap.
  - assert (Hqeq : q = q2) by congruence. clear H. subst q.
    split; [exact Hm2|]. split; [lra|]. intros _. lra.
  - assert (Hqeq : q = q1) by congruence. clear H. subst q.
    split; [exact Hm1|]. split; [lra|].
    intros Hp. apply Nat.ltb_lt in Hp. rewrite Hp in Ecap. cbn [andb] in Ecap.
    apply Qlt_bool_false in Ecap. lra.
Qed.

End PickBounds.

Lemma roundTo_ge_multiple s m x : isMultiple s m -> m <= x -> m <= roundTo s x.
Proof.
  intros [z Hz] Hmx.
  destruct (roundTo_multiple s x) as [a Ha].
  pose proof (roundTo_error s x) as He. apply Qabs_Qle_condition in He as [He _].
  set (y := roundTo s x) in *. clearbody y.
  set (S := inject_Z (Z.pos s)).
  assert (HS : 0 < S) by (unfold S, Qlt; simpl; lia).
  assert (Hy : y * S == inject_Z a) by (rewrite Ha; apply Qmake_scale).
  assert (Hm : m * S == inject_Z z) by (rewrite Hz; apply Qmake_scale).
  assert (Hh : (1 # (2 * s)) * S == 1 # 2).
  { unfold S, Qeq, Qmult, inject_Z. simpl. lia. }
  set (e := 1 # (2 * s)) in *. clearbody e.
  apply Qnot_lt_le. intros Hlt.
  assert (Haz : (a < z)%Z).
  { rewrite Zlt_Qlt. nra. }
  assert (Haz' : inject_Z a + 1 <= inject_Z z).
  { change 1 with (inject_Z 1). rewrite <- inject_Z_plus, <- Zle_Qle. lia. }
  nra.
Qed.

Lemma usedGet_nonneg (m : UsedMap) key :
  Forall (fun e => 0 <= snd e) m -> 0 <= default 0 (usedGet m key).
Proof.
  induction m as [|[k v] m IH]; intros H; simpl.
  - lra.
  - apply Forall_cons in H as [Hv Hm]. destruct (String.eqb k key); simpl; auto.
Qed.

Lemma usedSet_nonneg (m : UsedMap) key v :
  0 <= v -> Forall (fun e => 0 <= snd e) m -> Forall (fun e => 0 <= snd e) (usedSet m key v).
Proof.
  intros Hv. induction m as [|[k w] m IH]; intros H; simpl.
  - constructor; [exact Hv|constructor].
  - apply Forall_cons in H as [Hw Hm]. destruct (String.eqb k key).
    + constructor; assumption.
    + constructor; [exact Hw|auto].
Qed.

Section PickerBounded.

Variable random : nat -> Q.
Variable bigFirst : nat -> bool.
Variable canFloat : Item -> Q -> bool.
Variable strictFit : bool.
Hypothesis Hrandom : inUnit random.

Lemma chooseQty_stock attempt minItems it actualRemaining roomLeft picked k q k' :
  chooseQty random bigFirst canFloat strictFit attempt minItems it
            actualRemaining roomLeft picked k = (Some q, k') ->
  q <= actualRemaining + (1 # 200).
Proof.
  intros H. pose proof (absMaxOf_le it actualRemaining roomLeft) as Hle.
  destruct (canFloat it roomLeft) eqn:E.
  - destruct (chooseQty_float random bigFirst canFloat strictFit Hrandom _ _ _ _ _ _ _ _ _ E H)
      as (_ & Hq & _). lra.
  - destruct (chooseQty_integer random bigFirst canFloat strictFit Hrandom _ _ _ _ _ _ _ _ _ E H)
      as (z & _ & _ & Hq & _). lra.
Qed.

Lemma pickItems_bounded attempt minItems targetMin targetMax pool :
  forall a k,
    Forall (fun e => 0 <= snd e) (tempUsed a) ->
    exists qs,
      fst (pickItems random bigFirst canFloat strictFit attempt minItems
                     targetMin targetMax pool a k) = pushAll a qs
      /\ sublist (map fst qs) pool
      /\ Forall pickOK qs.
Proof.
  induction pool as [|it rest IH]; intros a k Hused.
  - exists []. simpl. split; [reflexivity|]. split; constructor.
  - assert (Hrest : forall k', exists qs,
               fst (pickItems random bigFirst canFloat strictFit attempt minItems
                              targetMin targetMax rest a k') = pushAll a qs
               /\ sublist (map fst qs) (it :: rest)
               /\ Forall pickOK qs).
    { intros k'. destruct (IH a k' Hused) as (qs & H1 & H2 & H3).
      exists qs. split; [exact H1|]. split; [|exact H3].
      apply sublist_cons. exact H2. }
    simpl.
    destruct (if Qle_bool targetMin (currentTotal a) && (minItems <=? pickedCount a)%nat
              then if bigFirst attempt then (true, k)
                   else (Qlt_bool (1 # 2) (random k), S k)
              else (false, k)) as [stop k0].
    destruct stop.
    { exists []. simpl. split; [reflexivity|]. split; [apply sublist_nil_l|constructor]. }
    destruct (Qle_bool (getRem (tempUsed a) it) (1 # 1000)) eqn:Erem; [apply Hrest|].
    destruct (Qlt_bool (targetMax - currentTotal a) 1); [apply Hrest|].
    destruct (chooseQty _ _ _ _ _ _ _ _ _ _ _) as [[q|] k1] eqn:Eq; [|apply Hrest].
    destruct (Qle_bool q 0) eqn:Epos; [apply Hrest|].
    assert (Hq0 : 0 < q).
    { apply Qnot_le_lt. intros Hle. apply Qle_bool_iff in Hle. congruence. }
    assert (Hu : 0 <= default 0 (usedGet (tempUsed a) (ItemDetails it)))
      by (apply usedGet_nonneg; exact Hused).
    destruct (IH (pushEntry a it q) k1) as (qs & H1 & H2 & H3).
    { simpl. apply usedSet_nonneg; [lra|exact Hused]. }
    exists ((it, q) :: qs). split; [exact H1|]. split.
    + simpl. apply sublist_skip. exact H2.
    + constructor; [|exact H3]. unfold pickOK. cbn [fst snd].
      apply chooseQty_stock in Eq.
      assert (Hgr : 1 # 1000 < getRem (tempUsed a) it).
      { apply Qnot_le_lt. intros Hle. apply Qle_bool_iff in Hle. congruence. }
      unfold getRem in Eq, Hgr.
      set (u := default 0 (usedGet (tempUsed a) (ItemDetails it))) in *. clearbody u.
      assert (Hmax : Qmax 0 (remainingQty it - u) == remainingQty it - u).
      { apply Q.max_r. destruct (Q.max_spec 0 (remainingQty it - u)) as [[? Hm]|[? Hm]];
          rewrite Hm in Hgr; lra. }
      rewrite Hmax in Eq, Hgr. split; [exact Hq0|]. split; lra.
Qed.

Variable selectPool : nat -> nat -> nat -> list Item * nat.

Lemma attemptLoop_picks minItems mode targetMin targetMax dayTotalRemaining margin left :
  forall attempt k a k',
    attemptLoop random bigFirst canFloat strictFit selectPool left attempt minItems mode
                targetMin targetMax dayTotalRemaining margin k = (Some a, k') ->
    exists attempt0 k0 qs,
      a = pushAll emptyAttempt qs
      /\ sublist (map fst qs) (fst (selectPool minItems attempt0 k0))
      /\ Forall pickOK qs.
Proof.
  induction left as [|left IH]; intros attempt k a k' H; simpl in H.
  - discriminate.
  - destruct (selectPool minItems attempt k) as [pool k1] eqn:Epool.
    destruct (pickItems _ _ _ _ _ _ _ _ _ _ _) as [a1 k2] eqn:Epick.
    destruct (isValid mode targetMin targetMax margin minItems a1
              && safeLanding dayTotalRemaining margin a1).
    + assert (a1 = a) by congruence. subst a1.
      destruct (pickItems_bounded attempt minItems targetMin targetMax pool emptyAttempt k1)
        as (qs & H1 & H2 & H3); [constructor|].
      rewrite Epick in H1. simpl in H1.
      exists attempt, k, qs. rewrite Epool. simpl. auto.
    + eapply IH. exact H.
Qed.

Lemma tierLoop_picks effort itemCount mode targetMin targetMax dayTotalRemaining margin tiers :
  forall k a k',
    tierLoop random bigFirst canFloat strictFit selectPool tiers effort itemCount mode
             targetMin targetMax dayTotalRemaining margin k = (Some a, k') ->
    exists t attempt0 k0 qs,
      In t tiers
      /\ a = pushAll emptyAttempt qs
      /\ sublist (map fst qs) (fst (selectPool (count t) attempt0 k0))
      /\ Forall pickOK qs.
Proof.
  induction tiers as [|t tiers IH]; intros k a k' H; simpl in H.
  - discriminate.
  - destruct (runTier _ _ _ _ _ _ _ _ _ _ _ _ _ _) as [[a1|] k1] eqn:Et.
    + assert (a1 = a) by congruence. subst a1.
      unfold runTier in Et. destruct (itemCount <? count t)%nat; [discriminate|].
      apply attemptLoop_picks in Et as (attempt0 & k0 & qs & H1 & H2 & H3).
      exists t, attempt0, k0, qs. split; [left; reflexivity|]. auto.
    + destruct (IH _ _ _ H) as (t' & attempt0 & k0 & qs & Hin & Hrest).
      exists t', attempt0, k0, qs. split; [right; exact Hin|]. exact Hrest.
Qed.

End PickerBounded.

Lemma keys_inj (m : StockMap) a b :
  NoDup (keys m) -> In a m -> In b m -> ItemDetails a = ItemDetails b -> a = b.
Proof.
  unfold keys. induction m as [|x m IH]; intros Hnd Ha Hb Hab.
  - destruct Ha.
  - simpl in Hnd. apply NoDup_cons in Hnd as [Hx Hnd].
    destruct Ha as [<-|Ha], Hb as [<-|Hb].
    + reflexivity.
    + exfalso. apply Hx. rewrite Hab. apply list_elem_of_In, in_map, Hb.
    + exfalso. apply Hx. rewrite <- Hab. apply list_elem_of_In, in_map, Ha.
    + auto.
Qed.

Lemma commitUsed_rows used : forall m it',
  In it' (Part002.commitUsed used m) ->
  exists it,
    In it m /\ ItemDetails it' = ItemDetails it
    /\ remainingQty it' = remainingAfter (ItemDetails it) used (remainingQty it).
Proof.
  induction used as [|[key q] used IH]; intros m it' Hin.
  - exists it'. auto.
  - simpl in Hin. apply IH in Hin as (it1 & Hin1 & Hn1 & Hr1).
    unfold updateRemaining in Hin1. apply in_map_iff in Hin1 as (it & Hit & Hin).
    exists it. split; [exact Hin|].
    unfold remainingAfter. simpl.
    destruct (String.eqb (ItemDetails it) key) eqn:E; subst it1; simpl in *.
    + split; [exact Hn1|]. exact Hr1.
    + split; [exact Hn1|]. exact Hr1.
Qed.

(** Committing picks that respect the stock up to rounding leaves no row
    below -0.005. *)
Lemma commit_picks_floor (m : StockMap) (qs : list (Item * Q)) it' :
  NoDup (keys m) ->
  (forall it, In it m -> - (1 # 200) <= remainingQty it) ->
  NoDup (map (fun p => ItemDetails (fst p)) qs) ->
  (forall p, In p qs -> In (fst p) m) ->
  Forall pickOK qs ->
  In it' (Part002.commitUsed (map (fun p => (ItemDetails (fst p), snd p)) qs) m) ->
  - (1 # 200) <= remainingQty it'.
Proof.
  intros Hm Hlow Hnd Hin Hok Hit'.
  apply commitUsed_rows in Hit' as (it & Hit & _ & ->).
  set (used := map (fun p => (ItemDetails (fst p), snd p)) qs).
  destruct (in_dec String.string_dec (ItemDetails it) (map fst used)) as [Hyes|Hno].
  - unfold used in Hyes. rewrite map_map in Hyes. cbn [fst] in Hyes.
    apply in_map_iff in Hyes as (p & Hname & Hp).
    assert (Hrow : fst p = it) by (apply (keys_inj m); auto).
    rewrite (remainingAfter_once (ItemDetails it) (snd p) used).
    + apply (roundTo_ge_multiple 1000).
      * exists (-5)%Z. reflexivity.
      * rewrite Forall_forall in Hok. apply list_elem_of_In in Hp.
        destruct (Hok _ Hp) as (_ & _ & Hq). rewrite Hrow in Hq. lra.
    + unfold used. rewrite map_map. exact Hnd.
    + unfold used. rewrite <- Hname. apply (in_map (fun p => (ItemDetails (fst p), snd p))).
      exact Hp.
  - rewrite remainingAfter_absent by exact Hno. auto.
Qed.

(* ------------------------------------------------------------------ *)
(** ** What a call of the composer does to the stock map and what its bill
       looks like *)
(* ------------------------------------------------------------------ *)

Lemma sameRow_refl a : sameRow a a.
Proof. unfold sameRow. auto 10. Qed.

Lemma rowAfter_spec used : forall it,
  sameRow it (rowAfter used it)
  /\ remainingQty (rowAfter used it) = remainingAfter (ItemDetails it) used (remainingQty it).
Proof.
  induction used as [|[key q] used IH]; intros it.
  - split; [apply sameRow_refl|reflexivity].
  - unfold rowAfter, remainingAfter. simpl.
    destruct (String.eqb (ItemDetails it) key) eqn:E.
    + destruct (IH (setRemainingQty it (toFixed 3 (remainingQty it - q)))) as [Hs Hr].
      split; [exact Hs|exact Hr].
    + apply IH.
Qed.

Lemma commitUsed_map used : forall m, Part002.commitUsed used m = map (rowAfter used) m.
Proof.
  induction used as [|[key q] used IH]; intros m.
  - simpl. induction m as [|x m IHm]; simpl; [reflexivity|]. rewrite <- IHm. reflexivity.
  - simpl. rewrite IH. unfold updateRemaining. rewrite map_map. reflexivity.
Qed.

Lemma commitUsed_keys used m : keys (Part002.commitUsed used m) = keys m.
Proof.
  rewrite commitUsed_map. unfold keys. rewrite map_map.
  apply map_ext. intros it. destruct (rowAfter_spec used it) as [(Hn & _) _].
  symmetry. exact Hn.
Qed.

Lemma commitUsed_frame used m :
  Forall2 (fun a b => sameRow a b
                      /\ (~ In (ItemDetails a) (map fst used) -> remainingQty b = remainingQty a))
          m (Part002.commitUsed used m).
Proof.
  rewrite commitUsed_map. induction m as [|x m IH]; simpl; constructor.
  - destruct (rowAfter_spec used x) as [Hs Hr]. split; [exact Hs|].
    intros Hno. rewrite Hr. apply remainingAfter_absent. exact Hno.
  - exact IH.
Qed.

Lemma Forall2_same (m : StockMap) (R : Item -> Item -> Prop) :
  (forall a, R a a) -> Forall2 R m m.
Proof. intros H. induction m; constructor; auto. Qed.

Lemma pushAll_currentTotal qs : forall a,
  currentTotal (pushAll a qs) == currentTotal a + sumQ (map (fun p => cost (entryOf p)) qs).
Proof.
  induction qs as [|p qs IH]; intros a.
  - simpl. ring.
  - rewrite pushAll_cons, IH. simpl. ring.
Qed.

Lemma formatResult_names qs tot target d :
  map name (items (formatResult (map entryOf qs) tot target d))
  = map (fun p => ItemDetails (fst p)) qs.
Proof. unfold formatResult. cbn [items]. rewrite !map_map. reflexivity. Qed.

Section Composer001Extras.

Variable random : nat -> Q.
Variable stockMap : StockMap.
Variables targetMin targetMax dayTotalRemaining margin : Q.
Variable d : string.
Variable mode : string.
Variable currentFailures : nat.

(** A successful call, with picks that respect the stock up to rounding. *)
Lemma generate001_picks k bill stock' k' :
  inUnit random ->
  Part001.generateBillFromMap random stockMap targetMin targetMax dayTotalRemaining d
                              margin mode currentFailures k = (bill, stock', k') ->
  (success bill = false /\ stock' = stockMap /\ items bill = [])
  \/ (exists t attempt0 k0 qs,
         In t baseAttempts
         /\ sublist (map fst qs) (fst (pools001 random stockMap (count t) attempt0 k0))
         /\ Forall pickOK qs
         /\ bill = formatResult (map entryOf qs)
                                (currentTotal (pushAll emptyAttempt qs)) targetMax d
         /\ stock' = Part002.commitUsed (map (fun p => (ItemDetails (fst p), snd p)) qs)
                                        stockMap).
Proof.
  intros Hrandom. unfold Part001.generateBillFromMap. fold (available stockMap).
  destruct (length (available stockMap) =? 0)%nat.
  { intros H. inversion H; subst. left. auto. }
  fold (pools001 random stockMap).
  destruct (tierLoop _ _ _ _ _ _ _ _ _ _ _ _ _ _) as [[a|] k1] eqn:Et; intros H;
    inversion H; subst; clear H.
  - right. apply tierLoop_picks in Et as (t & attempt0 & k0 & qs & Hin & -> & Hsub & Hok);
      [|exact Hrandom].
    exists t, attempt0, k0, qs.
    rewrite pushAll_currentBill. cbn [emptyAttempt currentBill app].
    rewrite commitBill_commitUsed, map_map. cbn [entryOf item qty]. auto 10.
  - left. auto.
Qed.

(** X1.  Rows never fall below -0.005: the rounding of a fractional quantity
    can take a row below zero, but by no more than half a cent of a unit,
    and a row at or below the dust threshold is not sold again. *)
Theorem stock_floor_preserved k bill stock' k' :
  inUnit random ->
  NoDup (keys stockMap) ->
  (forall it, In it stockMap -> - (1 # 200) <= remainingQty it) ->
  Part001.generateBillFromMap random stockMap targetMin targetMax dayTotalRemaining d
                              margin mode currentFailures k = (bill, stock', k') ->
  forall it', In it' stock' -> - (1 # 200) <= remainingQty it'.
Proof.
  intros Hrandom Hm Hlow Hgen it' Hit'.
  destruct (generate001_picks _ _ _ _ Hrandom Hgen)
    as [(_ & -> & _)|(t & attempt0 & k0 & qs & _ & Hsub & Hok & _ & ->)].
  { auto. }
  pose proof (pools001_fromStock random stockMap (count t) attempt0 k0 Hm) as Hpool.
  destruct (picks_fromStock _ _ _ Hpool Hsub) as [Hnd Hin].
  eapply commit_picks_floor; eauto.
Qed.

(** X2.  A call changes nothing but [remainingQty], and only in rows named
    by a line of the returned bill; the keys and their order stay. *)
Theorem composer_changes_only_billed_rows k bill stock' k' :
  Part001.generateBillFromMap random stockMap targetMin targetMax dayTotalRemaining d
                              margin mode currentFailures k = (bill, stock', k') ->
  Forall2 (fun a b => sameRow a b
                      /\ (~ In (ItemDetails a) (map name (items bill)) ->
                          remainingQty b = remainingQty a))
          stockMap stock'.
Proof.
  intros Hgen.
  destruct (generate001_cases _ _ _ _ _ _ _ _ _ _ _ _ _ Hgen)
    as [[_ ->]|(t & k0 & a & _ & _ & Hacc & -> & ->)].
  { apply Forall2_same. intros a. split; [apply sameRow_refl|reflexivity]. }
  destruct Hacc as ((attempt & k1 & qs & -> & _ & _) & _ & _).
  rewrite pushAll_currentBill. cbn [emptyAttempt currentBill app].
  rewrite formatResult_names, commitBill_commitUsed, map_map. cbn [entryOf item qty].
  pose proof (commitUsed_frame (map (fun p => (ItemDetails (fst p), snd p)) qs) stockMap) as H.
  rewrite map_map in H. exact H.
Qed.

(** X3.  The shape of a successful bill: its total is the sum of its line
    totals; every line has a positive quantity, carries the date of the
    call and the price, tax rates and MRP of a row of the stock map, and
    its total and CESS amount are computed from these; no two lines name
    the same item. *)
Theorem composed_bill_shape k bill stock' k' :
  NoDup (keys stockMap) ->
  Part001.generateBillFromMap random stockMap targetMin targetMax dayTotalRemaining d
                              margin mode currentFailures k = (bill, stock', k') ->
  success bill = true ->
  total bill == sumQ (map itemTotal (items bill))
  /\ NoDup (map name (items bill))
  /\ (1 <= length (items bill) <= length (available stockMap))%nat
  /\ Forall (fun l =>
               0 < lineQty l /\ date l = d
               /\ itemTotal l = lineTotal (unitPrice l) (lineQty l) (gstPercent l)
                                          (cessPercent l) (mrp l)
               /\ cessTaxAmount l = mrp l * lineQty l * cessPercent l / 100
               /\ exists it, In it stockMap /\ ItemDetails it = name l
                             /\ Price it = unitPrice l /\ GST_PERCENT it = gstPercent l
                             /\ CESS it = cessPercent l /\ MRP it = mrp l)
            (items bill).
Proof.
  intros Hm Hgen Hok.
  destruct (generate001_cases _ _ _ _ _ _ _ _ _ _ _ _ _ Hgen)
    as [[Hf _]|(t & k0 & a & Hin & _ & Hacc & -> & _)].
  { congruence. }
  pose proof Hacc as ((attempt & k1 & qs & -> & Hsub & Hpos) & Hvalid & _).
  pose proof (pools001_fromStock random stockMap (count t) attempt k1 Hm) as Hpool.
  destruct (picks_fromStock _ _ _ Hpool Hsub) as [Hnd Hrows].
  destruct (accepted_shape _ _ _ _ _ _ _ _ Hacc) as [Hcents Hlen].
  rewrite pushAll_currentBill in *. cbn [emptyAttempt currentBill app] in *.
  split; [|split; [|split]].
  - rewrite formatResult_total, (toFixed2_fix _ Hcents).
    eapply Qeq_trans; [apply pushAll_currentTotal|].
    unfold formatResult. cbn [items emptyAttempt currentTotal]. rewrite !map_map.
    cbn [formatLine itemTotal]. ring.
  - rewrite formatResult_names. exact Hnd.
  - rewrite formatResult_items, length_map. split.
    + rewrite length_map in Hlen. rewrite <- Hlen.
      assert (Hc : (count t <= pickedCount (pushAll emptyAttempt qs))%nat).
      { unfold isValid in Hvalid. destruct (String.eqb mode "RANGE");
          apply andb_true_iff in Hvalid as [_ Hc]; apply Nat.leb_le in Hc; exact Hc. }
      assert (Ht : (1 <= count t)%nat).
      { unfold baseAttempts in Hin. simpl in Hin.
        destruct Hin as [<-|[<-|[<-|[<-|[]]]]]; simpl; lia. }
      lia.
    + apply sublist_length in Hsub. rewrite length_map in Hsub.
      destruct Hpool as [_ Hp].
      assert (Hperm : length (fst (pools001 random stockMap (count t) attempt k1))
                      = length (available stockMap)).
      { unfold pools001, Part001.selectPool. destruct (attempt =? 0)%nat.
        - simpl. rewrite sortItems_perm. reflexivity.
        - rewrite shuffleArray_perm. reflexivity. }
      lia.
  - unfold formatResult. cbn [items]. rewrite map_map.
    apply Forall_forall. intros l Hl. apply list_elem_of_In in Hl.
    apply in_map_iff in Hl as (p & <- & Hp).
    cbn [formatLine entryOf item qty cost lineQty date itemTotal unitPrice gstPercent
         cessPercent mrp cessTaxAmount name].
    split.
    + rewrite Forall_forall in Hpos. apply Hpos. apply list_elem_of_In. exact Hp.
    + split; [reflexivity|]. split; [reflexivity|]. split; [reflexivity|].
      exists (fst p). split; [apply Hrows; exact Hp|]. auto 10.
Qed.

End Composer001Extras.

(* ------------------------------------------------------------------ *)
(** ** Shuffling, sorting, attempt budgets, exhausted stock *)
(* ------------------------------------------------------------------ *)

Lemma shuffleFrom_calls random i : forall a k,
  snd (shuffleFrom random i a k) = (k + i)%nat.
Proof.
  induction i as [|i IH]; intros a k; simpl.
  - lia.
  - rewrite IH. lia.
Qed.

(** X4.  [shuffleArray] returns a permutation of the array and draws one
    number per element but the first; every index it draws lies inside
    the part of the array still to be shuffled. *)
Theorem shuffleArray_permutes random (a : list Item) k :
  inUnit random ->
  Permutation (fst (shuffleArray random a k)) a
  /\ snd (shuffleArray random a k) = (k + (length a - 1))%nat
  /\ forall i n, (Z.to_nat (Qfloor (random n * inject_Z (Z.of_nat i + 1))) <= i)%nat.
Proof.
  intros Hrandom. split; [apply shuffleArray_perm|]. split.
  - unfold shuffleArray. apply shuffleFrom_calls.
  - intros i n. destruct (Hrandom n) as [H0 H1].
    assert (Hpos : 0 < inject_Z (Z.of_nat i + 1)).
    { change 0 with (inject_Z 0). rewrite <- Zlt_Qlt. lia. }
    assert (Hlt : (Qfloor (random n * inject_Z (Z.of_nat i + 1)) < Z.of_nat i + 1)%Z).
    { apply Qfloor_lt_int. nra. }
    lia.
Qed.

Section Sorting.

Variable before : Item -> Item -> bool.
Variable R : Item -> Item -> Prop.
Hypothesis before_R : forall x y, before x y = true -> R x y.
Hypothesis before_total : forall x y, before x y = false -> R y x.
Hypothesis R_trans : forall x y z, R x y -> R y z -> R x z.

Lemma insertSorted_sorted x l :
  StronglySorted R l -> StronglySorted R (insertSorted before x l).
Proof.
  induction l as [|y l IH]; intros Hs; simpl.
  - constructor; constructor.
  - apply StronglySorted_inv in Hs as [Hs Hy].
    destruct (before x y) eqn:E.
    + constructor; [constructor; assumption|].
      constructor; [apply before_R; exact E|].
      eapply Forall_impl; [exact Hy|]. intros z Hz. cbv beta in Hz.
      eapply R_trans; [apply before_R; exact E|exact Hz].
    + constructor; [apply IH; exact Hs|].
      rewrite insertSorted_perm. constructor; [apply before_total; exact E|exact Hy].
Qed.

Lemma sortItems_sorted l : StronglySorted R (sortItems before l).
Proof.
  induction l as [|x l IH]; simpl.
  - constructor.
  - apply insertSorted_sorted. exact IH.
Qed.

End Sorting.

(** X5.  The stock the composer works on holds exactly the rows above the
    dust threshold, cheapest first; the expensive-first list holds the same
    rows, dearest first. *)
Theorem available_sorted (stockMap : StockMap) :
  (forall it, In it (available stockMap)
              <-> In it stockMap /\ 1 # 1000 < remainingQty it)
  /\ StronglySorted (fun a b => singleUnitCost a <= singleUnitCost b) (available stockMap)
  /\ StronglySorted (fun a b => singleUnitCost b <= singleUnitCost a)
                    (sortItems expensiveFirst (available stockMap))
  /\ Permutation (sortItems expensiveFirst (available stockMap)) (available stockMap).
Proof.
  split; [|split; [|split]].
  - intros it. unfold available. rewrite <- list_elem_of_In, sortItems_perm, list_elem_of_In.
    rewrite List.filter_In, Qlt_bool_iff. reflexivity.
  - apply sortItems_sorted with (R := fun a b => singleUnitCost a <= singleUnitCost b).
    + intros x y H. apply Qle_bool_iff in H. exact H.
    + intros x y H. unfold cheapFirst in H.
      destruct (Qlt_le_dec (singleUnitCost y) (singleUnitCost x)) as [Hlt|Hle].
      * lra.
      * apply Qle_bool_iff in Hle. congruence.
    + intros x y z. apply Qle_trans.
  - apply sortItems_sorted with (R := fun a b => singleUnitCost b <= singleUnitCost a).
    + intros x y H. apply Qle_bool_iff in H. exact H.
    + intros x y H. unfold expensiveFirst in H.
      destruct (Qlt_le_dec (singleUnitCost x) (singleUnitCost y)) as [Hlt|Hle].
      * lra.
      * apply Qle_bool_iff in Hle. congruence.
    + intros x y z H1 H2. eapply Qle_trans; eassumption.
  - apply sortItems_perm.
Qed.

(** X6.  Effort scaling: whatever the number of failures, every tier runs at
    least one attempt and at most its base number; up to 50 failures it
    runs the base number, and more failures never mean more attempts. *)
Theorem attempts_budget :
  Forall (fun t =>
            forall currentFailures currentFailures' : nat,
              let n := maxAttemptsOf t (effortMultiplier 50 500 2000 (5 # 10) (1 # 10) (2 # 100)
                                                         currentFailures) in
              let n' := maxAttemptsOf t (effortMultiplier 50 500 2000 (5 # 10) (1 # 10) (2 # 100)
                                                          currentFailures') in
              (1 <= n <= Z.to_nat (attempts t))%nat
              /\ ((currentFailures <= 50)%nat -> n = Z.to_nat (attempts t))
              /\ ((currentFailures <= currentFailures')%nat -> (n' <= n)%nat))
         baseAttempts.
Proof.
  assert (Hcases : forall cf : nat,
             ((cf <= 50)%nat /\ (50 <? cf)%nat = false /\ (500 <? cf)%nat = false
              /\ (2000 <? cf)%nat = false)
             \/ ((50 < cf <= 500)%nat /\ (50 <? cf)%nat = true /\ (500 <? cf)%nat = false
                 /\ (2000 <? cf)%nat = false)
             \/ ((500 < cf <= 2000)%nat /\ (50 <? cf)%nat = true /\ (500 <? cf)%nat = true
                 /\ (2000 <? cf)%nat = false)
             \/ ((2000 < cf)%nat /\ (50 <? cf)%nat = true /\ (500 <? cf)%nat = true
                 /\ (2000 <? cf)%nat = true)).
  { intros cf.
    destruct (Nat.ltb_spec 50 cf), (Nat.ltb_spec 500 cf), (Nat.ltb_spec 2000 cf);
      first [ solve [left; repeat split; first [lia|reflexivity]]
            | solve [right; left; repeat split; first [lia|reflexivity]]
            | solve [right; right; left; repeat split; first [lia|reflexivity]]
            | solve [right; right; right; repeat split; first [lia|reflexivity]]
            | lia ]. }
  unfold baseAttempts.
  constructor; [|constructor; [|constructor; [|constructor; [|constructor]]]];
    intros cf cf'; unfold effortMultiplier; cbv zeta;
    destruct (Hcases cf) as [(Hr & -> & -> & ->)|[(Hr & -> & -> & ->)|[(Hr & -> & -> & ->)|(Hr & -> & -> & ->)]]];
    destruct (Hcases cf') as [(Hr' & -> & -> & ->)|[(Hr' & -> & -> & ->)|[(Hr' & -> & -> & ->)|(Hr' & -> & -> & ->)]]];
    vm_compute; repeat split; intros; try lia; try reflexivity.
Qed.

Lemma filter_nil_iff (f : Item -> bool) l :
  List.filter f l = [] <-> forall x, In x l -> f x = false.
Proof.
  induction l as [|x l IH]; simpl.
  - split; [intros _ y []|reflexivity].
  - destruct (f x) eqn:E.
    + split; [discriminate|]. intros H. specialize (H x (or_introl eq_refl)). congruence.
    + rewrite IH. split.
      * intros H y [<-|Hy]; auto.
      * intros H y Hy. apply H. right. exact Hy.
Qed.

(** X7.  The composer answers "No items" exactly when no row is above the
    dust threshold of 0.001; it then draws no random number and returns the
    stock map it was given. *)
Theorem no_items_iff random stockMap targetMin targetMax dayTotalRemaining d margin mode
        currentFailures k :
  let r := Part001.generateBillFromMap random stockMap targetMin targetMax
                                       dayTotalRemaining d margin mode currentFailures k in
  (reason (fst (fst r)) = Some "No items"%string
   <-> forall it, In it stockMap -> remainingQty it <= 1 # 1000)
  /\ (reason (fst (fst r)) = Some "No items"%string ->
      r = (failure (Some "No items"%string), stockMap, k)).
Proof.
  cbv zeta. unfold Part001.generateBillFromMap. fold (available stockMap).
  assert (Hlen : length (available stockMap) = 0%nat
                 <-> forall it, In it stockMap -> remainingQty it <= 1 # 1000).
  { unfold available. rewrite sortItems_perm, length_zero_iff_nil, filter_nil_iff.
    split; intros H it Hit; specialize (H it Hit).
    - apply Qlt_bool_false. exact H.
    - apply Qlt_bool_false. exact H. }
  destruct (length (available stockMap) =? 0)%nat eqn:E.
  - apply Nat.eqb_eq in E. cbn [fst reason failure]. split; [|reflexivity].
    split; [intros _; apply Hlen; exact E|reflexivity].
  - apply Nat.eqb_neq in E.
    destruct (tierLoop _ _ _ _ _ _ _ _ _ _ _ _ _ _) as [[a|] k1];
      cbn [fst reason failure formatResult]; (split; [|discriminate]);
      (split; [discriminate|]); intros H; apply Hlen in H; contradiction.
Qed.

(* ------------------------------------------------------------------ *)
(** ** [buildStockMap] *)
(* ------------------------------------------------------------------ *)

Lemma builtSet_names m v :
  map builtName (builtSet m v)
  = if existsb (fun x => String.eqb (builtName x) (builtName v)) m
    then map builtName m else map builtName m ++ [builtName v].
Proof.
  induction m as [|x m IH]; simpl.
  - reflexivity.
  - destruct (String.eqb (builtName x) (builtName v)) eqn:E; simpl.
    + apply String.eqb_eq in E. rewrite E. reflexivity.
    + rewrite IH. destruct (existsb _ m); reflexivity.
Qed.

Lemma builtSet_NoDup m v : NoDup (map builtName m) -> NoDup (map builtName (builtSet m v)).
Proof.
  intros H. rewrite builtSet_names.
  destruct (existsb _ m) eqn:E; [exact H|].
  apply NoDup_app. split; [exact H|]. split; [|apply NoDup_singleton].
  intros n Hn Hv. apply list_elem_of_singleton in Hv. subst n.
  apply list_elem_of_In, in_map_iff in Hn as (x & Hx & Hin).
  assert (Ht : existsb (fun x => String.eqb (builtName x) (builtName v)) m = true).
  { apply existsb_exists. exists x. split; [exact Hin|]. apply String.eqb_eq. exact Hx. }
  congruence.
Qed.

Lemma builtGet_set m v key :
  builtGet (builtSet m v) key
  = if String.eqb (builtName v) key then Some v else builtGet m key.
Proof.
  unfold builtGet. induction m as [|x m IH]; simpl.
  - destruct (String.eqb (builtName v) key); reflexivity.
  - destruct (String.eqb (builtName x) (builtName v)) eqn:E; simpl.
    + apply String.eqb_eq in E. rewrite E.
      destruct (String.eqb (builtName v) key); reflexivity.
    + destruct (String.eqb (builtName x) key) eqn:Ek.
      * apply String.eqb_eq in Ek. subst key. apply String.eqb_neq in E.
        destruct (String.eqb (builtName v) (builtName x)) eqn:E2; [|reflexivity].
        apply String.eqb_eq in E2. congruence.
      * exact IH.
Qed.

Lemma buildStockMap_snoc strict data row :
  buildStockMap strict (data ++ [row])
  = builtSet (buildStockMap strict data) (buildItem strict row).
Proof. unfold buildStockMap. rewrite fold_left_app. reflexivity. Qed.

Lemma buildStockMap_keys_aux strict data :
  NoDup (map builtName (buildStockMap strict data))
  /\ forall key,
       builtGet (buildStockMap strict data) key
       = option_map (buildItem strict)
                    (List.find (fun row => String.eqb (cellName row) key) (rev data)).
Proof.
  induction data as [|row data IH] using rev_ind.
  - split; [constructor|reflexivity].
  - destruct IH as [IHn IHg]. rewrite buildStockMap_snoc. split.
    + apply builtSet_NoDup. exact IHn.
    + intros key. rewrite builtGet_set, rev_app_distr. simpl.
      destruct (String.eqb (cellName row) key); [reflexivity|apply IHg].
Qed.

(** X8.  The map [buildStockMap] builds has pairwise distinct keys, and the
    value under a key is built from the last row of the sheet with that
    name; a name no row carries is not a key. *)
Theorem buildStockMap_keys strict data :
  NoDup (map builtName (buildStockMap strict data))
  /\ forall key,
       builtGet (buildStockMap strict data) key
       = option_map (buildItem strict)
                    (List.find (fun row => String.eqb (cellName row) key) (rev data)).
Proof. first [apply buildStockMap_keys_aux | intros; eapply buildStockMap_keys_aux; eassumption]. Qed.

Lemma numberOrZero_numeric q : numberOrZero (fin q) == q.
Proof.
  unfold numberOrZero, fin. simpl. destruct (Qeq_bool q 0) eqn:E.
  - apply Qeq_bool_iff in E. symmetry. exact E.
  - reflexivity.
Qed.

Lemma buildItem_cost_aux strict row :
  (forall price gst, cellPrice row = fin price -> cellGst row = fin gst ->
     builtCost (buildItem strict row)
     =n= Num (lineTotal (builtPrice (buildItem strict row)) 1
                        (builtGst (buildItem strict row))
                        (builtCess (buildItem strict row))
                        (builtMrp (buildItem strict row))))
  /\ (cellPrice row = Undefined \/ cellGst row = Undefined ->
      builtCost (buildItem strict row) = NaN
      /\ (cellPrice row = Undefined -> builtPrice (buildItem strict row) = 0)
      /\ (cellGst row = Undefined -> builtGst (buildItem strict row) = 0)).
Proof.
  split.
  - intros price gst Hp Hg. unfold buildItem. cbn [builtCost builtPrice builtGst builtCess builtMrp].
    rewrite Hp, Hg. cbn [toNumber fin].
    assert (Hor : forall v, exists c, orZero (Val (toNumber v)) = Num c /\ c == numberOrZero v).
    { intros v. unfold numberOrZero. destruct v as [|[|q]]; simpl.
      - exists 0. split; reflexivity.
      - exists 0. split; reflexivity.
      - destruct (Qeq_bool q 0); eexists; split; reflexivity. }
    destruct (Hor (cellCess row)) as (c & Hc & Hc').
    destruct (Hor (cellMrp row)) as (m & Hm & Hm').
    unfold calculateItemTotal, lineTotal. rewrite Hc, Hm. cbn [toNumber fin nmul nadd ndiv100 ntoFixed2 number_eq].
    apply (roundTo_compat 100).
    pose proof (numberOrZero_numeric price) as Hp'. pose proof (numberOrZero_numeric gst) as Hg'.
    unfold fin in Hp', Hg'. rewrite Hp', Hg', Hc', Hm'. reflexivity.
  - intros H. unfold buildItem. cbn [builtCost builtPrice builtGst]. split; [|split].
    + unfold calculateItemTotal. destruct H as [-> | ->]; cbn [toNumber fin nmul].
      * reflexivity.
      * destruct (toNumber (cellPrice row)); reflexivity.
    + intros ->. reflexivity.
    + intros ->. reflexivity.
Qed.

(** X9.  The unit cost of a built row: with a numeric price and GST rate it
    is the taxed total of one unit at the stored price, rates and MRP;
    with the price or the GST rate absent it is [NaN], although the stored
    price and rate are then 0. *)
Theorem buildItem_cost strict row :
  (forall price gst, cellPrice row = fin price -> cellGst row = fin gst ->
     builtCost (buildItem strict row)
     =n= Num (lineTotal (builtPrice (buildItem strict row)) 1
                        (builtGst (buildItem strict row))
                        (builtCess (buildItem strict row))
                        (builtMrp (buildItem strict row))))
  /\ (cellPrice row = Undefined \/ cellGst row = Undefined ->
      builtCost (buildItem strict row) = NaN
      /\ (cellPrice row = Undefined -> builtPrice (buildItem strict row) = 0)
      /\ (cellGst row = Undefined -> builtGst (buildItem strict row) = 0)).
Proof. first [apply buildItem_cost_aux | intros; eapply buildItem_cost_aux; eassumption]. Qed.

(** X10.  The strict variant marks a row as loaded fractional only when its
    quantity is more than 0.0001 away from the whole number below it: a
    whole quantity is never marked, and a marked quantity is one the
    broken-unit test [remainingQty % 1 !== 0] of part_001 also accepts; some
    quantities that test accepts are not marked. *)
Theorem isInputFloat_spec :
  (forall q, isWhole q -> isInputFloat q = false)
  /\ (forall q, isInputFloat q = true -> hasFraction q = true)
  /\ exists q, hasFraction q = true /\ isInputFloat q = false.
Proof.
  assert (Hwhole : forall q, isWhole q -> isInputFloat q = false).
  { intros q [z Hz]. unfold isInputFloat. apply Qlt_bool_false.
    assert (Ha : Qabs q == inject_Z (Z.abs z)).
    { rewrite Hz. unfold Qabs, inject_Z. simpl. reflexivity. }
    assert (Hf : Qfloor (Qabs q) = Z.abs z).
    { rewrite Ha. apply Qfloor_Z. }
    rewrite Hf, Ha. lra. }
  split; [exact Hwhole|]. split.
  - intros q H. destruct (hasFraction q) eqn:E; [reflexivity|].
    apply hasFraction_false in E. apply Hwhole in E. congruence.
  - exists (200005 # 100000). split; reflexivity.
Qed.

Lemma builtSet_In m v b : In b (builtSet m v) -> b = v \/ In b m.
Proof.
  induction m as [|x m IH]; simpl.
  - intros [<-|[]]. left. reflexivity.
  - destruct (String.eqb (builtName x) (builtName v)).
    + intros [<-|H]; auto.
    + intros [<-|H]; [auto|]. destruct (IH H); auto.
Qed.

Lemma buildStockMap_In strict data b :
  In b (buildStockMap strict data) -> exists row, In row data /\ b = buildItem strict row.
Proof.
  induction data as [|row data IH] using rev_ind.
  - intros [].
  - rewrite buildStockMap_snoc. intros H. apply builtSet_In in H as [->|H].
    + exists row. split; [apply in_or_app; right; left; reflexivity|reflexivity].
    + destruct (IH H) as (r & Hr & ->). exists r. split; [apply in_or_app; left; exact Hr|reflexivity].
Qed.

(** X11.  When every row of the sheet has a numeric price and GST rate, the
    built map is a stock map for the composer: every unit cost is a number
    and the keys are pairwise distinct. *)
Theorem buildStockMap_stock strict data :
  (forall row, In row data -> isNumeric (cellPrice row) /\ isNumeric (cellGst row)) ->
  exists stockMap : StockMap,
    map toItem (buildStockMap strict data) = map Some stockMap
    /\ keys stockMap = map builtName (buildStockMap strict data)
    /\ NoDup (keys stockMap).
Proof.
  intros Hnum.
  assert (Hall : forall b, In b (buildStockMap strict data) ->
                           exists it, toItem b = Some it /\ ItemDetails it = builtName b).
  { intros b Hb. apply buildStockMap_In in Hb as (row & Hrow & ->).
    destruct (Hnum row Hrow) as [[p Hp] [g Hg]].
    destruct (buildItem_cost_aux strict row) as [Hcost _].
    specialize (Hcost p g Hp Hg). unfold toItem.
    destruct (builtCost (buildItem strict row)) as [|c]; [contradiction|].
    eexists. split; reflexivity. }
  destruct (buildStockMap_keys_aux strict data) as [Hnd _].
  revert Hall Hnd. generalize (buildStockMap strict data) as l.
  induction l as [|b l IH]; intros Hall Hnd.
  - exists []. repeat split. constructor.
  - simpl in Hnd. apply NoDup_cons in Hnd as [Hb Hnd].
    destruct (Hall b (or_introl eq_refl)) as (it & Hit & Hname).
    destruct IH as (m & Hm & Hk & Hn); [intros x Hx; apply Hall; right; exact Hx|exact Hnd|].
    exists (it :: m). change (keys (it :: m)) with (ItemDetails it :: keys m).
    simpl. rewrite Hit, Hm, Hname. split; [reflexivity|].
    split; [rewrite Hk; reflexivity|]. apply NoDup_cons. split; [|exact Hn].
    rewrite Hk. exact Hb.
Qed.

(* ------------------------------------------------------------------ *)
(** ** Runs of the scheduler of part_001 *)
(* ------------------------------------------------------------------ *)

Section DayLoop001.

Import Scheduler001.

Variable random : nat -> Q.
Variables minBill maxBill : Q.
Variable d : string.
Variable targetAmount : Q.

(** The call of one iteration is a call of the composer on the stock map
    of the state, in EXACT mode around what is left of the day, or in RANGE
    mode below it. *)
Lemma nextBill_call acc cf s :
  exists targetMin targetMax margin mode,
    nextBill random minBill maxBill d targetAmount acc cf s
    = Part001.generateBillFromMap random (stockMap s) targetMin targetMax
                                  (targetAmount - acc) d margin mode cf (calls s)
    /\ ((mode = "EXACT"%string /\ targetMax = targetAmount - acc /\ margin = 50)
        \/ (mode = "RANGE"%string /\ targetMax <= targetAmount - acc)).
Proof.
  unfold nextBill. destruct (Qle_bool (targetAmount - acc) maxBill) eqn:E.
  - eexists _, _, _, _. split; [reflexivity|]. left. auto.
  - eexists _, _, _, _. split; [reflexivity|]. right. split; [reflexivity|].
    destruct (Qlt_bool (targetAmount - acc) maxBill) eqn:E2.
    + lra.
    + assert (~ targetAmount - acc <= maxBill).
      { intros H. apply Qle_bool_iff in H. congruence. }
      lra.
Qed.

Variable P : Q -> State -> Prop.

Hypothesis Hsucc : forall acc cf s bill stock' k',
    P acc s -> acc < targetAmount ->
    nextBill random minBill maxBill d targetAmount acc cf s = (bill, stock', k') ->
    success bill = true ->
    P (acc + total bill) (afterBill bill stock' k' s).

Hypothesis Hfail : forall acc cf s bill stock' k',
    P acc s -> acc < targetAmount ->
    nextBill random minBill maxBill d targetAmount acc cf s = (bill, stock', k') ->
    success bill = false ->
    P acc (afterCall stock' k' s).

(** The loop of a day ends either because the target is reached, or by
    skipping what is left after a failure; what the steps preserve holds of
    the last state before the end. *)
Lemma dayLoop_inv fuel : forall acc cf s s',
  dayLoop random minBill maxBill fuel d targetAmount acc cf s = Some s' ->
  P acc s ->
  (exists acc', targetAmount <= acc' /\ P acc' s')
  \/ (exists acc' s1, acc' < targetAmount /\ P acc' s1
                      /\ s' = skipDay d targetAmount acc' (stockMap s1) (calls s1) s1).
Proof.
  induction fuel as [|fuel IH]; intros acc cf s s' H HP.
  - discriminate.
  - cbn [dayLoop] in H.
    destruct (Qlt_bool acc targetAmount) eqn:Elt.
    + apply Qlt_bool_iff in Elt.
      destruct (nextBill random minBill maxBill d targetAmount acc cf s)
        as [[bill stock'] k'] eqn:Enext.
      destruct (success bill) eqn:Esucc.
      * eapply IH; [exact H|]. eapply Hsucc; eauto.
      * assert (HP' : P acc (afterCall stock' k' s)) by (eapply Hfail; eauto).
        destruct (ceiling <? S cf)%nat.
        -- right. exists acc, (afterCall stock' k' s). split; [exact Elt|].
           split; [exact HP'|]. inversion H. reflexivity.
        -- eapply IH; [exact H|exact HP'].
    + apply Qlt_bool_false in Elt. inversion H; subst.
      left. exists acc. auto.
Qed.

End DayLoop001.

Section Run001.

Import Scheduler001.

Variable random : nat -> Q.
Variables minBill maxBill : Q.

(** What every day preserves, the whole run preserves. *)
Lemma daysLoop_inv (J : State -> Prop) fuel (targets : list (string * Q)) :
  (forall s d targetAmount s',
      J s -> abortAll s = false -> 0 < targetAmount -> In (d, targetAmount) targets ->
      dayLoop random minBill maxBill fuel d targetAmount 0 0 s = Some s' -> J s') ->
  forall s s',
    daysLoop random minBill maxBill fuel targets s = Some s' -> J s -> J s'.
Proof.
  intros Hday.
  assert (Hgen : forall rest, (forall x, In x rest -> In x targets) ->
                   forall s s', daysLoop random minBill maxBill fuel rest s = Some s' ->
                                J s -> J s').
  { induction rest as [|[d t] rest IH]; intros Hsub s s' H HJ; simpl in H.
    - inversion H; subst. exact HJ.
    - destruct (abortAll s) eqn:Eab.
      + inversion H; subst. exact HJ.
      + destruct (Qle_bool t 0) eqn:Et.
        * eapply IH; eauto. intros x Hx. apply Hsub. right. exact Hx.
        * destruct (dayLoop random minBill maxBill fuel d t 0 0 s) as [s1|] eqn:Eday;
            [|discriminate].
          eapply IH; [intros x Hx; apply Hsub; right; exact Hx|exact H|].
          eapply Hday; eauto.
          -- apply Qnot_le_lt. intros Hle. apply Qle_bool_iff in Hle. congruence.
          -- apply Hsub. left. reflexivity. }
  apply Hgen. auto.
Qed.

(** A successful call inside the day loop: the bill is dated [d], has a
    line, and takes the accumulated total to at most 50 over the target. *)
Lemma nextBill_success d targetAmount acc cf s bill stock' k' :
  nextBill random minBill maxBill d targetAmount acc cf s = (bill, stock', k') ->
  success bill = true ->
  billOf d bill /\ acc + total bill <= targetAmount + 50.
Proof.
  intros Hnext Hok.
  destruct (nextBill_call random minBill maxBill d targetAmount acc cf s)
    as (tmin & tmax & margin & mode & Hcall & Hmode).
  rewrite Hcall in Hnext.
  destruct (generate001_cases _ _ _ _ _ _ _ _ _ _ _ _ _ Hnext)
    as [[Hf _]|(t & k0 & a & Hin & _ & Hacc & Hbill & _)].
  { congruence. }
  destruct (accepted_bill _ _ _ _ _ _ _ _ d Hacc) as (Hc & Hr & He & _).
  rewrite <- Hbill in Hc, Hr, He. split.
  - split; [exact Hok|]. split.
    + assert (Ht : (1 <= count t)%nat).
      { unfold baseAttempts in Hin. simpl in Hin.
        destruct Hin as [<-|[<-|[<-|[<-|[]]]]]; simpl; lia. }
      lia.
    + rewrite Hbill. unfold formatResult. cbn [items].
      apply Forall_forall. intros l Hl. apply list_elem_of_In, in_map_iff in Hl as (e & <- & _).
      reflexivity.
  - destruct Hmode as [(-> & -> & ->)|(-> & Hmax)].
    + specialize (He eq_refl). apply Qabs_Qle_condition in He. lra.
    + destruct (Hr eq_refl) as [_ Hhi]. lra.
Qed.

Lemma sumQ_app l1 l2 : sumQ (l1 ++ l2) == sumQ l1 + sumQ l2.
Proof.
  induction l1 as [|x l1 IH]; simpl.
  - ring.
  - rewrite IH. ring.
Qed.

Lemma day_outcome_aux fuel d targetAmount s s' :
  dayLoop random minBill maxBill fuel d targetAmount 0 0 s = Some s' ->
  0 < targetAmount ->
  exists new,
    allGeneratedBills s' = allGeneratedBills s ++ new
    /\ Forall (billOf d) new
    /\ ((logList s' = logList s /\ abortAll s' = abortAll s /\ hasSkipped s' = hasSkipped s
         /\ targetAmount <= sumQ (map total new) /\ sumQ (map total new) <= targetAmount + 50)
        \/ (exists e, logList s' = logList s ++ [e] /\ entryDate e = d
                      /\ hasSkipped s' = true
                      /\ sumQ (map total new) < targetAmount
                      /\ (isCritical e = true <-> sumQ (map total new) == 0)
                      /\ abortAll s' = (isCritical e || abortAll s))).
Proof.
  intros Hday Hpos.
  set (P := fun (acc : Q) (st : State) =>
              exists new,
                allGeneratedBills st = allGeneratedBills s ++ new
                /\ Forall (billOf d) new
                /\ acc == sumQ (map total new) /\ acc <= targetAmount + 50
                /\ logList st = logList s /\ abortAll st = abortAll s
                /\ hasSkipped st = hasSkipped s).
  assert (HP0 : P 0 s).
  { exists []. rewrite app_nil_r. repeat split; try reflexivity; [constructor|lra]. }
  assert (Hs : forall acc cf st bill stock' k',
             P acc st -> acc < targetAmount ->
             nextBill random minBill maxBill d targetAmount acc cf st = (bill, stock', k') ->
             success bill = true -> P (acc + total bill) (afterBill bill stock' k' st)).
  { intros acc cf st bill stock' k' (new & Hb & Hall & Hsum & Hle & Hl & Ha & Hh) Hlt Hnext Hok.
    destruct (nextBill_success _ _ _ _ _ _ _ _ Hnext Hok) as [Hbill Hbound].
    exists (new ++ [bill]). cbn [afterBill allGeneratedBills logList abortAll hasSkipped].
    rewrite Hb, <- app_assoc. split; [reflexivity|]. split.
    + apply Forall_app. split; [exact Hall|]. constructor; [exact Hbill|constructor].
    + split; [|auto]. rewrite map_app, sumQ_app, <- Hsum. simpl. ring. }
  assert (Hf : forall acc cf st bill stock' k',
             P acc st -> acc < targetAmount ->
             nextBill random minBill maxBill d targetAmount acc cf st = (bill, stock', k') ->
             success bill = false -> P acc (afterCall stock' k' st)).
  { intros acc cf st bill stock' k' HP _ _ _. exact HP. }
  destruct (dayLoop_inv random minBill maxBill d targetAmount P Hs Hf fuel 0 0%nat s s' Hday HP0)
    as [(acc' & Hge & new & Hb & Hall & Hsum & Hle & Hl & Ha & Hh)
       |(acc' & s1 & Hlt & (new & Hb & Hall & Hsum & Hle & Hl & Ha & Hh) & ->)].
  - exists new. split; [exact Hb|]. split; [exact Hall|]. left.
    rewrite <- Hsum. auto.
  - exists new. unfold skipDay.
    destruct (Qeq_bool acc' 0) eqn:Ez;
      cbn [allGeneratedBills logList abortAll hasSkipped];
      (split; [exact Hb|]); (split; [exact Hall|]); right;
      eexists; (split; [rewrite Hl; reflexivity|]);
      cbn [entryDate isCritical orb]; (split; [reflexivity|]); (split; [reflexivity|]);
      rewrite <- Hsum; (split; [exact Hlt|]).
    + apply Qeq_bool_iff in Ez. split; [|reflexivity]. split; auto.
    + split; [|exact Ha]. split; [discriminate|].
      intros H. apply Qeq_bool_iff in H. congruence.
Qed.


(** A call of the composer keeps the ledger in shape. *)
Lemma generate001_ledger stock targetMin targetMax dayTotalRemaining d margin mode cf k
      bill stock' k' :
  inUnit random -> ledgerOK stock ->
  Part001.generateBillFromMap random stock targetMin targetMax dayTotalRemaining d
                              margin mode cf k = (bill, stock', k') ->
  ledgerOK stock' /\ keys stock' = keys stock.
Proof.
  intros Hrandom [Hnd Hlow] Hgen.
  assert (Hkeys : keys stock' = keys stock).
  { destruct (generate001_picks _ _ _ _ _ _ _ _ _ _ _ _ _ Hrandom Hgen)
      as [(_ & -> & _)|(t & attempt0 & k0 & qs & _ & _ & _ & _ & ->)].
    - reflexivity.
    - apply commitUsed_keys. }
  split; [|exact Hkeys]. split.
  - rewrite Hkeys. exact Hnd.
  - intros it' Hit'.
    destruct (generate001_picks _ _ _ _ _ _ _ _ _ _ _ _ _ Hrandom Hgen)
      as [(_ & -> & _)|(t & attempt0 & k0 & qs & _ & Hsub & Hok & _ & ->)].
    + auto.
    + pose proof (pools001_fromStock random stock (count t) attempt0 k0 Hnd) as Hpool.
      destruct (picks_fromStock _ _ _ Hpool Hsub) as [Hnd' Hin].
      eapply commit_picks_floor; eauto.
Qed.

Lemma days_keep_ledger stock targets fuel s :
  inUnit random ->
  ledgerOK stock ->
  daysLoop random minBill maxBill fuel targets (mkState stock [] [] false false 0) = Some s ->
  ledgerOK (stockMap s) /\ keys (stockMap s) = keys stock.
Proof.
  intros Hrandom Hled Hrun.
  apply (daysLoop_inv (fun st => ledgerOK (stockMap st) /\ keys (stockMap st) = keys stock)
                      fuel targets) with (2 := Hrun); [|split; [exact Hled|reflexivity]].
  intros s0 d targetAmount s1 HJ _ _ _ Hday.
  set (P := fun (acc : Q) (st : State) =>
              ledgerOK (stockMap st) /\ keys (stockMap st) = keys stock).
  assert (Hstep : forall acc cf st bill stock' k',
             P acc st ->
             nextBill random minBill maxBill d targetAmount acc cf st = (bill, stock', k') ->
             ledgerOK stock' /\ keys stock' = keys stock).
  { intros acc cf st bill stock' k' [Hl Hk] Hnext.
    destruct (nextBill_call random minBill maxBill d targetAmount acc cf st)
      as (tmin & tmax & margin & mode & Hcall & _).
    rewrite Hcall in Hnext.
    destruct (generate001_ledger _ _ _ _ _ _ _ _ _ _ _ _ Hrandom Hl Hnext) as [Hl' Hk'].
    split; [exact Hl'|]. rewrite Hk'. exact Hk. }
  destruct (dayLoop_inv random minBill maxBill d targetAmount P) with (3 := Hday)
    as [(acc' & _ & HP)|(acc' & s2 & _ & HP & ->)].
  - intros acc cf st bill stock' k' HP _ Hnext _. eapply Hstep; eauto.
  - intros acc cf st bill stock' k' HP _ Hnext _. eapply Hstep; eauto.
  - exact HJ.
  - exact HP.
  - unfold skipDay. destruct (Qeq_bool acc' 0); exact HP.
Qed.

Lemma days_bills_dated stock targets fuel s :
  daysLoop random minBill maxBill fuel targets (mkState stock [] [] false false 0) = Some s ->
  Forall (fun b => exists d targetAmount,
                     In (d, targetAmount) targets /\ 0 < targetAmount /\ billOf d b)
         (allGeneratedBills s).
Proof.
  intros Hrun.
  apply (daysLoop_inv
           (fun st => Forall (fun b => exists d targetAmount,
                                         In (d, targetAmount) targets /\ 0 < targetAmount
                                         /\ billOf d b)
                             (allGeneratedBills st))
           fuel targets) with (2 := Hrun); [|constructor].
  intros s0 d targetAmount s1 HJ _ Hpos Hin Hday.
  destruct (day_outcome_aux _ _ _ _ _ Hday Hpos) as (new & -> & Hall & _).
  apply Forall_app. split; [exact HJ|].
  eapply Forall_impl; [exact Hall|]. intros b Hb. exists d, targetAmount. auto.
Qed.

Lemma app_inj_last {A} (l1 l2 : list A) x y : l1 ++ [x] = l2 ++ [y] -> l1 = l2 /\ x = y.
Proof. intros H. apply app_inj_tail in H. exact H. Qed.

Lemma days_log_flags stock targets fuel s :
  daysLoop random minBill maxBill fuel targets (mkState stock [] [] false false 0) = Some s ->
  logOK s
  /\ Forall (fun e => exists targetAmount,
                        In (entryDate e, targetAmount) targets /\ 0 < targetAmount)
            (logList s).
Proof.
  intros Hrun.
  apply (daysLoop_inv
           (fun st => logOK st
                      /\ Forall (fun e => exists targetAmount,
                                            In (entryDate e, targetAmount) targets
                                            /\ 0 < targetAmount)
                                (logList st))
           fuel targets) with (2 := Hrun).
  - intros s0 d targetAmount s1 [(Hh & Ha & Hc) Hdates] Hab Hpos Hin Hday.
    destruct (day_outcome_aux _ _ _ _ _ Hday Hpos)
      as (new & _ & _ & [(Hl & Ha' & Hh' & _)|(e & Hl & He & Hh' & _ & _ & Ha')]).
    + unfold logOK. rewrite Hl, Ha', Hh'. auto.
    + assert (Hnc : Forall (fun x => isCritical x = false) (logList s0)).
      { destruct (logList s0) as [|x l] eqn:El using rev_ind; [constructor|].
        clear IHl. apply Forall_app. split; [eapply Hc; reflexivity|].
        constructor; [|constructor].
        destruct (isCritical x) eqn:Ex; [|reflexivity].
        assert (abortAll s0 = true) by (apply Ha; eauto). congruence. }
      unfold logOK. rewrite Hl, Ha', Hh', Hab, orb_false_r. split; [split; [|split]|].
      * split; [intros _ H; apply app_eq_nil in H as [_ H]; discriminate|reflexivity].
      * split.
        -- intros Hcr. exists (logList s0), e. auto.
        -- intros (l & e' & Heq & Hcr). apply app_inj_last in Heq as [_ <-]. exact Hcr.
      * intros l e' Heq. apply app_inj_last in Heq as [<- _]. exact Hnc.
      * apply Forall_app. split; [exact Hdates|]. constructor; [|constructor].
        exists targetAmount. rewrite He. auto.
  - split; [|constructor]. unfold logOK. cbn [hasSkipped logList abortAll].
    split; [split; [discriminate|intros H; contradiction]|]. split.
    + split; [discriminate|]. intros (l & e & H & _). destruct l; discriminate.
    + intros l e H. destruct l; discriminate.
Qed.

End Run001.


(* ------------------------------------------------------------------ *)
(** ** The quantity picked for one item *)
(* ------------------------------------------------------------------ *)

(** X16.  Integer pick of part_001.  An item that may not be sold
    fractionally is picked in a whole quantity of at least 1 that exceeds
    neither the stock left in the attempt nor, at a positive unit cost,
    the room left in the bill; while the bill still needs items the
    quantity is at most 2.  The pick draws one random number. *)
Theorem integer_pick_within_stock random attempt minItems it actualRemaining roomLeft
        picked k q k' :
  inUnit random ->
  Part001.canSellInFloat it roomLeft = false ->
  chooseQty random Part001.bigFirst Part001.canSellInFloat false attempt minItems it
            actualRemaining roomLeft picked k = (Some q, k') ->
  exists z : Z,
    q = inject_Z z /\ (1 <= z)%Z
    /\ q <= actualRemaining
    /\ (0 < singleUnitCost it -> q * singleUnitCost it <= roomLeft)
    /\ ((picked < minItems)%nat -> (z <= 2)%Z)
    /\ k' = S k.
Proof.
  intros Hrandom Hno H.
  destruct (chooseQty_integer random Part001.bigFirst Part001.canSellInFloat false Hrandom
                              _ _ _ _ _ _ _ _ _ Hno H) as (z & Hq & Hz & Hmax & Hcap).
  exists z. split; [exact Hq|]. split; [exact Hz|].
  pose proof (absMaxOf_le it actualRemaining roomLeft) as Hle.
  split; [lra|]. split; [|split; [exact Hcap|]].
  - intros Hc. pose proof (absMaxOf_budget it actualRemaining roomLeft Hc) as Hb.
    assert (q * singleUnitCost it <= absMaxOf it actualRemaining roomLeft * singleUnitCost it).
    { apply Qmult_le_compat_r; lra. }
    lra.
  - unfold chooseQty in H. rewrite Hno in H. cbn [andb] in H.
    destruct (Qfloor _ <? 1)%Z; [discriminate|]. congruence.
Qed.


(** X18.  Strict pick of part_002.  An item whose MRP is at most 10000 and
    that was loaded with a whole quantity is only picked when one unit
    fits the room left, and then in a whole quantity between 1 and the
    stock left in the attempt. *)
Theorem strict_pick_whole random attempt minItems it actualRemaining roomLeft
        picked k q k' :
  inUnit random ->
  Part002.canSellInFloat it = false ->
  chooseQty random Part002.bigFirst (fun it _ => Part002.canSellInFloat it) true
            attempt minItems it actualRemaining roomLeft picked k = (Some q, k') ->
  singleUnitCost it <= roomLeft
  /\ exists z : Z, q = inject_Z z /\ (1 <= z)%Z /\ q <= actualRemaining.
Proof.
  intros Hrandom Hno H.
  destruct (chooseQty_integer random Part002.bigFirst (fun it _ => Part002.canSellInFloat it)
                              true Hrandom _ _ _ _ _ _ _ _ _ Hno H)
    as (z & Hq & Hz & Hmax & _).
  pose proof (absMaxOf_le it actualRemaining roomLeft) as Hle.
  split.
  - unfold chooseQty in H. rewrite Hno in H. cbn [andb negb] in H.
    destruct (Qlt_bool roomLeft (singleUnitCost it)) eqn:E; [discriminate|].
    apply Qlt_bool_false in E. exact E.
  - exists z. split; [exact Hq|]. split; [exact Hz|]. lra.
Qed.

(* ------------------------------------------------------------------ *)
(** ** The day loop of part_002 *)
(* ------------------------------------------------------------------ *)

Lemma entryOf_inj qs qs' : map entryOf qs = map entryOf qs' -> qs = qs'.
Proof.
  revert qs'. induction qs as [|[i q] qs IH]; intros [|[i' q'] qs'] H; try discriminate.
  - reflexivity.
  - simpl in H. injection H as Hi Hq _ Hrest. subst. f_equal. apply IH. exact Hrest.
Qed.

Lemma pushAll_inj qs qs' : pushAll emptyAttempt qs = pushAll emptyAttempt qs' -> qs = qs'.
Proof.
  intros H. apply (f_equal currentBill) in H. rewrite !pushAll_currentBill in H.
  apply entryOf_inj. exact H.
Qed.

(** Committing entries that name picks respecting the stock up to rounding
    leaves no row below -0.005. *)
Lemma commit_used_floor (m : StockMap) (qs : list (Item * Q)) it' :
  ledgerOK m ->
  NoDup (map (fun p => ItemDetails (fst p)) qs) ->
  (forall p, In p qs -> In (fst p) m) ->
  Forall pickOK qs ->
  In it' (Part002.commitUsed (map usedOf qs) m) ->
  - (1 # 200) <= remainingQty it'.
Proof.
  intros [Hm Hlow] Hnd Hin Hok Hit'.
  apply commitUsed_rows in Hit' as (it & Hit & _ & ->).
  destruct (in_dec String.string_dec (ItemDetails it) (map fst (map usedOf qs))) as [Hyes|Hno].
  - rewrite map_map in Hyes. cbn [fst usedOf] in Hyes.
    apply in_map_iff in Hyes as (p & Hname & Hp).
    assert (Hrow : fst p = it) by (apply (keys_inj m); auto).
    rewrite (remainingAfter_once (ItemDetails it) (0 + snd p) (map usedOf qs)).
    + apply (roundTo_ge_multiple 1000).
      * exists (-5)%Z. reflexivity.
      * rewrite Forall_forall in Hok. apply list_elem_of_In in Hp.
        destruct (Hok _ Hp) as (_ & _ & Hq). rewrite Hrow in Hq. lra.
    + rewrite map_map. exact Hnd.
    + rewrite <- Hname. apply (in_map usedOf). exact Hp.
  - rewrite remainingAfter_absent by exact Hno. auto.
Qed.

Section DayLoop002.

Import Scheduler002.

Variable random : nat -> Q.
Variables minBill maxBill : Q.
Variable d : string.
Variable targetAmount : Q.

Lemma nextBill002_call acc cf s :
  exists targetMin targetMax margin mode,
    nextBill random minBill maxBill d targetAmount acc cf s
    = (mode, Part002.generateBillFromMap random (stockMap s) targetMin targetMax
                                         (targetAmount - acc) d margin mode cf
                                         (dailyUsedItemIds s) (S (calls s)))
    /\ ((mode = "EXACT"%string /\ targetMax = targetAmount - acc /\ margin = 50)
        \/ (mode = "RANGE"%string /\ targetMax <= targetAmount - acc)).
Proof.
  unfold nextBill. destruct (Qle_bool (targetAmount - acc) maxBill) eqn:E.
  - eexists _, _, _, _. split; [reflexivity|]. left. auto.
  - eexists _, _, _, _. split; [reflexivity|]. right. split; [reflexivity|].
    match goal with |- (if Qlt_bool ?a ?b then _ else _) <= _ =>
      destruct (Qlt_bool a b) eqn:E2; [lra|apply Qlt_bool_false in E2; exact E2] end.
Qed.

Variable P : Q -> State -> Prop.

Hypothesis Hcommit : forall acc cf s mode bill stock' k',
    P acc s -> acc < targetAmount ->
    nextBill random minBill maxBill d targetAmount acc cf s = (mode, (bill, stock', k')) ->
    success bill = true ->
    P (acc + total bill) (commit bill stock' k' s).

Hypothesis Hkeep : forall acc cf s mode bill stock' k',
    P acc s -> acc < targetAmount ->
    nextBill random minBill maxBill d targetAmount acc cf s = (mode, (bill, stock', k')) ->
    P acc (untouched002 stock' k' s).

Lemma dayLoop002_inv fuel : forall acc cf s s',
  dayLoop random minBill maxBill fuel d targetAmount acc cf s = Some s' ->
  P acc s ->
  (exists acc', targetAmount - acc' <= 5 /\ P acc' s')
  \/ (exists acc' s1, 5 < targetAmount - acc' /\ P acc' s1
                      /\ s' = skipDay d targetAmount acc' (stockMap s1) (calls s1) s1).
Proof.
  induction fuel as [|fuel IH]; intros acc cf s s' H HP.
  - discriminate.
  - cbn [dayLoop] in H.
    destruct (Qlt_bool acc targetAmount) eqn:Elt.
    + apply Qlt_bool_iff in Elt.
      destruct (Qle_bool (targetAmount - acc) 5) eqn:E5.
      { apply Qle_bool_iff in E5. inversion H; subst. left. exists acc. auto. }
      assert (H5 : 5 < targetAmount - acc).
      { apply Qnot_le_lt. intros Hle. apply Qle_bool_iff in Hle. congruence. }
      destruct (nextBill random minBill maxBill d targetAmount acc cf s)
        as [mode [[bill stock'] k']] eqn:Enext.
      assert (HP' : P acc (untouched002 stock' k' s)) by (eapply Hkeep; eauto).
      destruct (success bill) eqn:Esucc.
      * match type of H with (if ?c then _ else _) = _ => destruct c end.
        -- eapply IH; [exact H|exact HP'].
        -- eapply IH; [exact H|]. eapply Hcommit; eauto.
      * destruct (ceiling <? S cf)%nat.
        -- right. exists acc, (untouched002 stock' k' s). split; [exact H5|].
           split; [exact HP'|]. inversion H. reflexivity.
        -- eapply IH; [exact H|exact HP'].
    + apply Qlt_bool_false in Elt. inversion H; subst.
      left. exists acc. split; [lra|exact HP].
Qed.

End DayLoop002.

Lemma setAdd_In x ids n : In n (Scheduler002.setAdd x ids) <-> In n ids \/ n = x.
Proof.
  unfold Scheduler002.setAdd. destruct (existsb (String.eqb x) ids) eqn:E.
  - split; [auto|]. intros [H| ->]; [exact H|].
    apply existsb_exists in E as (y & Hy & Heq). apply String.eqb_eq in Heq. subst. exact Hy.
  - rewrite in_app_iff. simpl. split; intros [H|H]; auto.
    + destruct H as [H|[]]. auto.
Qed.

Lemma setAdd_fold_In (used : UsedMap) : forall ids n,
  In n (fold_left (fun ids e => Scheduler002.setAdd (fst e) ids) used ids)
  <-> In n ids \/ In n (map fst used).
Proof.
  induction used as [|e used IH]; intros ids n; simpl.
  - tauto.
  - rewrite IH, setAdd_In. split; intros H; intuition auto.
Qed.

Lemma setAdd_NoDup x ids : NoDup ids -> NoDup (Scheduler002.setAdd x ids).
Proof.
  intros H. unfold Scheduler002.setAdd. destruct (existsb (String.eqb x) ids) eqn:E.
  - exact H.
  - apply NoDup_app. split; [exact H|]. split.
    + intros y Hy Hx. apply list_elem_of_In in Hy. apply list_elem_of_In in Hx.
      destruct Hx as [Heq|[]].
      assert (existsb (String.eqb x) ids = true).
      { apply existsb_exists. exists y. split; [exact Hy|]. apply String.eqb_eq. exact Heq. }
      congruence.
    + apply NoDup_singleton.
Qed.

Lemma setAdd_fold_NoDup (used : UsedMap) : forall ids,
  NoDup ids -> NoDup (fold_left (fun ids e => Scheduler002.setAdd (fst e) ids) used ids).
Proof.
  induction used as [|e used IH]; intros ids H; simpl.
  - exact H.
  - apply IH, setAdd_NoDup, H.
Qed.

Lemma billedNames_snoc new b : billedNames (new ++ [b]) = billedNames new ++ map name (items b).
Proof.
  unfold billedNames. rewrite map_app, concat_app. simpl. rewrite app_nil_r. reflexivity.
Qed.

(** A successful call of the composer of part_002, with picks that respect
    the stock up to rounding. *)
Lemma generate002_picks random stockMap targetMin targetMax dayTotalRemaining d margin mode
      currentFailures dailyUsedItemIds k bill stock' k' :
  inUnit random ->
  NoDup (keys stockMap) ->
  Part002.generateBillFromMap random stockMap targetMin targetMax dayTotalRemaining d
                              margin mode currentFailures dailyUsedItemIds k
  = (bill, stock', k') ->
  success bill = true ->
  exists t qs,
    In t baseAttempts
    /\ Forall pickOK qs
    /\ NoDup (map (fun p => ItemDetails (fst p)) qs)
    /\ (forall p, In p qs -> In (fst p) stockMap)
    /\ items bill = items (formatResult (map entryOf qs)
                                        (currentTotal (pushAll emptyAttempt qs)) targetMax d)
    /\ tempUsedMap bill = Some (map usedOf qs)
    /\ (count t <= length (items bill))%nat
    /\ (mode = "RANGE"%string -> targetMin <= total bill /\ total bill <= targetMax)
    /\ (mode = "EXACT"%string -> Qabs (targetMax - total bill) <= margin).
Proof.
  intros Hrandom Hnd. unfold Part002.generateBillFromMap.
  fold (available stockMap). fold (fresh stockMap dailyUsedItemIds).
  destruct (length (available stockMap) =? 0)%nat.
  { intros H Hs. injection H as Hb _ _. subst bill. discriminate. }
  fold (pools002 random stockMap dailyUsedItemIds).
  destruct (tierLoop _ _ _ _ _ _ _ _ _ _ _ _ _ _) as [[a|] k1] eqn:Et; intros H Hs;
    injection H as Hb Hst Hk; subst bill stock' k'; [|discriminate].
  pose proof Et as Et2.
  apply tierLoop_Some in Et as (t & k0 & Hin & Hrun & _ & Hacc).
  apply tierLoop_picks in Et2 as (t2 & attempt0 & k2 & qs & Hin2 & Ha & Hsub & Hok);
    [|exact Hrandom].
  destruct (accepted_bill _ _ _ _ _ _ _ _ d Hacc) as (Hc & Hr & He & _).
  pose proof (pools002_fromStock random stockMap dailyUsedItemIds (count t2) attempt0 k2 Hnd)
    as Hpool.
  destruct (picks_fromStock _ _ _ Hpool Hsub) as [Hnd' Hin'].
  exists t, qs. cbn [items total tempUsedMap].
  split; [exact Hin|]. split; [exact Hok|]. split; [exact Hnd'|]. split; [exact Hin'|].
  subst a. rewrite pushAll_currentBill in *. cbn [emptyAttempt currentBill app] in *.
  split; [reflexivity|]. split.
  - rewrite pushAll_tempUsed; [reflexivity|]. exact Hnd'.
  - auto.
Qed.

Section Day002.

Import Scheduler002.

Variable random : nat -> Q.
Variables minBill maxBill : Q.
Hypothesis Hrandom : inUnit random.

(** An accepted bill inside the day loop of part_002. *)
Lemma nextBill002_success d targetAmount acc cf s mode bill stock' k' :
  ledgerOK (stockMap s) ->
  nextBill random minBill maxBill d targetAmount acc cf s = (mode, (bill, stock', k')) ->
  success bill = true ->
  billOf d bill /\ acc + total bill <= targetAmount + 50
  /\ ledgerOK (Part002.commitUsed (default [] (tempUsedMap bill)) stock')
  /\ map fst (default [] (tempUsedMap bill)) = map name (items bill)
  /\ NoDup (map name (items bill)).
Proof.
  intros [Hnd Hlow] Hnext Hok.
  destruct (nextBill002_call random minBill maxBill d targetAmount acc cf s)
    as (tmin & tmax & margin & mode' & Hcall & Hmode).
  rewrite Hcall in Hnext.
  assert (Hm : mode' = mode) by congruence. subst mode'.
  assert (Hgen : Part002.generateBillFromMap random (stockMap s) tmin tmax
                   (targetAmount - acc) d margin mode cf (dailyUsedItemIds s) (S (calls s))
                 = (bill, stock', k')) by congruence.
  clear Hnext Hcall.
  destruct (generate002_cases _ _ _ _ _ _ _ _ _ _ _ _ _ _ Hgen) as [Hst _].
  destruct (generate002_picks _ _ _ _ _ _ _ _ _ _ _ _ _ _ Hrandom Hnd Hgen Hok)
    as (t & qs & Hin & Hpick & Hnd' & Hin' & Hitems & Hused & Hc & Hr & He).
  assert (Hnames : map name (items bill) = map (fun p => ItemDetails (fst p)) qs).
  { rewrite Hitems. apply formatResult_names. }
  split; [|split; [|split; [|split]]].
  - split; [exact Hok|]. split.
    + assert (Ht : (1 <= count t)%nat).
      { unfold baseAttempts in Hin. simpl in Hin.
        destruct Hin as [<-|[<-|[<-|[<-|[]]]]]; simpl; lia. }
      lia.
    + rewrite Hitems. unfold formatResult. cbn [items].
      apply Forall_forall. intros l Hl.
      apply list_elem_of_In, in_map_iff in Hl as (e & <- & _). reflexivity.
  - destruct Hmode as [(-> & -> & ->)|(-> & Hmax)].
    + specialize (He eq_refl). apply Qabs_Qle_condition in He. lra.
    + destruct (Hr eq_refl) as [_ Hhi]. lra.
  - rewrite Hused, Hst. cbn [default from_option id]. split.
    + rewrite commitUsed_keys. exact Hnd.
    + intros it' Hit'. eapply commit_used_floor; eauto. split; assumption.
  - rewrite Hused, Hnames. cbn [default from_option id]. rewrite map_map. reflexivity.
  - rewrite Hnames. exact Hnd'.
Qed.

Lemma day_outcome002_aux fuel d targetAmount s s' :
  ledgerOK (stockMap s) ->
  dayLoop random minBill maxBill fuel d targetAmount 0 0 s = Some s' ->
  0 < targetAmount ->
  exists new,
    todaysBills s' = todaysBills s ++ new
    /\ Forall (billOf d) new
    /\ allGeneratedBills s' = allGeneratedBills s
    /\ ledgerOK (stockMap s') /\ keys (stockMap s') = keys (stockMap s)
    /\ (forall n, In n (dailyUsedItemIds s')
                  <-> In n (dailyUsedItemIds s) \/ In n (billedNames new))
    /\ sumQ (map total new) <= targetAmount + 50
    /\ ((logList s' = logList s /\ hasSkipped s' = hasSkipped s
         /\ targetAmount - sumQ (map total new) <= 5)
        \/ (exists e, logList s' = logList s ++ [e] /\ entryDate e = d
                      /\ isCritical e = false /\ hasSkipped s' = true
                      /\ 5 < targetAmount - sumQ (map total new)
                      /\ (e = NoValidBills d <-> sumQ (map total new) == 0))).
Proof.
  intros Hledger Hday Hpos.
  set (P := fun (acc : Q) (st : State) =>
              exists new,
                todaysBills st = todaysBills s ++ new
                /\ Forall (billOf d) new
                /\ allGeneratedBills st = allGeneratedBills s
                /\ ledgerOK (stockMap st) /\ keys (stockMap st) = keys (stockMap s)
                /\ (forall n, In n (dailyUsedItemIds st)
                              <-> In n (dailyUsedItemIds s) \/ In n (billedNames new))
                /\ acc == sumQ (map total new) /\ acc <= targetAmount + 50
                /\ logList st = logList s /\ hasSkipped st = hasSkipped s).
  assert (HP0 : P 0 s).
  { exists []. rewrite app_nil_r. unfold billedNames. simpl.
    repeat split; try reflexivity; try tauto; try apply Hledger; try constructor; try lra. }
  assert (Hs : forall acc cf st mode bill stock' k',
             P acc st -> acc < targetAmount ->
             nextBill random minBill maxBill d targetAmount acc cf st
             = (mode, (bill, stock', k')) ->
             success bill = true -> P (acc + total bill) (commit bill stock' k' st)).
  { intros acc cf st mode bill stock' k'
           (new & Hb & Hall & Hg & Hl & Hk & Hids & Hsum & Hle & Hlog & Hh) Hlt Hnext Hok.
    destruct (nextBill002_success _ _ _ _ _ _ _ _ _ Hl Hnext Hok)
      as (Hbill & Hbound & Hl' & Hnames & _).
    assert (Hst : stock' = stockMap st).
    { destruct (nextBill002_call random minBill maxBill d targetAmount acc cf st)
        as (tmin & tmax & margin & mode' & Hcall & _).
      rewrite Hcall in Hnext. injection Hnext as _ Hgen.
      apply generate002_cases in Hgen as [Hgen _]. exact Hgen. }
    exists (new ++ [bill]).
    cbn [commit todaysBills allGeneratedBills stockMap dailyUsedItemIds logList hasSkipped].
    rewrite Hb, <- app_assoc. split; [reflexivity|]. split.
    { apply Forall_app. split; [exact Hall|]. constructor; [exact Hbill|constructor]. }
    split; [exact Hg|]. split; [exact Hl'|]. split.
    { rewrite commitUsed_keys, Hst. exact Hk. }
    split.
    { intros n. rewrite setAdd_fold_In, Hids, billedNames_snoc, in_app_iff, Hnames. tauto. }
    split; [|auto]. rewrite map_app, sumQ_app, <- Hsum. simpl. ring. }
  assert (Hf : forall acc cf st mode bill stock' k',
             P acc st -> acc < targetAmount ->
             nextBill random minBill maxBill d targetAmount acc cf st
             = (mode, (bill, stock', k')) ->
             P acc (untouched002 stock' k' st)).
  { intros acc cf st mode bill stock' k'
           (new & Hb & Hall & Hg & Hl & Hk & Hids & Hsum & Hle & Hlog & Hh) Hlt Hnext.
    assert (Hst : stock' = stockMap st).
    { destruct (nextBill002_call random minBill maxBill d targetAmount acc cf st)
        as (tmin & tmax & margin & mode' & Hcall & _).
      rewrite Hcall in Hnext. injection Hnext as _ Hgen.
      apply generate002_cases in Hgen as [Hgen _]. exact Hgen. }
    subst stock'. exists new.
    cbn [untouched002 todaysBills allGeneratedBills stockMap dailyUsedItemIds logList hasSkipped].
    auto 12. }
  destruct (dayLoop002_inv random minBill maxBill d targetAmount P Hs Hf fuel 0 0%nat s s'
                           Hday HP0)
    as [(acc' & Hge & new & Hb & Hall & Hg & Hl & Hk & Hids & Hsum & Hle & Hlog & Hh)
       |(acc' & s1 & Hlt & (new & Hb & Hall & Hg & Hl & Hk & Hids & Hsum & Hle & Hlog & Hh) & ->)].
  - exists new. repeat (split; [assumption|]). split; [rewrite <- Hsum; exact Hle|].
    left. rewrite <- Hsum. auto.
  - exists new. unfold skipDay.
    cbn [todaysBills allGeneratedBills stockMap dailyUsedItemIds logList hasSkipped].
    repeat (split; [assumption|]). split; [rewrite <- Hsum; exact Hle|].
    right. eexists. split; [rewrite Hlog; reflexivity|].
    destruct (Qeq_bool acc' 0) eqn:Ez; cbn [entryDate isCritical];
      (split; [reflexivity|]); (split; [reflexivity|]); (split; [reflexivity|]);
      rewrite <- Hsum; (split; [exact Hlt|]).
    + apply Qeq_bool_iff in Ez. split; auto.
    + split; [discriminate|]. intros H. apply Qeq_bool_iff in H. congruence.
Qed.


End Day002.

(* ------------------------------------------------------------------ *)
(** ** Purchaser names *)
(* ------------------------------------------------------------------ *)

Lemma swapNames_perm a i j : Permutation (Purchasers.swapNames a i j) a.
Proof.
  unfold Purchasers.swapNames. destruct (a !! i) as [x|] eqn:Ei; [|reflexivity].
  destruct (a !! j) as [y|] eqn:Ej; [|reflexivity].
  apply Permutation_insert_swap; assumption.
Qed.

Lemma shuffleNames_perm random a k :
  Permutation (fst (Purchasers.shuffleNames random a k)) a.
Proof.
  unfold Purchasers.shuffleNames. generalize (length a - 1)%nat as i. intros i. revert a k.
  induction i as [|i IH]; intros a k; simpl.
  - reflexivity.
  - rewrite IH. apply swapNames_perm.
Qed.

Lemma poolAt_In pool i : pool <> [] -> In (Purchasers.poolAt pool i) pool.
Proof.
  intros H. unfold Purchasers.poolAt. apply nth_In.
  apply Nat.mod_upper_bound. destruct pool; [congruence|simpl; lia].
Qed.


Lemma scan_spec pool h billTotal : forall left nameIdx r idx',
  Purchasers.scan pool h billTotal left nameIdx = (r, idx') ->
  match r with
  | Some c =>
      (exists i, (nameIdx <= i < nameIdx + left)%nat /\ c = Purchasers.poolAt pool i
                 /\ idx' = S i)
      /\ 1 < Qabs (Purchasers.lastTotalOf h c - billTotal)
  | None =>
      idx' = (nameIdx + left)%nat
      /\ forall i, (nameIdx <= i < nameIdx + left)%nat ->
                   Qabs (Purchasers.lastTotalOf h (Purchasers.poolAt pool i) - billTotal) <= 1
  end.
Proof.
  induction left as [|left IH]; intros nameIdx r idx' H; cbn [Purchasers.scan] in H.
  - injection H as <- <-. split; [lia|]. intros i Hi. lia.
  - destruct (Qlt_bool 1 _) eqn:E.
    + injection H as <- <-. apply Qlt_bool_iff in E. split; [|exact E].
      exists nameIdx. split; [lia|]. auto.
    + apply Qlt_bool_false in E. apply IH in H. destruct r as [c|].
      * destruct H as [(i & Hi & Hc & Hidx) Hfar]. split; [|exact Hfar].
        exists i. split; [lia|]. auto.
      * destruct H as [-> Hall]. split; [lia|].
        intros i Hi. destruct (Nat.eq_dec i nameIdx) as [->|Hne]; [exact E|].
        apply Hall. lia.
Qed.



(** Whatever the names are, a bill's name is one of the pool or ["N/A"]. *)
Lemma assignName_In availablePurchasers pool h nameIdx billTotal n h' idx' :
  pool <> [] ->
  Purchasers.assignName availablePurchasers pool h nameIdx billTotal = (n, h', idx') ->
  match availablePurchasers with
  | first :: _ => if String.eqb first "N/A" then n = "N/A"%string else In n pool
  | [] => n = "N/A"%string
  end.
Proof.
  intros Hpool H. unfold Purchasers.assignName in H.
  destruct availablePurchasers as [|first rest].
  { injection H as <- _ _. reflexivity. }
  destruct (String.eqb first "N/A").
  { injection H as <- _ _. reflexivity. }
  destruct (Purchasers.scan pool h billTotal (length pool) nameIdx) as [r idx1] eqn:Escan.
  apply scan_spec in Escan. destruct r as [c|].
  - destruct Escan as [(i & _ & Hc & _) _].
    destruct (String.eqb c ""); injection H as <- _ _.
    + apply poolAt_In, Hpool.
    + rewrite Hc. apply poolAt_In, Hpool.
  - injection H as <- _ _. apply poolAt_In, Hpool.
Qed.

Lemma assignAll_names availablePurchasers pool : forall bills h nameIdx ns h',
  availablePurchasers <> [] ->
  Permutation pool availablePurchasers ->
  Purchasers.assignAll availablePurchasers pool h nameIdx bills = (ns, h') ->
  length ns = length bills /\ Forall (fun n => In n availablePurchasers) ns.
Proof.
  induction bills as [|b bills IH]; intros h nameIdx ns h' Hne Hperm H;
    cbn [Purchasers.assignAll] in H.
  - injection H as <- _. split; [reflexivity|constructor].
  - destruct (Purchasers.assignName availablePurchasers pool h nameIdx (total b))
      as [[n h1] idx1] eqn:E1.
    destruct (Purchasers.assignAll availablePurchasers pool h1 idx1 bills) as [ns1 h2] eqn:E2.
    injection H as <- _.
    destruct (IH _ _ _ _ Hne Hperm E2) as [Hl Hall].
    split; [simpl; lia|]. constructor; [|exact Hall].
    assert (Hpool : pool <> []).
    { intros ->. apply Permutation_nil in Hperm. congruence. }
    pose proof (assignName_In _ _ _ _ _ _ _ _ Hpool E1) as Hn.
    destruct availablePurchasers as [|first rest]; [congruence|].
    destruct (String.eqb first "N/A") eqn:Ef.
    + apply String.eqb_eq in Ef. subst. left. reflexivity.
    + eapply Permutation_in; [exact Hperm|exact Hn].
Qed.

Lemma nameDay_names random availablePurchasers h k todaysBills ns h' k' :
  availablePurchasers <> [] ->
  Purchasers.nameDay random availablePurchasers h k todaysBills = (ns, h', k') ->
  length ns = length todaysBills /\ Forall (fun n => In n availablePurchasers) ns.
Proof.
  intros Hne H. unfold Purchasers.nameDay in H.
  destruct todaysBills as [|b bills].
  { injection H as <- _ _. split; [reflexivity|constructor]. }
  destruct (1 <? length availablePurchasers)%nat.
  - pose proof (shuffleNames_perm random availablePurchasers k) as Hperm.
    destruct (Purchasers.shuffleNames random availablePurchasers k) as [pool k1].
    cbn [fst] in Hperm.
    destruct (Purchasers.assignAll availablePurchasers pool h 0 (b :: bills))
      as [ns1 h1] eqn:E.
    injection H as <- _ _. eapply assignAll_names; eauto.
  - destruct (Purchasers.assignAll availablePurchasers availablePurchasers h 0 (b :: bills))
      as [ns1 h1] eqn:E.
    injection H as <- _ _. eapply assignAll_names; eauto.
Qed.

(* ------------------------------------------------------------------ *)
(** ** A whole run of part_002 *)
(* ------------------------------------------------------------------ *)

Lemma sumQ_cons x l : sumQ (x :: l) = x + sumQ l.
Proof. reflexivity. Qed.

Section Run002Props.

Import Scheduler002.

Variable random : nat -> Q.
Variables minBill maxBill : Q.
Variable availablePurchasers : list string.
Hypothesis Hrandom : inUnit random.
Hypothesis Havail : availablePurchasers <> [].

Lemma days002_inv fuel : forall targets r r',
  Run002.daysLoop random minBill maxBill availablePurchasers fuel targets r = Some r' ->
  ledgerOK (stockMap (Run002.state r)) ->
  exists newBills newNames newLog,
    allGeneratedBills (Run002.state r') = allGeneratedBills (Run002.state r) ++ newBills
    /\ Run002.purchaserOf r' = Run002.purchaserOf r ++ newNames
    /\ logList (Run002.state r') = logList (Run002.state r) ++ newLog
    /\ length newNames = length newBills
    /\ Forall (fun n => In n availablePurchasers) newNames
    /\ Forall (billOfDays targets) newBills
    /\ Forall (entryOfDays targets) newLog
    /\ ledgerOK (stockMap (Run002.state r'))
    /\ keys (stockMap (Run002.state r')) = keys (stockMap (Run002.state r))
    /\ hasSkipped (Run002.state r')
       = (hasSkipped (Run002.state r) || negb (Nat.eqb (length newLog) 0))
    /\ sumQ (map total newBills) <= sumQ (map (fun p => snd p + 50) (positiveDays targets))
    /\ (newLog = [] ->
        sumQ (map (fun p => snd p - 5) (positiveDays targets)) <= sumQ (map total newBills)).
Proof.
  induction targets as [|[d T] rest IH]; intros r r' H Hl; cbn [Run002.daysLoop] in H.
  - injection H as <-. exists [], [], []. rewrite !app_nil_r, orb_false_r.
    cbn [positiveDays List.filter map sumQ fold_right length].
    repeat split; try constructor; try apply Hl; try lra.
  - unfold positiveDays. cbn [List.filter snd]. fold (positiveDays rest).
    destruct (Qle_bool T 0) eqn:ET; cbn [negb].
    { destruct (IH _ _ H Hl)
        as (nb & nn & nl & H1 & H2 & H3 & H4 & H5 & H6 & H7 & H8 & H9 & H10 & H11 & H12).
      exists nb, nn, nl. repeat (split; [assumption|]).
      split; [|split; [|repeat (split; [assumption|]); assumption]].
      - eapply List.Forall_impl; [|exact H6]. intros b (p & Hp & Hb). exists p. split; [|exact Hb].
        unfold positiveDays. cbn [List.filter snd]. rewrite ET. exact Hp.
      - eapply List.Forall_impl; [|exact H7]. intros e (Hc & p & Hp & He). split; [exact Hc|].
        exists p. split; [|exact He].
        unfold positiveDays. cbn [List.filter snd]. rewrite ET. exact Hp. }
    assert (HT : 0 < T).
    { apply Qnot_le_lt. intros Hle. apply Qle_bool_iff in Hle. congruence. }
    set (start := mkState (stockMap (Run002.state r)) (allGeneratedBills (Run002.state r))
                          [] [] (logList (Run002.state r)) (hasSkipped (Run002.state r))
                          (calls (Run002.state r))) in *.
    destruct (dayLoop random minBill maxBill fuel d T 0 0 start) as [s'|] eqn:Eday;
      [|discriminate].
    destruct (day_outcome002_aux random minBill maxBill Hrandom fuel d T start s' Hl Eday HT)
      as (new & Hb & Hall & Hg & Hl' & Hk & _ & Hsum & Hout).
    cbn [start todaysBills allGeneratedBills stockMap logList hasSkipped app] in Hb, Hg, Hk, Hout.
    destruct (Purchasers.nameDay random availablePurchasers (Run002.purchaserHistory r)
                                 (calls s') (todaysBills s')) as [[ns h] k] eqn:Enames.
    destruct (nameDay_names _ _ _ _ _ _ _ _ Havail Enames) as [Hlen Hin].
    rewrite Hb in Hlen.
    destruct (IH _ _ H) as (nb & nn & nl & H1 & H2 & H3 & H4 & H5 & H6 & H7 & H8 & H9 & H10
                            & H11 & H12).
    { exact Hl'. }
    cbn [Run002.state Run002.purchaserOf allGeneratedBills stockMap logList hasSkipped]
      in H1, H2, H3, H8, H9, H10.
    assert (Hhere : In (d, T) (positiveDays ((d, T) :: rest))).
    { unfold positiveDays. cbn [List.filter snd]. rewrite ET. left. reflexivity. }
    assert (Hrest : forall p, In p (positiveDays rest) -> In p (positiveDays ((d, T) :: rest))).
    { intros p Hp. unfold positiveDays. cbn [List.filter snd]. rewrite ET. right. exact Hp. }
    assert (HnewB : Forall (billOfDays ((d, T) :: rest)) (new ++ nb)).
    { apply Forall_app. split.
      - eapply List.Forall_impl; [|exact Hall]. intros b Hbill. exists (d, T). auto.
      - eapply List.Forall_impl; [|exact H6]. intros b (p & Hp & Hbill). exists p. auto. }
    assert (HrestL : Forall (entryOfDays ((d, T) :: rest)) nl).
    { eapply List.Forall_impl; [|exact H7]. intros e (Hc & p & Hp & He). split; [exact Hc|].
      exists p. auto. }
    assert (Hsums : sumQ (map total (new ++ nb)) == sumQ (map total new) + sumQ (map total nb)).
    { rewrite map_app. apply sumQ_app. }
    cbn [map snd]. rewrite !sumQ_cons.
    destruct Hout as [(Hlog & Hh & Hnear)|(e & Hlog & Hd & Hc & Hh & Hfar & _)].
    + exists (new ++ nb), (ns ++ nn), nl.
      rewrite H1, H2, H3, Hg, Hb, Hlog, H9, Hk, H10, Hh, !app_assoc.
      repeat (split; [reflexivity|]).
      split; [rewrite !length_app; lia|].
      split; [apply Forall_app; auto|].
      split; [exact HnewB|]. split; [exact HrestL|]. split; [exact H8|].
      split; [reflexivity|]. split; [reflexivity|].
      split; [rewrite Hsums; lra|].
      intros Hnl. specialize (H12 Hnl). rewrite Hsums. lra.
    + exists (new ++ nb), (ns ++ nn), (e :: nl).
      rewrite H1, H2, H3, Hg, Hb, Hlog, H9, Hk, H10, Hh, <- !app_assoc.
      repeat (split; [reflexivity|]).
      split; [rewrite !length_app; lia|].
      split; [apply Forall_app; auto|].
      split; [exact HnewB|]. split.
      { constructor; [|exact HrestL]. split; [exact Hc|]. exists (d, T). auto. }
      split; [exact H8|]. split; [reflexivity|].
      split; [cbn [length Nat.eqb negb]; rewrite orb_true_r; reflexivity|].
      split; [rewrite Hsums; lra|].
      intros Hnl. discriminate.
Qed.

End Run002Props.


(* ------------------------------------------------------------------ *)
(** ** The rows of the bill sheet *)
(* ------------------------------------------------------------------ *)

Lemma mathRound_near x : - (1 # 2) < mathRound x - x /\ mathRound x - x <= 1 # 2.
Proof.
  unfold mathRound.
  pose proof (Qfloor_le (x + (1 # 2))) as H1.
  pose proof (Qlt_floor (x + (1 # 2))) as H2.
  rewrite inject_Z_plus in H2. change (inject_Z 1) with 1 in H2.
  set (n := inject_Z (Qfloor (x + (1 # 2)))) in *. clearbody n. split; lra.
Qed.

Lemma isMultiple_whole z : isMultiple 100 (inject_Z z).
Proof.
  exists (z * 100)%Z. unfold inject_Z, Qeq. simpl. lia.
Qed.

Lemma isMultiple_minus s x y : isMultiple s x -> isMultiple s y -> isMultiple s (x - y).
Proof.
  intros [a Ha] [b Hb]. exists (a - b)%Z. rewrite Ha, Hb.
  unfold Qminus, Qplus, Qopp, Qeq. simpl. nia.
Qed.

(** A multiple of 1/100 of size at most 0.015 is of size at most 0.01. *)
Lemma cents_small x : isMultiple 100 x -> Qabs x <= 15 # 1000 -> Qabs x <= 1 # 100.
Proof.
  intros [z Hz] H. rewrite Hz in *.
  apply Qabs_Qle_condition in H as [H1 H2]. apply Qabs_Qle_condition.
  unfold Qle, Qopp in *. simpl in *. split; lia.
Qed.

Lemma exportLine_round_off idx p b l :
  isMultiple 100 (total b) ->
  let r := exportLine true idx p b l in
  isWhole (rowFinalTotal r)
  /\ rowBillTotal r + rowRoundOff r == rowFinalTotal r
  /\ - (1 # 2) < rowRoundOff r /\ rowRoundOff r <= 1 # 2.
Proof.
  intros Hc. cbn [exportLine rowFinalTotal rowBillTotal rowRoundOff].
  assert (Hfix : toFixed 2 (mathRound (total b) - total b) == mathRound (total b) - total b).
  { apply toFixed2_fix. apply isMultiple_minus; [apply isMultiple_whole|exact Hc]. }
  destruct (mathRound_near (total b)) as [H1 H2].
  split; [eexists; reflexivity|]. rewrite Hfix. split; [ring|]. split; lra.
Qed.

(** X22.  The round-off columns of a cash bill whose total has two decimals:
    on every row the final total is a whole number, the unrounded total
    plus the round-off is the final total exactly, and the round-off lies in
    (-0.5, 0.5].  For another payment method the round-off is 0 and the
    final total is the bill's total. *)
Theorem export_cash_round_off idx p b :
  isMultiple 100 (total b) ->
  Forall (fun r => rowBillTotal r = total b
                   /\ isWhole (rowFinalTotal r)
                   /\ rowBillTotal r + rowRoundOff r == rowFinalTotal r
                   /\ - (1 # 2) < rowRoundOff r /\ rowRoundOff r <= 1 # 2)
         (exportBill true idx p b)
  /\ Forall (fun r => rowRoundOff r = 0 /\ rowFinalTotal r = total b)
            (exportBill false idx p b).
Proof.
  intros Hc. unfold exportBill. split; apply Forall_forall; intros r Hr;
    apply list_elem_of_In, in_map_iff in Hr as (l & <- & _).
  - split; [reflexivity|]. apply exportLine_round_off. exact Hc.
  - split; reflexivity.
Qed.

Lemma exportLine_tax cash idx p b l :
  lineOK l ->
  let r := exportLine cash idx p b l in
  Qabs (rowTotalTax r - unitPrice l * lineQty l * gstPercent l / 100) <= 1 # 100
  /\ Qabs (rowCgstAmount r + rowSgstAmount r - rowTotalTax r) <= 1 # 100
  /\ rowCgstAmount r = rowSgstAmount r
  /\ rowCgstRate r + rowSgstRate r == rowGstRate r
  /\ Qabs (rowItemPrice r + rowTotalTax r + rowCessTax r - rowItemTotal r) <= 1 # 100.
Proof.
  intros [Ht Hcess].
  cbn [exportLine rowTotalTax rowCgstAmount rowSgstAmount rowCgstRate rowSgstRate rowGstRate
       rowItemPrice rowCessTax rowItemTotal].
  rewrite Hcess, Ht. unfold lineTotal.
  set (base := unitPrice l * lineQty l).
  set (cess := mrp l * lineQty l * cessPercent l / 100).
  set (gst := base * gstPercent l / 100).
  set (tot := toFixed 2 (base + gst + cess)).
  set (tax := tot - base - cess).
  pose proof (roundTo_error 100 (base + gst + cess)) as E1.
  pose proof (roundTo_error 100 tax) as E2.
  pose proof (roundTo_error 100 (tax / 2)) as E3.
  pose proof (roundTo_error 100 base) as E4.
  pose proof (roundTo_error 100 cess) as E5.
  change (roundTo 100) with (toFixed 2) in E1, E2, E3, E4, E5.
  fold tot in E1.
  change (1 # 2 * 100) with (1 # 200) in *.
  pose proof (toFixed2_cents tax) as M2.
  pose proof (toFixed2_cents (tax / 2)) as M3.
  pose proof (toFixed2_cents base) as M4.
  pose proof (toFixed2_cents cess) as M5.
  assert (Mt : isMultiple 100 tot) by apply toFixed2_cents.
  apply Qabs_Qle_condition in E1, E2, E3, E4, E5.
  destruct E1 as [E1 E1'], E2 as [E2 E2'], E3 as [E3 E3'], E4 as [E4 E4'], E5 as [E5 E5'].
  assert (Hhalf : tax / 2 == tax * (1 # 2)) by (unfold Qdiv; reflexivity).
  assert (Htax : tax == tot - base - cess) by reflexivity.
  set (a := toFixed 2 tax) in *. set (h := toFixed 2 (tax / 2)) in *.
  set (pb := toFixed 2 base) in *. set (pc := toFixed 2 cess) in *.
  set (t2 := tax / 2) in *.
  clearbody a h pb pc t2 tax tot gst cess base.
  split; [apply Qabs_Qle_condition; split; lra|].
  split.
  { apply cents_small.
    - destruct M3 as [z3 H3], M2 as [z2 H2]. exists (z3 + z3 - z2)%Z. rewrite H3, H2.
      unfold Qminus, Qplus, Qopp, Qeq. simpl. nia.
    - apply Qabs_Qle_condition; split; lra. }
  split; [reflexivity|].
  split; [unfold Qdiv; change (/ 2) with (1 # 2); ring|].
  apply cents_small.
  - destruct M4 as [z4 H4], M2 as [z2 H2], M5 as [z5 H5], Mt as [zt Hzt].
    exists (z4 + z2 + z5 - zt)%Z. rewrite H4, H2, H5, Hzt.
    unfold Qminus, Qplus, Qopp, Qeq. simpl. nia.
  - apply Qabs_Qle_condition; split; lra.
Qed.

(** X23.  The tax columns of the rows of a bill whose lines are formatted as
    the composers format them.  Each row belongs to a line of the bill.
    The total tax amount is within 0.01 of the GST on the line's price.
    The CGST and SGST amounts are equal, their rates add up to the GST rate,
    and together they are within 0.01 of the total tax amount.  Item price,
    total tax and cess tax add up to the item total within 0.01. *)
Theorem export_tax_columns cash idx p b :
  Forall lineOK (items b) ->
  Forall (fun r => exists l,
              In l (items b) /\ rowItemName r = name l /\ rowItemTotal r = itemTotal l
              /\ Qabs (rowTotalTax r - unitPrice l * lineQty l * gstPercent l / 100) <= 1 # 100
              /\ Qabs (rowCgstAmount r + rowSgstAmount r - rowTotalTax r) <= 1 # 100
              /\ rowCgstAmount r = rowSgstAmount r
              /\ rowCgstRate r + rowSgstRate r == rowGstRate r
              /\ Qabs (rowItemPrice r + rowTotalTax r + rowCessTax r - rowItemTotal r)
                 <= 1 # 100)
         (exportBill cash idx p b).
Proof.
  intros Hok. unfold exportBill. apply Forall_forall. intros r Hr.
  apply list_elem_of_In, in_map_iff in Hr as (l & <- & Hl).
  exists l. split; [exact Hl|]. split; [reflexivity|]. split; [reflexivity|].
  apply exportLine_tax. rewrite Forall_forall in Hok. apply Hok, list_elem_of_In, Hl.
Qed.

(* ------------------------------------------------------------------ *)
(** ** The composer of index.js *)
(* ------------------------------------------------------------------ *)

Lemma stockAfter_names result stock0 stock :
  stockAfter result stock0 stock -> map IndexJs.ItemDetails stock = map IndexJs.ItemDetails stock0.
Proof.
  unfold stockAfter. intros H. induction H as [|a b l l' Hab _ IH]; simpl.
  - reflexivity.
  - destruct Hab as ((-> & _) & _). rewrite IH. reflexivity.
Qed.

Lemma get_In stock key item :
  IndexJs.get stock key = Some item -> In item stock /\ IndexJs.ItemDetails item = key.
Proof.
  unfold IndexJs.get. intros H. apply find_some in H as [H1 H2].
  apply String.eqb_eq in H2. auto.
Qed.

Lemma names_inj (stock : list IndexJs.Item) a b :
  NoDup (map IndexJs.ItemDetails stock) -> In a stock -> In b stock ->
  IndexJs.ItemDetails a = IndexJs.ItemDetails b -> a = b.
Proof.
  induction stock as [|x l IH]; intros Hnd Ha Hb Heq; [destruct Ha|].
  simpl in Hnd. apply NoDup_cons in Hnd as [Hx Hnd].
  destruct Ha as [->|Ha], Hb as [->|Hb].
  - reflexivity.
  - exfalso. apply Hx. rewrite Heq. apply list_elem_of_In, in_map, Hb.
  - exfalso. apply Hx. rewrite <- Heq. apply list_elem_of_In, in_map, Ha.
  - apply IH; assumption.
Qed.

Lemma Forall2_In_r {A B} (R : A -> B -> Prop) l l' b :
  Forall2 R l l' -> In b l' -> exists a, In a l /\ R a b.
Proof.
  induction 1 as [|x y l l' Hxy _ IH]; intros Hb; [destruct Hb|].
  destruct Hb as [->|Hb].
  - exists x. split; [left; reflexivity|exact Hxy].
  - destruct (IH Hb) as (a & Ha & HR). exists a. split; [right; exact Ha|exact HR].
Qed.

Lemma Forall2_map_In {A B} (R R' : A -> B -> Prop) (g : B -> B) l l' :
  Forall2 R l l' ->
  (forall a b, In b l' -> R a b -> R' a (g b)) ->
  Forall2 R' l (map g l').
Proof.
  induction 1 as [|x y l l' Hxy _ IH]; intros Hg; simpl.
  - constructor.
  - constructor.
    + apply Hg; [left; reflexivity|exact Hxy].
    + apply IH. intros a b Hb. apply Hg. right. exact Hb.
Qed.

Lemma billedQty_snoc n result l :
  billedQty n (result ++ [l])
  == billedQty n result + (if String.eqb (name l) n then lineQty l else 0).
Proof.
  unfold billedQty. rewrite List.filter_app, map_app, sumQ_app. cbn [List.filter].
  destruct (String.eqb (name l) n); simpl; ring.
Qed.

Section IndexJsLoop.

Variable targetAmount : Q.
Variable d : string.
Variable margin : Q.

Lemma selectQty_spec unitPrice gstPercent cessPercent mrp maxQty total ideal first n :
  forall qty sel,
    let s := IndexJs.selectQty targetAmount margin unitPrice gstPercent cessPercent mrp
                               maxQty total ideal first n qty sel in
    s = sel
    \/ ((qty <= s)%Z /\ inject_Z s <= maxQty
        /\ total + lineTotal unitPrice (inject_Z s) gstPercent cessPercent mrp
           <= targetAmount + margin).
Proof.
  induction n as [|n IH]; intros qty sel; cbn [IndexJs.selectQty].
  - left. reflexivity.
  - cbv zeta. destruct (Qle_bool (inject_Z qty) maxQty) eqn:Emax; [|left; reflexivity].
    destruct (Qlt_bool (targetAmount + margin) _) eqn:Eover; [left; reflexivity|].
    destruct (Qle_bool _ _ || first); [|left; reflexivity].
    apply Qle_bool_iff in Emax. apply Qlt_bool_false in Eover.
    right. destruct (IH (qty + 1)%Z qty) as [->|(H1 & H2 & H3)].
    + split; [lia|]. split; assumption.
    + split; [lia|]. split; assumption.
Qed.

Lemma chooseFinal_spec unitPrice gstPercent cessPercent mrp maxQty total ideal first
      minContribution notLast q t :
  IndexJs.chooseFinal targetAmount margin unitPrice gstPercent cessPercent mrp maxQty total
                      ideal first minContribution notLast = (q, t) ->
  (0 < q)%Z ->
  (1 <= q)%Z /\ inject_Z q <= maxQty
  /\ total + t <= targetAmount + margin
  /\ t = lineTotal unitPrice (inject_Z q) gstPercent cessPercent mrp.
Proof.
  unfold IndexJs.chooseFinal. cbv zeta.
  set (qty := Z.max 1 (Qceiling (minContribution / unitPrice))).
  assert (Hq1 : (1 <= qty)%Z) by (unfold qty; lia).
  destruct (selectQty_spec unitPrice gstPercent cessPercent mrp maxQty total ideal first
                           (Z.to_nat (Qfloor maxQty - qty + 1)) qty 0) as [Hs|(H1 & H2 & H3)].
  - cbv zeta in Hs. rewrite Hs. cbn [Z.ltb Z.compare]. intros H Hq.
    injection H as <- _. lia.
  - cbv zeta in H1, H2, H3.
    set (s := IndexJs.selectQty _ _ _ _ _ _ _ _ _ _ _ _ _) in *. clearbody s.
    destruct (0 <? s)%Z eqn:Es; [|intros H Hq; injection H as <- _; lia].
    assert (Eover : Qlt_bool (targetAmount + margin)
                      (total + lineTotal unitPrice (inject_Z s) gstPercent cessPercent mrp)
                    = false).
    { destruct (Qlt_bool _ _) eqn:E; [|reflexivity]. apply Qlt_bool_iff in E. lra. }
    rewrite Eover, andb_false_r.
    destruct (Qlt_bool _ minContribution && notLast).
    + intros H Hq. injection H as <- _. lia.
    + intros H Hq. injection H as <- <-. split; [lia|]. auto.
Qed.

Variable allItems : list string.
Variables minItems expectedItems : nat.
Variable stock0 : list IndexJs.Item.

Hypothesis Hkeys : NoDup (map IndexJs.ItemDetails stock0).
Hypothesis Hall : Forall (fun n => exists a, In a stock0 /\ IndexJs.ItemDetails a = n
                                             /\ 50 <= IndexJs.Price a) allItems.

Lemma loop_inv n : forall stock result total remainingTarget looped pickedCount startIndex
                          stock' result' total',
  IndexJs.loop targetAmount d margin allItems minItems expectedItems n stock result total
               remainingTarget looped pickedCount startIndex = (stock', result', total') ->
  loopState targetAmount d margin expectedItems stock0 stock result total pickedCount ->
  exists pickedCount', loopState targetAmount d margin expectedItems stock0 stock' result' total' pickedCount'.
Proof.
  induction n as [|n IH];
    intros stock result total remainingTarget looped pickedCount startIndex
           stock' result' total' H HI; cbn [IndexJs.loop] in H.
  { injection H as <- <- <-. eauto. }
  destruct ((pickedCount <? expectedItems)%nat && negb looped) eqn:Eguard;
    [|injection H as <- <- <-; eauto].
  apply andb_true_iff in Eguard as [Epick _]. apply Nat.ltb_lt in Epick.
  destruct (allItems !! startIndex) as [productName|] eqn:Ename;
    [|injection H as <- <- <-; eauto].
  destruct (IndexJs.get stock productName) as [item|] eqn:Eget;
    [|injection H as <- <- <-; eauto].
  cbv zeta in H.
  destruct (Qle_bool (IndexJs.remainingQty item) 0) eqn:Erem.
  { eapply IH; [exact H|exact HI]. }
  destruct (IndexJs.chooseFinal _ _ _ _ _ _ _ _ _ _ _ _) as [finalQty finalItemTotal] eqn:Ech.
  destruct (0 <? finalQty)%Z eqn:Epos; [|eapply IH; [exact H|exact HI]].
  apply Z.ltb_lt in Epos.
  destruct (chooseFinal_spec _ _ _ _ _ _ _ _ _ _ _ _ Ech Epos) as (Hq1 & Hqmax & Hbudget & Ht).
  eapply IH; [exact H|]. clear H IH.
  unfold loopState in *. destruct HI as (Hstock & Hsum & _ & Hlines & Hcount & Hlen).
  destruct (get_In _ _ _ Eget) as [Hin Hkey].
  pose proof (stockAfter_names _ _ _ Hstock) as Hnames.
  assert (Hnd : NoDup (map IndexJs.ItemDetails stock)) by (rewrite Hnames; exact Hkeys).
  destruct (Forall2_In_r _ _ _ _ Hstock Hin) as (a0 & Ha0 & (Hn0 & Hp0 & Hg0 & Hc0 & Hm0) & _).
  assert (Hprice : 50 <= IndexJs.Price item).
  { rewrite Forall_forall in Hall.
    destruct (Hall productName) as (a1 & Ha1 & Hn1 & Hp1).
    { eapply list_elem_of_lookup_2. exact Ename. }
    assert (a1 = a0).
    { apply (names_inj stock0); auto. congruence. }
    subst a1. rewrite Hp0. exact Hp1. }
  split; [|split; [|split; [|split; [|split]]]].
  - unfold stockAfter, IndexJs.set in *.
    eapply Forall2_map_In; [exact Hstock|].
    intros a b Hb ((Hn & Hp & Hg & Hc & Hm) & Hr & Hnn).
    rewrite billedQty_snoc. cbn [name lineQty].
    destruct (String.eqb (IndexJs.ItemDetails b) productName) eqn:Eb.
    + apply String.eqb_eq in Eb.
      assert (b = item) by (apply (names_inj stock); auto; congruence). subst b.
      assert (Ea : String.eqb productName (IndexJs.ItemDetails a) = true).
      { apply String.eqb_eq. congruence. }
      rewrite Ea.
      cbn [IndexJs.ItemDetails IndexJs.Price IndexJs.GST_PERCENT IndexJs.CESS IndexJs.MRP
           IndexJs.remainingQty].
      split; [repeat split; assumption|]. split; [rewrite Hr; ring|].
      intros _. lra.
    + assert (Ea : String.eqb productName (IndexJs.ItemDetails a) = false).
      { apply String.eqb_neq. apply String.eqb_neq in Eb. congruence. }
      rewrite Ea. split; [repeat split; assumption|]. split; [rewrite Hr; ring|exact Hnn].
  - rewrite map_app, sumQ_app, <- Hsum. simpl. ring.
  - right. exact Hbudget.
  - apply Forall_app. split; [exact Hlines|]. constructor; [|constructor].
    unfold lineFrom, lineOK. cbn [name lineQty unitPrice gstPercent cessPercent mrp
                                  cessTaxAmount itemTotal date].
    split; [split; [exact Ht|reflexivity]|]. split; [reflexivity|].
    split; [exists finalQty; auto|].
    exists a0. rewrite <- Hp0, <- Hg0, <- Hc0, <- Hm0. repeat split; try assumption; congruence.
  - rewrite length_app. simpl. lia.
  - rewrite length_app. simpl. lia.
Qed.

End IndexJsLoop.

Lemma insertByAmount_perm x l : Permutation (IndexJs.insertByAmount x l) (x :: l).
Proof.
  induction l as [|y l IH]; simpl.
  - reflexivity.
  - destruct (Qle_bool _ _); [reflexivity|].
    rewrite IH. apply perm_swap.
Qed.

Lemma sortByAmount_perm l : Permutation (IndexJs.sortByAmount l) l.
Proof.
  induction l as [|x l IH]; simpl.
  - reflexivity.
  - rewrite insertByAmount_perm, IH. reflexivity.
Qed.

Lemma sumQ_cents l : Forall (isMultiple 100) l -> isMultiple 100 (sumQ l).
Proof.
  induction 1 as [|x l [z Hz] _ [w Hw]]; simpl.
  - exists 0%Z. reflexivity.
  - exists (z + w)%Z. rewrite Hz, Hw. unfold Qplus, Qeq. simpl. nia.
Qed.

Lemma stockAfter_nil stock : stockAfter [] stock stock.
Proof.
  unfold stockAfter. induction stock as [|a stock IH]; constructor; [|exact IH].
  unfold sameCells, billedQty. simpl. split; [auto 6|]. split; [ring|auto].
Qed.

Lemma indexjs_compose random g stockMap targetAmount d margin k res stock' g' k' :
  NoDup (map IndexJs.ItemDetails stockMap) ->
  IndexJs.generateBillFromMap random g stockMap targetAmount d margin k = (res, stock', g', k') ->
  stockAfter (IndexJs.items res) stockMap stock'
  /\ Forall (lineFrom stockMap d) (IndexJs.items res)
  /\ IndexJs.total res == sumQ (map itemTotal (IndexJs.items res))
  /\ (IndexJs.items res <> [] -> IndexJs.total res <= targetAmount + margin)
  /\ (IndexJs.success res = Some false -> IndexJs.items res = [] /\ stock' = stockMap)
  /\ IndexJs.billCounter g' = S (IndexJs.billCounter g)
  /\ (inUnit random -> (length (IndexJs.items res) <= 7)%nat).
Proof.
  intros Hnd. unfold IndexJs.generateBillFromMap. cbv zeta.
  set (pool := IndexJs.sortByAmount _).
  destruct (if (_ && _)%bool then _ else _) as [lsi k1].
  destruct (length pool =? 0)%nat.
  { intros H. injection H as <- <- <- <-. cbn [IndexJs.items IndexJs.total IndexJs.success
                                                 IndexJs.billCounter].
    split; [apply stockAfter_nil|]. split; [constructor|]. split; [reflexivity|].
    split; [congruence|]. split; [auto|]. split; [reflexivity|]. simpl. lia. }
  destruct (IndexJs.getMinMaxItemsByTarget targetAmount) as [minO maxI] eqn:Emm.
  set (minItems := Nat.max 3 minO).
  set (finalMax := Nat.max minItems maxI).
  set (expectedItems := (Z.to_nat _ + minItems)%nat).
  destruct (IndexJs.loop _ _ _ _ _ _ _ _ _ _ _ _ _ _) as [[stock result] total] eqn:Eloop.
  intros H. injection H as <- <- <- <-.
  cbn [IndexJs.items IndexJs.total IndexJs.success IndexJs.billCounter].
  assert (Hall : Forall (fun n => exists a, In a stockMap /\ IndexJs.ItemDetails a = n
                                            /\ 50 <= IndexJs.Price a)
                        (map IndexJs.ItemDetails pool)).
  { apply Forall_forall. intros n Hn.
    apply list_elem_of_In, in_map_iff in Hn as (a & <- & Ha).
    eapply Permutation_in in Ha; [|apply sortByAmount_perm].
    apply filter_In in Ha as [Ha Hf]. apply andb_true_iff in Hf as [_ Hp].
    apply Qle_bool_iff in Hp. exists a. auto. }
  destruct (loop_inv targetAmount d margin (map IndexJs.ItemDetails pool) minItems
                     expectedItems stockMap Hnd Hall _ _ _ _ _ _ _ _ _ _ _ Eloop)
    as (pc & Hstock & Hsum & Hbudget & Hlines & _ & Hlen).
  { unfold loopState. split; [apply stockAfter_nil|]. split; [reflexivity|].
    split; [left; reflexivity|]. split; [constructor|]. split; [reflexivity|]. simpl. lia. }
  assert (Hfix : toFixed 2 total == total).
  { apply toFixed2_fix. destruct (sumQ_cents (map itemTotal result)) as [z Hz].
    - apply Forall_forall. intros x Hx.
      apply list_elem_of_In, in_map_iff in Hx as (l & <- & Hl).
      rewrite Forall_forall in Hlines. apply list_elem_of_In, Hlines in Hl.
      destruct Hl as ((-> & _) & _). apply toFixed2_cents.
    - exists z. rewrite Hsum. exact Hz. }
  split; [exact Hstock|]. split; [exact Hlines|]. split; [rewrite Hfix; exact Hsum|].
  split; [intros Hne; rewrite Hfix; destruct Hbudget; [congruence|assumption]|].
  split; [discriminate|]. split; [reflexivity|].
  intros Hrandom.
  assert (Hexp : (expectedItems <= 7)%nat).
  { unfold expectedItems.
    assert (Hm : (minItems <= finalMax <= 7)%nat).
    { unfold finalMax, minItems. unfold IndexJs.getMinMaxItemsByTarget in Emm.
      destruct (Qlt_bool targetAmount 1000); [injection Emm as <- <-; simpl; lia|].
      destruct (Qlt_bool targetAmount 5000); injection Emm as <- <-; simpl; lia. }
    destruct (Hrandom k1) as [H0 H1].
    set (w := (finalMax - minItems + 1)%nat) in *.
    assert (Hw : (Qfloor (random k1 * inject_Z (Z.of_nat w)) < Z.of_nat w)%Z).
    { apply Qfloor_lt_int.
      assert (0 < inject_Z (Z.of_nat w)).
      { change 0 with (inject_Z 0). rewrite <- Zlt_Qlt. unfold w. lia. }
      nra. }
    assert (Hwv : w = (finalMax - minItems + 1)%nat) by reflexivity.
    clearbody w. lia. }
  lia.
Qed.

(** X24.  The composer of index.js on a stock map.  The returned stock has
    the same rows in the same order; each row's [remainingQty] is lowered by
    exactly the quantity billed under its name, and a row that was not
    negative is not taken below zero.  Every line bills a whole quantity of
    at least 1 of a stock row priced at 50 or more, with that row's price
    and rates, its line total and cess amount computed from them.  The
    early return with [success: false] has no line and leaves the stock as
    it was. *)
Theorem indexjs_stock_conserved random g stockMap targetAmount d margin k res stock' g' k' :
  NoDup (map IndexJs.ItemDetails stockMap) ->
  IndexJs.generateBillFromMap random g stockMap targetAmount d margin k = (res, stock', g', k') ->
  stockAfter (IndexJs.items res) stockMap stock'
  /\ Forall (lineFrom stockMap d) (IndexJs.items res)
  /\ (IndexJs.success res = Some false -> IndexJs.items res = [] /\ stock' = stockMap).
Proof.
  intros Hnd H. destruct (indexjs_compose _ _ _ _ _ _ _ _ _ _ _ Hnd H)
    as (H1 & H2 & _ & _ & H5 & _). auto.
Qed.

(** X25.  The bill of the composer of index.js.  Its total is the sum of its
    line totals; when it has a line, the total is at most the target plus
    the margin.  It has at most 7 lines, and each call counts one bill. *)
Theorem indexjs_bill_within_budget random g stockMap targetAmount d margin k res stock' g' k' :
  inUnit random ->
  NoDup (map IndexJs.ItemDetails stockMap) ->
  IndexJs.generateBillFromMap random g stockMap targetAmount d margin k = (res, stock', g', k') ->
  IndexJs.total res == sumQ (map itemTotal (IndexJs.items res))
  /\ (IndexJs.items res <> [] -> IndexJs.total res <= targetAmount + margin)
  /\ (length (IndexJs.items res) <= 7)%nat
  /\ IndexJs.billCounter g' = S (IndexJs.billCounter g).
Proof.
  intros Hrandom Hnd H. destruct (indexjs_compose _ _ _ _ _ _ _ _ _ _ _ Hnd H)
    as (_ & _ & H3 & H4 & _ & H6 & H7). auto.
Qed.

(* ------------------------------------------------------------------ *)
(** ** The UPI run of part_002 *)
(* ------------------------------------------------------------------ *)

Lemma validTargets_cons n d rest :
  validTargets ((n, d) :: rest)
  = match n with
    | NaN => validTargets rest
    | Num target => if String.eqb d "" then validTargets rest
                    else (target, d) :: validTargets rest
    end.
Proof.
  unfold validTargets. destruct n as [|target]; [reflexivity|].
  simpl. destruct (String.eqb d ""); reflexivity.
Qed.

Section Upi002Props.

Variable random : nat -> Q.
Hypothesis Hrandom : inUnit random.

Lemma upi_step s target d :
  ledgerOK (Upi002.stockMap s) ->
  let s' := Upi002.step random s target d in
  ledgerOK (Upi002.stockMap s')
  /\ keys (Upi002.stockMap s') = keys (Upi002.stockMap s)
  /\ (Upi002.bills s' = Upi002.bills s
      \/ exists bill, Upi002.bills s' = Upi002.bills s ++ [bill]
                      /\ billOf d bill /\ Qabs (target - total bill) <= 5
                      /\ NoDup (map name (items bill))).
Proof.
  intros Hl. unfold Upi002.step.
  destruct (Part002.generateBillFromMap random (Upi002.stockMap s) target target target d 5
                                        "EXACT" 0 (Upi002.upiUsedItemIds s) (Upi002.calls s))
    as [[bill stock'] k'] eqn:Hgen.
  destruct (generate002_cases _ _ _ _ _ _ _ _ _ _ _ _ _ _ Hgen) as [Hst _].
  destruct (success bill) eqn:Hok; cbn [Upi002.stockMap Upi002.bills].
  - destruct Hl as [Hnd Hlow].
    destruct (generate002_picks _ _ _ _ _ _ _ _ _ _ _ _ _ _ Hrandom Hnd Hgen Hok)
      as (t & qs & Hin & Hpick & Hnd' & Hin' & Hitems & Hused & Hc & _ & He).
    assert (Hnames : map name (items bill) = map (fun p => ItemDetails (fst p)) qs).
    { rewrite Hitems. apply formatResult_names. }
    rewrite Hused, Hst. cbn [default from_option id]. split; [split|split].
    + rewrite commitUsed_keys. exact Hnd.
    + intros it' Hit'. eapply commit_used_floor; eauto. split; assumption.
    + apply commitUsed_keys.
    + right. exists bill. split; [reflexivity|]. split; [|split].
      * split; [exact Hok|]. split.
        -- assert (Ht : (1 <= count t)%nat).
           { unfold baseAttempts in Hin. simpl in Hin.
             destruct Hin as [<-|[<-|[<-|[<-|[]]]]]; simpl; lia. }
           lia.
        -- rewrite Hitems. unfold formatResult. cbn [items].
           apply Forall_forall. intros l Hl.
           apply list_elem_of_In, in_map_iff in Hl as (e & <- & _). reflexivity.
      * apply He. reflexivity.
      * rewrite Hnames. exact Hnd'.
  - rewrite Hst. split; [exact Hl|]. split; [reflexivity|]. left. reflexivity.
Qed.

Lemma upi_run_aux billTargets : forall s,
  ledgerOK (Upi002.stockMap s) ->
  let s' := fold_left (fun s t =>
               match fst t with
               | NaN => s
               | Num target => if String.eqb (snd t) "" then s
                               else Upi002.step random s target (snd t)
               end) billTargets s in
  ledgerOK (Upi002.stockMap s')
  /\ keys (Upi002.stockMap s') = keys (Upi002.stockMap s)
  /\ exists new kept,
      Upi002.bills s' = Upi002.bills s ++ new
      /\ sublist kept (validTargets billTargets)
      /\ Forall2 (fun b t => billOf (snd t) b /\ Qabs (fst t - total b) <= 5
                             /\ NoDup (map name (items b))) new kept.
Proof.
  induction billTargets as [|[n d] rest IH]; intros s Hl; cbn [fold_left fst snd].
  - split; [exact Hl|]. split; [reflexivity|]. exists [], [].
    rewrite app_nil_r. split; [reflexivity|]. split; constructor.
  - rewrite validTargets_cons.
    destruct n as [|target].
    { apply IH. exact Hl. }
    destruct (String.eqb d "") eqn:Ed.
    { apply IH. exact Hl. }
    destruct (upi_step s target d Hl) as (Hl1 & Hk1 & Hb1).
    destruct (IH _ Hl1) as (Hl2 & Hk2 & new & kept & Hb2 & Hsub & Hall).
    split; [exact Hl2|]. split; [congruence|].
    destruct Hb1 as [Hsame|(bill & Hpush & Hbill)].
    + exists new, kept. split; [congruence|]. split; [apply sublist_cons; exact Hsub|exact Hall].
    + exists (bill :: new), ((target, d) :: kept). split.
      * rewrite Hb2, Hpush, <- app_assoc. reflexivity.
      * split; [apply sublist_skip; exact Hsub|]. constructor; [exact Hbill|exact Hall].
Qed.

End Upi002Props.

(** X26.  The UPI run of part_002 on a ledger in shape.  The ledger keeps its
    keys and no row ends below -0.005.  The bills answer, in order, to some
    of the rows of [billTargets] that have an amount and a date: each is a
    successful bill with a line, dated as its row, with no item twice, and
    its total is within 5 of the row's amount. *)
Theorem upi_bills_within_five random stock billTargets :
  inUnit random ->
  ledgerOK stock ->
  let s := Upi002.tryGenerateAllBills random stock billTargets in
  ledgerOK (Upi002.stockMap s)
  /\ keys (Upi002.stockMap s) = keys stock
  /\ exists kept,
      sublist kept (validTargets billTargets)
      /\ Forall2 (fun b t => billOf (snd t) b /\ Qabs (fst t - total b) <= 5
                             /\ NoDup (map name (items b)))
                 (Upi002.bills s) kept.
Proof.
  intros Hrandom Hl. unfold Upi002.tryGenerateAllBills.
  destruct (upi_run_aux random Hrandom billTargets (Upi002.mkState stock [] [] 0) Hl)
    as (H1 & H2 & new & kept & Hb & Hsub & Hall).
  cbv zeta. split; [exact H1|]. split; [exact H2|].
  exists kept. split; [exact Hsub|]. rewrite Hb. exact Hall.
Qed.

(* ------------------------------------------------------------------ *)
(** ** The runs of index.js *)
(* ------------------------------------------------------------------ *)

Lemma billedQty_app n r1 r2 : billedQty n (r1 ++ r2) == billedQty n r1 + billedQty n r2.
Proof.
  unfold billedQty. rewrite List.filter_app, map_app, sumQ_app. reflexivity.
Qed.

Lemma stockAfter_trans r1 r2 s0 s1 s2 :
  stockAfter r1 s0 s1 -> stockAfter r2 s1 s2 -> stockAfter (r1 ++ r2) s0 s2.
Proof.
  unfold stockAfter. intros H. revert s2.
  induction H as [|a b l l' Hab _ IH]; intros s2 H2.
  - inversion H2; subst. constructor.
  - inversion H2 as [|b' c l1 l2 Hbc Hrest]; subst. constructor; [|apply IH; exact Hrest].
    destruct Hab as ((Hn & Hp & Hg & Hc & Hm) & Hr & Hnn).
    destruct Hbc as ((Hn' & Hp' & Hg' & Hc' & Hm') & Hr' & Hnn').
    split; [unfold sameCells; repeat split; congruence|]. split.
    + rewrite billedQty_app, Hr', Hr, Hn. ring.
    + auto.
Qed.

Lemma lineFrom_mono r s0 s1 d l :
  stockAfter r s0 s1 -> lineFrom s1 d l -> lineFrom s0 d l.
Proof.
  intros Hs (H1 & H2 & H3 & a & Ha & Hn & Hp & H50 & Hg & Hc & Hm).
  destruct (Forall2_In_r _ _ _ _ Hs Ha) as (a0 & Ha0 & (Hn0 & Hp0 & Hg0 & Hc0 & Hm0) & _).
  split; [exact H1|]. split; [exact H2|]. split; [exact H3|].
  exists a0. repeat split; try assumption; congruence.
Qed.

Lemma linesOf_snoc bills b : linesOf (bills ++ [b]) = linesOf bills ++ IndexJs.items b.
Proof.
  unfold linesOf. rewrite map_app, concat_app. simpl. rewrite app_nil_r. reflexivity.
Qed.

Lemma linesOf_app b1 b2 : linesOf (b1 ++ b2) = linesOf b1 ++ linesOf b2.
Proof. unfold linesOf. rewrite map_app, concat_app. reflexivity. Qed.

Section IndexJsRuns.

Variable random : nat -> Q.
Variable stock0 : list IndexJs.Item.
Hypothesis Hkeys : NoDup (map IndexJs.ItemDetails stock0).

Lemma callComposer_spec s target d margin s' ob :
  stockAfter (linesOf (IndexJsRun.bills s)) stock0 (IndexJsRun.stockMap s) ->
  IndexJsRun.callComposer random s target d margin = (s', ob) ->
  stockAfter (linesOf (IndexJsRun.bills s')) stock0 (IndexJsRun.stockMap s')
  /\ match ob with
     | Some b => IndexJsRun.bills s' = IndexJsRun.bills s ++ [b]
                 /\ pushedFor stock0 margin target d b
     | None => IndexJsRun.bills s' = IndexJsRun.bills s
     end.
Proof.
  intros Hinv. unfold IndexJsRun.callComposer.
  destruct (IndexJs.generateBillFromMap random (IndexJsRun.globals s) (IndexJsRun.stockMap s)
                                        target d margin (IndexJsRun.calls s))
    as [[[bill stock'] g'] k'] eqn:Hgen.
  assert (Hnd : NoDup (map IndexJs.ItemDetails (IndexJsRun.stockMap s))).
  { rewrite (stockAfter_names _ _ _ Hinv). exact Hkeys. }
  destruct (indexjs_compose _ _ _ _ _ _ _ _ _ _ _ Hnd Hgen)
    as (Hstock & Hlines & Hsum & Hbudget & _).
  destruct (0 <? length (IndexJs.items bill))%nat eqn:Elen; intros H; injection H as <- <-;
    cbn [IndexJsRun.bills IndexJsRun.stockMap].
  - apply Nat.ltb_lt in Elen.
    assert (Hne : IndexJs.items bill <> []) by (destruct (IndexJs.items bill); [simpl in Elen; lia|discriminate]).
    split.
    + rewrite linesOf_snoc. eapply stockAfter_trans; eauto.
    + split; [reflexivity|]. split; [exact Hne|]. split.
      * eapply List.Forall_impl; [|exact Hlines]. intros l. apply lineFrom_mono with (1 := Hinv).
      * split; [exact Hsum|auto].
  - apply Nat.ltb_ge in Elen.
    assert (He : IndexJs.items bill = []) by (destruct (IndexJs.items bill); [reflexivity|simpl in Elen; lia]).
    rewrite He in Hstock. split; [|reflexivity].
    rewrite <- (app_nil_r (linesOf (IndexJsRun.bills s))). eapply stockAfter_trans; eauto.
Qed.

Lemma indexjs_upi_aux billTargets : forall s,
  stockAfter (linesOf (IndexJsRun.bills s)) stock0 (IndexJsRun.stockMap s) ->
  let s' := fold_left (fun s t =>
               match fst t with
               | NaN => s
               | Num target =>
                   if String.eqb (snd t) "" then s
                   else fst (IndexJsRun.callComposer random s target (snd t) 5)
               end) billTargets s in
  stockAfter (linesOf (IndexJsRun.bills s')) stock0 (IndexJsRun.stockMap s')
  /\ exists new kept,
      IndexJsRun.bills s' = IndexJsRun.bills s ++ new
      /\ sublist kept (validTargets billTargets)
      /\ Forall2 (fun b t => pushedFor stock0 5 (fst t) (snd t) b) new kept.
Proof.
  induction billTargets as [|[n d] rest IH]; intros s Hinv; cbn [fold_left fst snd].
  - split; [exact Hinv|]. exists [], []. rewrite app_nil_r.
    split; [reflexivity|]. split; constructor.
  - rewrite validTargets_cons. destruct n as [|target].
    { apply IH. exact Hinv. }
    destruct (String.eqb d "") eqn:Ed.
    { apply IH. exact Hinv. }
    destruct (IndexJsRun.callComposer random s target d 5) as [s1 ob] eqn:Ecall.
    destruct (callComposer_spec _ _ _ _ _ _ Hinv Ecall) as [Hinv1 Hob].
    cbn [fst]. destruct (IH _ Hinv1) as (Hinv2 & new & kept & Hb & Hsub & Hall).
    split; [exact Hinv2|]. destruct ob as [b|].
    + destruct Hob as [Hpush Hfor].
      exists (b :: new), ((target, d) :: kept). split.
      * rewrite Hb, Hpush, <- app_assoc. reflexivity.
      * split; [apply sublist_skip; exact Hsub|]. constructor; [exact Hfor|exact Hall].
    + exists new, kept. split; [congruence|]. split; [apply sublist_cons; exact Hsub|exact Hall].
Qed.

Variables minBill maxBill : Q.

Lemma nextSize_le remaining k t :
  IndexJsRun.nextSize random minBill maxBill remaining k = Some t -> t <= remaining.
Proof.
  unfold IndexJsRun.nextSize. cbv zeta.
  destruct (Qlt_bool remaining _) eqn:E.
  - destruct (Qle_bool minBill remaining) eqn:Emin.
    + intros H. injection H as <-. apply Qle_bool_iff in Emin.
      apply Q.max_lub; lra.
    + destruct (_ && _); [|discriminate]. intros H. injection H as <-. lra.
  - apply Qlt_bool_false in E. intros H. injection H as <-. exact E.
Qed.

Lemma indexjs_day fuel d targetAmount : forall acc s s',
  stockAfter (linesOf (IndexJsRun.bills s)) stock0 (IndexJsRun.stockMap s) ->
  IndexJsRun.dayLoop random minBill maxBill fuel d targetAmount acc s = Some s' ->
  stockAfter (linesOf (IndexJsRun.bills s')) stock0 (IndexJsRun.stockMap s')
  /\ exists new,
      IndexJsRun.bills s' = IndexJsRun.bills s ++ new
      /\ Forall (fun b => exists t, pushedFor stock0 15 t d b) new
      /\ (acc <= targetAmount + 15 -> acc + sumQ (map IndexJs.total new) <= targetAmount + 15).
Proof.
  induction fuel as [|fuel IH]; intros acc s s' Hinv H; [discriminate|].
  cbn [IndexJsRun.dayLoop] in H. cbv zeta in H.
  assert (Hstop : forall st, IndexJsRun.bills st = IndexJsRun.bills s ->
            stockAfter (linesOf (IndexJsRun.bills st)) stock0 (IndexJsRun.stockMap st) ->
            stockAfter (linesOf (IndexJsRun.bills st)) stock0 (IndexJsRun.stockMap st)
            /\ exists new,
                IndexJsRun.bills st = IndexJsRun.bills s ++ new
                /\ Forall (fun b => exists t, pushedFor stock0 15 t d b) new
                /\ (acc <= targetAmount + 15 ->
                    acc + sumQ (map IndexJs.total new) <= targetAmount + 15)).
  { intros st Hb Hi. split; [exact Hi|]. exists []. rewrite app_nil_r.
    split; [exact Hb|]. split; [constructor|]. simpl. intros; lra. }
  destruct (Qlt_bool acc targetAmount) eqn:Elt;
    [|injection H as <-; apply Hstop; [reflexivity|exact Hinv]].
  apply Qlt_bool_iff in Elt.
  destruct (IndexJsRun.nextSize random minBill maxBill (targetAmount - acc) (IndexJsRun.calls s))
    as [size|] eqn:Esize;
    [|injection H as <-; apply Hstop; [reflexivity|exact Hinv]].
  apply nextSize_le in Esize.
  set (s1 := IndexJsRun.mkState _ _ _ _) in *.
  destruct (IndexJsRun.callComposer random s1 size d 15) as [s2 ob] eqn:Ecall.
  assert (Hinv1 : stockAfter (linesOf (IndexJsRun.bills s1)) stock0 (IndexJsRun.stockMap s1))
    by exact Hinv.
  destruct (callComposer_spec _ _ _ _ _ _ Hinv1 Ecall) as [Hinv2 Hob].
  destruct ob as [b|].
  - destruct Hob as [Hpush Hfor].
    destruct (IH _ _ _ Hinv2 H) as (Hinv3 & new & Hb & Hall & Hsum).
    split; [exact Hinv3|]. exists (b :: new). split.
    + rewrite Hb, Hpush. cbn [s1 IndexJsRun.bills]. rewrite <- app_assoc. reflexivity.
    + split; [constructor; [exists size; exact Hfor|exact Hall]|].
      intros _. cbn [map sumQ fold_right].
      destruct Hfor as (_ & _ & _ & Hle).
      assert (Hacc : acc + IndexJs.total b <= targetAmount + 15) by lra.
      specialize (Hsum Hacc). fold (sumQ (map IndexJs.total new)). lra.
  - injection H as <-. apply Hstop; [exact Hob|exact Hinv2].
Qed.

Lemma indexjs_days fuel : forall targets s s',
  stockAfter (linesOf (IndexJsRun.bills s)) stock0 (IndexJsRun.stockMap s) ->
  IndexJsRun.daysLoop random minBill maxBill fuel targets s = Some s' ->
  stockAfter (linesOf (IndexJsRun.bills s')) stock0 (IndexJsRun.stockMap s')
  /\ exists groups,
      IndexJsRun.bills s' = IndexJsRun.bills s ++ concat groups
      /\ Forall2 (dayGroup stock0) groups (positiveDays targets).
Proof.
  induction targets as [|[d T] rest IH]; intros s s' Hinv H; cbn [IndexJsRun.daysLoop] in H.
  - injection H as <-. split; [exact Hinv|]. exists []. simpl. rewrite app_nil_r.
    split; [reflexivity|constructor].
  - unfold positiveDays. cbn [List.filter snd]. fold (positiveDays rest).
    destruct (Qle_bool T 0) eqn:ET; cbn [negb].
    { apply IH; assumption. }
    assert (HT : 0 < T).
    { apply Qnot_le_lt. intros Hle. apply Qle_bool_iff in Hle. congruence. }
    destruct (IndexJsRun.dayLoop random minBill maxBill fuel d T 0 s) as [s1|] eqn:Eday;
      [|discriminate].
    destruct (indexjs_day _ _ _ _ _ _ Hinv Eday) as (Hinv1 & new & Hb & Hall & Hsum).
    destruct (IH _ _ Hinv1 H) as (Hinv2 & groups & Hb2 & Hgroups).
    split; [exact Hinv2|]. exists (new :: groups). split.
    + rewrite Hb2, Hb. cbn [concat]. rewrite <- app_assoc. reflexivity.
    + constructor; [|exact Hgroups]. split; [exact Hall|]. cbn [snd].
      assert (H0 : 0 <= T + 15) by lra. specialize (Hsum H0). lra.
Qed.

End IndexJsRuns.

(** X27.  The UPI run of index.js on a stock map with distinct keys.  The
    stock at the end is the stock at the start after all lines of all
    pushed bills: each row lowered by exactly what was billed under its
    name, none taken below zero.  The pushed bills answer, in order, to some
    of the rows of [billTargets] with an amount and a date; each has a line,
    lines from the stock dated as its row, and a total of at most the row's
    amount plus 5. *)
Theorem indexjs_upi_run random g stock billTargets :
  NoDup (map IndexJs.ItemDetails stock) ->
  let s := IndexJsRun.tryGenerateAllBills random g stock billTargets in
  stockAfter (linesOf (IndexJsRun.bills s)) stock (IndexJsRun.stockMap s)
  /\ exists kept,
      sublist kept (validTargets billTargets)
      /\ Forall2 (fun b t => pushedFor stock 5 (fst t) (snd t) b) (IndexJsRun.bills s) kept.
Proof.
  intros Hnd. unfold IndexJsRun.tryGenerateAllBills.
  destruct (indexjs_upi_aux random stock Hnd billTargets (IndexJsRun.mkState stock g [] 0))
    as (H1 & new & kept & Hb & Hsub & Hall).
  { apply stockAfter_nil. }
  cbv zeta. split; [exact H1|]. exists kept. split; [exact Hsub|]. rewrite Hb. exact Hall.
Qed.

(** X28.  The cash run of index.js on a stock map with distinct keys.  A run
    that is not rejected leaves the stock at the start after all lines of
    all pushed bills, and its bills fall into one group for each day with a
    positive target, in order: the bills of a group are pushed for that date
    with the margin 15, and they add up to at most the day's target plus
    15.  A run is rejected, without a bill, when a bill size is not
    positive, no day has a positive target, no purchaser name is loaded, or
    the clamped sizes cross. *)
Theorem indexjs_cash_run random g minBill maxBill stock purchaserNames targets fuel out :
  NoDup (map IndexJs.ItemDetails stock) ->
  IndexJsRun.tryGenerateCashBills random g minBill maxBill stock purchaserNames targets fuel
  = Some out ->
  match out with
  | IndexJsRun.Ran s =>
      0 < minBill /\ 0 < maxBill /\ positiveDays targets <> [] /\ purchaserNames <> []
      /\ Qmax minBill 100 <= Qmin maxBill 99000
      /\ stockAfter (linesOf (IndexJsRun.bills s)) stock (IndexJsRun.stockMap s)
      /\ exists groups,
          IndexJsRun.bills s = concat groups
          /\ Forall2 (dayGroup stock) groups (positiveDays targets)
  | IndexJsRun.Rejected =>
      minBill <= 0 \/ maxBill <= 0 \/ positiveDays targets = [] \/ purchaserNames = []
      \/ Qmin maxBill 99000 < Qmax minBill 100
  end.
Proof.
  intros Hnd. unfold IndexJsRun.tryGenerateCashBills.
  assert (Hdays : forallb (fun t : string * Q => Qle_bool (snd t) 0) targets = true
                  <-> positiveDays targets = []).
  { unfold positiveDays. induction targets as [|[d T] rest IH]; simpl.
    - tauto.
    - destruct (Qle_bool T 0); simpl; [exact IH|]. split; discriminate. }
  destruct (Qle_bool minBill 0) eqn:E1.
  { intros H. injection H as <-. apply Qle_bool_iff in E1. auto. }
  destruct (Qle_bool maxBill 0) eqn:E2.
  { intros H. injection H as <-. apply Qle_bool_iff in E2. auto. }
  cbn [orb].
  destruct (forallb _ targets) eqn:E3.
  { intros H. injection H as <-. right. right. left. apply Hdays. reflexivity. }
  destruct (length purchaserNames =? 0)%nat eqn:E4.
  { intros H. injection H as <-. apply Nat.eqb_eq in E4.
    destruct purchaserNames; [auto 6|discriminate]. }
  cbv zeta.
  destruct (Qlt_bool (Qmin maxBill 99000) (Qmax minBill 100)) eqn:E5.
  { intros H. injection H as <-. apply Qlt_bool_iff in E5. auto 6. }
  destruct (IndexJsRun.daysLoop _ _ _ _ _ _) as [s|] eqn:Erun; [|discriminate].
  intros H. injection H as <-.
  assert (H0 : stockAfter (linesOf (IndexJsRun.bills (IndexJsRun.mkState stock g [] 0))) stock
                          (IndexJsRun.stockMap (IndexJsRun.mkState stock g [] 0)))
    by apply stockAfter_nil.
  destruct (indexjs_days random stock Hnd _ _ fuel targets _ s H0 Erun)
    as (Hinv & groups & Hb & Hg).
  split; [apply Qnot_le_lt; intros Hle; apply Qle_bool_iff in Hle; congruence|].
  split; [apply Qnot_le_lt; intros Hle; apply Qle_bool_iff in Hle; congruence|].
  split; [intros Hp; apply Hdays in Hp; congruence|].
  split; [intros ->; discriminate|].
  split; [apply Qlt_bool_false; exact E5|].
  split; [exact Hinv|]. exists groups. split; [exact Hb|exact Hg].
Qed.

(* ------------------------------------------------------------------ *)
(** ** The composer of part_000 *)
(* ------------------------------------------------------------------ *)

Lemma usedGet_usedSet m key v n :
  usedGet (usedSet m key v) n = if String.eqb key n then Some v else usedGet m n.
Proof.
  induction m as [|[k w] m IH]; simpl.
  - reflexivity.
  - destruct (String.eqb k key) eqn:E; simpl.
    + apply String.eqb_eq in E. subst k. destruct (String.eqb key n); reflexivity.
    + rewrite IH. destruct (String.eqb k n) eqn:E2; [|reflexivity].
      apply String.eqb_eq in E2. subst k. rewrite String.eqb_sym, E. reflexivity.
Qed.

Lemma usedTot_snoc n es e :
  usedTot n (es ++ [e])
  == usedTot n es + (if String.eqb n (ItemDetails (item e)) then qty e else 0).
Proof.
  unfold usedTot. rewrite List.filter_app, map_app, sumQ_app. cbn [List.filter].
  destruct (String.eqb n (ItemDetails (item e))); simpl; ring.
Qed.

Lemma isMultiple_100_1000 x : isMultiple 100 x -> isMultiple 1000 x.
Proof.
  intros [z Hz]. exists (z * 10)%Z. rewrite Hz. unfold Qeq. simpl. lia.
Qed.

Lemma isMultiple_1000_whole z : isMultiple 1000 (inject_Z z).
Proof. exists (z * 1000)%Z. unfold inject_Z, Qeq. simpl. lia. Qed.

Lemma isMultiple_compat s x y : x == y -> isMultiple s x -> isMultiple s y.
Proof. intros H [z Hz]. exists z. rewrite <- H. exact Hz. Qed.

Lemma sumQ_multiple s l : Forall (isMultiple s) l -> isMultiple s (sumQ l).
Proof.
  induction 1 as [|x l Hx _ IH]; simpl.
  - exists 0%Z. reflexivity.
  - apply isMultiple_plus; assumption.
Qed.

(** The commit of entries that are multiples of 1/1000 rounds at most once,
    so a bound on the grid that holds for the exact difference holds for
    the committed quantity. *)
Lemma remainingAfter_floor n (used : UsedMap) : forall r m,
  isMultiple 1000 m ->
  Forall (fun e => isMultiple 1000 (snd e)) used ->
  m <= r - sumQ (map snd (List.filter (fun e => String.eqb n (fst e)) used)) ->
  m <= remainingAfter n used r.
Proof.
  induction used as [|e used IH]; intros r m Hm Hall Hle.
  - simpl in *. lra.
  - apply Forall_cons in Hall as [He Hall].
    unfold remainingAfter. cbn [fold_left]. fold (remainingAfter n used).
    cbn [List.filter] in Hle.
    destruct (String.eqb n (fst e)) eqn:E.
    + cbn [map sumQ fold_right] in Hle.
      fold (sumQ (map snd (List.filter (fun e0 => String.eqb n (fst e0)) used))) in Hle.
      set (rest := sumQ (map snd (List.filter (fun e0 => String.eqb n (fst e0)) used))) in *.
      assert (Hrest : isMultiple 1000 rest).
      { apply sumQ_multiple. apply Forall_forall. intros x Hx.
        apply list_elem_of_In, in_map_iff in Hx as (e1 & <- & He1).
        apply filter_In in He1 as [He1 _]. rewrite Forall_forall in Hall.
        apply Hall, list_elem_of_In, He1. }
      apply IH; [exact Hm|exact Hall|]. fold rest.
      assert (Hgrid : m + rest <= toFixed 3 (r - snd e)).
      { apply (roundTo_ge_multiple 1000); [apply isMultiple_plus; assumption|].
        clearbody rest. lra. }
      clearbody rest. lra.
    + apply IH; assumption.
Qed.

Section Part000Props.

Variable random : nat -> Q.
Hypothesis Hrandom : inUnit random.
Variable m : StockMap.
Hypothesis Hm : ledgerOK m.

Lemma getRem_positive (used : UsedMap) it x :
  x < getRem used it -> 0 <= x ->
  getRem used it == remainingQty it - default 0 (usedGet used (ItemDetails it)).
Proof.
  unfold getRem. intros H Hx.
  set (u := default 0 (usedGet used (ItemDetails it))) in *. clearbody u.
  apply Q.max_r. destruct (Q.max_spec 0 (remainingQty it - u)) as [[? Hmx]|[? Hmx]];
    rewrite Hmx in H; lra.
Qed.

Lemma pushEntry_exact a r q :
  shapeOK a -> drawOK m (currentBill a) -> usedInSync a ->
  In r m -> 0 < q -> isMultiple 1000 q ->
  1 # 1000 < getRem (tempUsed a) r ->
  q <= getRem (tempUsed a) r + (1 # 200) ->
  shapeOK (pushEntry a r q) /\ drawOK m (currentBill (pushEntry a r q))
  /\ usedInSync (pushEntry a r q).
Proof.
  intros [Hc Hp] [Hes Hrows] Hsync Hr Hq Hgrid Hrem Hle.
  assert (Hg : getRem (tempUsed a) r
               == remainingQty r - default 0 (usedGet (tempUsed a) (ItemDetails r)))
    by (apply (getRem_positive _ _ (1 # 1000)); [exact Hrem|lra]).
  unfold shapeOK, drawOK, usedInSync, pushEntry. cbv zeta.
  cbn [currentBill currentTotal pickedCount tempUsed].
  split; [|split].
  - split.
    + apply isMultiple_plus; [exact Hc|]. unfold getItemBillTotal, lineTotal.
      apply toFixed2_cents.
    + rewrite length_app. simpl. lia.
  - split.
    + apply Forall_app. split; [exact Hes|]. constructor; [|constructor].
      cbn [item qty]. auto.
    + intros it Hit. rewrite usedTot_snoc. cbn [item qty].
      destruct (String.eqb (ItemDetails it) (ItemDetails r)) eqn:E.
      * apply String.eqb_eq in E.
        assert (it = r) by (apply (keys_inj m); [apply Hm|assumption..]). subst it.
        rewrite <- (Hsync (ItemDetails r)). rewrite Hg in Hle. lra.
      * specialize (Hrows it Hit). lra.
  - intros n. cbn [currentBill tempUsed]. rewrite usedGet_usedSet, usedTot_snoc. cbn [item qty].
    rewrite (String.eqb_sym n). destruct (String.eqb (ItemDetails r) n) eqn:E.
    + apply String.eqb_eq in E. subst n. cbn [default from_option id].
      rewrite (Hsync (ItemDetails r)). reflexivity.
    + rewrite (Hsync n). ring.
Qed.

Lemma exactBase_inv targetMax randomItems n : forall a k,
  (forall x, In x randomItems -> In x m) ->
  shapeOK a -> drawOK m (currentBill a) -> usedInSync a ->
  let a' := fst (Part000.exactBase random n targetMax randomItems a k) in
  shapeOK a' /\ drawOK m (currentBill a') /\ usedInSync a'.
Proof.
  induction n as [|n IH]; intros a k Hpool Hs Hd Hu; cbn [Part000.exactBase].
  - cbn [fst]. auto.
  - cbv zeta. destruct (Qle_bool (targetMax - currentTotal a) 5); [cbn [fst]; auto|].
    destruct (randomItems !! _) as [r|] eqn:Er; [|cbn [fst]; auto].
    assert (Hr : In r m).
    { apply Hpool. apply list_elem_of_In. eapply list_elem_of_lookup_2. exact Er. }
    destruct (Qle_bool (getRem (tempUsed a) r) (1 # 1000)) eqn:Erem; [apply IH; auto|].
    assert (Hrem : 1 # 1000 < getRem (tempUsed a) r).
    { apply Qnot_le_lt. intros Hle. apply Qle_bool_iff in Hle. congruence. }
    set (safeMax := (targetMax - currentTotal a) * (8 # 10)).
    pose proof (absMaxOf_le r (getRem (tempUsed a) r) safeMax) as Habs.
    destruct (Hrandom (S k)) as [H0 H1].
    destruct (Part001.canSellInFloat r safeMax).
    + destruct (Qlt_bool (absMaxOf r (getRem (tempUsed a) r) safeMax) (1 # 100)) eqn:Esmall;
        [apply IH; auto|].
      apply Qlt_bool_false in Esmall.
      set (q := toFixed 2 (random (S k) * absMaxOf r (getRem (tempUsed a) r) safeMax)).
      destruct (Qlt_bool 0 q) eqn:Eq; [|apply IH; auto].
      apply Qlt_bool_iff in Eq.
      destruct (pushEntry_exact a r q Hs Hd Hu Hr Eq) as (Hs' & Hd' & Hu').
      * apply isMultiple_100_1000. apply toFixed2_cents.
      * exact Hrem.
      * pose proof (roundTo_error 100
                      (random (S k) * absMaxOf r (getRem (tempUsed a) r) safeMax)) as He.
        change (roundTo 100) with (toFixed 2) in He. fold q in He.
        change (1 # 2 * 100) with (1 # 200) in He.
        apply Qabs_Qle_condition in He as [_ He].
        set (ab := absMaxOf r (getRem (tempUsed a) r) safeMax) in *.
        set (g := getRem (tempUsed a) r) in *. clearbody q ab g. nra.
      * apply IH; auto.
    + destruct (Qfloor (absMaxOf r (getRem (tempUsed a) r) safeMax) <? 1)%Z eqn:Eint;
        [apply IH; auto|].
      apply Z.ltb_ge in Eint.
      set (intMax := Qfloor (absMaxOf r (getRem (tempUsed a) r) safeMax)) in *.
      set (z := (Qfloor (random (S k) * inject_Z intMax) + 1)%Z).
      destruct (Qlt_bool 0 (inject_Z z)) eqn:Eq; [|apply IH; auto].
      apply Qlt_bool_iff in Eq.
      destruct (pushEntry_exact a r (inject_Z z) Hs Hd Hu Hr Eq) as (Hs' & Hd' & Hu').
      * apply isMultiple_1000_whole.
      * exact Hrem.
      * assert (Hz : (z <= intMax)%Z).
        { unfold z. assert (Qfloor (random (S k) * inject_Z intMax) < intMax)%Z; [|lia].
          apply Qfloor_lt_int.
          assert (0 < inject_Z intMax) by (change 0 with (inject_Z 0); rewrite <- Zlt_Qlt; lia).
          nra. }
        pose proof (Qfloor_le (absMaxOf r (getRem (tempUsed a) r) safeMax)) as Hfl.
        fold intMax in Hfl.
        assert (inject_Z z <= inject_Z intMax) by (rewrite <- Zle_Qle; exact Hz).
        lra.
      * apply IH; auto.
Qed.

Lemma sniperFill_inv minItems targetMax availableItems a :
  (forall x, In x availableItems -> In x m) ->
  shapeOK a -> drawOK m (currentBill a) -> usedInSync a ->
  let a' := Part000.sniperFill minItems targetMax availableItems a in
  shapeOK a' /\ drawOK m (currentBill a').
Proof.
  intros Hpool Hs Hd Hu. unfold Part000.sniperFill. cbv zeta.
  destruct (minItems - 1 <=? pickedCount a)%nat; [|auto].
  destruct (Qlt_bool (1 # 10) (targetMax - currentTotal a)); [|auto].
  destruct (List.find _ availableItems) as [c|] eqn:Efind; [|auto].
  apply find_some in Efind as [Hc _]. apply Hpool in Hc.
  set (q := toFixed 2 ((targetMax - currentTotal a) / singleUnitCost c)).
  destruct (Qle_bool q (getRem (tempUsed a) c) && Qlt_bool 0 q) eqn:Eq; [|auto].
  apply andb_true_iff in Eq as [Hle Hpos].
  apply Qle_bool_iff in Hle. apply Qlt_bool_iff in Hpos.
  destruct (Part001.canSellInFloat c _ || negb (hasFraction q)); [|auto].
  destruct (Qlt_bool _ 5); [|auto].
  destruct Hs as [Hcents Hcount]. destruct Hd as [Hes Hrows].
  unfold shapeOK, drawOK. cbn [currentBill currentTotal pickedCount]. split; [split|split].
  - apply isMultiple_plus; [exact Hcents|]. unfold getItemBillTotal, lineTotal.
    apply toFixed2_cents.
  - rewrite length_app. simpl. lia.
  - apply Forall_app. split; [exact Hes|]. constructor; [|constructor].
    cbn [item qty]. split; [exact Hc|]. split; [exact Hpos|].
    apply isMultiple_100_1000, toFixed2_cents.
  - intros it Hit. rewrite usedTot_snoc. cbn [item qty].
    destruct (String.eqb (ItemDetails it) (ItemDetails c)) eqn:E.
    + apply String.eqb_eq in E.
      assert (it = c) by (apply (keys_inj m); [apply Hm|assumption..]). subst it.
      assert (Hg : getRem (tempUsed a) c
                   == remainingQty c - default 0 (usedGet (tempUsed a) (ItemDetails c))).
      { apply (getRem_positive _ _ 0); lra. }
      rewrite <- (Hu (ItemDetails c)). rewrite Hg in Hle. clearbody q. lra.
    + specialize (Hrows it Hit). lra.
Qed.

(** The committed stock of an attempt whose entries draw within the stock. *)
Lemma commitBill_floor es it' :
  drawOK m es -> In it' (commitBill es m) -> - (1 # 200) <= remainingQty it'.
Proof.
  intros [Hes Hrows] Hit'. rewrite commitBill_commitUsed in Hit'.
  apply commitUsed_rows in Hit' as (it & Hit & _ & ->).
  apply remainingAfter_floor.
  - exists (-5)%Z. reflexivity.
  - apply Forall_forall. intros e He.
    apply list_elem_of_In, in_map_iff in He as (e0 & <- & He0). cbn [snd].
    rewrite Forall_forall in Hes. apply list_elem_of_In, Hes in He0. apply He0.
  - specialize (Hrows it Hit). unfold usedTot in Hrows.
    assert (Heq : map snd (List.filter (fun e => String.eqb (ItemDetails it) (fst e))
                             (map (fun e => (ItemDetails (item e), qty e)) es))
                  = map qty (List.filter
                               (fun e => String.eqb (ItemDetails it) (ItemDetails (item e))) es)).
    { clear. induction es as [|e es IH]; simpl; [reflexivity|].
      destruct (String.eqb (ItemDetails it) (ItemDetails (item e))); simpl; rewrite IH;
        reflexivity. }
    rewrite Heq. lra.
Qed.

Lemma fillAttempt_inv mode attempt minItems targetMin targetMax availableItems randomItems k :
  fromStock m availableItems -> fromStock m randomItems ->
  let a := fst (Part000.fillAttempt random mode attempt minItems targetMin targetMax
                                    availableItems randomItems k) in
  shapeOK a
  /\ forall it', In it' (commitBill (currentBill a) m) -> - (1 # 200) <= remainingQty it'.
Proof.
  intros Hav Hrand. unfold Part000.fillAttempt.
  assert (Hempty : shapeOK emptyAttempt /\ drawOK m (currentBill emptyAttempt)
                   /\ usedInSync emptyAttempt).
  { split; [split; [exists 0%Z; reflexivity|reflexivity]|]. split.
    - split; [constructor|]. intros it Hit. unfold usedTot. simpl.
      destruct Hm as [_ Hlow]. specialize (Hlow it Hit). lra.
    - intros n. reflexivity. }
  destruct Hempty as (Hs0 & Hd0 & Hu0).
  destruct (String.eqb mode "RANGE").
  - unfold Part000.rangeWalk.
    destruct (pickItems_bounded random (fun _ => false) Part001.canSellInFloat false Hrandom
                                attempt minItems targetMin targetMax randomItems
                                emptyAttempt k) as (qs & Ha & Hsub & Hok).
    { constructor. }
    cbv zeta. rewrite Ha. split.
    + split.
      * apply pushAll_cents. exists 0%Z. reflexivity.
      * rewrite pushAll_pickedCount, pushAll_currentBill. simpl. rewrite length_map. reflexivity.
    + intros it' Hit'. rewrite pushAll_currentBill in Hit'.
      cbn [emptyAttempt currentBill app] in Hit'.
      rewrite commitBill_commitUsed, map_map in Hit'. cbn [entryOf item qty] in Hit'.
      destruct (picks_fromStock _ _ _ Hrand Hsub) as [Hnd Hin].
      destruct Hm as [Hk Hlow]. eapply commit_picks_floor; eauto.
  - destruct (String.eqb mode "EXACT").
    + destruct (Part000.exactBase random (minItems - 1) targetMax randomItems emptyAttempt k)
        as [a1 k1] eqn:Ebase.
      destruct (exactBase_inv targetMax randomItems (minItems - 1) emptyAttempt k
                              (proj2 Hrand) Hs0 Hd0 Hu0) as (Hs1 & Hd1 & Hu1).
      rewrite Ebase in Hs1, Hd1, Hu1. cbn [fst] in Hs1, Hd1, Hu1.
      destruct (sniperFill_inv minItems targetMax availableItems a1 (proj2 Hav) Hs1 Hd1 Hu1)
        as [Hs2 Hd2].
      cbn [fst]. split; [exact Hs2|]. intros it'. apply commitBill_floor. exact Hd2.
    + cbn [fst]. split; [exact Hs0|]. intros it'. apply commitBill_floor. exact Hd0.
Qed.

Lemma attemptLoop000 minItems mode targetMin targetMax dayTotalRemaining margin availableItems
      left : forall attempt randomItems k a k',
  fromStock m availableItems -> fromStock m randomItems ->
  Part000.attemptLoop random left attempt minItems mode targetMin targetMax dayTotalRemaining
                      margin availableItems randomItems k = (Some a, k') ->
  accepted000 m minItems mode targetMin targetMax dayTotalRemaining margin a.
Proof.
  induction left as [|left IH]; intros attempt randomItems k a k' Hav Hrand H;
    cbn [Part000.attemptLoop] in H; [discriminate|].
  pose proof (fillAttempt_inv mode attempt minItems targetMin targetMax availableItems
                              randomItems k Hav Hrand) as Hfill.
  destruct (Part000.fillAttempt _ _ _ _ _ _ _ _ _) as [a1 k1].
  cbn [fst] in Hfill. cbv zeta in Hfill.
  destruct (isValid _ _ _ _ _ a1 && safeLanding _ _ a1) eqn:Eacc.
  - injection H as <- <-. apply andb_true_iff in Eacc as [Hv Hl].
    destruct Hfill as [Hs Hfloor]. unfold accepted000. auto.
  - pose proof (fromStock_shuffle m random randomItems k1 Hrand) as Hrand'.
    destruct (shuffleArray random randomItems k1) as [pool k2]. cbn [fst] in Hrand'.
    eapply IH; eauto.
Qed.

Lemma tierLoop000 effort mode targetMin targetMax dayTotalRemaining margin availableItems
      tiers : forall k a k',
  fromStock m availableItems ->
  Part000.tierLoop random tiers effort mode targetMin targetMax dayTotalRemaining margin
                   availableItems k = (Some a, k') ->
  exists t, In t tiers
            /\ accepted000 m (count t) mode targetMin targetMax dayTotalRemaining margin a.
Proof.
  induction tiers as [|t tiers IH]; intros k a k' Hav H; cbn [Part000.tierLoop] in H;
    [discriminate|].
  destruct (Part000.runTier _ _ _ _ _ _ _ _ _ _) as [[a1|] k1] eqn:Et.
  - injection H as <- <-. exists t. split; [left; reflexivity|].
    unfold Part000.runTier in Et.
    destruct (length availableItems <? count t)%nat; [discriminate|].
    pose proof (fromStock_shuffle m random availableItems k Hav) as Hrand.
    destruct (shuffleArray random availableItems k) as [pool k2]. cbn [fst] in Hrand.
    eapply attemptLoop000; [exact Hav|exact Hrand|exact Et].
  - destruct (IH _ _ _ Hav H) as (t' & Hin & Hacc). exists t'. split; [right; exact Hin|exact Hacc].
Qed.

End Part000Props.

Section Part000Shape.

Variable random : nat -> Q.

Lemma pushEntry_shape a r q : shapeOK a -> shapeOK (pushEntry a r q).
Proof.
  intros [Hc Hp]. unfold shapeOK, pushEntry. cbv zeta.
  cbn [currentBill currentTotal pickedCount]. split.
  - apply isMultiple_plus; [exact Hc|]. unfold getItemBillTotal, lineTotal.
    apply toFixed2_cents.
  - rewrite length_app. simpl. lia.
Qed.

Lemma exactBase_shape targetMax randomItems n : forall a k,
  shapeOK a -> shapeOK (fst (Part000.exactBase random n targetMax randomItems a k)).
Proof.
  induction n as [|n IH]; intros a k Hs; cbn [Part000.exactBase].
  - exact Hs.
  - cbv zeta. destruct (Qle_bool _ 5); [exact Hs|].
    destruct (randomItems !! _) as [r|]; [|exact Hs].
    destruct (Qle_bool (getRem (tempUsed a) r) (1 # 1000)); [apply IH; exact Hs|].
    destruct (Part001.canSellInFloat r _).
    + destruct (Qlt_bool (absMaxOf _ _ _) (1 # 100)); [apply IH; exact Hs|].
      apply IH. destruct (Qlt_bool 0 _); [apply pushEntry_shape|]; exact Hs.
    + destruct (Qfloor _ <? 1)%Z; [apply IH; exact Hs|].
      apply IH. destruct (Qlt_bool 0 _); [apply pushEntry_shape|]; exact Hs.
Qed.

Lemma sniperFill_shape minItems targetMax availableItems a :
  shapeOK a -> shapeOK (Part000.sniperFill minItems targetMax availableItems a).
Proof.
  intros Hs. unfold Part000.sniperFill. cbv zeta.
  destruct (minItems - 1 <=? pickedCount a)%nat; [|exact Hs].
  destruct (Qlt_bool (1 # 10) _); [|exact Hs].
  destruct (List.find _ availableItems) as [c|]; [|exact Hs].
  destruct (_ && _); [|exact Hs].
  destruct (_ || _); [|exact Hs].
  destruct (Qlt_bool _ 5); [|exact Hs].
  destruct Hs as [Hc Hp]. unfold shapeOK. cbn [currentBill currentTotal pickedCount]. split.
  - apply isMultiple_plus; [exact Hc|]. unfold getItemBillTotal, lineTotal.
    apply toFixed2_cents.
  - rewrite length_app. simpl. lia.
Qed.

Lemma fillAttempt_shape mode attempt minItems targetMin targetMax availableItems randomItems k :
  let a := fst (Part000.fillAttempt random mode attempt minItems targetMin targetMax
                                    availableItems randomItems k) in
  shapeOK a
  /\ (pickedCount a = 0%nat \/ mode = "RANGE"%string \/ mode = "EXACT"%string).
Proof.
  assert (Hs0 : shapeOK emptyAttempt) by (split; [exists 0%Z; reflexivity|reflexivity]).
  unfold Part000.fillAttempt. cbv zeta.
  destruct (String.eqb mode "RANGE") eqn:ER.
  - apply String.eqb_eq in ER. split; [|auto]. unfold Part000.rangeWalk.
    destruct (pickItems_pushes random (fun _ => false) Part001.canSellInFloat false attempt
                               minItems targetMin targetMax randomItems emptyAttempt k)
      as (qs & Ha & _ & _).
    rewrite Ha. split.
    + apply pushAll_cents. exists 0%Z. reflexivity.
    + rewrite pushAll_pickedCount, pushAll_currentBill. simpl. rewrite length_map. reflexivity.
  - destruct (String.eqb mode "EXACT") eqn:EE.
    + apply String.eqb_eq in EE. split; [|auto].
      pose proof (exactBase_shape targetMax randomItems (minItems - 1) emptyAttempt k Hs0) as H.
      destruct (Part000.exactBase _ _ _ _ _ _) as [a1 k1]. cbn [fst] in *.
      apply sniperFill_shape. exact H.
    + cbn [fst]. split; [exact Hs0|]. left. reflexivity.
Qed.

Lemma attemptLoop000_valid minItems mode targetMin targetMax dayTotalRemaining margin
      availableItems left : forall attempt randomItems k a k',
  Part000.attemptLoop random left attempt minItems mode targetMin targetMax dayTotalRemaining
                      margin availableItems randomItems k = (Some a, k') ->
  isValid mode targetMin targetMax margin minItems a = true
  /\ safeLanding dayTotalRemaining margin a = true
  /\ shapeOK a
  /\ (pickedCount a = 0%nat \/ mode = "RANGE"%string \/ mode = "EXACT"%string).
Proof.
  induction left as [|left IH]; intros attempt randomItems k a k' H;
    cbn [Part000.attemptLoop] in H; [discriminate|].
  pose proof (fillAttempt_shape mode attempt minItems targetMin targetMax availableItems
                                randomItems k) as Hfill.
  destruct (Part000.fillAttempt _ _ _ _ _ _ _ _ _) as [a1 k1].
  cbn [fst] in Hfill. cbv zeta in Hfill.
  destruct (isValid _ _ _ _ _ a1 && safeLanding _ _ a1) eqn:Eacc.
  - injection H as <- <-. apply andb_true_iff in Eacc as [Hv Hl].
    destruct Hfill as [Hs Hmode]. auto.
  - destruct (shuffleArray random randomItems k1) as [pool k2].
    eapply IH. exact H.
Qed.

Lemma tierLoop000_valid effort mode targetMin targetMax dayTotalRemaining margin availableItems
      tiers : forall k a k',
  Part000.tierLoop random tiers effort mode targetMin targetMax dayTotalRemaining margin
                   availableItems k = (Some a, k') ->
  exists t, In t tiers
            /\ isValid mode targetMin targetMax margin (count t) a = true
            /\ safeLanding dayTotalRemaining margin a = true
            /\ shapeOK a
            /\ (pickedCount a = 0%nat \/ mode = "RANGE"%string \/ mode = "EXACT"%string).
Proof.
  induction tiers as [|t tiers IH]; intros k a k' H; cbn [Part000.tierLoop] in H;
    [discriminate|].
  destruct (Part000.runTier _ _ _ _ _ _ _ _ _ _) as [[a1|] k1] eqn:Et.
  - injection H as <- <-. exists t. split; [left; reflexivity|].
    unfold Part000.runTier in Et.
    destruct (length availableItems <? count t)%nat; [discriminate|].
    destruct (shuffleArray random availableItems k) as [pool k2].
    eapply attemptLoop000_valid. exact Et.
  - destruct (IH _ _ _ H) as (t' & Hin & Hacc). exists t'. split; [right; exact Hin|exact Hacc].
Qed.

End Part000Shape.

Lemma tierLoop000_run random effort mode targetMin targetMax dayTotalRemaining margin
      availableItems tiers : forall k a k',
  Part000.tierLoop random tiers effort mode targetMin targetMax dayTotalRemaining margin
                   availableItems k = (Some a, k') ->
  exists t k0, In t tiers
               /\ Part000.runTier random effort mode targetMin targetMax dayTotalRemaining
                                  margin availableItems t k0 = (Some a, k').
Proof.
  induction tiers as [|t tiers IH]; intros k a k' H; cbn [Part000.tierLoop] in H;
    [discriminate|].
  destruct (Part000.runTier _ _ _ _ _ _ _ _ _ _) as [[a1|] k1] eqn:Et.
  - injection H as <- <-. exists t, k. split; [left; reflexivity|exact Et].
  - destruct (IH _ _ _ H) as (t' & k0 & Hin & Hrun). exists t', k0.
    split; [right; exact Hin|exact Hrun].
Qed.

Lemma runTier000_valid random effort mode targetMin targetMax dayTotalRemaining margin
      availableItems t k a k' :
  Part000.runTier random effort mode targetMin targetMax dayTotalRemaining margin
                  availableItems t k = (Some a, k') ->
  isValid mode targetMin targetMax margin (count t) a = true
  /\ safeLanding dayTotalRemaining margin a = true
  /\ shapeOK a
  /\ (pickedCount a = 0%nat \/ mode = "RANGE"%string \/ mode = "EXACT"%string).
Proof.
  unfold Part000.runTier.
  destruct (length availableItems <? count t)%nat; [discriminate|].
  destruct (shuffleArray random availableItems k) as [pool k2].
  apply attemptLoop000_valid.
Qed.

(** X29.  The composer of part_000.  A failed call returns no line and the
    stock map as it was.  A successful call was made in RANGE or in EXACT
    mode and returns the formatted bill of the attempt [a] that one of the
    tiers accepted, with the stock map committed for it.  The bill has at
    least that tier's minimum number of lines; in RANGE mode its total lies
    in [[targetMin, targetMax]], in EXACT mode within [margin] of
    [targetMax].  The safe-landing test was passed by the running total of
    the attempt: what it leaves of the day is within [margin] or more than
    50; the returned total is that running total rounded to cents, at most
    half a cent away. *)
Theorem part000_acceptance random stockMap targetMin targetMax dayTotalRemaining d margin mode
        currentFailures k bill stock' k' :
  Part000.generateBillFromMap random stockMap targetMin targetMax dayTotalRemaining d margin
                              mode currentFailures k = (bill, stock', k') ->
  (success bill = false -> stock' = stockMap /\ items bill = [])
  /\ (success bill = true ->
      (mode = "RANGE"%string \/ mode = "EXACT"%string)
      /\ exists t k0 a,
           In t baseAttempts
           /\ Part000.runTier random
                (effortMultiplier 50 500 2000 (2 # 10) (5 # 100) (1 # 100) currentFailures)
                mode targetMin targetMax dayTotalRemaining margin (available stockMap) t k0
              = (Some a, k')
           /\ bill = formatResult (currentBill a) (currentTotal a) targetMax d
           /\ stock' = commitBill (currentBill a) stockMap
           /\ (count t <= length (items bill))%nat
           /\ (mode = "RANGE"%string -> targetMin <= total bill /\ total bill <= targetMax)
           /\ (mode = "EXACT"%string -> Qabs (targetMax - total bill) <= margin)
           /\ (dayTotalRemaining - currentTotal a <= margin
               \/ 50 < dayTotalRemaining - currentTotal a)
           /\ Qabs (total bill - currentTotal a) <= 1 # 200).
Proof.
  unfold Part000.generateBillFromMap. fold (available stockMap). cbv zeta.
  destruct (length (available stockMap) =? 0)%nat.
  { intros H. injection H as <- <- _. split; [auto|discriminate]. }
  destruct (Part000.tierLoop _ _ _ _ _ _ _ _ _ _) as [[a|] k1] eqn:Et; intros H;
    injection H as <- <- <-; [|split; [auto|discriminate]].
  split; [discriminate|]. intros _.
  apply tierLoop000_run in Et as (t & k0 & Hin & Hrun).
  destruct (runTier000_valid _ _ _ _ _ _ _ _ _ _ _ _ Hrun) as (Hv & Hl & [Hc Hp] & Hmode).
  destruct (validated_attempt_bill mode targetMin targetMax dayTotalRemaining margin (count t)
                                   a d Hc Hp Hv Hl) as (H1 & H2 & H3 & _).
  assert (Ht : (1 <= count t)%nat).
  { unfold baseAttempts in Hin. simpl in Hin.
    destruct Hin as [<-|[<-|[<-|[<-|[]]]]]; simpl; lia. }
  split.
  { destruct Hmode as [H0|Hmode]; [|exact Hmode].
    rewrite formatResult_items in H1. lia. }
  exists t, k0, a. split; [exact Hin|]. split; [exact Hrun|].
  split; [reflexivity|]. split; [reflexivity|]. split; [exact H1|].
  split; [exact H2|]. split; [exact H3|]. split.
  - unfold safeLanding in Hl. apply orb_true_iff in Hl as [H|H].
    + left. apply Qle_bool_iff in H. exact H.
    + right. apply Qlt_bool_iff in H. exact H.
  - rewrite formatResult_total. pose proof (roundTo_error 100 (currentTotal a)) as He.
    exact He.
Qed.

(** X30.  The stock after a call of the composer of part_000, on a ledger in
    shape.  The keys stay, and no row ends below -0.005, also in EXACT mode,
    where an item can be drawn several times for one bill and the sniper
    fill adds an entry that [tempUsed] does not record. *)
Theorem part000_stock_floor random stockMap targetMin targetMax dayTotalRemaining d margin mode
        currentFailures k bill stock' k' :
  inUnit random ->
  ledgerOK stockMap ->
  Part000.generateBillFromMap random stockMap targetMin targetMax dayTotalRemaining d margin
                              mode currentFailures k = (bill, stock', k') ->
  ledgerOK stock' /\ keys stock' = keys stockMap.
Proof.
  intros Hrandom Hm. unfold Part000.generateBillFromMap. fold (available stockMap). cbv zeta.
  destruct (length (available stockMap) =? 0)%nat.
  { intros H. injection H as _ <- _. auto. }
  destruct (Part000.tierLoop _ _ _ _ _ _ _ _ _ _) as [[a|] k1] eqn:Et; intros H;
    injection H as _ <- _; [|auto].
  apply (tierLoop000 random Hrandom stockMap Hm) in Et as (t & _ & _ & _ & _ & Hfloor);
    [|apply available_fromStock, Hm].
  assert (Hk : keys (commitBill (currentBill a) stockMap) = keys stockMap).
  { rewrite commitBill_commitUsed. apply commitUsed_keys. }
  split; [|exact Hk]. split; [rewrite Hk; apply Hm|exact Hfloor].
Qed.

(* ------------------------------------------------------------------ *)
(** ** The loops of a day end *)
(* ------------------------------------------------------------------ *)

(** Every accepted bill takes at least 0.0095 off the stock: it has a pick,
    a pick is a positive multiple of 0.01 or a whole number, and the commit
    rounds to three decimals.  The rows stay at -0.005 or above, so the
    stock carries a bounded number of bills, and between two bills the
    failure counter stops the day at its ceiling. *)

(** A positive multiple of 0.01 is at least 0.01. *)
Lemma cent_positive q : isMultiple 100 q -> 0 < q -> 1 # 100 <= q.
Proof.
  intros [z Hz] Hq. rewrite Hz in *.
  unfold Qlt, Qle in *. simpl in *. lia.
Qed.

Section MinQty.

Variable random : nat -> Q.
Variable bigFirst : nat -> bool.
Variable canFloat : Item -> Q -> bool.
Variable strictFit : bool.
Hypothesis Hrandom : inUnit random.

Lemma chooseQty_cent attempt minItems it actualRemaining roomLeft picked k q k' :
  chooseQty random bigFirst canFloat strictFit attempt minItems it
            actualRemaining roomLeft picked k = (Some q, k') ->
  0 < q -> 1 # 100 <= q.
Proof.
  intros H Hq. destruct (canFloat it roomLeft) eqn:E.
  - destruct (chooseQty_float random bigFirst canFloat strictFit Hrandom _ _ _ _ _ _ _ _ _ E H)
      as (Hm & _). apply cent_positive; assumption.
  - destruct (chooseQty_integer random bigFirst canFloat strictFit Hrandom _ _ _ _ _ _ _ _ _ E H)
      as (z & -> & Hz & _).
    assert (inject_Z 1 <= inject_Z z) by (rewrite <- Zle_Qle; exact Hz).
    change (inject_Z 1) with 1 in *. lra.
Qed.

Lemma pickItems_min_qty attempt minItems targetMin targetMax pool :
  forall a k,
    Forall (fun e => 1 # 100 <= qty e) (currentBill a) ->
    Forall (fun e => 1 # 100 <= qty e)
           (currentBill (fst (pickItems random bigFirst canFloat strictFit attempt minItems
                                        targetMin targetMax pool a k))).
Proof.
  induction pool as [|it rest IH]; intros a k Ha.
  - exact Ha.
  - simpl.
    destruct (if Qle_bool targetMin (currentTotal a) && (minItems <=? pickedCount a)%nat
              then if bigFirst attempt then (true, k)
                   else (Qlt_bool (1 # 2) (random k), S k)
              else (false, k)) as [stop k0].
    destruct stop; [exact Ha|].
    destruct (Qle_bool (getRem (tempUsed a) it) (1 # 1000)); [apply IH, Ha|].
    destruct (Qlt_bool (targetMax - currentTotal a) 1); [apply IH, Ha|].
    destruct (chooseQty _ _ _ _ _ _ _ _ _ _ _) as [[q|] k1] eqn:Eq; [|apply IH, Ha].
    destruct (Qle_bool q 0) eqn:Epos; [apply IH, Ha|].
    apply IH. cbn [pushEntry currentBill]. apply Forall_app. split; [exact Ha|].
    constructor; [|constructor]. cbn [qty].
    eapply chooseQty_cent; [exact Eq|].
    apply Qnot_le_lt. intros Hle. apply Qle_bool_iff in Hle. congruence.
Qed.

Variable selectPool : nat -> nat -> nat -> list Item * nat.

Lemma attemptLoop_min_qty minItems mode targetMin targetMax dayTotalRemaining margin left :
  forall attempt k a k',
    attemptLoop random bigFirst canFloat strictFit selectPool left attempt minItems mode
                targetMin targetMax dayTotalRemaining margin k = (Some a, k') ->
    Forall (fun e => 1 # 100 <= qty e) (currentBill a).
Proof.
  induction left as [|left IH]; intros attempt k a k' H; simpl in H.
  - discriminate.
  - destruct (selectPool minItems attempt k) as [pool k1] eqn:Epool.
    destruct (pickItems _ _ _ _ _ _ _ _ _ _ _) as [a1 k2] eqn:Epick.
    destruct (isValid mode targetMin targetMax margin minItems a1
              && safeLanding dayTotalRemaining margin a1).
    + assert (a1 = a) by congruence. subst a1.
      pose proof (pickItems_min_qty attempt minItems targetMin targetMax pool emptyAttempt k1)
        as Hm.
      rewrite Epick in Hm. apply Hm. constructor.
    + eapply IH. exact H.
Qed.

Lemma tierLoop_min_qty effort itemCount mode targetMin targetMax dayTotalRemaining margin tiers :
  forall k a k',
    tierLoop random bigFirst canFloat strictFit selectPool tiers effort itemCount mode
             targetMin targetMax dayTotalRemaining margin k = (Some a, k') ->
    Forall (fun e => 1 # 100 <= qty e) (currentBill a).
Proof.
  induction tiers as [|t tiers IH]; intros k a k' H; simpl in H.
  - discriminate.
  - destruct (runTier _ _ _ _ _ _ _ _ _ _ _ _ _ _) as [[a1|] k1] eqn:Et.
    + assert (a1 = a) by congruence. subst a1.
      unfold runTier in Et. destruct (itemCount <? count t)%nat; [discriminate|].
      eapply attemptLoop_min_qty. exact Et.
    + eapply IH. exact H.
Qed.

End MinQty.

Lemma sumQ_map_le {A} (f g : A -> Q) (l : list A) :
  (forall x, In x l -> g x <= f x) -> sumQ (map g l) <= sumQ (map f l).
Proof.
  induction l as [|x l IH]; intros H; simpl.
  - lra.
  - assert (g x <= f x) by (apply H; left; reflexivity).
    assert (sumQ (map g l) <= sumQ (map f l)) by (apply IH; intros y Hy; apply H; right; exact Hy).
    lra.
Qed.

Lemma sumQ_map_drop {A} (f g : A -> Q) (delta : Q) (l : list A) x0 :
  (forall x, In x l -> g x <= f x) -> In x0 l -> g x0 <= f x0 - delta ->
  sumQ (map g l) <= sumQ (map f l) - delta.
Proof.
  induction l as [|x l IH]; intros H Hin Hx0; simpl.
  - destruct Hin.
  - assert (Hx : g x <= f x) by (apply H; left; reflexivity).
    assert (Hl : forall y, In y l -> g y <= f y) by (intros y Hy; apply H; right; exact Hy).
    destruct Hin as [->|Hin].
    + pose proof (sumQ_map_le f g l Hl). lra.
    + specialize (IH Hl Hin Hx0). lra.
Qed.

Lemma slack_nonneg m : ledgerOK m -> 0 <= slack m.
Proof.
  intros [_ Hlow]. unfold slack. induction m as [|x m IH]; simpl.
  - lra.
  - assert (- (1 # 200) <= remainingQty x) by (apply Hlow; left; reflexivity).
    assert (0 <= sumQ (map (fun it => remainingQty it + (1 # 200)) m)).
    { apply IH. intros it Hit. apply Hlow. right. exact Hit. }
    lra.
Qed.

(** Committing picks of at least 0.01, one per row, takes at least 0.0095
    off the stock. *)
Lemma commitUsed_slack (m : StockMap) (used : UsedMap) :
  NoDup (map fst used) ->
  Forall (fun e => 1 # 100 <= snd e) used ->
  (exists e it, In e used /\ In it m /\ ItemDetails it = fst e) ->
  slack (Part002.commitUsed used m) <= slack m - (19 # 2000).
Proof.
  intros Hnd Hq (e & it0 & He & Hit0 & Hname).
  rewrite commitUsed_map. unfold slack. rewrite map_map.
  assert (Hrow : forall it, In it m ->
            remainingQty (rowAfter used it) <= remainingQty it
            /\ (In (ItemDetails it) (map fst used) ->
                remainingQty (rowAfter used it) <= remainingQty it - (19 # 2000))).
  { intros it Hit. destruct (rowAfter_spec used it) as [_ ->].
    destruct (in_dec String.string_dec (ItemDetails it) (map fst used)) as [Hyes|Hno].
    - apply in_map_iff in Hyes as ([n q] & Hn & Hin). simpl in Hn. subst n.
      rewrite (remainingAfter_once _ q used _ Hnd Hin).
      rewrite Forall_forall in Hq. apply list_elem_of_In in Hin. specialize (Hq _ Hin). simpl in Hq.
      pose proof (toFixed3_error (remainingQty it - q)) as Herr.
      apply Qabs_Qle_condition in Herr as [_ Herr].
      assert (toFixed 3 (remainingQty it - q) <= remainingQty it - (19 # 2000)) by lra.
      split; [lra|]. intros _. assumption.
    - rewrite remainingAfter_absent by exact Hno. split; [lra|]. intros H. contradiction. }
  apply (sumQ_map_drop _ _ (19 # 2000) m it0).
  - intros it Hit. destruct (Hrow it Hit) as [H _]. lra.
  - exact Hit0.
  - destruct (Hrow it0 Hit0) as [_ H].
    assert (remainingQty (rowAfter used it0) <= remainingQty it0 - (19 # 2000)).
    { apply H. rewrite Hname. apply in_map. exact He. }
    lra.
Qed.

(** A drop of 0.0095 leaves room for one bill less. *)
Lemma billsLeft_drop m m' :
  ledgerOK m' -> slack m' <= slack m - (19 # 2000) -> (billsLeft m' < billsLeft m)%nat.
Proof.
  intros Hl Hs. pose proof (slack_nonneg m' Hl) as H0. unfold billsLeft.
  assert (H1 : slack m' * (2000 # 19) + 1 <= slack m * (2000 # 19)) by lra.
  assert (H2 : (Qfloor (slack m' * (2000 # 19)) + 1 <= Qfloor (slack m * (2000 # 19)))%Z).
  { pose proof (Qfloor_le (slack m' * (2000 # 19))) as Ha.
    pose proof (Qlt_floor (slack m * (2000 # 19))) as Hb.
    rewrite inject_Z_plus in Hb. change (inject_Z 1) with 1 in Hb.
    assert (Hlt : inject_Z (Qfloor (slack m' * (2000 # 19)))
                  < inject_Z (Qfloor (slack m * (2000 # 19)))) by lra.
    rewrite <- Zlt_Qlt in Hlt. lia. }
  assert (H3 : (0 <= Qfloor (slack m' * (2000 # 19)))%Z).
  { change 0%Z with (Qfloor 0). apply Qfloor_resp_le. lra. }
  lia.
Qed.

Lemma billsLeft_mono m m' : slack m' <= slack m -> (billsLeft m' <= billsLeft m)%nat.
Proof.
  intros Hs. unfold billsLeft.
  assert (Qfloor (slack m' * (2000 # 19)) <= Qfloor (slack m * (2000 # 19)))%Z
    by (apply Qfloor_resp_le; lra).
  lia.
Qed.

Lemma isValid_count mode targetMin targetMax margin minItems a :
  isValid mode targetMin targetMax margin minItems a = true -> (minItems <= pickedCount a)%nat.
Proof.
  unfold isValid. destruct (String.eqb mode "RANGE"); intros H.
  - apply andb_true_iff in H as [_ H]. apply Nat.leb_le in H. exact H.
  - apply andb_true_iff in H as [_ H]. apply Nat.leb_le in H. exact H.
Qed.

Section Takes.

Variable random : nat -> Q.
Variable bigFirst : nat -> bool.
Variable canFloat : Item -> Q -> bool.
Variable strictFit : bool.
Hypothesis Hrandom : inUnit random.
Variable selectPool : nat -> nat -> nat -> list Item * nat.

(** An accepted attempt pushed at least one pick, and every pick is of at
    least 0.01. *)
Lemma tierLoop_takes effort itemCount mode targetMin targetMax dayTotalRemaining margin tiers
      k a k' :
  (forall t, In t tiers -> (1 <= count t)%nat) ->
  tierLoop random bigFirst canFloat strictFit selectPool tiers effort itemCount mode
           targetMin targetMax dayTotalRemaining margin k = (Some a, k') ->
  exists t attempt0 k0 qs,
    a = pushAll emptyAttempt qs
    /\ sublist (map fst qs) (fst (selectPool (count t) attempt0 k0))
    /\ qs <> []
    /\ Forall (fun p => 1 # 100 <= snd p) qs.
Proof.
  intros Hcount H.
  pose proof H as Hmin. apply tierLoop_min_qty in Hmin; [|exact Hrandom].
  pose proof H as Hacc. apply tierLoop_Some in Hacc as (t1 & k1 & Hin1 & _ & _ & Hacc).
  destruct Hacc as (_ & Hvalid & _). apply isValid_count in Hvalid.
  specialize (Hcount _ Hin1).
  pose proof H as Hp. apply tierLoop_picks in Hp as (t & attempt0 & k0 & qs & _ & Ha & Hsub & _);
    [|exact Hrandom].
  exists t, attempt0, k0, qs. split; [exact Ha|]. split; [exact Hsub|].
  subst a. rewrite pushAll_pickedCount in Hvalid. rewrite pushAll_currentBill in Hmin.
  cbn [emptyAttempt pickedCount currentBill app] in Hvalid, Hmin. split.
  - intros ->. simpl in Hvalid. lia.
  - clear -Hmin. induction qs as [|p qs IH]; [constructor|].
    simpl in Hmin. apply Forall_cons in Hmin as [Hp Hrest].
    constructor; [exact Hp|apply IH, Hrest].
Qed.

End Takes.

Lemma baseAttempts_count t : In t baseAttempts -> (1 <= count t)%nat.
Proof.
  unfold baseAttempts. simpl. intros [<-|[<-|[<-|[<-|[]]]]]; simpl; lia.
Qed.

(** An accepted bill of the composer of part_001 takes at least 0.0095 off
    the stock. *)
Lemma generate001_shrinks random stock targetMin targetMax dayTotalRemaining d margin mode cf k
      bill stock' k' :
  inUnit random -> ledgerOK stock ->
  Part001.generateBillFromMap random stock targetMin targetMax dayTotalRemaining d
                              margin mode cf k = (bill, stock', k') ->
  (success bill = false /\ stock' = stock)
  \/ (success bill = true /\ slack stock' <= slack stock - (19 # 2000)).
Proof.
  intros Hrandom [Hnd Hlow]. unfold Part001.generateBillFromMap. fold (available stock).
  destruct (length (available stock) =? 0)%nat.
  { intros H. injection H as <- <- _. left. auto. }
  fold (pools001 random stock).
  destruct (tierLoop _ _ _ _ _ _ _ _ _ _ _ _ _ _) as [[a|] k1] eqn:Et; intros H;
    injection H as <- <- _; [|left; auto].
  right. split; [reflexivity|].
  apply tierLoop_takes in Et as (t & attempt0 & k0 & qs & -> & Hsub & Hne & Hmin);
    [|exact Hrandom|exact baseAttempts_count].
  pose proof (pools001_fromStock random stock (count t) attempt0 k0 Hnd) as Hpool.
  destruct (picks_fromStock _ _ _ Hpool Hsub) as [Hnd' Hin].
  rewrite commitBill_commitUsed, pushAll_currentBill. cbn [emptyAttempt currentBill app].
  rewrite map_map. cbn [entryOf item qty].
  apply commitUsed_slack.
  - rewrite map_map. exact Hnd'.
  - apply Forall_forall. intros e He. apply list_elem_of_In, in_map_iff in He as (p & <- & Hp).
    rewrite Forall_forall in Hmin. apply Hmin. apply list_elem_of_In. exact Hp.
  - destruct qs as [|p qs]; [contradiction|].
    exists (ItemDetails (fst p), snd p), (fst p). split; [left; reflexivity|].
    split; [apply Hin; left; reflexivity|reflexivity].
Qed.

(** An accepted bill of the composer of part_002, once committed, takes at
    least 0.0095 off the stock. *)
Lemma generate002_shrinks random stock targetMin targetMax dayTotalRemaining d margin mode cf
      ids k bill stock' k' :
  inUnit random -> ledgerOK stock ->
  Part002.generateBillFromMap random stock targetMin targetMax dayTotalRemaining d
                              margin mode cf ids k = (bill, stock', k') ->
  success bill = true ->
  slack (Part002.commitUsed (default [] (tempUsedMap bill)) stock')
  <= slack stock - (19 # 2000).
Proof.
  intros Hrandom [Hnd Hlow]. unfold Part002.generateBillFromMap.
  fold (available stock). fold (fresh stock ids).
  destruct (length (available stock) =? 0)%nat.
  { intros H Hs. injection H as <- _ _. discriminate. }
  fold (pools002 random stock ids).
  destruct (tierLoop _ _ _ _ _ _ _ _ _ _ _ _ _ _) as [[a|] k1] eqn:Et; intros H Hs;
    injection H as <- <- _; [|discriminate].
  apply tierLoop_takes in Et as (t & attempt0 & k0 & qs & -> & Hsub & Hne & Hmin);
    [|exact Hrandom|exact baseAttempts_count].
  pose proof (pools002_fromStock random stock ids (count t) attempt0 k0 Hnd) as Hpool.
  destruct (picks_fromStock _ _ _ Hpool Hsub) as [Hnd' Hin].
  cbn [tempUsedMap default from_option id].
  rewrite pushAll_tempUsed by exact Hnd'. cbn [emptyAttempt tempUsed app].
  apply commitUsed_slack.
  - rewrite map_map. exact Hnd'.
  - apply Forall_forall. intros e He. apply list_elem_of_In, in_map_iff in He as (p & <- & Hp).
    rewrite Forall_forall in Hmin. apply list_elem_of_In in Hp. specialize (Hmin _ Hp).
    cbn [usedOf snd]. lra.
  - destruct qs as [|p qs]; [contradiction|].
    exists (usedOf p), (fst p). split; [left; reflexivity|].
    split; [apply Hin; left; reflexivity|reflexivity].
Qed.

Section Ends001.

Import Scheduler001.

Variable random : nat -> Q.
Variables minBill maxBill : Q.
Hypothesis Hrandom : inUnit random.

(** More fuel does not change what the loop returns. *)
Lemma dayLoop_more_fuel d T : forall fuel fuel' acc cf s s',
  dayLoop random minBill maxBill fuel d T acc cf s = Some s' ->
  (fuel <= fuel')%nat ->
  dayLoop random minBill maxBill fuel' d T acc cf s = Some s'.
Proof.
  induction fuel as [|fuel IH]; intros fuel' acc cf s s' H Hle.
  - discriminate.
  - destruct fuel' as [|fuel']; [lia|].
    cbn [dayLoop] in *.
    destruct (Qlt_bool acc T); [|exact H].
    destruct (nextBill random minBill maxBill d T acc cf s) as [[bill stock'] k'].
    destruct (success bill).
    + eapply IH; [exact H|lia].
    + destruct (ceiling <? S cf)%nat; [exact H|].
      eapply IH; [exact H|lia].
Qed.

Lemma nextBill_shrinks d T acc cf s bill stock' k' :
  ledgerOK (stockMap s) ->
  nextBill random minBill maxBill d T acc cf s = (bill, stock', k') ->
  ledgerOK stock'
  /\ ((success bill = false /\ stock' = stockMap s)
      \/ (success bill = true /\ slack stock' <= slack (stockMap s) - (19 # 2000))).
Proof.
  intros Hl Hnext.
  destruct (nextBill_call random minBill maxBill d T acc cf s)
    as (tmin & tmax & margin & mode & Hcall & _).
  rewrite Hcall in Hnext. split.
  - eapply generate001_ledger; eauto.
  - eapply generate001_shrinks; eauto.
Qed.

(** The loop of a day ends. *)
Lemma dayLoop_returns d T : forall fuel acc cf s,
  ledgerOK (stockMap s) ->
  (cf <= ceiling)%nat ->
  (billsLeft (stockMap s) * (ceiling + 2) + (ceiling + 2 - cf) <= fuel)%nat ->
  exists s', dayLoop random minBill maxBill fuel d T acc cf s = Some s'.
Proof.
  induction fuel as [|fuel IH]; intros acc cf s Hl Hcf Hfuel.
  - lia.
  - cbn [dayLoop].
    destruct (Qlt_bool acc T); [|eexists; reflexivity].
    destruct (nextBill random minBill maxBill d T acc cf s) as [[bill stock'] k'] eqn:Enext.
    destruct (nextBill_shrinks _ _ _ _ _ _ _ _ Hl Enext) as [Hl' [[Hs Hst]|[Hs Hdrop]]];
      rewrite Hs.
    + destruct (ceiling <? S cf)%nat eqn:Ec; [eexists; reflexivity|].
      apply Nat.ltb_ge in Ec. apply IH; cbn [stockMap]; [exact Hl'|lia|].
      rewrite Hst. lia.
    + apply IH; cbn [stockMap]; [exact Hl'|lia|].
      pose proof (billsLeft_drop _ _ Hl' Hdrop) as Hlt. nia.
Qed.

(** A day takes nothing but stock: the ledger stays in shape and the
    stock does not grow. *)
Lemma day_shrinks fuel d T s s' :
  ledgerOK (stockMap s) ->
  dayLoop random minBill maxBill fuel d T 0 0 s = Some s' ->
  ledgerOK (stockMap s') /\ slack (stockMap s') <= slack (stockMap s).
Proof.
  intros Hl Hday.
  set (P := fun (acc : Q) (st : State) =>
              ledgerOK (stockMap st) /\ slack (stockMap st) <= slack (stockMap s)).
  assert (Hstep : forall acc cf st bill stock' k',
             P acc st ->
             nextBill random minBill maxBill d T acc cf st = (bill, stock', k') ->
             ledgerOK stock' /\ slack stock' <= slack (stockMap s)).
  { intros acc cf st bill stock' k' [Hl0 Hs0] Hnext.
    destruct (nextBill_shrinks _ _ _ _ _ _ _ _ Hl0 Hnext) as [Hl' [[_ ->]|[_ Hdrop]]].
    - split; assumption.
    - split; [exact Hl'|lra]. }
  destruct (dayLoop_inv random minBill maxBill d T P) with (3 := Hday)
    as [(acc' & _ & HP)|(acc' & s2 & _ & HP & ->)].
  - intros acc cf st bill stock' k' HP _ Hnext _. eapply Hstep; eauto.
  - intros acc cf st bill stock' k' HP _ Hnext _. eapply Hstep; eauto.
  - split; [exact Hl|lra].
  - exact HP.
  - unfold skipDay. destruct (Qeq_bool acc' 0); exact HP.
Qed.

Lemma daysLoop_more_fuel fuel fuel' : forall targets s s',
  daysLoop random minBill maxBill fuel targets s = Some s' ->
  (fuel <= fuel')%nat ->
  daysLoop random minBill maxBill fuel' targets s = Some s'.
Proof.
  induction targets as [|[d T] rest IH]; intros s s' H Hle; cbn [daysLoop] in *.
  - exact H.
  - destruct (abortAll s); [exact H|].
    destruct (Qle_bool T 0); [apply IH; assumption|].
    destruct (dayLoop random minBill maxBill fuel d T 0 0 s) as [s1|] eqn:Eday; [|discriminate].
    rewrite (dayLoop_more_fuel _ _ _ _ _ _ _ _ Eday Hle). apply IH; assumption.
Qed.

(** The loop over the days ends when every day has fuel for the stock the
    run starts with. *)
Lemma daysLoop_returns stock fuel :
  (dayFuel001 stock <= fuel)%nat ->
  forall targets s,
    ledgerOK (stockMap s) -> slack (stockMap s) <= slack stock ->
    exists s', daysLoop random minBill maxBill fuel targets s = Some s'.
Proof.
  intros Hfuel. induction targets as [|[d T] rest IH]; intros s Hl Hs; cbn [daysLoop].
  - eexists; reflexivity.
  - destruct (abortAll s); [eexists; reflexivity|].
    destruct (Qle_bool T 0); [apply IH; assumption|].
    destruct (dayLoop_returns d T fuel 0 0%nat s Hl) as [s1 Hday].
    + lia.
    + pose proof (billsLeft_mono _ _ Hs) as Hb.
      unfold dayFuel001, fuelFor in Hfuel. nia.
    + rewrite Hday. destruct (day_shrinks _ _ _ _ _ Hl Hday) as [Hl1 Hs1].
      apply IH; [exact Hl1|lra].
Qed.

Lemma run001_returns stock targets :
  ledgerOK stock ->
  exists s, forall fuel, (dayFuel001 stock <= fuel)%nat ->
    daysLoop random minBill maxBill fuel targets (mkState stock [] [] false false 0) = Some s.
Proof.
  intros Hl.
  destruct (daysLoop_returns stock (dayFuel001 stock) (Nat.le_refl _) targets
                             (mkState stock [] [] false false 0)) as [s Hs].
  - exact Hl.
  - cbn [stockMap]. lra.
  - exists s. intros fuel Hfuel. eapply daysLoop_more_fuel; eassumption.
Qed.


End Ends001.

Lemma run001_more_fuel random minBill maxBill stock targets fuel fuel' s :
  Scheduler001.tryGenerateCashBills random minBill maxBill stock targets fuel = Some s ->
  (fuel <= fuel')%nat ->
  Scheduler001.tryGenerateCashBills random minBill maxBill stock targets fuel' = Some s.
Proof. unfold Scheduler001.tryGenerateCashBills. apply daysLoop_more_fuel. Qed.


(** X13.  The ledger over a whole run of part_001.  If the draws lie in
    [[0, 1)], the keys of the stock map are distinct and no row starts below
    -0.005, then the run ends: with fuel for [dayFuel001] iterations a day or
    more it returns, and always the same state.  In that state the stock map
    has the same keys in the same order and still no row is below
    -0.005. *)
Theorem run_keeps_ledger random minBill maxBill stock targets :
  inUnit random ->
  ledgerOK stock ->
  exists s,
    (forall fuel, (dayFuel001 stock <= fuel)%nat ->
       Scheduler001.tryGenerateCashBills random minBill maxBill stock targets fuel = Some s)
    /\ ledgerOK (Scheduler001.stockMap s) /\ keys (Scheduler001.stockMap s) = keys stock.
Proof.
  unfold Scheduler001.tryGenerateCashBills. intros Hrandom Hled.
  destruct (run001_returns random (Qmax minBill 10)
              (if Qlt_bool 10000 maxBill then 10000 else maxBill) Hrandom stock targets Hled)
    as [s Hs].
  exists s. split; [exact Hs|].
  eapply days_keep_ledger; [exact Hrandom|exact Hled|]. apply Hs. apply Nat.le_refl.
Qed.

(** X14.  The bills of a whole run of part_001, on a ledger in shape with
    draws in [[0, 1)].  The run ends, with the same state for every fuel from
    [dayFuel001] on, and every bill pushed is successful, has a line, and all
    its lines carry the date of a day of the schedule with a positive
    target. *)
Theorem run_bills_dated random minBill maxBill stock targets :
  inUnit random ->
  ledgerOK stock ->
  exists s,
    (forall fuel, (dayFuel001 stock <= fuel)%nat ->
       Scheduler001.tryGenerateCashBills random minBill maxBill stock targets fuel = Some s)
    /\ Forall (fun b => exists d targetAmount,
                          In (d, targetAmount) targets /\ 0 < targetAmount /\ billOf d b)
              (Scheduler001.allGeneratedBills s).
Proof.
  unfold Scheduler001.tryGenerateCashBills. intros Hrandom Hled.
  destruct (run001_returns random (Qmax minBill 10)
              (if Qlt_bool 10000 maxBill then 10000 else maxBill) Hrandom stock targets Hled)
    as [s Hs].
  exists s. split; [exact Hs|].
  eapply days_bills_dated. apply Hs. apply Nat.le_refl.
Qed.

(** X15.  The log of a whole run of part_001, on a ledger in shape with draws
    in [[0, 1)].  The run ends, with the same state for every fuel from
    [dayFuel001] on, and its log agrees with the flags that choose the final
    message: [hasSkipped] is set exactly when the log has an entry,
    [abortAll] exactly when the last entry is the critical one, no entry
    before the last is critical, and every entry is for a day of the
    schedule with a positive target. *)
Theorem run_log_flags random minBill maxBill stock targets :
  inUnit random ->
  ledgerOK stock ->
  exists s,
    (forall fuel, (dayFuel001 stock <= fuel)%nat ->
       Scheduler001.tryGenerateCashBills random minBill maxBill stock targets fuel = Some s)
    /\ logOK s
    /\ Forall (fun e => exists targetAmount,
                          In (entryDate e, targetAmount) targets /\ 0 < targetAmount)
              (Scheduler001.logList s).
Proof.
  unfold Scheduler001.tryGenerateCashBills. intros Hrandom Hled.
  destruct (run001_returns random (Qmax minBill 10)
              (if Qlt_bool 10000 maxBill then 10000 else maxBill) Hrandom stock targets Hled)
    as [s Hs].
  exists s. split; [exact Hs|].
  eapply days_log_flags. apply Hs. apply Nat.le_refl.
Qed.

Lemma ceiling002_large : (50 <= Scheduler002.ceiling)%nat.
Proof. unfold Scheduler002.ceiling. lia. Qed.

Section Ends002.

Import Scheduler002.

Variable random : nat -> Q.
Variables minBill maxBill : Q.
Hypothesis Hrandom : inUnit random.

Lemma dayLoop002_more_fuel d T : forall fuel fuel' acc cf s s',
  dayLoop random minBill maxBill fuel d T acc cf s = Some s' ->
  (fuel <= fuel')%nat ->
  dayLoop random minBill maxBill fuel' d T acc cf s = Some s'.
Proof.
  induction fuel as [|fuel IH]; intros fuel' acc cf s s' H Hle.
  - discriminate.
  - destruct fuel' as [|fuel']; [lia|].
    cbn [dayLoop] in *.
    destruct (Qlt_bool acc T); [|exact H].
    destruct (Qle_bool (T - acc) 5); [exact H|].
    destruct (nextBill random minBill maxBill d T acc cf s) as [mode [[bill stock'] k']].
    destruct (success bill).
    + match type of H with (if ?c then _ else _) = _ => destruct c end;
        (eapply IH; [exact H|lia]).
    + destruct (ceiling <? S cf)%nat; [exact H|].
      eapply IH; [exact H|lia].
Qed.

(** A call inside the day loop leaves the stock map alone; the commit of
    an accepted bill takes at least 0.0095 off the stock. *)
Lemma nextBill002_shrinks d T acc cf s mode bill stock' k' :
  ledgerOK (stockMap s) ->
  nextBill random minBill maxBill d T acc cf s = (mode, (bill, stock', k')) ->
  stock' = stockMap s
  /\ (success bill = true ->
      ledgerOK (Part002.commitUsed (default [] (tempUsedMap bill)) stock')
      /\ slack (Part002.commitUsed (default [] (tempUsedMap bill)) stock')
         <= slack (stockMap s) - (19 # 2000)).
Proof.
  intros Hl Hnext. split.
  - destruct (nextBill002_call random minBill maxBill d T acc cf s)
      as (tmin & tmax & margin & mode' & Hcall & _).
    rewrite Hcall in Hnext. injection Hnext as _ Hgen.
    apply generate002_cases in Hgen as [Hgen _]. exact Hgen.
  - intros Hok. split.
    + destruct (nextBill002_success random minBill maxBill Hrandom _ _ _ _ _ _ _ _ _ Hl Hnext Hok)
        as (_ & _ & Hl' & _). exact Hl'.
    + destruct (nextBill002_call random minBill maxBill d T acc cf s)
        as (tmin & tmax & margin & mode' & Hcall & _).
      rewrite Hcall in Hnext. injection Hnext as _ Hgen.
      eapply generate002_shrinks; eauto.
Qed.

(** The loop of a day ends. *)
Lemma dayLoop002_returns d T : forall fuel acc cf s,
  ledgerOK (stockMap s) ->
  (cf <= ceiling)%nat ->
  (billsLeft (stockMap s) * (ceiling + 2) + (ceiling + 2 - cf) <= fuel)%nat ->
  exists s', dayLoop random minBill maxBill fuel d T acc cf s = Some s'.
Proof.
  pose proof ceiling002_large as Hc.
  induction fuel as [|fuel IH]; intros acc cf s Hl Hcf Hfuel.
  - lia.
  - cbn [dayLoop].
    destruct (Qlt_bool acc T); [|eexists; reflexivity].
    destruct (Qle_bool (T - acc) 5); [eexists; reflexivity|].
    destruct (nextBill random minBill maxBill d T acc cf s) as [mode [[bill stock'] k']] eqn:Enext.
    destruct (nextBill002_shrinks _ _ _ _ _ _ _ _ _ Hl Enext) as [Hst Hcommit].
    destruct (success bill).
    + destruct (Hcommit eq_refl) as [Hl' Hdrop].
      match goal with |- context [if ?c then _ else _] => destruct c eqn:Edup end.
      * apply andb_true_iff in Edup as [Edup _]. apply andb_true_iff in Edup as [_ Edup].
        apply Nat.ltb_lt in Edup.
        apply IH; cbn [stockMap]; [rewrite Hst; exact Hl|lia|]. rewrite Hst. lia.
      * apply IH; cbn [commit stockMap]; [exact Hl'|lia|].
        pose proof (billsLeft_drop _ _ Hl' Hdrop) as Hlt. nia.
    + destruct (ceiling <? S cf)%nat eqn:Ec; [eexists; reflexivity|].
      apply Nat.ltb_ge in Ec. apply IH; cbn [stockMap]; [rewrite Hst; exact Hl|lia|].
      rewrite Hst. lia.
Qed.


Lemma day002_shrinks fuel d T s s' :
  ledgerOK (stockMap s) ->
  dayLoop random minBill maxBill fuel d T 0 0 s = Some s' ->
  ledgerOK (stockMap s') /\ slack (stockMap s') <= slack (stockMap s).
Proof.
  intros Hl Hday.
  set (P := fun (acc : Q) (st : State) =>
              ledgerOK (stockMap st) /\ slack (stockMap st) <= slack (stockMap s)).
  destruct (dayLoop002_inv random minBill maxBill d T P) with (3 := Hday)
    as [(acc' & _ & HP)|(acc' & s2 & _ & HP & ->)].
  - intros acc cf st mode bill stock' k' [Hl0 Hs0] _ Hnext Hok.
    destruct (nextBill002_shrinks _ _ _ _ _ _ _ _ _ Hl0 Hnext) as [_ Hcommit].
    destruct (Hcommit Hok) as [Hl' Hdrop]. split; [exact Hl'|].
    cbn [commit stockMap]. lra.
  - intros acc cf st mode bill stock' k' [Hl0 Hs0] _ Hnext.
    destruct (nextBill002_shrinks _ _ _ _ _ _ _ _ _ Hl0 Hnext) as [-> _].
    split; assumption.
  - split; [exact Hl|lra].
  - exact HP.
  - exact HP.
Qed.

Variable availablePurchasers : list string.

Lemma days002_more_fuel fuel fuel' : forall targets r r',
  Run002.daysLoop random minBill maxBill availablePurchasers fuel targets r = Some r' ->
  (fuel <= fuel')%nat ->
  Run002.daysLoop random minBill maxBill availablePurchasers fuel' targets r = Some r'.
Proof.
  induction targets as [|[d T] rest IH]; intros r r' H Hle; cbn [Run002.daysLoop] in *.
  - exact H.
  - destruct (Qle_bool T 0); [apply IH; assumption|].
    match type of H with
    | match ?x with _ => _ end = _ => destruct x as [s1|] eqn:Eday; [|discriminate]
    end.
    rewrite (dayLoop002_more_fuel _ _ _ _ _ _ _ _ Eday Hle).
    destruct (Purchasers.nameDay _ _ _ _ _) as [[ns h] k]. apply IH; assumption.
Qed.

Lemma days002_returns stock fuel :
  (dayFuel002 stock <= fuel)%nat ->
  forall targets r,
    ledgerOK (stockMap (Run002.state r)) -> slack (stockMap (Run002.state r)) <= slack stock ->
    exists r', Run002.daysLoop random minBill maxBill availablePurchasers fuel targets r = Some r'.
Proof.
  intros Hfuel. induction targets as [|[d T] rest IH]; intros r Hl Hs; cbn [Run002.daysLoop].
  - eexists; reflexivity.
  - destruct (Qle_bool T 0); [apply IH; assumption|].
    set (start := mkState (stockMap (Run002.state r)) (allGeneratedBills (Run002.state r))
                          [] [] (logList (Run002.state r)) (hasSkipped (Run002.state r))
                          (calls (Run002.state r))).
    destruct (dayLoop002_returns d T fuel 0 0%nat start Hl) as [s1 Hday].
    + lia.
    + pose proof (billsLeft_mono _ _ Hs) as Hb. cbn [start stockMap].
      unfold dayFuel002, fuelFor in Hfuel. nia.
    + rewrite Hday. destruct (day002_shrinks fuel d T start s1 Hl Hday) as [Hl1 Hs1].
      cbn [start stockMap] in Hs1.
      destruct (Purchasers.nameDay _ _ _ _ _) as [[ns h] k].
      apply IH; cbn [Run002.state stockMap]; [exact Hl1|lra].
Qed.

Lemma run002_returns stock targets :
  ledgerOK stock ->
  exists r, forall fuel, (dayFuel002 stock <= fuel)%nat ->
    Run002.daysLoop random minBill maxBill availablePurchasers fuel targets
                    (Run002.mkRun (mkState stock [] [] [] [] false 0) [] []) = Some r.
Proof.
  intros Hl.
  destruct (days002_returns stock (dayFuel002 stock) (Nat.le_refl _) targets
                            (Run002.mkRun (mkState stock [] [] [] [] false 0) [] [])) as [r Hr].
  - exact Hl.
  - cbn [Run002.state stockMap]. lra.
  - exists r. intros fuel Hfuel. eapply days002_more_fuel; eassumption.
Qed.

End Ends002.

Lemma run002_more_fuel random minBill maxBill stock purchaserNames targets fuel fuel' r :
  Run002.tryGenerateCashBills random minBill maxBill stock purchaserNames targets fuel
  = Some r ->
  (fuel <= fuel')%nat ->
  Run002.tryGenerateCashBills random minBill maxBill stock purchaserNames targets fuel'
  = Some r.
Proof. unfold Run002.tryGenerateCashBills. apply days002_more_fuel. Qed.


(** X21.  A whole run of part_002 on a ledger in shape, with draws in
    [[0, 1)].  The run ends: with fuel for [dayFuel002] iterations a day or
    more it returns, and always the same result.  The ledger keeps its keys
    and no row ends below -0.005.  Every bill is a successful bill with a
    line, dated one of the days with a positive target.  Every bill has a
    purchaser name: one of the loaded names, or N/A when none is loaded.
    No log entry is the critical one, each is for a day with a positive
    target, and [hasSkipped] is set exactly when the log has an entry.  The
    bills add up to at most 50 per day over the targets, and, when no day
    was skipped, to no less than 5 per day under them. *)
Theorem run002_summary random minBill maxBill stock purchaserNames targets :
  inUnit random ->
  ledgerOK stock ->
  exists r,
    (forall fuel, (dayFuel002 stock <= fuel)%nat ->
       Run002.tryGenerateCashBills random minBill maxBill stock purchaserNames targets fuel
       = Some r)
    /\ let s := Run002.state r in
       let bills := Scheduler002.allGeneratedBills s in
       (ledgerOK (Scheduler002.stockMap s) /\ keys (Scheduler002.stockMap s) = keys stock)
       /\ Forall (billOfDays targets) bills
       /\ (length (Run002.purchaserOf r) = length bills
           /\ Forall (fun n => match purchaserNames with
                               | [] => n = "N/A"%string
                               | _ :: _ => In n purchaserNames
                               end) (Run002.purchaserOf r))
       /\ (Forall (entryOfDays targets) (Scheduler002.logList s)
           /\ (Scheduler002.hasSkipped s = true <-> Scheduler002.logList s <> []))
       /\ sumQ (map total bills) <= sumQ (map (fun p => snd p + 50) (positiveDays targets))
       /\ (Scheduler002.hasSkipped s = false ->
           sumQ (map (fun p => snd p - 5) (positiveDays targets)) <= sumQ (map total bills)).
Proof.
  intros Hrandom Hl. unfold Run002.tryGenerateCashBills.
  set (avail := match purchaserNames with [] => ["N/A"%string] | _ :: _ => purchaserNames end)
    in *.
  assert (Havail : avail <> []) by (unfold avail; destruct purchaserNames; discriminate).
  destruct (run002_returns random (Qmax minBill 10)
              (if Qlt_bool 10000 maxBill then 10000 else maxBill) Hrandom avail stock targets Hl)
    as [r Hr].
  exists r. split; [exact Hr|].
  pose proof (Hr _ (Nat.le_refl _)) as H.
  destruct (days002_inv random _ _ avail Hrandom Havail _ targets _ r H Hl)
    as (nb & nn & nl & H1 & H2 & H3 & H4 & H5 & H6 & H7 & H8 & H9 & H10 & H11 & H12).
  cbn [Run002.state Run002.purchaserOf Scheduler002.allGeneratedBills Scheduler002.stockMap
       Scheduler002.logList Scheduler002.hasSkipped app orb] in H1, H2, H3, H9, H10.
  cbn zeta. rewrite H1, H2, H3, H10.
  split; [split; assumption|]. split; [exact H6|]. split.
  { split; [exact H4|]. eapply List.Forall_impl; [|exact H5].
    intros n Hn. unfold avail in Hn. destruct purchaserNames.
    - destruct Hn as [<-|[]]. reflexivity.
    - exact Hn. }
  split.
  { split; [exact H7|]. destruct nl; cbn [length Nat.eqb negb]; split; congruence. }
  split; [exact H11|].
  intros Hns. apply H12. destruct nl; [reflexivity|discriminate].
Qed.

(* ------------------------------------------------------------------ *)
(** ** The properties at the example inputs *)
(* ------------------------------------------------------------------ *)

Lemma zeroRandom_inUnit : inUnit zeroRandom.
Proof. intros n. unfold zeroRandom. split; lra. Qed.

Lemma demoStock_ledger : ledgerOK demoStock.
Proof.
  split.
  - apply (bool_decide_unpack _). vm_compute. reflexivity.
  - intros it [<-|[<-|[]]]; vm_compute; discriminate.
Qed.

Lemma stockA_ledger : ledgerOK stockA.
Proof.
  split.
  - apply (bool_decide_unpack _). vm_compute. reflexivity.
  - intros it [<-|[]]; vm_compute; discriminate.
Qed.

Lemma legacyStock_keys : NoDup (map IndexJs.ItemDetails legacyStock).
Proof. apply (bool_decide_unpack _). vm_compute. reflexivity. Qed.

Lemma stock_floor_preserved_witness :
  Forall (fun it' => - (1 # 200) <= remainingQty it') (snd (fst demoSuccess)).
Proof.
  apply Forall_forall. intros it' Hit'. apply list_elem_of_In in Hit'.
  apply (stock_floor_preserved zeroRandom demoStock 50 1000 1000 5 demoDate "RANGE" 2001%nat
                               0%nat (fst (fst demoSuccess)) (snd (fst demoSuccess))
                               (snd demoSuccess)).
  - apply zeroRandom_inUnit.
  - apply demoStock_ledger.
  - apply demoStock_ledger.
  - vm_compute. reflexivity.
  - exact Hit'.
Defined.

Lemma composer_changes_only_billed_rows_witness :
  Forall2 (fun a b => sameRow a b
                      /\ (~ In (ItemDetails a) (map name (items (fst (fst demoSuccess)))) ->
                          remainingQty b = remainingQty a))
          demoStock (snd (fst demoSuccess)).
Proof.
  apply (composer_changes_only_billed_rows zeroRandom demoStock 50 1000 1000 5 demoDate "RANGE"
                                           2001%nat 0%nat (fst (fst demoSuccess))
                                           (snd (fst demoSuccess)) (snd demoSuccess)).
  vm_compute. reflexivity.
Defined.

Lemma composed_bill_shape_witness :
  success (fst (fst demoSuccess)) = true
  /\ total (fst (fst demoSuccess)) == sumQ (map itemTotal (items (fst (fst demoSuccess))))
  /\ NoDup (map name (items (fst (fst demoSuccess)))).
Proof.
  split; [reflexivity|].
  destruct (composed_bill_shape zeroRandom demoStock 50 1000 1000 5 demoDate "RANGE" 2001%nat
                                0%nat (fst (fst demoSuccess)) (snd (fst demoSuccess))
                                (snd demoSuccess)) as (H1 & H2 & _).
  - apply demoStock_ledger.
  - vm_compute. reflexivity.
  - reflexivity.
  - split; assumption.
Defined.

Lemma shuffleArray_permutes_witness :
  Permutation (fst (shuffleArray zeroRandom demoStock 0)) demoStock
  /\ snd (shuffleArray zeroRandom demoStock 0) = 1%nat.
Proof.
  destruct (shuffleArray_permutes zeroRandom demoStock 0 zeroRandom_inUnit) as (H1 & H2 & _).
  split; [exact H1|exact H2].
Defined.

Lemma buildStockMap_stock_witness :
  exists stockMap : StockMap,
    map toItem (buildStockMap false demoSheet) = map Some stockMap
    /\ keys stockMap = map builtName (buildStockMap false demoSheet)
    /\ NoDup (keys stockMap).
Proof.
  apply (buildStockMap_stock false demoSheet).
  intros row [<-|[]]. split; eexists; reflexivity.
Defined.

Lemma integer_pick_within_stock_witness :
  exists z : Z, 1 = inject_Z z /\ (1 <= z)%Z /\ 1 <= 10
    /\ (0 < singleUnitCost itemA -> 1 * singleUnitCost itemA <= 1000)
    /\ ((0 < 1)%nat -> (z <= 2)%Z) /\ 1%nat = 1%nat.
Proof.
  apply (integer_pick_within_stock zeroRandom 0 1 itemA 10 1000 0 0 1 1).
  - apply zeroRandom_inUnit.
  - vm_compute. reflexivity.
  - vm_compute. reflexivity.
Defined.


Lemma strict_pick_whole_witness :
  singleUnitCost itemA <= 1000
  /\ exists z : Z, 1 = inject_Z z /\ (1 <= z)%Z /\ 1 <= 10.
Proof.
  apply (strict_pick_whole zeroRandom 0 1 itemA 10 1000 0 0 1 1).
  - apply zeroRandom_inUnit.
  - vm_compute. reflexivity.
  - vm_compute. reflexivity.
Defined.


Lemma run_keeps_ledger_witness :
  (forall fuel, (dayFuel001 stockA <= fuel)%nat ->
     Scheduler001.tryGenerateCashBills zeroRandom 100 500 stockA demoTargets fuel
     = Some demoRun001)
  /\ ledgerOK (Scheduler001.stockMap demoRun001)
  /\ keys (Scheduler001.stockMap demoRun001) = keys stockA.
Proof.
  destruct (run_keeps_ledger zeroRandom 100 500 stockA demoTargets)
    as (s & Hs & H1 & H2).
  - apply zeroRandom_inUnit.
  - apply stockA_ledger.
  - assert (Hrun : Scheduler001.tryGenerateCashBills zeroRandom 100 500 stockA demoTargets 10
                   = Some demoRun001) by (vm_compute; reflexivity).
    assert (Hsame : s = demoRun001).
    { pose proof (Hs (dayFuel001 stockA + 10)%nat ltac:(lia)) as Ha.
      rewrite (run001_more_fuel _ _ _ _ _ 10 (dayFuel001 stockA + 10) _ Hrun ltac:(lia))
        in Ha.
      congruence. }
    subst s. split; [exact Hs|]. split; [exact H1|exact H2].
Defined.

Lemma run_bills_dated_witness :
  (forall fuel, (dayFuel001 stockA <= fuel)%nat ->
     Scheduler001.tryGenerateCashBills zeroRandom 100 500 stockA demoTargets fuel
     = Some demoRun001)
  /\ Forall (fun b => exists d targetAmount,
                        In (d, targetAmount) demoTargets /\ 0 < targetAmount /\ billOf d b)
            (Scheduler001.allGeneratedBills demoRun001).
Proof.
  destruct (run_bills_dated zeroRandom 100 500 stockA demoTargets) as (s & Hs & H1).
  - apply zeroRandom_inUnit.
  - apply stockA_ledger.
  - assert (Hrun : Scheduler001.tryGenerateCashBills zeroRandom 100 500 stockA demoTargets 10
                   = Some demoRun001) by (vm_compute; reflexivity).
    assert (Hsame : s = demoRun001).
    { pose proof (Hs (dayFuel001 stockA + 10)%nat ltac:(lia)) as Ha.
      rewrite (run001_more_fuel _ _ _ _ _ 10 (dayFuel001 stockA + 10) _ Hrun ltac:(lia))
        in Ha.
      congruence. }
    subst s. split; [exact Hs|exact H1].
Defined.

Lemma run_log_flags_witness :
  (forall fuel, (dayFuel001 stockA <= fuel)%nat ->
     Scheduler001.tryGenerateCashBills zeroRandom 100 500 stockA demoTargets fuel
     = Some demoRun001)
  /\ logOK demoRun001
  /\ Forall (fun e => exists targetAmount,
                        In (entryDate e, targetAmount) demoTargets /\ 0 < targetAmount)
            (Scheduler001.logList demoRun001).
Proof.
  destruct (run_log_flags zeroRandom 100 500 stockA demoTargets) as (s & Hs & H1 & H2).
  - apply zeroRandom_inUnit.
  - apply stockA_ledger.
  - assert (Hrun : Scheduler001.tryGenerateCashBills zeroRandom 100 500 stockA demoTargets 10
                   = Some demoRun001) by (vm_compute; reflexivity).
    assert (Hsame : s = demoRun001).
    { pose proof (Hs (dayFuel001 stockA + 10)%nat ltac:(lia)) as Ha.
      rewrite (run001_more_fuel _ _ _ _ _ 10 (dayFuel001 stockA + 10) _ Hrun ltac:(lia))
        in Ha.
      congruence. }
    subst s. split; [exact Hs|]. split; [exact H1|exact H2].
Defined.



Lemma run002_summary_witness :
  (forall fuel, (dayFuel002 stockA <= fuel)%nat ->
     Run002.tryGenerateCashBills zeroRandom 100 500 stockA demoNames demoTargets fuel
     = Some demoRun002)
  /\ ledgerOK (Scheduler002.stockMap (Run002.state demoRun002))
  /\ keys (Scheduler002.stockMap (Run002.state demoRun002)) = keys stockA.
Proof.
  destruct (run002_summary zeroRandom 100 500 stockA demoNames demoTargets)
    as (r & Hr & [H1 H2] & _).
  - apply zeroRandom_inUnit.
  - apply stockA_ledger.
  - assert (Hrun : Run002.tryGenerateCashBills zeroRandom 100 500 stockA demoNames
                                               demoTargets 10
                   = Some demoRun002) by (vm_compute; reflexivity).
    assert (Hsame : r = demoRun002).
    { pose proof (Hr (dayFuel002 stockA + 10)%nat ltac:(lia)) as Ha.
      rewrite (run002_more_fuel _ _ _ _ _ _ 10 (dayFuel002 stockA + 10) _ Hrun ltac:(lia))
        in Ha.
      congruence. }
    subst r. split; [exact Hr|]. split; [exact H1|exact H2].
Defined.

Lemma upi_bills_within_five_witness :
  ledgerOK (Upi002.stockMap (Upi002.tryGenerateAllBills zeroRandom stockA demoBillTargets))
  /\ keys (Upi002.stockMap (Upi002.tryGenerateAllBills zeroRandom stockA demoBillTargets))
     = keys stockA.
Proof.
  destruct (upi_bills_within_five zeroRandom stockA demoBillTargets zeroRandom_inUnit
                                  stockA_ledger) as (H1 & H2 & _).
  split; [exact H1|exact H2].
Defined.

Lemma export_cash_round_off_witness :
  Forall (fun r => rowBillTotal r = total (fst (fst demoSuccess))
                   /\ isWhole (rowFinalTotal r)
                   /\ rowBillTotal r + rowRoundOff r == rowFinalTotal r
                   /\ - (1 # 2) < rowRoundOff r /\ rowRoundOff r <= 1 # 2)
         (exportBill true 1 "Asha" (fst (fst demoSuccess))).
Proof.
  apply (export_cash_round_off 1 "Asha" (fst (fst demoSuccess))).
  exists 10010%Z. vm_compute. reflexivity.
Defined.

Lemma export_tax_columns_witness :
  Forall (fun r => exists l,
              In l (items (fst (fst demoSuccess))) /\ rowItemName r = name l
              /\ rowItemTotal r = itemTotal l
              /\ Qabs (rowTotalTax r - unitPrice l * lineQty l * gstPercent l / 100) <= 1 # 100
              /\ Qabs (rowCgstAmount r + rowSgstAmount r - rowTotalTax r) <= 1 # 100
              /\ rowCgstAmount r = rowSgstAmount r
              /\ rowCgstRate r + rowSgstRate r == rowGstRate r
              /\ Qabs (rowItemPrice r + rowTotalTax r + rowCessTax r - rowItemTotal r)
                 <= 1 # 100)
         (exportBill true 1 "Asha" (fst (fst demoSuccess))).
Proof.
  apply (export_tax_columns true 1 "Asha" (fst (fst demoSuccess))).
  repeat constructor; vm_compute; reflexivity.
Defined.

Lemma indexjs_stock_conserved_witness :
  stockAfter (IndexJs.items (fst (fst (fst demoLegacy)))) legacyStock
             (snd (fst (fst demoLegacy)))
  /\ Forall (lineFrom legacyStock demoDate) (IndexJs.items (fst (fst (fst demoLegacy)))).
Proof.
  destruct (indexjs_stock_conserved zeroRandom legacyGlobals legacyStock 300 demoDate 5 0
                                    (fst (fst (fst demoLegacy))) (snd (fst (fst demoLegacy)))
                                    (snd (fst demoLegacy)) (snd demoLegacy))
    as (H1 & H2 & _).
  - apply legacyStock_keys.
  - vm_compute. reflexivity.
  - split; [exact H1|exact H2].
Defined.

Lemma indexjs_bill_within_budget_witness :
  IndexJs.items (fst (fst (fst demoLegacy))) <> []
  /\ IndexJs.total (fst (fst (fst demoLegacy))) <= 300 + 5.
Proof.
  assert (Hne : IndexJs.items (fst (fst (fst demoLegacy))) <> []) by (vm_compute; discriminate).
  split; [exact Hne|].
  destruct (indexjs_bill_within_budget zeroRandom legacyGlobals legacyStock 300 demoDate 5 0
                                       (fst (fst (fst demoLegacy)))
                                       (snd (fst (fst demoLegacy)))
                                       (snd (fst demoLegacy)) (snd demoLegacy))
    as (_ & H2 & _).
  - apply zeroRandom_inUnit.
  - apply legacyStock_keys.
  - vm_compute. reflexivity.
  - apply H2. exact Hne.
Defined.

Lemma indexjs_upi_run_witness :
  stockAfter
    (linesOf (IndexJsRun.bills
                (IndexJsRun.tryGenerateAllBills zeroRandom legacyGlobals legacyStock
                                                demoBillTargets)))
    legacyStock
    (IndexJsRun.stockMap
       (IndexJsRun.tryGenerateAllBills zeroRandom legacyGlobals legacyStock demoBillTargets)).
Proof.
  destruct (indexjs_upi_run zeroRandom legacyGlobals legacyStock demoBillTargets
                            legacyStock_keys) as [H _].
  exact H.
Defined.

Lemma indexjs_cash_run_witness :
  match demoLegacyCash with
  | IndexJsRun.Ran s =>
      stockAfter (linesOf (IndexJsRun.bills s)) legacyStock (IndexJsRun.stockMap s)
  | IndexJsRun.Rejected => False
  end.
Proof.
  pose proof (indexjs_cash_run zeroRandom legacyGlobals 100 500 legacyStock ["Asha"%string]
                               [(demoDate, 300)] 10 demoLegacyCash legacyStock_keys) as H.
  assert (Hrun : IndexJsRun.tryGenerateCashBills zeroRandom legacyGlobals 100 500 legacyStock
                                                 ["Asha"%string] [(demoDate, 300)] 10
                 = Some demoLegacyCash) by (vm_compute; reflexivity).
  specialize (H Hrun). unfold demoLegacyCash in *.
  destruct H as (_ & _ & _ & _ & _ & H & _). exact H.
Defined.

Lemma part000_acceptance_witness :
  success (fst (fst demoExact000)) = true
  /\ exists t k0 a,
      In t baseAttempts
      /\ Part000.runTier zeroRandom
           (effortMultiplier 50 500 2000 (2 # 10) (5 # 100) (1 # 100) 2001)
           "EXACT" 100 100 100 50 (available demoStock) t k0
         = (Some a, snd demoExact000)
      /\ fst (fst demoExact000) = formatResult (currentBill a) (currentTotal a) 100 demoDate
      /\ (count t <= length (items (fst (fst demoExact000))))%nat
      /\ Qabs (100 - total (fst (fst demoExact000))) <= 50
      /\ (100 - currentTotal a <= 50 \/ 50 < 100 - currentTotal a)
      /\ Qabs (total (fst (fst demoExact000)) - currentTotal a) <= 1 # 200.
Proof.
  assert (Hok : success (fst (fst demoExact000)) = true) by reflexivity.
  split; [exact Hok|].
  destruct (part000_acceptance zeroRandom demoStock 100 100 100 demoDate 50 "EXACT" 2001%nat
                               0%nat (fst (fst demoExact000)) (snd (fst demoExact000))
                               (snd demoExact000)) as [_ H].
  - vm_compute. reflexivity.
  - destruct (H Hok) as (_ & t & k0 & a & H1 & H2 & H3 & _ & H5 & _ & H7 & H8 & H9).
    exists t, k0, a. split; [exact H1|]. split; [exact H2|]. split; [exact H3|].
    split; [exact H5|]. split; [apply H7; reflexivity|]. split; [exact H8|exact H9].
Defined.

Lemma part000_stock_floor_witness :
  ledgerOK (snd (fst demoExact000)) /\ keys (snd (fst demoExact000)) = keys demoStock.
Proof.
  apply (part000_stock_floor zeroRandom demoStock 100 100 100 demoDate 50 "EXACT" 2001%nat
                             0%nat (fst (fst demoExact000)) (snd (fst demoExact000))
                             (snd demoExact000)).
  - apply zeroRandom_inUnit.
  - apply demoStock_ledger.
  - vm_compute. reflexivity.
Defined.
